(** * OpenPGP session-key packets and key generation (go-crypto)

    A shallow embedding of

    - [openpgp/packet/encrypted_key.go]: the Public-Key Encrypted Session
      Key packet (parse, Decrypt, SerializeEncryptedKeyAEAD and the
      checksum codec), and
    - the key-generation file of package [openpgp] (addUserId, newSigner,
      newDecrypter, generateRSAKeyWithPrimes),

    together with the properties of them that the specification states.

    Conventions.  A Go [[]byte] is a [list byte]; a nil slice and an empty
    slice are both [[]].  A Go [int] or [uintN] is a [Z], with the
    wrap-around of the fixed-width type written where the code computes in
    it.  A function that can panic returns an [outcome].  A function with
    an [error] result returns an [option error] ([None] is Go's [nil]).
    Pointers to structs that the code mutates are modelled by passing the
    struct in and out. *)

From Stdlib Require Import ZArith NArith List String Ascii Lia Bool Znumtheory.
From Stdlib.Strings Require Import Byte.
From Stdlib Require Import DecimalString HexadecimalString.
From stdpp Require Import gmap strings.
Import ListNotations.
Local Open Scope Z_scope.

(** ** Go values *)

Abbreviation bytes := (list byte).

Definition byteToZ (b : byte) : Z := Z.of_N (Byte.to_N b).

(** Go's conversion [byte(x)] of an integer: the low eight bits. *)
Definition byteOfZ (z : Z) : byte :=
  match Byte.of_N (Z.to_N (z mod 256)) with
  | Some b => b
  | None => x00
  end.

Definition uint16 (z : Z) : Z := z mod 65536.

(** The result of a call that may panic. *)
Inductive outcome (A : Type) : Type :=
| Returns (a : A)
| Panics (why : string).
Arguments Returns {A} a.
Arguments Panics {A} why.

Definition obind {A B} (m : outcome A) (k : A -> outcome B) : outcome B :=
  match m with
  | Returns a => k a
  | Panics why => Panics why
  end.

Notation "'do' x <- m ; k" := (obind m (fun x => k))
  (at level 10, x pattern, m at level 100, k at level 200).

(** The error values the two files construct or pass on.  [goerror] is an
    error made by [errors.New] of Go's standard library; [ErrUnexpectedEOF]
    is [io.ErrUnexpectedEOF]. *)
Inductive error : Type :=
| InvalidArgumentError (s : string)
| UnsupportedError (s : string)
| StructuralError (s : string)
| ErrDummyPrivateKey (s : string)
| ErrUnexpectedEOF
| goerror (s : string).

Definition isInvalidArgument (e : error) : bool :=
  match e with InvalidArgumentError _ => true | _ => false end.
Definition isStructural (e : error) : bool :=
  match e with StructuralError _ => true | _ => false end.
Definition isDummyKey (e : error) : bool :=
  match e with ErrDummyPrivateKey _ => true | _ => false end.

(** [strconv.Itoa], [strconv.FormatUint(_, 16)] and [hex.EncodeToString]. *)
Definition Itoa (z : Z) : string :=
  DecimalString.NilZero.string_of_int (Z.to_int z).
Definition FormatUint16 (z : Z) : string :=
  HexadecimalString.NilZero.string_of_uint (N.to_hex_uint (Z.to_N z)).
Definition hexDigit (z : Z) : string :=
  HexadecimalString.NilZero.string_of_uint (N.to_hex_uint (Z.to_N z)).
Definition EncodeToString (bs : bytes) : string :=
  fold_right (fun b acc => hexDigit (byteToZ b / 16) +:+ hexDigit (byteToZ b mod 16) +:+ acc)
    EmptyString bs.

(** Slices.  [copy dst src] is Go's built-in: it overwrites the first
    [min (len dst) (len src)] elements of [dst]. *)
Definition copy (dst src : bytes) : bytes :=
  firstn (length dst) src ++ skipn (length src) dst.

(** [buffer[i] = v], which panics out of range. *)
Definition setIndex (buffer : bytes) (i : nat) (v : byte) : outcome bytes :=
  if (i <? length buffer)%nat then Returns (<[i := v]> buffer)
  else Panics "index out of range".

(** [buffer[i]], which panics out of range. *)
Definition index (buffer : bytes) (i : nat) : outcome byte :=
  match buffer !! i with
  | Some v => Returns v
  | None => Panics "index out of range"
  end.

(** ** The checksum codec (encrypted_key.go, lines 589-612) *)

Definition checksumKeyMaterial (key : bytes) : Z :=
  fold_left (fun checksum v => uint16 (checksum + uint16 (byteToZ v))) key 0.

(** [msg[:len(msg)-2]] panics when [len(msg) < 2]; the function returns
    the key together with the error (both results are named). *)
Definition decodeChecksumKey (msg : bytes) : outcome (bytes * option error) :=
  if (length msg <? 2)%nat then Panics "slice bounds out of range"
  else
    let key := firstn (length msg - 2) msg in
    do hi <- index msg (length msg - 2);
    do lo <- index msg (length msg - 1);
    let expectedChecksum :=
      Z.lor (uint16 (Z.shiftl (uint16 (byteToZ hi)) 8)) (uint16 (byteToZ lo)) in
    let checksum := checksumKeyMaterial key in
    if negb (checksum =? expectedChecksum)
    then Returns (key, Some (StructuralError "session key checksum is incorrect"))
    else Returns (key, None).

Definition encodeChecksumKey (buffer key : bytes) : outcome bytes :=
  let buffer := copy buffer key in
  let checksum := checksumKeyMaterial key in
  do buffer <- setIndex buffer (length key) (byteOfZ (Z.shiftr checksum 8));
  setIndex buffer (length key + 1) (byteOfZ checksum).

(** The checksum as the specification words it: the sum of the octets,
    modulo 2^16. *)
Definition sum16 (key : bytes) : Z := fold_right Z.add 0 (map byteToZ key) mod 65536.

(** [make([]byte, n)] *)
Definition make (n : nat) : bytes := repeat x00 n.

(** ** A monad for Go functions

    A Go function that threads state of type [S], may return an [error]
    and may panic.  An error ends the function but keeps the state as it
    is at that point, as a Go [return err] keeps what was already written
    through a pointer. *)

Definition M (S A : Type) : Type := S -> outcome ((error + A) * S).

Definition ret {S A} (a : A) : M S A := fun s => Returns (inr a, s).
Definition fail {S A} (e : error) : M S A := fun s => Returns (inl e, s).
Definition panic {S A} (why : string) : M S A := fun _ => Panics why.
Definition bind {S A B} (m : M S A) (k : A -> M S B) : M S B :=
  fun s =>
    match m s with
    | Returns (inr a, s') => k a s'
    | Returns (inl e, s') => Returns (inl e, s')
    | Panics why => Panics why
    end.
Definition get {S} : M S S := fun s => Returns (inr s, s).
Definition modify {S} (f : S -> S) : M S unit := fun s => Returns (inr tt, f s).
Definition liftO {S A} (o : outcome A) : M S A :=
  fun s => match o with Returns a => Returns (inr a, s) | Panics why => Panics why end.

Notation "'let*' x ':=' m 'in' k" := (bind m (fun x => k))
  (at level 10, x pattern, m at level 100, k at level 200, only parsing).

(** What a run of a Go function with an [error] result gave: the error
    (or nil) and the final state, or a panic. *)
Definition run {S} (m : M S unit) (s : S) : outcome (option error * S) :=
  match m s with
  | Returns (inr tt, s') => Returns (None, s')
  | Returns (inl e, s') => Returns (Some e, s')
  | Panics why => Panics why
  end.

(** ** Algorithm and cipher identifiers *)

#[global] Instance byte_eqdec : EqDecision byte := byte_eq_dec.

(** [type PublicKeyAlgorithm uint8] with its named constants (declared in
    packet.go); [PubKeyAlgoOther] is a value that has no name.  The octet
    of each constant is given by [byteOfAlgo] and [algoOfByte] below. *)
Inductive PublicKeyAlgorithm : Type :=
| PubKeyAlgoRSA
| PubKeyAlgoRSAEncryptOnly
| PubKeyAlgoRSASignOnly
| PubKeyAlgoElGamal
| PubKeyAlgoDSA
| PubKeyAlgoECDH
| PubKeyAlgoECDSA
| PubKeyAlgoEdDSA
| PubKeyAlgoX25519
| PubKeyAlgoX448
| PubKeyAlgoKyber768X25519
| PubKeyAlgoKyber1024X448
| PubKeyAlgoKyber768P256
| PubKeyAlgoKyber1024P384
| PubKeyAlgoKyber768Brainpool256
| PubKeyAlgoKyber1024Brainpool384
| PubKeyAlgoDilithium3Ed25519
| PubKeyAlgoDilithium5Ed448
| PubKeyAlgoDilithium3p256
| PubKeyAlgoDilithium5p384
| PubKeyAlgoDilithium3Brainpool256
| PubKeyAlgoDilithium5Brainpool384
| PubKeyAlgoSphincsPlusSha2
| PubKeyAlgoSphincsPlusShake
| PubKeyAlgoOther (tag : byte).

#[global] Instance PublicKeyAlgorithm_eqdec : EqDecision PublicKeyAlgorithm.
Proof. solve_decision. Defined.

(** [type CipherFunction uint8]; the three AES identifiers are those of
    RFC 4880, section 9.2. *)
Definition CipherFunction : Type := byte.
Definition CipherAES128 : CipherFunction := x07.
Definition CipherAES192 : CipherFunction := x08.
Definition CipherAES256 : CipherFunction := x09.

(** The packet tag of a public-key encrypted session key (RFC 4880,
    section 4.3). *)
Definition packetTypeEncryptedKey : Z := 1.

(** ** Wire fields *)

(** Modelled from the spec: [encoding.Field] and its three implementations
    (package internal/encoding), from section 6: an MPI is a two-octet
    big-endian bit length followed by ceil(bits/8) octets; an OID-length
    field is one length octet followed by that many octets; an octet array
    is the raw octets of a length fixed beforehand. *)
Inductive Field : Type :=
| MPI (bytes_ : bytes) (bitLength : Z)
| OID (bytes_ : bytes)
| OctetArray (length_ : nat) (bytes_ : bytes).

Definition Bytes (f : Field) : bytes :=
  match f with
  | MPI b _ => b
  | OID b => b
  | OctetArray _ b => b
  end.

Definition EncodedBytes (f : Field) : bytes :=
  match f with
  | MPI b bitLength => byteOfZ (Z.shiftr bitLength 8) :: byteOfZ bitLength :: b
  | OID b => byteOfZ (Z.of_nat (length b)) :: b
  | OctetArray _ b => b
  end.

Definition EncodedLength (f : Field) : Z :=
  match f with
  | MPI b _ => uint16 (2 + Z.of_nat (length b))
  | OID b => uint16 (1 + Z.of_nat (length b))
  | OctetArray _ b => uint16 (Z.of_nat (length b))
  end.

(** [bits.Len8] *)
Definition Len8 (b : byte) : Z :=
  if byteToZ b =? 0 then 0 else Z.log2 (byteToZ b) + 1.

Fixpoint stripLeadingZeros (b : bytes) : bytes :=
  match b with
  | x00 :: rest => stripLeadingZeros rest
  | _ => b
  end.

Definition NewMPI (b : bytes) : Field :=
  match stripLeadingZeros b with
  | [] => MPI [] 0
  | first :: rest =>
      MPI (first :: rest) (uint16 (8 * uint16 (Z.of_nat (length rest)) + uint16 (Len8 first)))
  end.

Definition NewOID (b : bytes) : Field := OID b.
Definition NewOctetArray (b : bytes) : Field := OctetArray (length b) b.
Definition NewEmptyOctetArray (n : nat) : Field := OctetArray n (make n).

(** [big.Int]: BitLen, Bytes (big-endian magnitude) and SetBytes. *)
Definition BitLen (z : Z) : Z :=
  if z =? 0 then 0 else Z.log2 (Z.abs z) + 1.

Definition bigEndian (n : nat) (z : Z) : bytes :=
  map (fun i => byteOfZ (Z.shiftr z (8 * Z.of_nat i))) (rev (seq 0 n)).

Definition bigBytes (z : Z) : bytes :=
  bigEndian (Z.to_nat ((BitLen z + 7) / 8)) (Z.abs z).

Definition SetBytes (b : bytes) : Z :=
  fold_left (fun acc x => acc * 256 + byteToZ x) b 0.

(** [new(encoding.MPI).SetBig(z)] *)
Definition SetBig (z : Z) : Field := MPI (bigBytes z) (uint16 (BitLen z)).

(** [binary.BigEndian] on eight octets. *)
Definition Uint64 (b : bytes) : Z := SetBytes (firstn 8 b).
Definition PutUint64 (v : Z) : bytes := bigEndian 8 v.

(** ** Keys *)

Module rsa.
  (** [rsa.PublicKey] and [rsa.PrivateKey] of Go's crypto/rsa, without the
      precomputed values. *)
Record PublicKey : Type := { N : Z; E : Z }.
Record PrivateKey : Type := { Public : PublicKey; D : Z; Primes : list Z }.
End rsa.

(** The key types of the packages the packet code hands keys to; an
    X25519 or X448 public key is its point, a byte string. *)
Class KeyTypes : Type := {
  elgamal_PublicKey : Type;
  elgamal_PrivateKey : Type;
  ecdh_PublicKey : Type;
  ecdh_PrivateKey : Type;
  x25519_PrivateKey : Type;
  x448_PrivateKey : Type;
  kyber_ecdh_PublicKey : Type;
  kyber_ecdh_PrivateKey : Type
}.

(** The dynamic type held by the [interface{}] fields [PublicKey.PublicKey]
    and [PrivateKey.PrivateKey]; the last constructor stands for any type
    the packet code never asserts. *)
Inductive PublicKeyMaterial `{KeyTypes} : Type :=
| pubRSA (k : rsa.PublicKey)
| pubElGamal (k : elgamal_PublicKey)
| pubECDH (k : ecdh_PublicKey)
| pubX25519 (k : bytes)
| pubX448 (k : bytes)
| pubKyberECDH (k : kyber_ecdh_PublicKey)
| pubOtherType.

Inductive PrivateKeyMaterial `{KeyTypes} : Type :=
| privRSA (k : rsa.PrivateKey)
| privElGamal (k : elgamal_PrivateKey)
| privECDH (k : ecdh_PrivateKey)
| privX25519 (k : x25519_PrivateKey)
| privX448 (k : x448_PrivateKey)
| privKyberECDH (k : kyber_ecdh_PrivateKey)
| privOtherType.

Module PublicKey.
  (** The fields of [packet.PublicKey] that encrypted_key.go reads. *)
Record t `{KeyTypes} : Type := {
    Version : Z;
    PubKeyAlgo : PublicKeyAlgorithm;
    Fingerprint : bytes;
    KeyId : Z;
    PublicKey : PublicKeyMaterial;
    oid : option Field
  }.
End PublicKey.

Module PrivateKey.
  (** [packet.PrivateKey] embeds the public key; [Dummy] is the result of
      the method of that name. *)
Record t `{KeyTypes} : Type := {
    PublicKey : PublicKey.t;
    PrivateKey : PrivateKeyMaterial;
    Dummy : bool
  }.
Definition KeyId `{KeyTypes} (priv : t) : Z := PublicKey.KeyId (PublicKey priv).
Definition Fingerprint `{KeyTypes} (priv : t) : bytes :=
    PublicKey.Fingerprint (PublicKey priv).
Definition PubKeyAlgo `{KeyTypes} (priv : t) : PublicKeyAlgorithm :=
    PublicKey.PubKeyAlgo (PublicKey priv).
End PrivateKey.

(** ** The packet (encrypted_key.go, lines 29-44) *)

Record EncryptedKey : Type := {
  Version : Z;
  KeyId : Z;
  KeyVersion : Z;
  KeyFingerprint : bytes;
  Algo : PublicKeyAlgorithm;
  CipherFunc : CipherFunction;
  Key : bytes;
  encryptedMPI1 : option Field;
  encryptedMPI2 : option Field;
  encryptedMPI3 : option Field;
  ephemeralPublicX25519 : option bytes;
  ephemeralPublicX448 : option bytes;
  encryptedSession : bytes
}.

(** The zero value, [new(EncryptedKey)]. *)
Definition emptyEncryptedKey : EncryptedKey :=
  {| Version := 0; KeyId := 0; KeyVersion := 0; KeyFingerprint := [];
     Algo := PubKeyAlgoOther x00; CipherFunc := x00; Key := [];
     encryptedMPI1 := None; encryptedMPI2 := None; encryptedMPI3 := None;
     ephemeralPublicX25519 := None; ephemeralPublicX448 := None;
     encryptedSession := [] |}.

Definition setVersion (v : Z) (e : EncryptedKey) : EncryptedKey :=
  {| Version := v; KeyId := KeyId e; KeyVersion := KeyVersion e;
     KeyFingerprint := KeyFingerprint e; Algo := Algo e; CipherFunc := CipherFunc e;
     Key := Key e; encryptedMPI1 := encryptedMPI1 e; encryptedMPI2 := encryptedMPI2 e;
     encryptedMPI3 := encryptedMPI3 e; ephemeralPublicX25519 := ephemeralPublicX25519 e;
     ephemeralPublicX448 := ephemeralPublicX448 e; encryptedSession := encryptedSession e |}.
Definition setKeyId (v : Z) (e : EncryptedKey) : EncryptedKey :=
  {| Version := Version e; KeyId := v; KeyVersion := KeyVersion e;
     KeyFingerprint := KeyFingerprint e; Algo := Algo e; CipherFunc := CipherFunc e;
     Key := Key e; encryptedMPI1 := encryptedMPI1 e; encryptedMPI2 := encryptedMPI2 e;
     encryptedMPI3 := encryptedMPI3 e; ephemeralPublicX25519 := ephemeralPublicX25519 e;
     ephemeralPublicX448 := ephemeralPublicX448 e; encryptedSession := encryptedSession e |}.
Definition setKeyVersion (v : Z) (e : EncryptedKey) : EncryptedKey :=
  {| Version := Version e; KeyId := KeyId e; KeyVersion := v;
     KeyFingerprint := KeyFingerprint e; Algo := Algo e; CipherFunc := CipherFunc e;
     Key := Key e; encryptedMPI1 := encryptedMPI1 e; encryptedMPI2 := encryptedMPI2 e;
     encryptedMPI3 := encryptedMPI3 e; ephemeralPublicX25519 := ephemeralPublicX25519 e;
     ephemeralPublicX448 := ephemeralPublicX448 e; encryptedSession := encryptedSession e |}.
Definition setKeyFingerprint (v : bytes) (e : EncryptedKey) : EncryptedKey :=
  {| Version := Version e; KeyId := KeyId e; KeyVersion := KeyVersion e;
     KeyFingerprint := v; Algo := Algo e; CipherFunc := CipherFunc e;
     Key := Key e; encryptedMPI1 := encryptedMPI1 e; encryptedMPI2 := encryptedMPI2 e;
     encryptedMPI3 := encryptedMPI3 e; ephemeralPublicX25519 := ephemeralPublicX25519 e;
     ephemeralPublicX448 := ephemeralPublicX448 e; encryptedSession := encryptedSession e |}.
Definition setAlgo (v : PublicKeyAlgorithm) (e : EncryptedKey) : EncryptedKey :=
  {| Version := Version e; KeyId := KeyId e; KeyVersion := KeyVersion e;
     KeyFingerprint := KeyFingerprint e; Algo := v; CipherFunc := CipherFunc e;
     Key := Key e; encryptedMPI1 := encryptedMPI1 e; encryptedMPI2 := encryptedMPI2 e;
     encryptedMPI3 := encryptedMPI3 e; ephemeralPublicX25519 := ephemeralPublicX25519 e;
     ephemeralPublicX448 := ephemeralPublicX448 e; encryptedSession := encryptedSession e |}.
Definition setCipherFunc (v : CipherFunction) (e : EncryptedKey) : EncryptedKey :=
  {| Version := Version e; KeyId := KeyId e; KeyVersion := KeyVersion e;
     KeyFingerprint := KeyFingerprint e; Algo := Algo e; CipherFunc := v;
     Key := Key e; encryptedMPI1 := encryptedMPI1 e; encryptedMPI2 := encryptedMPI2 e;
     encryptedMPI3 := encryptedMPI3 e; ephemeralPublicX25519 := ephemeralPublicX25519 e;
     ephemeralPublicX448 := ephemeralPublicX448 e; encryptedSession := encryptedSession e |}.
Definition setKey (v : bytes) (e : EncryptedKey) : EncryptedKey :=
  {| Version := Version e; KeyId := KeyId e; KeyVersion := KeyVersion e;
     KeyFingerprint := KeyFingerprint e; Algo := Algo e; CipherFunc := CipherFunc e;
     Key := v; encryptedMPI1 := encryptedMPI1 e; encryptedMPI2 := encryptedMPI2 e;
     encryptedMPI3 := encryptedMPI3 e; ephemeralPublicX25519 := ephemeralPublicX25519 e;
     ephemeralPublicX448 := ephemeralPublicX448 e; encryptedSession := encryptedSession e |}.
Definition setEncryptedMPI1 (v : option Field) (e : EncryptedKey) : EncryptedKey :=
  {| Version := Version e; KeyId := KeyId e; KeyVersion := KeyVersion e;
     KeyFingerprint := KeyFingerprint e; Algo := Algo e; CipherFunc := CipherFunc e;
     Key := Key e; encryptedMPI1 := v; encryptedMPI2 := encryptedMPI2 e;
     encryptedMPI3 := encryptedMPI3 e; ephemeralPublicX25519 := ephemeralPublicX25519 e;
     ephemeralPublicX448 := ephemeralPublicX448 e; encryptedSession := encryptedSession e |}.
Definition setEncryptedMPI2 (v : option Field) (e : EncryptedKey) : EncryptedKey :=
  {| Version := Version e; KeyId := KeyId e; KeyVersion := KeyVersion e;
     KeyFingerprint := KeyFingerprint e; Algo := Algo e; CipherFunc := CipherFunc e;
     Key := Key e; encryptedMPI1 := encryptedMPI1 e; encryptedMPI2 := v;
     encryptedMPI3 := encryptedMPI3 e; ephemeralPublicX25519 := ephemeralPublicX25519 e;
     ephemeralPublicX448 := ephemeralPublicX448 e; encryptedSession := encryptedSession e |}.
Definition setEncryptedMPI3 (v : option Field) (e : EncryptedKey) : EncryptedKey :=
  {| Version := Version e; KeyId := KeyId e; KeyVersion := KeyVersion e;
     KeyFingerprint := KeyFingerprint e; Algo := Algo e; CipherFunc := CipherFunc e;
     Key := Key e; encryptedMPI1 := encryptedMPI1 e; encryptedMPI2 := encryptedMPI2 e;
     encryptedMPI3 := v; ephemeralPublicX25519 := ephemeralPublicX25519 e;
     ephemeralPublicX448 := ephemeralPublicX448 e; encryptedSession := encryptedSession e |}.
(** The three results that [DecodeFields] of x25519 and x448 assign. *)
Definition setX25519 (pk : option bytes) (session : bytes) (e : EncryptedKey) : EncryptedKey :=
  {| Version := Version e; KeyId := KeyId e; KeyVersion := KeyVersion e;
     KeyFingerprint := KeyFingerprint e; Algo := Algo e; CipherFunc := CipherFunc e;
     Key := Key e; encryptedMPI1 := encryptedMPI1 e; encryptedMPI2 := encryptedMPI2 e;
     encryptedMPI3 := encryptedMPI3 e; ephemeralPublicX25519 := pk;
     ephemeralPublicX448 := ephemeralPublicX448 e; encryptedSession := session |}.
Definition setX448 (pk : option bytes) (session : bytes) (e : EncryptedKey) : EncryptedKey :=
  {| Version := Version e; KeyId := KeyId e; KeyVersion := KeyVersion e;
     KeyFingerprint := KeyFingerprint e; Algo := Algo e; CipherFunc := CipherFunc e;
     Key := Key e; encryptedMPI1 := encryptedMPI1 e; encryptedMPI2 := encryptedMPI2 e;
     encryptedMPI3 := encryptedMPI3 e; ephemeralPublicX25519 := ephemeralPublicX25519 e;
     ephemeralPublicX448 := pk; encryptedSession := session |}.

(** ** What the packet code calls outside the two files

    [World] is the state of everything the external packages may read or
    change, the random source [config.Random()] included; a cryptographic
    primitive is a function on it.  [Error] is the method [err.Error()].
    [serializeHeader] gives the octets of the packet header for a tag and
    a body length. *)
Class Externals `{KeyTypes} : Type := {
  World : Type;
  Error : error -> string;
  byteOfAlgo : PublicKeyAlgorithm -> byte;
  algoOfByte : byte -> PublicKeyAlgorithm;
  IsSupported : CipherFunction -> bool;
  serializeHeader : Z -> Z -> bytes;
  SerializeForHash : PublicKey.t -> bytes * option error;
  Sum256 : bytes -> bytes;
  rsa_EncryptPKCS1v15 : rsa.PublicKey -> bytes -> World -> (error + bytes) * World;
  rsa_Decrypt : rsa.PrivateKey -> bytes -> World -> (error + bytes) * World;
  elgamal_Encrypt : elgamal_PublicKey -> bytes -> World -> (error + Z * Z) * World;
  elgamal_Decrypt : elgamal_PrivateKey -> Z -> Z -> World -> (error + bytes) * World;
  ecdh_Encrypt :
    ecdh_PublicKey -> bytes -> bytes -> bytes -> World -> (error + bytes * bytes) * World;
  ecdh_Decrypt :
    ecdh_PrivateKey -> bytes -> bytes -> bytes -> bytes -> World -> (error + bytes) * World;
  x25519_Encrypt : bytes -> bytes -> World -> (error + bytes * bytes) * World;
  x25519_Decrypt :
    x25519_PrivateKey -> option bytes -> bytes -> World -> (error + bytes) * World;
  x448_Encrypt : bytes -> bytes -> World -> (error + bytes * bytes) * World;
  x448_Decrypt :
    x448_PrivateKey -> option bytes -> bytes -> World -> (error + bytes) * World;
  kyber_ecdh_Encrypt :
    kyber_ecdh_PublicKey -> bytes -> bytes -> World -> (error + bytes * bytes * bytes) * World;
  kyber_ecdh_Decrypt :
    kyber_ecdh_PrivateKey -> bytes -> bytes -> bytes -> bytes -> World -> (error + bytes) * World
}.

(** A call of an external function, in a function whose state is the
    world and something of its own. *)
Definition call `{Externals} {X A} (f : World -> (error + A) * World) : M (World * X) A :=
  fun '(w, x) => let (r, w') := f w in Returns (r, (w', x)).

(** [if err != nil { return wrap(err) }] *)
Definition mapError {S A} (wrap : error -> error) (m : M S A) : M S A :=
  fun s =>
    match m s with
    | Returns (inl err, s') => Returns (inl (wrap err), s')
    | r => r
    end.

(** What the function assigns through its pointer when a call fails. *)
Definition onError {S A} (f : S -> S) (m : M S A) : M S A :=
  fun s =>
    match m s with
    | Returns (inl err, s') => Returns (inl err, f s')
    | r => r
    end.

(** The method call [f.Bytes()] or [f.EncodedBytes()] on an interface
    value that may be nil. *)
Definition ofField {S A} (get_ : Field -> A) (f : option Field) : M S A :=
  match f with
  | Some f => ret (get_ f)
  | None => panic "nil pointer dereference"
  end.

(** ** Reading a packet body (encrypted_key.go, lines 46-185)

    The reader is the list of octets of the packet body that are left;
    the packet is the receiver [e]. *)

Abbreviation ParseState := (bytes * EncryptedKey)%type.

(** Modelled from the spec: [readFull] (packet.go) reads exactly [n]
    octets or fails with the unexpected-EOF error. *)
Definition readFull (n : nat) : M ParseState bytes :=
  fun '(r, e) =>
    if (n <=? length r)%nat then Returns (inr (firstn n r), (skipn n r, e))
    else Returns (inl ErrUnexpectedEOF, ([], e)).

(** Modelled from the spec: [consumeAll] (packet.go).  Step 4 of section
    4.6 is "consume remaining packet bytes (no trailing data allowed)", and
    section 7 names "unexpected trailing data" as a structural error: the
    function reads the reader to its end and fails with the structural
    error when there was anything left; the count it returns, which
    [parse] drops, is then 0. *)
Definition consumeAll : M ParseState Z :=
  fun '(r, e) =>
    match r with
    | [] => Returns (inr 0, ([], e))
    | _ :: _ => Returns (inl (StructuralError "unexpected trailing data"), ([], e))
    end.

Definition updateE {R} (f : EncryptedKey -> EncryptedKey) : M (R * EncryptedKey) unit :=
  modify (fun '(r, e) => (r, f e)).

(** Modelled from the spec: the [ReadFrom] methods of the three fields
    (section 6). *)
Definition MPI_ReadFrom : M ParseState Field :=
  let* buf := readFull 2 in
  let bitLength :=
    Z.lor (uint16 (Z.shiftl (byteToZ (nth 0 buf x00)) 8)) (byteToZ (nth 1 buf x00)) in
  let* b := readFull (Z.to_nat ((bitLength + 7) / 8)) in
  ret (MPI b bitLength).

Definition OID_ReadFrom : M ParseState Field :=
  let* buf := readFull 1 in
  let* b := readFull (Z.to_nat (byteToZ (nth 0 buf x00))) in
  ret (OID b).

Definition OctetArray_ReadFrom (n : nat) : M ParseState Field :=
  let* b := readFull n in
  ret (OctetArray n b).

(** Modelled from the spec: [DecodeFields], [EncodeFields] and
    [EncodedFieldsLength] of packages x25519 and x448 (section 6): the
    ephemeral point (32 or 56 octets), one length octet and the
    ciphertext, and in a v3 packet a trailing cipher octet. *)
Definition DecodeFields (pointSize : nat) (v6 : bool) : M ParseState (bytes * bytes * byte) :=
  let* point := readFull pointSize in
  let* buf := readFull 1 in
  let* session := readFull (Z.to_nat (byteToZ (nth 0 buf x00))) in
  if v6 then ret (point, session, x00)
  else
    let* buf := readFull 1 in
    ret (point, session, nth 0 buf x00).

Definition EncodeFields (point session : bytes) (cipherFunction : byte) (v6 : bool) : bytes :=
  point ++ byteOfZ (Z.of_nat (length session)) :: session
    ++ (if v6 then [] else [cipherFunction]).

Definition EncodedFieldsLength (pointSize : nat) (session : bytes) (v6 : bool) : Z :=
  Z.of_nat pointSize + 1 + Z.of_nat (length session) + (if v6 then 0 else 1).

Definition x25519_KeySize : nat := 32.
Definition x448_KeySize : nat := 56.

(** [e.encryptedMPIi = new(...)] followed by [ReadFrom]: when the read
    fails the field is left as allocated. *)
Definition readInto (set_ : option Field -> EncryptedKey -> EncryptedKey)
    (fresh : Field) (read : M ParseState Field) : M ParseState unit :=
  let* _ := updateE (set_ (Some fresh)) in
  let* f := read in
  updateE (set_ (Some f)).

Definition readKyberECDHKey (lenEcc lenKyber : nat) : M ParseState unit :=
  let* _ := readInto setEncryptedMPI1 (NewEmptyOctetArray lenEcc) (OctetArray_ReadFrom lenEcc) in
  let* _ := readInto setEncryptedMPI2 (NewEmptyOctetArray lenKyber) (OctetArray_ReadFrom lenKyber) in
  readInto setEncryptedMPI3 (OID []) OID_ReadFrom.

Definition parse `{Externals} : M ParseState unit :=
  let* buf := readFull 1 in
  let version := byteToZ (nth 0 buf x00) in
  let* _ := updateE (setVersion version) in
  if negb (version =? 3) && negb (version =? 6) then
    fail (UnsupportedError ("unknown EncryptedKey version " +:+ Itoa version))
  else
  let* _ :=
    (if version =? 6 then
       let* buf := readFull 1 in
       let keyVersion := byteToZ (nth 0 buf x00) in
       let* _ := updateE (setKeyVersion keyVersion) in
       if negb (keyVersion =? 0) && negb (keyVersion =? 4) && negb (keyVersion =? 6) then
         fail (UnsupportedError ("unknown public key version " +:+ Itoa keyVersion))
       else
       let fingerprintLen :=
         if keyVersion =? 6 then 32%nat else if keyVersion =? 4 then 20%nat else 0%nat in
       let* fingerprint := readFull fingerprintLen in
       let* _ := updateE (setKeyFingerprint fingerprint) in
       if keyVersion =? 6 then updateE (setKeyId (Uint64 (firstn 8 fingerprint)))
       else if keyVersion =? 4 then
         updateE (setKeyId (Uint64 (skipn 12 (firstn 20 fingerprint))))
       else ret tt
     else
       let* buf := readFull 8 in
       updateE (setKeyId (Uint64 buf))) in
  let* buf := readFull 1 in
  let algo := algoOfByte (nth 0 buf x00) in
  let* _ := updateE (setAlgo algo) in
  let* cipherFunction :=
    match algo with
    | PubKeyAlgoRSA | PubKeyAlgoRSAEncryptOnly =>
        let* _ := readInto setEncryptedMPI1 (MPI [] 0) MPI_ReadFrom in
        ret x00
    | PubKeyAlgoElGamal =>
        let* _ := readInto setEncryptedMPI1 (MPI [] 0) MPI_ReadFrom in
        let* _ := readInto setEncryptedMPI2 (MPI [] 0) MPI_ReadFrom in
        ret x00
    | PubKeyAlgoECDH =>
        let* _ := readInto setEncryptedMPI1 (MPI [] 0) MPI_ReadFrom in
        let* _ := readInto setEncryptedMPI2 (OID []) OID_ReadFrom in
        ret x00
    | PubKeyAlgoX25519 =>
        let* (point, session, cipherFunction) :=
          onError (fun '(r, e) => (r, setX25519 None [] e))
            (DecodeFields x25519_KeySize (version =? 6)) in
        let* _ := updateE (setX25519 (Some point) session) in
        ret cipherFunction
    | PubKeyAlgoX448 =>
        let* (point, session, cipherFunction) :=
          onError (fun '(r, e) => (r, setX448 None [] e))
            (DecodeFields x448_KeySize (version =? 6)) in
        let* _ := updateE (setX448 (Some point) session) in
        ret cipherFunction
    | PubKeyAlgoKyber768X25519 => let* _ := readKyberECDHKey 32 1088 in ret x00
    | PubKeyAlgoKyber1024X448 => let* _ := readKyberECDHKey 56 1568 in ret x00
    | PubKeyAlgoKyber768P256 => let* _ := readKyberECDHKey 65 1088 in ret x00
    | PubKeyAlgoKyber1024P384 => let* _ := readKyberECDHKey 97 1568 in ret x00
    | PubKeyAlgoKyber768Brainpool256 => let* _ := readKyberECDHKey 65 1088 in ret x00
    | PubKeyAlgoKyber1024Brainpool384 => let* _ := readKyberECDHKey 97 1568 in ret x00
    | _ => ret x00
    end in
  let* _ :=
    (if version <? 6 then
       match algo with
       | PubKeyAlgoX25519 | PubKeyAlgoX448 => updateE (setCipherFunc cipherFunction)
       | _ => ret tt
       end
     else ret tt) in
  let* _ := consumeAll in
  ret tt.

(** ** Decrypt (encrypted_key.go, lines 190-274)

    The state is the world and the packet [e]. *)

Abbreviation DecryptState := (World * EncryptedKey)%type.

(** Modelled from the spec: [padToKeySize] (section 4.6, "pad ciphertext
    to modulus length"): zero octets in front, up to the octet length of
    the modulus. *)
Definition padToKeySize (pub : rsa.PublicKey) (b : bytes) : bytes :=
  let k := Z.to_nat ((BitLen (rsa.N pub) + 7) / 8) in
  if (k <=? length b)%nat then b else make (k - length b) ++ b.

Definition isAES (c : CipherFunction) : bool :=
  bool_decide (c = CipherAES128) || bool_decide (c = CipherAES192)
  || bool_decide (c = CipherAES256).

Definition Decrypt `{Externals} (priv : PrivateKey.t) : M DecryptState unit :=
  let* (_, e) := get in
  if (Version e <? 6) && negb (KeyId e =? 0) && negb (KeyId e =? PrivateKey.KeyId priv) then
    fail (InvalidArgumentError
            ("cannot decrypt encrypted session key for key id " +:+ FormatUint16 (KeyId e)
             +:+ " with private key id " +:+ FormatUint16 (PrivateKey.KeyId priv)))
  else
  if (Version e =? 6) && negb (KeyVersion e =? 0)
     && negb (bool_decide (KeyFingerprint e = PrivateKey.Fingerprint priv)) then
    fail (InvalidArgumentError
            ("cannot decrypt encrypted session key for key fingerprint "
             +:+ EncodeToString (KeyFingerprint e) +:+ " with private key fingerprint "
             +:+ EncodeToString (PrivateKey.Fingerprint priv)))
  else
  if negb (bool_decide (Algo e = PrivateKey.PubKeyAlgo priv)) then
    fail (InvalidArgumentError
            ("cannot decrypt encrypted session key of type "
             +:+ Itoa (byteToZ (byteOfAlgo (Algo e))) +:+ " with private key of type "
             +:+ Itoa (byteToZ (byteOfAlgo (PrivateKey.PubKeyAlgo priv)))))
  else
  if PrivateKey.Dummy priv then fail (ErrDummyPrivateKey "dummy key found")
  else
  let* b :=
    match PrivateKey.PubKeyAlgo priv with
    | PubKeyAlgoRSA | PubKeyAlgoRSAEncryptOnly =>
        match PrivateKey.PrivateKey priv with
        | privRSA k =>
            let* c := ofField Bytes (encryptedMPI1 e) in
            call (rsa_Decrypt k (padToKeySize (rsa.Public k) c))
        | _ => panic "interface conversion"
        end
    | PubKeyAlgoElGamal =>
        let* c1 := ofField Bytes (encryptedMPI1 e) in
        let* c2 := ofField Bytes (encryptedMPI2 e) in
        match PrivateKey.PrivateKey priv with
        | privElGamal k => call (elgamal_Decrypt k (SetBytes c1) (SetBytes c2))
        | _ => panic "interface conversion"
        end
    | PubKeyAlgoECDH =>
        let* vsG := ofField Bytes (encryptedMPI1 e) in
        let* m := ofField Bytes (encryptedMPI2 e) in
        let* oid := ofField EncodedBytes (PublicKey.oid (PrivateKey.PublicKey priv)) in
        match PrivateKey.PrivateKey priv with
        | privECDH k => call (ecdh_Decrypt k vsG m oid (PrivateKey.Fingerprint priv))
        | _ => panic "interface conversion"
        end
    | PubKeyAlgoX25519 =>
        match PrivateKey.PrivateKey priv with
        | privX25519 k => call (x25519_Decrypt k (ephemeralPublicX25519 e) (encryptedSession e))
        | _ => panic "interface conversion"
        end
    | PubKeyAlgoX448 =>
        match PrivateKey.PrivateKey priv with
        | privX448 k => call (x448_Decrypt k (ephemeralPublicX448 e) (encryptedSession e))
        | _ => panic "interface conversion"
        end
    | PubKeyAlgoKyber768X25519 | PubKeyAlgoKyber1024X448 | PubKeyAlgoKyber768P256
    | PubKeyAlgoKyber1024P384 | PubKeyAlgoKyber768Brainpool256
    | PubKeyAlgoKyber1024Brainpool384 =>
        let* ecE := ofField Bytes (encryptedMPI1 e) in
        let* kE := ofField Bytes (encryptedMPI2 e) in
        let* m := ofField Bytes (encryptedMPI3 e) in
        let (h, err) := SerializeForHash (PrivateKey.PublicKey priv) in
        match err with
        | Some err => fail err
        | None =>
            match PrivateKey.PrivateKey priv with
            | privKyberECDH k => call (kyber_ecdh_Decrypt k kE ecE m (Sum256 h))
            | _ => panic "interface conversion"
            end
        end
    | _ =>
        fail (InvalidArgumentError
                ("cannot decrypt encrypted session key with private key of type "
                 +:+ Itoa (byteToZ (byteOfAlgo (PrivateKey.PubKeyAlgo priv)))))
    end in
  let* key :=
    match PrivateKey.PubKeyAlgo priv with
    | PubKeyAlgoRSA | PubKeyAlgoRSAEncryptOnly | PubKeyAlgoElGamal | PubKeyAlgoECDH =>
        let* keyOffset :=
          (if Version e <? 6 then
             let* b0 := liftO (index b 0) in
             let* _ := updateE (setCipherFunc b0) in
             if negb (IsSupported b0) then
               fail (UnsupportedError "unsupported encryption function")
             else ret 1%nat
           else ret 0%nat) in
        let* (key, err) := liftO (decodeChecksumKey (skipn keyOffset b)) in
        match err with
        | Some err => fail err
        | None => ret key
        end
    | PubKeyAlgoX25519 | PubKeyAlgoX448 =>
        if (Version e <? 6) && negb (isAES (CipherFunc e)) then
          fail (StructuralError "v3 PKESK mandates AES as cipher function for x25519 and x448")
        else ret b
    | _ => ret []
    end in
  updateE (setKey key).

(** ** SerializeEncryptedKeyAEAD (encrypted_key.go, lines 382-646)

    The state is the world and the octets written to [w] so far; writing
    to [w] does not fail. *)

Abbreviation WriteState := (World * bytes)%type.

Definition Write {W} (b : bytes) : M (W * bytes) unit :=
  modify (fun '(w, out) => (w, out ++ b)).

(** [copy(buf[lo:hi], src)] on an array [buf]. *)
Definition sliceCopy (buf : bytes) (lo hi : nat) (src : bytes) : outcome bytes :=
  if (hi <=? length buf)%nat && (lo <=? hi)%nat then
    Returns (firstn lo buf ++ copy (firstn (hi - lo) (skipn lo buf)) src ++ skipn hi buf)
  else Panics "slice bounds out of range".

Definition serializeEncryptedKeyRSA `{Externals}
    (header : bytes) (pub : rsa.PublicKey) (keyBlock : bytes) : M WriteState unit :=
  let* cipherText :=
    mapError (fun err => InvalidArgumentError ("RSA encryption failed: " +:+ Error err))
      (call (rsa_EncryptPKCS1v15 pub keyBlock)) in
  let cipherMPI := NewMPI cipherText in
  let packetLen := Z.of_nat (length header) + EncodedLength cipherMPI in
  let* _ := Write (serializeHeader packetTypeEncryptedKey packetLen) in
  let* _ := Write header in
  Write (EncodedBytes cipherMPI).

Definition serializeEncryptedKeyElGamal `{Externals}
    (header : bytes) (pub : elgamal_PublicKey) (keyBlock : bytes) : M WriteState unit :=
  let* (c1, c2) :=
    mapError (fun err => InvalidArgumentError ("ElGamal encryption failed: " +:+ Error err))
      (call (elgamal_Encrypt pub keyBlock)) in
  let packetLen := Z.of_nat (length header) in
  let packetLen := packetLen + (2 + Z.quot (BitLen c1 + 7) 8) in
  let packetLen := packetLen + (2 + Z.quot (BitLen c2 + 7) 8) in
  let* _ := Write (serializeHeader packetTypeEncryptedKey packetLen) in
  let* _ := Write header in
  let* _ := Write (EncodedBytes (SetBig c1)) in
  Write (EncodedBytes (SetBig c2)).

Definition serializeEncryptedKeyECDH `{Externals}
    (header : bytes) (pub : ecdh_PublicKey) (keyBlock : bytes)
    (oid : option Field) (fingerprint : bytes) : M WriteState unit :=
  let* oidBytes := ofField EncodedBytes oid in
  let* (vsG, c) :=
    mapError (fun err => InvalidArgumentError ("ECDH encryption failed: " +:+ Error err))
      (call (ecdh_Encrypt pub keyBlock oidBytes fingerprint)) in
  let g := NewMPI vsG in
  let m := NewOID c in
  let packetLen := Z.of_nat (length header) in
  let packetLen := packetLen + (EncodedLength g + EncodedLength m) in
  let* _ := Write (serializeHeader packetTypeEncryptedKey packetLen) in
  let* _ := Write header in
  let* _ := Write (EncodedBytes g) in
  Write (EncodedBytes m).

Definition serializeEncryptedKeyX25519 `{Externals}
    (header : bytes) (pub : bytes) (keyBlock : bytes) (cipherFunc : byte) (version : Z)
    : M WriteState unit :=
  let* (ephemeralPublicX25519, ciphertext) :=
    mapError (fun err => InvalidArgumentError ("X25519 encryption failed: " +:+ Error err))
      (call (x25519_Encrypt pub keyBlock)) in
  let packetLen := Z.of_nat (length header) in
  let packetLen := packetLen + EncodedFieldsLength x25519_KeySize ciphertext (version =? 6) in
  let* _ := Write (serializeHeader packetTypeEncryptedKey packetLen) in
  let* _ := Write header in
  Write (EncodeFields ephemeralPublicX25519 ciphertext cipherFunc (version =? 6)).

Definition serializeEncryptedKeyX448 `{Externals}
    (header : bytes) (pub : bytes) (keyBlock : bytes) (cipherFunc : byte) (version : Z)
    : M WriteState unit :=
  let* (ephemeralPublicX448, ciphertext) :=
    mapError (fun err => InvalidArgumentError ("x448 encryption failed: " +:+ Error err))
      (call (x448_Encrypt pub keyBlock)) in
  let packetLen := Z.of_nat (length header) in
  let packetLen := packetLen + EncodedFieldsLength x448_KeySize ciphertext (version =? 6) in
  let* _ := Write (serializeHeader packetTypeEncryptedKey packetLen) in
  let* _ := Write header in
  Write (EncodeFields ephemeralPublicX448 ciphertext cipherFunc (version =? 6)).

(** The error of [SerializeForHash] is dropped here (line 616). *)
Definition serializeEncryptedKeyKyber `{Externals}
    (header : bytes) (pub : kyber_ecdh_PublicKey) (keyBlock : bytes)
    (publicKey : PublicKey.t) : M WriteState unit :=
  let h := fst (SerializeForHash publicKey) in
  let* (kE, ecE, c) :=
    mapError (fun err => InvalidArgumentError ("kyber_ecdh encryption failed: " +:+ Error err))
      (call (kyber_ecdh_Encrypt pub keyBlock (Sum256 h))) in
  let k := NewOctetArray kE in
  let ec := NewOctetArray ecE in
  let m := NewOID c in
  let packetLen := 10 in
  let packetLen := packetLen + (EncodedLength ec + EncodedLength k + EncodedLength m) in
  let* _ := Write (serializeHeader packetTypeEncryptedKey packetLen) in
  let* _ := Write header in
  let* _ := Write (EncodedBytes ec) in
  let* _ := Write (EncodedBytes k) in
  Write (EncodedBytes m).

(** [pub] is a pointer: [None] is nil, which the first read of
    [pub.PubKeyAlgo] dereferences, so that the branch "anonymous case" of
    line 411 is never reached.  [config] is used for [config.Random()]
    only, which is part of the world. *)
Definition SerializeEncryptedKeyAEAD `{Externals}
    (pub : option PublicKey.t) (cipherFunc : CipherFunction) (aeadSupported : bool)
    (key : bytes) : M WriteState unit :=
  let buf := make 35 in
  let lenHeaderWritten := 1%nat in
  let version := if aeadSupported then 6 else 3 in
  match pub with
  | None => panic "nil pointer dereference"
  | Some pub =>
  let algo := PublicKey.PubKeyAlgo pub in
  if (version =? 6) && bool_decide (algo = PubKeyAlgoElGamal) then
    fail (InvalidArgumentError "ElGamal v6 PKESK are not allowed")
  else
  if (version =? 3)
     && (bool_decide (algo = PubKeyAlgoX25519) || bool_decide (algo = PubKeyAlgoX448))
     && negb (isAES cipherFunc) then
    fail (InvalidArgumentError "v3 PKESK mandates AES for x25519 and x448")
  else
  let* buf := liftO (setIndex buf 0 (byteOfZ version)) in
  let* (buf, lenHeaderWritten) :=
    (if version =? 6 then
       let* buf := liftO (setIndex buf 1 (byteOfZ (PublicKey.Version pub))) in
       let* buf :=
         liftO (sliceCopy buf 2 (length (PublicKey.Fingerprint pub) + 2)
                  (PublicKey.Fingerprint pub)) in
       ret (buf, (lenHeaderWritten + (length (PublicKey.Fingerprint pub) + 1))%nat)
     else
       let* buf := liftO (sliceCopy buf 1 9 (PutUint64 (PublicKey.KeyId pub))) in
       ret (buf, (lenHeaderWritten + 8)%nat)) in
  let* buf := liftO (setIndex buf lenHeaderWritten (byteOfAlgo algo)) in
  let lenHeaderWritten := (lenHeaderWritten + 1)%nat in
  let* keyBlock :=
    match algo with
    | PubKeyAlgoRSA | PubKeyAlgoRSAEncryptOnly | PubKeyAlgoElGamal | PubKeyAlgoECDH =>
        let lenKeyBlock := (length key + 2)%nat in
        let lenKeyBlock := if version <? 6 then (lenKeyBlock + 1)%nat else lenKeyBlock in
        let keyBlock := make lenKeyBlock in
        let* (keyBlock, keyOffset) :=
          (if version <? 6 then
             let* keyBlock := liftO (setIndex keyBlock 0 cipherFunc) in
             ret (keyBlock, 1%nat)
           else ret (keyBlock, 0%nat)) in
        let* tail := liftO (encodeChecksumKey (skipn keyOffset keyBlock) key) in
        ret (firstn keyOffset keyBlock ++ tail)
    | PubKeyAlgoX25519 | PubKeyAlgoX448 => ret key
    | _ => ret []
    end in
  let header := firstn lenHeaderWritten buf in
  match algo with
  | PubKeyAlgoRSA | PubKeyAlgoRSAEncryptOnly =>
      match PublicKey.PublicKey pub with
      | pubRSA k => serializeEncryptedKeyRSA header k keyBlock
      | _ => panic "interface conversion"
      end
  | PubKeyAlgoElGamal =>
      match PublicKey.PublicKey pub with
      | pubElGamal k => serializeEncryptedKeyElGamal header k keyBlock
      | _ => panic "interface conversion"
      end
  | PubKeyAlgoECDH =>
      match PublicKey.PublicKey pub with
      | pubECDH k =>
          serializeEncryptedKeyECDH header k keyBlock (PublicKey.oid pub)
            (PublicKey.Fingerprint pub)
      | _ => panic "interface conversion"
      end
  | PubKeyAlgoX25519 =>
      match PublicKey.PublicKey pub with
      | pubX25519 k => serializeEncryptedKeyX25519 header k keyBlock cipherFunc version
      | _ => panic "interface conversion"
      end
  | PubKeyAlgoX448 =>
      match PublicKey.PublicKey pub with
      | pubX448 k => serializeEncryptedKeyX448 header k keyBlock cipherFunc version
      | _ => panic "interface conversion"
      end
  | PubKeyAlgoKyber768X25519 | PubKeyAlgoKyber1024X448 | PubKeyAlgoKyber768P256
  | PubKeyAlgoKyber1024P384 | PubKeyAlgoKyber768Brainpool256
  | PubKeyAlgoKyber1024Brainpool384 =>
      match PublicKey.PublicKey pub with
      | pubKyberECDH k => serializeEncryptedKeyKyber header k keyBlock pub
      | _ => panic "interface conversion"
      end
  | PubKeyAlgoDSA | PubKeyAlgoRSASignOnly =>
      fail (InvalidArgumentError
              ("cannot encrypt to public key of type " +:+ Itoa (byteToZ (byteOfAlgo algo))))
  | _ =>
      fail (UnsupportedError
              ("encrypting a key to public key of type " +:+ Itoa (byteToZ (byteOfAlgo algo))))
  end
  end.

(** ** Key generation: what it calls outside the file *)

(** The types of the packages key generation hands work to.  [Options] is
    what a [packet.Config] holds besides the two fields the file reads
    directly; [SignatureData] is what signing writes into a signature. *)
Class GenTypes : Type := {
  Options : Type;
  AEADConfig : Type;
  Time : Type;
  UserId : Type;
  SignatureData : Type;
  eddsa_Curve : Type;
  ecdsa_Curve : Type;
  ecdh_Curve : Type;
  Dilithium : Type;
  Kyber : Type;
  sphincs_Mode : Type;
  sphincs_Parameter : Type;
  eddsa_PrivateKey : Type;
  ecdsa_PrivateKey : Type;
  dilithium_ecdsa_PrivateKey : Type;
  dilithium_eddsa_PrivateKey : Type;
  sphincs_plus_PrivateKey : Type
}.

Module Config.
(** [packet.Config]: the fields [V5Keys] and [RSAPrimes] are read and
    written directly, everything else through methods. *)
Record t `{GenTypes} : Type := {
  V5Keys : bool;
  RSAPrimes : list Z;
  options : Options
}.
Definition setRSAPrimes `{GenTypes} (v : list Z) (c : t) : t :=
  {| V5Keys := V5Keys c; RSAPrimes := v; options := options c |}.
End Config.

(** [crypto.Hash] of Go's standard library is an unsigned integer;
    [crypto.SHA256] is 5. *)
Definition crypto_Hash : Type := Z.
Definition crypto_SHA256 : crypto_Hash := 5.

(** [packet.CompressionAlgo] and [packet.AEADMode] are [uint8]; the two
    constants are those of RFC 4880, section 9.3 and of the AEAD registry. *)
Definition CompressionNone : byte := x00.
Definition AEADModeEAX : byte := x01.

Module ecdh.
Inductive Hash : Type := SHA512.
Inductive Cipher : Type := AES256.
(** [ecdh.KDF] *)
Record KDF : Type := { KDF_Hash : Hash; KDF_Cipher : Cipher }.
End ecdh.

(** [packet.SigTypePositiveCert] *)
Definition SigTypePositiveCert : byte := x13.

Module Signature.
(** The fields of [packet.Signature] that [addUserId] sets; [signed] is
    what [SignUserId] adds to them. *)
Record t `{GenTypes} : Type := {
  Version : Z;
  SigType : byte;
  PubKeyAlgo : PublicKeyAlgorithm;
  Hash : crypto_Hash;
  CreationTime : Time;
  KeyLifetimeSecs : option Z;
  IssuerKeyId : option Z;
  IssuerFingerprint : bytes;
  IsPrimaryId : option bool;
  FlagsValid : bool;
  FlagSign : bool;
  FlagCertify : bool;
  MDC : bool;
  AEAD : bool;
  V5Keys : bool;
  PreferredHash : bytes;
  PreferredSymmetric : bytes;
  PreferredCompression : bytes;
  PreferredAEAD : bytes;
  signed : option SignatureData
}.
Definition setPreferredHash `{GenTypes} (v : bytes) (s : t) : t :=
  {| Version := Version s; SigType := SigType s; PubKeyAlgo := PubKeyAlgo s; Hash := Hash s;
     CreationTime := CreationTime s; KeyLifetimeSecs := KeyLifetimeSecs s;
     IssuerKeyId := IssuerKeyId s; IssuerFingerprint := IssuerFingerprint s;
     IsPrimaryId := IsPrimaryId s; FlagsValid := FlagsValid s; FlagSign := FlagSign s;
     FlagCertify := FlagCertify s; MDC := MDC s; AEAD := AEAD s; V5Keys := V5Keys s;
     PreferredHash := v; PreferredSymmetric := PreferredSymmetric s;
     PreferredCompression := PreferredCompression s; PreferredAEAD := PreferredAEAD s;
     signed := signed s |}.
Definition setPreferredSymmetric `{GenTypes} (v : bytes) (s : t) : t :=
  {| Version := Version s; SigType := SigType s; PubKeyAlgo := PubKeyAlgo s; Hash := Hash s;
     CreationTime := CreationTime s; KeyLifetimeSecs := KeyLifetimeSecs s;
     IssuerKeyId := IssuerKeyId s; IssuerFingerprint := IssuerFingerprint s;
     IsPrimaryId := IsPrimaryId s; FlagsValid := FlagsValid s; FlagSign := FlagSign s;
     FlagCertify := FlagCertify s; MDC := MDC s; AEAD := AEAD s; V5Keys := V5Keys s;
     PreferredHash := PreferredHash s; PreferredSymmetric := v;
     PreferredCompression := PreferredCompression s; PreferredAEAD := PreferredAEAD s;
     signed := signed s |}.
Definition setPreferredCompression `{GenTypes} (v : bytes) (s : t) : t :=
  {| Version := Version s; SigType := SigType s; PubKeyAlgo := PubKeyAlgo s; Hash := Hash s;
     CreationTime := CreationTime s; KeyLifetimeSecs := KeyLifetimeSecs s;
     IssuerKeyId := IssuerKeyId s; IssuerFingerprint := IssuerFingerprint s;
     IsPrimaryId := IsPrimaryId s; FlagsValid := FlagsValid s; FlagSign := FlagSign s;
     FlagCertify := FlagCertify s; MDC := MDC s; AEAD := AEAD s; V5Keys := V5Keys s;
     PreferredHash := PreferredHash s; PreferredSymmetric := PreferredSymmetric s;
     PreferredCompression := v; PreferredAEAD := PreferredAEAD s;
     signed := signed s |}.
Definition setPreferredAEAD `{GenTypes} (v : bytes) (s : t) : t :=
  {| Version := Version s; SigType := SigType s; PubKeyAlgo := PubKeyAlgo s; Hash := Hash s;
     CreationTime := CreationTime s; KeyLifetimeSecs := KeyLifetimeSecs s;
     IssuerKeyId := IssuerKeyId s; IssuerFingerprint := IssuerFingerprint s;
     IsPrimaryId := IsPrimaryId s; FlagsValid := FlagsValid s; FlagSign := FlagSign s;
     FlagCertify := FlagCertify s; MDC := MDC s; AEAD := AEAD s; V5Keys := V5Keys s;
     PreferredHash := PreferredHash s; PreferredSymmetric := PreferredSymmetric s;
     PreferredCompression := PreferredCompression s; PreferredAEAD := v;
     signed := signed s |}.
Definition setSigned `{GenTypes} (v : option SignatureData) (s : t) : t :=
  {| Version := Version s; SigType := SigType s; PubKeyAlgo := PubKeyAlgo s; Hash := Hash s;
     CreationTime := CreationTime s; KeyLifetimeSecs := KeyLifetimeSecs s;
     IssuerKeyId := IssuerKeyId s; IssuerFingerprint := IssuerFingerprint s;
     IsPrimaryId := IsPrimaryId s; FlagsValid := FlagsValid s; FlagSign := FlagSign s;
     FlagCertify := FlagCertify s; MDC := MDC s; AEAD := AEAD s; V5Keys := V5Keys s;
     PreferredHash := PreferredHash s; PreferredSymmetric := PreferredSymmetric s;
     PreferredCompression := PreferredCompression s; PreferredAEAD := PreferredAEAD s;
     signed := v |}.
End Signature.

Module Identity.
Record t `{GenTypes} : Type := {
  Name : string;
  UserId : UserId;
  SelfSignature : Signature.t;
  Signatures : list Signature.t
}.
End Identity.

Module Entity.
(** The fields of [Entity] that [addUserId] reads or writes. *)
Record t `{KeyTypes} `{GenTypes} : Type := {
  PrimaryKey : option PublicKey.t;
  PrivateKey : option PrivateKey.t;
  Identities : gmap string Identity.t
}.
Definition setIdentities `{KeyTypes} `{GenTypes} (v : gmap string Identity.t) (e : t) : t :=
  {| PrimaryKey := PrimaryKey e; PrivateKey := PrivateKey e; Identities := v |}.
End Entity.

(** The methods of a [*packet.Config] (which may be nil) and of an
    [*packet.AEADConfig] (which may be nil), the curve and parameter
    tables, the key generators of the algorithm packages, [rand.Prime],
    and what [addUserId] calls.  [Env] is the world, as [World] above. *)
Class Generators `{KeyTypes} `{GenTypes} : Type := {
  Env : Type;
  algId : PublicKeyAlgorithm -> byte;
  Config_PublicKeyAlgorithm : option Config.t -> PublicKeyAlgorithm;
  Config_RSAModulusBits : option Config.t -> Z;
  Config_CurveName : option Config.t -> string;
  Config_SphincsPlusParam : option Config.t -> sphincs_Parameter;
  Config_Hash : option Config.t -> crypto_Hash;
  Config_Cipher : option Config.t -> CipherFunction;
  Config_Compression : option Config.t -> byte;
  Config_AEAD : option Config.t -> option AEADConfig;
  AEADConfig_Mode : option AEADConfig -> outcome byte;
  hashToHashId : crypto_Hash -> outcome byte;
  rand_Prime : Z -> Env -> (error + Z) * Env;
  rsa_GenerateKey : Z -> Env -> (error + rsa.PrivateKey) * Env;
  FindEdDSAByGenName : string -> option eddsa_Curve;
  FindECDSAByGenName : string -> option ecdsa_Curve;
  FindECDHByGenName : string -> option ecdh_Curve;
  GetECDSACurveFromAlgID : PublicKeyAlgorithm -> error + ecdsa_Curve;
  GetEdDSACurveFromAlgID : PublicKeyAlgorithm -> error + eddsa_Curve;
  GetECDHCurveFromAlgID : PublicKeyAlgorithm -> error + ecdh_Curve;
  GetDilithiumFromAlgID : PublicKeyAlgorithm -> error + Dilithium;
  GetKyberFromAlgID : PublicKeyAlgorithm -> error + Kyber;
  GetSphincsPlusModeFromAlgID : PublicKeyAlgorithm -> error + sphincs_Mode;
  GetMatchingKyberKem : PublicKeyAlgorithm -> PublicKeyAlgorithm * option error;
  eddsa_GenerateKey : eddsa_Curve -> Env -> (error + eddsa_PrivateKey) * Env;
  ecdsa_GenerateKey : ecdsa_Curve -> Env -> (error + ecdsa_PrivateKey) * Env;
  ecdh_GenerateKey : ecdh_Curve -> ecdh.KDF -> Env -> (error + ecdh_PrivateKey) * Env;
  dilithium_ecdsa_GenerateKey :
    byte -> ecdsa_Curve -> Dilithium -> Env -> (error + dilithium_ecdsa_PrivateKey) * Env;
  dilithium_eddsa_GenerateKey :
    byte -> eddsa_Curve -> Dilithium -> Env -> (error + dilithium_eddsa_PrivateKey) * Env;
  sphincs_plus_GenerateKey :
    sphincs_Mode -> sphincs_Parameter -> Env -> (error + sphincs_plus_PrivateKey) * Env;
  kyber_ecdh_GenerateKey :
    byte -> ecdh_Curve -> Kyber -> Env -> (error + kyber_ecdh_PrivateKey) * Env;
  NewUserId : string -> string -> string -> option UserId;
  UserId_Id : UserId -> string;
  SignUserId :
    Signature.t -> string -> PublicKey.t -> PrivateKey.t -> option Config.t ->
    Env -> (error + SignatureData) * Env
}.

Definition callG `{Generators} {X A} (f : Env -> (error + A) * Env) : M (Env * X) A :=
  fun '(w, x) => let (r, w') := f w in Returns (r, (w', x)).

(** [v, err := f(...); if err != nil { return nil, err }] for a function
    that does not touch the world. *)
Definition orReturn {S A} (r : error + A) : M S A :=
  match r with
  | inl err => fail err
  | inr a => ret a
  end.

(** ** generateRSAKeyWithPrimes (lines 391-474) *)

(** Go's [int] on a 64-bit platform. *)
Definition wrapInt (z : Z) : Z := (z + 2 ^ 63) mod 2 ^ 64 - 2 ^ 63.

(** The extended Euclidean algorithm: [(d, x, y)] with
    [a * x + b * y = d]. *)
Fixpoint egcd (fuel : nat) (a b : Z) : Z * Z * Z :=
  match fuel with
  | O => (a, 1, 0)
  | S fuel' =>
      if b =? 0 then (a, 1, 0)
      else
        let '(d, x, y) := egcd fuel' b (a mod b) in
        (d, y, x - a / b * y)
  end.

(** [z.ModInverse(g, n)] of math/big for a positive [g]: the inverse of
    [g] in the range [0 <= z < |n|], or nil when [g] and [n] are not
    relatively prime. *)
Definition ModInverse (g n : Z) : option Z :=
  let n := Z.abs n in
  let '(d, x, _) := egcd (S (Z.to_nat (2 * Z.log2 n + 2))) g n in
  if d =? 1 then Some (if x <? 0 then x + n else x) else None.

(** The state of the function: the world, and the local variable
    [prepopulatedPrimes]. *)
Abbreviation GenState := (Env * list Z)%type.

(** Lines 422-435, the iterations [i], [i+1], ... of the loop that fills
    [primes]; [count] is how many are left. *)
Fixpoint fillPrimes `{Generators} (count : nat) (i nprimes todo : Z)
    : M GenState (list Z) :=
  match count with
  | O => ret []
  | S count' =>
      let* (_, prepopulatedPrimes) := get in
      let* p :=
        match prepopulatedPrimes with
        | [] => callG (rand_Prime (Z.quot todo (nprimes - i)))
        | p :: rest =>
            let* _ := modify (fun '(w, _) => (w, rest)) in
            ret p
        end in
      let todo := wrapInt (todo - BitLen p) in
      let* primes := fillPrimes count' (i + 1) nprimes todo in
      ret (p :: primes)
  end.

(** Lines 438-444: is some prime equal to an earlier one? *)
Fixpoint hasEqualPair (earlier primes : list Z) : bool :=
  match primes with
  | [] => false
  | prime :: rest =>
      existsb (fun q => prime =? q) earlier || hasEqualPair (earlier ++ [prime]) rest
  end.

(** The loop [NextSetOfPrimes]; [None] when [fuel] rounds did not end it. *)
Fixpoint nextSetOfPrimes `{Generators} (fuel : nat) (nprimes bits : Z)
    : M GenState (option rsa.PrivateKey) :=
  match fuel with
  | O => ret None
  | S fuel' =>
      let todo := bits in
      let todo := if nprimes >=? 7 then wrapInt (todo + Z.quot (nprimes - 2) 5) else todo in
      let* primes := fillPrimes (Z.to_nat nprimes) 0 nprimes todo in
      if hasEqualPair [] primes then nextSetOfPrimes fuel' nprimes bits
      else
        let n := fold_left Z.mul primes 1 in
        let totient := fold_left (fun t prime => t * (prime - 1)) primes 1 in
        if negb (BitLen n =? bits) then nextSetOfPrimes fuel' nprimes bits
        else
          match ModInverse 65537 totient with
          | Some d =>
              ret (Some {| rsa.Public := {| rsa.N := n; rsa.E := 65537 |};
                           rsa.D := d; rsa.Primes := primes |})
          | None => nextSetOfPrimes fuel' nprimes bits
          end
  end.

(** [priv.Precompute()] fills the values that [rsa.PrivateKey] above
    leaves out. *)
Definition generateRSAKeyWithPrimes `{Generators} (fuel : nat)
    (nprimes bits : Z) (prepopulatedPrimes : list Z)
    : Env -> outcome ((error + option rsa.PrivateKey) * Env) :=
  fun random =>
    if nprimes <? 2 then
      Returns (inl (goerror "generateRSAKeyWithPrimes: nprimes must be >= 2"), random)
    else if bits <? 1024 then
      Returns (inl (goerror "generateRSAKeyWithPrimes: bits must be >= 1024"), random)
    else
      match nextSetOfPrimes fuel nprimes bits (random, prepopulatedPrimes) with
      | Returns (r, (random', _)) => Returns (r, random')
      | Panics why => Panics why
      end.

(** ** newSigner and newDecrypter (lines 249-385) *)

(** What the two functions return as [interface{}]. *)
Inductive KeyMaterial `{KeyTypes} `{GenTypes} : Type :=
| keyRSA (k : rsa.PrivateKey)
| keyEdDSA (k : eddsa_PrivateKey)
| keyECDSA (k : ecdsa_PrivateKey)
| keyECDH (k : ecdh_PrivateKey)
| keyDilithiumECDSA (k : dilithium_ecdsa_PrivateKey)
| keyDilithiumEdDSA (k : dilithium_eddsa_PrivateKey)
| keySphincsPlus (k : sphincs_plus_PrivateKey)
| keyKyberECDH (k : kyber_ecdh_PrivateKey).

(** The state of both: the world and the configuration [config] points
    to, which the RSA branch changes. *)
Abbreviation ConfigState := (Env * option Config.t)%type.

(** [config.V5Keys], a field read through a pointer that may be nil. *)
Definition Config_V5Keys `{GenTypes} {S} (config : option Config.t) : M S bool :=
  match config with
  | Some c => ret (Config.V5Keys c)
  | None => panic "nil pointer dereference"
  end.

Definition liftEnv `{Generators} {X A} (f : Env -> outcome ((error + A) * Env))
    : M (Env * X) A :=
  fun '(w, x) =>
    match f w with
    | Returns (r, w') => Returns (r, (w', x))
    | Panics why => Panics why
    end.

(** The RSA branch, which is the same in both functions (lines 252-261
    and 337-346). *)
Definition newRSAKey `{Generators} (fuel : nat) (config : option Config.t)
    : M ConfigState (option KeyMaterial) :=
  let bits := Config_RSAModulusBits config in
  if bits <? 1024 then fail (InvalidArgumentError "bits must be >= 1024")
  else
    match config with
    | Some c =>
        if (2 <=? length (Config.RSAPrimes c))%nat then
          let primes := firstn 2 (Config.RSAPrimes c) in
          let* _ :=
            modify (fun '(w, _) =>
                      (w, Some (Config.setRSAPrimes (skipn 2 (Config.RSAPrimes c)) c))) in
          let* k := liftEnv (generateRSAKeyWithPrimes fuel 2 bits primes) in
          ret (option_map keyRSA k)
        else
          let* k := callG (rsa_GenerateKey bits) in
          ret (Some (keyRSA k))
    | None =>
        let* k := callG (rsa_GenerateKey bits) in
        ret (Some (keyRSA k))
    end.

(** The result is [None] when the RSA prime search did not end within
    [fuel] rounds. *)
Definition newSigner `{Generators} (fuel : nat) : M ConfigState (option KeyMaterial) :=
  let* (_, config) := get in
  match Config_PublicKeyAlgorithm config with
  | PubKeyAlgoRSA => newRSAKey fuel config
  | PubKeyAlgoEdDSA =>
      match FindEdDSAByGenName (Config_CurveName config) with
      | None => fail (InvalidArgumentError "unsupported curve")
      | Some curve =>
          let* priv := callG (eddsa_GenerateKey curve) in
          ret (Some (keyEdDSA priv))
      end
  | PubKeyAlgoECDSA =>
      match FindECDSAByGenName (Config_CurveName config) with
      | None => fail (InvalidArgumentError "unsupported curve")
      | Some curve =>
          let* priv := callG (ecdsa_GenerateKey curve) in
          ret (Some (keyECDSA priv))
      end
  | PubKeyAlgoDilithium3p256 | PubKeyAlgoDilithium5p384 | PubKeyAlgoDilithium3Brainpool256
  | PubKeyAlgoDilithium5Brainpool384 =>
      let* v5 := Config_V5Keys config in
      if negb v5 then fail (goerror "openpgp: cannot create a non-v5 dilithium_ecdsa key")
      else
        let* c := orReturn (GetECDSACurveFromAlgID (Config_PublicKeyAlgorithm config)) in
        let* d := orReturn (GetDilithiumFromAlgID (Config_PublicKeyAlgorithm config)) in
        let* priv :=
          callG (dilithium_ecdsa_GenerateKey (algId (Config_PublicKeyAlgorithm config)) c d) in
        ret (Some (keyDilithiumECDSA priv))
  | PubKeyAlgoDilithium3Ed25519 | PubKeyAlgoDilithium5Ed448 =>
      let* v5 := Config_V5Keys config in
      if negb v5 then fail (goerror "openpgp: cannot create a non-v5 dilithium_eddsa key")
      else
        let* c := orReturn (GetEdDSACurveFromAlgID (Config_PublicKeyAlgorithm config)) in
        let* d := orReturn (GetDilithiumFromAlgID (Config_PublicKeyAlgorithm config)) in
        let* priv :=
          callG (dilithium_eddsa_GenerateKey (algId (Config_PublicKeyAlgorithm config)) c d) in
        ret (Some (keyDilithiumEdDSA priv))
  | PubKeyAlgoSphincsPlusSha2 | PubKeyAlgoSphincsPlusShake =>
      let* v5 := Config_V5Keys config in
      if negb v5 then fail (goerror "openpgp: cannot create a non-v5 sphincs+ key")
      else
        let* mode := orReturn (GetSphincsPlusModeFromAlgID (Config_PublicKeyAlgorithm config)) in
        let parameter := Config_SphincsPlusParam config in
        let* priv := callG (sphincs_plus_GenerateKey mode parameter) in
        ret (Some (keySphincsPlus priv))
  | _ => fail (InvalidArgumentError "unsupported public key algorithm")
  end.

Definition newDecrypter `{Generators} (fuel : nat) : M ConfigState (option KeyMaterial) :=
  let* (_, config) := get in
  let pubKeyAlgo := Config_PublicKeyAlgorithm config in
  (* lines 366-381, entered directly or by [fallthrough] *)
  let kyberCase (pubKeyAlgo : PublicKeyAlgorithm) : M ConfigState (option KeyMaterial) :=
    let* v5 := Config_V5Keys config in
    if negb v5 then fail (goerror "openpgp: cannot create a non-v5 kyber_ecdh key")
    else
      let* c := orReturn (GetECDHCurveFromAlgID pubKeyAlgo) in
      let* k := orReturn (GetKyberFromAlgID pubKeyAlgo) in
      let* priv := callG (kyber_ecdh_GenerateKey (algId pubKeyAlgo) c k) in
      ret (Some (keyKyberECDH priv)) in
  match pubKeyAlgo with
  | PubKeyAlgoRSA => newRSAKey fuel config
  | PubKeyAlgoEdDSA | PubKeyAlgoECDSA | PubKeyAlgoECDH =>
      let kdf := {| ecdh.KDF_Hash := ecdh.SHA512; ecdh.KDF_Cipher := ecdh.AES256 |} in
      match FindECDHByGenName (Config_CurveName config) with
      | None => fail (InvalidArgumentError "unsupported curve")
      | Some curve =>
          let* priv := callG (ecdh_GenerateKey curve kdf) in
          ret (Some (keyECDH priv))
      end
  | PubKeyAlgoDilithium3Ed25519 | PubKeyAlgoDilithium5Ed448 | PubKeyAlgoDilithium3p256
  | PubKeyAlgoDilithium5p384 | PubKeyAlgoDilithium3Brainpool256
  | PubKeyAlgoDilithium5Brainpool384 | PubKeyAlgoSphincsPlusSha2
  | PubKeyAlgoSphincsPlusShake =>
      let (pubKeyAlgo, err) := GetMatchingKyberKem (Config_PublicKeyAlgorithm config) in
      match err with
      | Some err => fail err
      | None => kyberCase pubKeyAlgo
      end
  | PubKeyAlgoKyber768X25519 | PubKeyAlgoKyber1024X448 | PubKeyAlgoKyber768P256
  | PubKeyAlgoKyber1024P384 | PubKeyAlgoKyber768Brainpool256
  | PubKeyAlgoKyber1024Brainpool384 => kyberCase pubKeyAlgo
  | _ => fail (InvalidArgumentError "unsupported public key algorithm")
  end.

(** ** addUserId (lines 75-147)

    The state is the world and the entity [t]. *)

Definition addUserId `{Generators} (name comment email : string)
    (config : option Config.t) (creationTime : Time) (keyLifetimeSecs : Z)
    : M (Env * Entity.t) unit :=
  match NewUserId name comment email with
  | None => fail (InvalidArgumentError "user id field contained invalid characters")
  | Some uid =>
  let* (_, t) := get in
  if bool_decide (is_Some (Entity.Identities t !! UserId_Id uid)) then
    fail (InvalidArgumentError "user id exist")
  else
  match Entity.PrivateKey t with
  | None => panic "nil pointer dereference"
  | Some primary =>
  let isPrimaryId := bool_decide (size (Entity.Identities t) = 0%nat) in
  let selfSignature :=
    {| Signature.Version := PublicKey.Version (PrivateKey.PublicKey primary);
       Signature.SigType := SigTypePositiveCert;
       Signature.PubKeyAlgo := PrivateKey.PubKeyAlgo primary;
       Signature.Hash := Config_Hash config;
       Signature.CreationTime := creationTime;
       Signature.KeyLifetimeSecs := Some keyLifetimeSecs;
       Signature.IssuerKeyId := Some (PrivateKey.KeyId primary);
       Signature.IssuerFingerprint := PrivateKey.Fingerprint primary;
       Signature.IsPrimaryId := Some isPrimaryId;
       Signature.FlagsValid := true;
       Signature.FlagSign := true;
       Signature.FlagCertify := true;
       Signature.MDC := true;
       Signature.AEAD := bool_decide (is_Some (Config_AEAD config));
       Signature.V5Keys := match config with Some c => Config.V5Keys c | None => false end;
       Signature.PreferredHash := [];
       Signature.PreferredSymmetric := [];
       Signature.PreferredCompression := [];
       Signature.PreferredAEAD := [];
       Signature.signed := None |} in
  let* h := liftO (hashToHashId (Config_Hash config)) in
  let selfSignature := Signature.setPreferredHash [h] selfSignature in
  let* selfSignature :=
    (if negb (Config_Hash config =? crypto_SHA256) then
       let* h256 := liftO (hashToHashId crypto_SHA256) in
       ret (Signature.setPreferredHash
              (Signature.PreferredHash selfSignature ++ [h256]) selfSignature)
     else ret selfSignature) in
  let selfSignature := Signature.setPreferredSymmetric [Config_Cipher config] selfSignature in
  let selfSignature :=
    if negb (bool_decide (Config_Cipher config = CipherAES128)) then
      Signature.setPreferredSymmetric
        (Signature.PreferredSymmetric selfSignature ++ [CipherAES128]) selfSignature
    else selfSignature in
  let selfSignature := Signature.setPreferredCompression [CompressionNone] selfSignature in
  let selfSignature :=
    if negb (bool_decide (Config_Compression config = CompressionNone)) then
      Signature.setPreferredCompression
        (Signature.PreferredCompression selfSignature ++ [Config_Compression config])
        selfSignature
    else selfSignature in
  let* mode := liftO (AEADConfig_Mode (Config_AEAD config)) in
  let selfSignature := Signature.setPreferredAEAD [mode] selfSignature in
  let* mode := liftO (AEADConfig_Mode (Config_AEAD config)) in
  let selfSignature :=
    if negb (bool_decide (mode = AEADModeEAX)) then
      Signature.setPreferredAEAD
        (Signature.PreferredAEAD selfSignature ++ [AEADModeEAX]) selfSignature
    else selfSignature in
  let* data :=
    callG (SignUserId selfSignature (UserId_Id uid) (PrivateKey.PublicKey primary)
             primary config) in
  let selfSignature := Signature.setSigned (Some data) selfSignature in
  modify (fun '(w, t) =>
            (w, Entity.setIdentities
                  (<[UserId_Id uid :=
                       {| Identity.Name := UserId_Id uid;
                          Identity.UserId := uid;
                          Identity.SelfSignature := selfSignature;
                          Identity.Signatures := [selfSignature] |}]>
                     (Entity.Identities t)) t))
  end
  end.

(** ** A concrete instance of the external functions

    Used to run the functions above on inputs.  Every key is a byte
    string; the world counts the calls of primitives; a primitive
    "encrypts" by putting a marker octet in front, and decrypts by taking
    it off, so that each pair is mutually inverse.  Algorithm octets are
    those of the OpenPGP registry and of the post-quantum draft. *)

Definition testKeyTypes : KeyTypes :=
  {| elgamal_PublicKey := bytes; elgamal_PrivateKey := bytes;
     ecdh_PublicKey := bytes; ecdh_PrivateKey := bytes;
     x25519_PrivateKey := bytes; x448_PrivateKey := bytes;
     kyber_ecdh_PublicKey := bytes; kyber_ecdh_PrivateKey := bytes |}.

Definition testByteOfAlgo (a : PublicKeyAlgorithm) : byte :=
  match a with
  | PubKeyAlgoRSA => x01
  | PubKeyAlgoRSAEncryptOnly => x02
  | PubKeyAlgoRSASignOnly => x03
  | PubKeyAlgoElGamal => x10
  | PubKeyAlgoDSA => x11
  | PubKeyAlgoECDH => x12
  | PubKeyAlgoECDSA => x13
  | PubKeyAlgoEdDSA => x16
  | PubKeyAlgoX25519 => x19
  | PubKeyAlgoX448 => x1a
  | PubKeyAlgoKyber768X25519 => x1d
  | PubKeyAlgoKyber1024X448 => x1e
  | PubKeyAlgoKyber768P256 => x1f
  | PubKeyAlgoKyber1024P384 => x20
  | PubKeyAlgoKyber768Brainpool256 => x21
  | PubKeyAlgoKyber1024Brainpool384 => x22
  | PubKeyAlgoDilithium3Ed25519 => x23
  | PubKeyAlgoDilithium5Ed448 => x24
  | PubKeyAlgoDilithium3p256 => x25
  | PubKeyAlgoDilithium5p384 => x26
  | PubKeyAlgoDilithium3Brainpool256 => x27
  | PubKeyAlgoDilithium5Brainpool384 => x28
  | PubKeyAlgoSphincsPlusSha2 => x29
  | PubKeyAlgoSphincsPlusShake => x2a
  | PubKeyAlgoOther tag => tag
  end.

Definition testAlgoOfByte (b : byte) : PublicKeyAlgorithm :=
  match b with
  | x01 => PubKeyAlgoRSA
  | x02 => PubKeyAlgoRSAEncryptOnly
  | x03 => PubKeyAlgoRSASignOnly
  | x10 => PubKeyAlgoElGamal
  | x11 => PubKeyAlgoDSA
  | x12 => PubKeyAlgoECDH
  | x13 => PubKeyAlgoECDSA
  | x16 => PubKeyAlgoEdDSA
  | x19 => PubKeyAlgoX25519
  | x1a => PubKeyAlgoX448
  | x1d => PubKeyAlgoKyber768X25519
  | x1e => PubKeyAlgoKyber1024X448
  | x1f => PubKeyAlgoKyber768P256
  | x20 => PubKeyAlgoKyber1024P384
  | x21 => PubKeyAlgoKyber768Brainpool256
  | x22 => PubKeyAlgoKyber1024Brainpool384
  | x23 => PubKeyAlgoDilithium3Ed25519
  | x24 => PubKeyAlgoDilithium5Ed448
  | x25 => PubKeyAlgoDilithium3p256
  | x26 => PubKeyAlgoDilithium5p384
  | x27 => PubKeyAlgoDilithium3Brainpool256
  | x28 => PubKeyAlgoDilithium5Brainpool384
  | x29 => PubKeyAlgoSphincsPlusSha2
  | x2a => PubKeyAlgoSphincsPlusShake
  | tag => PubKeyAlgoOther tag
  end.

Definition testError (err : error) : string :=
  match err with
  | InvalidArgumentError s => "openpgp: invalid argument: " +:+ s
  | UnsupportedError s => "openpgp: unsupported feature: " +:+ s
  | StructuralError s => "openpgp: invalid data: " +:+ s
  | ErrDummyPrivateKey s => "openpgp: s2k GNU dummy error: " +:+ s
  | ErrUnexpectedEOF => "unexpected EOF"
  | goerror s => s
  end.

(** A new-format packet header (RFC 4880, section 4.2.2). *)
Definition testSerializeHeader (ptype len : Z) : bytes :=
  byteOfZ (192 + ptype) ::
  (if len <? 192 then [byteOfZ len]
   else if len <? 8384 then
     [byteOfZ ((len - 192) / 256 + 192); byteOfZ (len - 192)]
   else xff :: bigEndian 4 len).

Definition testEncrypt (marker : byte) (msg : bytes) : bytes := marker :: msg.

Definition testDecrypt (marker : byte) (c : bytes) : error + bytes :=
  match c with
  | m :: msg => if bool_decide (m = marker) then inr msg else inl (goerror "decryption error")
  | [] => inl (goerror "decryption error")
  end.

Definition testExternals : @Externals testKeyTypes :=
  {| World := nat;
     Error := testError;
     byteOfAlgo := testByteOfAlgo;
     algoOfByte := testAlgoOfByte;
     IsSupported := fun c => isAES c || bool_decide (c = x02) || bool_decide (c = x03);
     serializeHeader := testSerializeHeader;
     SerializeForHash := fun pub => (PublicKey.Fingerprint pub, None);
     Sum256 := fun b => firstn 32 (b ++ make 32);
     rsa_EncryptPKCS1v15 := fun _ msg w => (inr (testEncrypt x02 msg), S w);
     rsa_Decrypt := fun _ c w => (testDecrypt x02 (stripLeadingZeros c), S w);
     elgamal_Encrypt := fun _ msg w => (inr (1, SetBytes (testEncrypt x02 msg)), S w);
     elgamal_Decrypt := fun _ c1 c2 w => (testDecrypt x02 (bigBytes c2), S w);
     ecdh_Encrypt := fun _ msg _ _ w => (inr ([x04; x01], testEncrypt x02 msg), S w);
     ecdh_Decrypt := fun _ _ m _ _ w => (testDecrypt x02 m, S w);
     x25519_Encrypt := fun _ msg w => (inr (make 32, testEncrypt x02 msg), S w);
     x25519_Decrypt := fun _ _ c w => (testDecrypt x02 c, S w);
     x448_Encrypt := fun _ msg w => (inr (make 56, testEncrypt x02 msg), S w);
     x448_Decrypt := fun _ _ c w => (testDecrypt x02 c, S w);
     kyber_ecdh_Encrypt :=
       fun _ msg _ w => (inr (make 1088, make 32, testEncrypt x02 msg), S w);
     kyber_ecdh_Decrypt := fun _ _ _ m _ w => (testDecrypt x02 m, S w) |}.

(** The octets of a packet body that a reader limited to the length the
    packet header declares hands to [parse], given what was written after
    that header. *)
Definition packetBody (declared : Z) (written : bytes) : bytes :=
  firstn (Z.to_nat declared) written.

(** A Kyber768+X25519 key pair with key id 1, and a 16-octet session key. *)
Definition testKyberPublic : @PublicKey.t testKeyTypes :=
  {| PublicKey.Version := 6;
     PublicKey.PubKeyAlgo := PubKeyAlgoKyber768X25519;
     PublicKey.Fingerprint := bigEndian 32 1;
     PublicKey.KeyId := 1;
     PublicKey.PublicKey := @pubKyberECDH testKeyTypes [x01];
     PublicKey.oid := None |}.

Definition testKyberPrivate : @PrivateKey.t testKeyTypes :=
  {| PrivateKey.PublicKey := testKyberPublic;
     PrivateKey.PrivateKey := @privKyberECDH testKeyTypes [x01];
     PrivateKey.Dummy := false |}.

Definition testSessionKey : bytes :=
  [x01; x02; x03; x04; x05; x06; x07; x08; x09; x0a; x0b; x0c; x0d; x0e; x0f; x10].

(** An RSA key pair of the instance (the modulus plays no part in it). *)
Definition testRSAPublic : @PublicKey.t testKeyTypes :=
  {| PublicKey.Version := 4;
     PublicKey.PubKeyAlgo := PubKeyAlgoRSA;
     PublicKey.Fingerprint := bigEndian 20 7;
     PublicKey.KeyId := 7;
     PublicKey.PublicKey := @pubRSA testKeyTypes {| rsa.N := 0; rsa.E := 65537 |};
     PublicKey.oid := None |}.

Definition testRSAPrivate : @PrivateKey.t testKeyTypes :=
  {| PrivateKey.PublicKey := testRSAPublic;
     PrivateKey.PrivateKey :=
       @privRSA testKeyTypes
         {| rsa.Public := {| rsa.N := 0; rsa.E := 65537 |}; rsa.D := 0; rsa.Primes := [] |};
     PrivateKey.Dummy := false |}.

(** An X25519 key pair of the instance. *)
Definition testX25519Public : @PublicKey.t testKeyTypes :=
  {| PublicKey.Version := 4;
     PublicKey.PubKeyAlgo := PubKeyAlgoX25519;
     PublicKey.Fingerprint := bigEndian 20 9;
     PublicKey.KeyId := 9;
     PublicKey.PublicKey := @pubX25519 testKeyTypes (make 32);
     PublicKey.oid := None |}.

Definition testX25519Private : @PrivateKey.t testKeyTypes :=
  {| PrivateKey.PublicKey := testX25519Public;
     PrivateKey.PrivateKey := @privX25519 testKeyTypes [x01];
     PrivateKey.Dummy := false |}.

(** ** Definitions used to state the properties *)

Ltac unfoldM :=
  unfold run, bind, get, fail, ret, panic, modify, updateE, liftO, call, callG, mapError,
    onError, ofField, orReturn, Write in *.

(** The issuer checks of Decrypt (lines 191-196) pass. *)
Definition issuerAccepted `{KeyTypes} (e : EncryptedKey) (priv : PrivateKey.t) : Prop :=
  (Version e < 6 -> KeyId e = 0 \/ KeyId e = PrivateKey.KeyId priv)
  /\ (Version e = 6 -> KeyVersion e = 0 \/ KeyFingerprint e = PrivateKey.Fingerprint priv).

(** The result of a run with [f] applied to the packet it leaves. *)
Definition mapPacket {W} (f : EncryptedKey -> EncryptedKey)
    (r : outcome (option error * (W * EncryptedKey)))
    : outcome (option error * (W * EncryptedKey)) :=
  match r with
  | Returns (err, (w, e)) => Returns (err, (w, f e))
  | Panics why => Panics why
  end.

(** The decryption primitive of the private key's algorithm, applied to
    the fields of the packet as Decrypt applies it (lines 209-238), returns
    the plaintext [b] and leaves the world [w']. *)
Inductive primitiveGives `{Externals} (priv : PrivateKey.t) (e : EncryptedKey)
    (w : World) (b : bytes) (w' : World) : Prop :=
| givesRSA (k : rsa.PrivateKey) (c : Field) :
    PrivateKey.PubKeyAlgo priv = PubKeyAlgoRSA
    \/ PrivateKey.PubKeyAlgo priv = PubKeyAlgoRSAEncryptOnly ->
    PrivateKey.PrivateKey priv = privRSA k ->
    encryptedMPI1 e = Some c ->
    rsa_Decrypt k (padToKeySize (rsa.Public k) (Bytes c)) w = (inr b, w') ->
    primitiveGives priv e w b w'
| givesElGamal (k : elgamal_PrivateKey) (c1 c2 : Field) :
    PrivateKey.PubKeyAlgo priv = PubKeyAlgoElGamal ->
    PrivateKey.PrivateKey priv = privElGamal k ->
    encryptedMPI1 e = Some c1 ->
    encryptedMPI2 e = Some c2 ->
    elgamal_Decrypt k (SetBytes (Bytes c1)) (SetBytes (Bytes c2)) w = (inr b, w') ->
    primitiveGives priv e w b w'
| givesECDH (k : ecdh_PrivateKey) (vsG m oid : Field) :
    PrivateKey.PubKeyAlgo priv = PubKeyAlgoECDH ->
    PrivateKey.PrivateKey priv = privECDH k ->
    encryptedMPI1 e = Some vsG ->
    encryptedMPI2 e = Some m ->
    PublicKey.oid (PrivateKey.PublicKey priv) = Some oid ->
    ecdh_Decrypt k (Bytes vsG) (Bytes m) (EncodedBytes oid) (PrivateKey.Fingerprint priv) w
    = (inr b, w') ->
    primitiveGives priv e w b w'
| givesX25519 (k : x25519_PrivateKey) :
    PrivateKey.PubKeyAlgo priv = PubKeyAlgoX25519 ->
    PrivateKey.PrivateKey priv = privX25519 k ->
    x25519_Decrypt k (ephemeralPublicX25519 e) (encryptedSession e) w = (inr b, w') ->
    primitiveGives priv e w b w'
| givesX448 (k : x448_PrivateKey) :
    PrivateKey.PubKeyAlgo priv = PubKeyAlgoX448 ->
    PrivateKey.PrivateKey priv = privX448 k ->
    x448_Decrypt k (ephemeralPublicX448 e) (encryptedSession e) w = (inr b, w') ->
    primitiveGives priv e w b w'.

(** The plaintext is shorter than the envelope of an RSA, ElGamal or ECDH
    packet needs: in a v3 packet no octet for the cipher function, or a
    supported cipher function followed by fewer than two octets; in a v6
    packet fewer than two octets. *)
Definition plaintextTooShort `{Externals} (version : Z) (b : bytes) : Prop :=
  (version < 6 /\ b = [])
  \/ (version < 6 /\ exists c rest, b = c :: rest /\ IsSupported c = true
                                    /\ (length rest < 2)%nat)
  \/ (6 <= version /\ (length b < 2)%nat).

Definition isCFRG (a : PublicKeyAlgorithm) : bool :=
  bool_decide (a = PubKeyAlgoX25519) || bool_decide (a = PubKeyAlgoX448).

Definition isClassic (a : PublicKeyAlgorithm) : bool :=
  bool_decide (a = PubKeyAlgoRSA) || bool_decide (a = PubKeyAlgoRSAEncryptOnly)
  || bool_decide (a = PubKeyAlgoElGamal) || bool_decide (a = PubKeyAlgoECDH).

Definition isKyber (a : PublicKeyAlgorithm) : bool :=
  match a with
  | PubKeyAlgoKyber768X25519 | PubKeyAlgoKyber1024X448 | PubKeyAlgoKyber768P256
  | PubKeyAlgoKyber1024P384 | PubKeyAlgoKyber768Brainpool256
  | PubKeyAlgoKyber1024Brainpool384 => true
  | _ => false
  end.

(** Packets and keys of the concrete instance. *)
Definition testPacket (version keyId : Z) (algo : PublicKeyAlgorithm)
    (cipherFunc : CipherFunction) : EncryptedKey :=
  setVersion version (setKeyId keyId (setAlgo algo (setCipherFunc cipherFunc
    (setX25519 (Some (make 32)) [x02; x2a] emptyEncryptedKey)))).

Definition testDummyPrivate : @PrivateKey.t testKeyTypes :=
  {| PrivateKey.PublicKey := testRSAPublic;
     PrivateKey.PrivateKey := @privOtherType testKeyTypes;
     PrivateKey.Dummy := true |}.

Definition testElGamalPublic : @PublicKey.t testKeyTypes :=
  {| PublicKey.Version := 4;
     PublicKey.PubKeyAlgo := PubKeyAlgoElGamal;
     PublicKey.Fingerprint := bigEndian 20 11;
     PublicKey.KeyId := 11;
     PublicKey.PublicKey := @pubElGamal testKeyTypes [x01];
     PublicKey.oid := None |}.

Definition testPacketV6 (keyVersion : Z) (fingerprint : bytes) (algo : PublicKeyAlgorithm)
    : EncryptedKey :=
  setKeyVersion keyVersion (setKeyFingerprint fingerprint (testPacket 6 0 algo x00)).

(** An RSA packet whose ciphertext the instance decrypts to the empty
    plaintext. *)
Definition testEmptyPlaintextPacket : EncryptedKey :=
  setEncryptedMPI1 (Some (MPI [x02] 2)) (testPacket 3 7 PubKeyAlgoRSA x00).

(** A reader that succeeds on an input succeeds alike, with the same
    result, when more octets follow the input; they are left over. *)
Definition Stable {A} (m : M ParseState A) : Prop :=
  forall r e extra a r' e',
    m (r, e) = Returns (inr a, (r', e')) ->
    m (r ++ extra, e) = Returns (inr a, (r' ++ extra, e')).

(** A reader that, when it succeeds, has read its input to the end, and
    fails with a structural error when more octets follow that input. *)
Definition Exact {A} (m : M ParseState A) : Prop :=
  forall r e extra a r' e',
    m (r, e) = Returns (inr a, (r', e')) ->
    r' = []
    /\ (extra <> [] ->
        exists err s, m (r ++ extra, e) = Returns (inl err, s) /\ isStructural err = true).

(** The body of a v3 RSA packet for key id 7 whose MPI is the one octet
    ff, and the packet that [parse] makes of it. *)
Definition testRSABody : bytes :=
  [x03; x00; x00; x00; x00; x00; x00; x00; x07; x01; x00; x08; xff].

Definition testRSAParsed : EncryptedKey :=
  setEncryptedMPI1 (Some (MPI [xff] 8))
    (setAlgo PubKeyAlgoRSA (setKeyId 7 (setVersion 3 emptyEncryptedKey))).

(** What SerializeEncryptedKeyAEAD writes after the packet header for the
    Kyber key of the instance: in a v3 packet, and in a v6 packet. *)
Definition testKyberWrittenV3 : bytes :=
  x03 :: bigEndian 8 1 ++ [x1d] ++ make 32 ++ make 1088 ++ [x01; x02].

Definition testKyberWrittenV6 : bytes :=
  x06 :: x06 :: bigEndian 32 1 ++ [x1d] ++ make 32 ++ make 1088 ++ [x01; x02].

Definition testKyberParsed : EncryptedKey :=
  setEncryptedMPI3 (Some (OID [x02]))
    (setEncryptedMPI2 (Some (OctetArray 1088 (make 1088)))
       (setEncryptedMPI1 (Some (OctetArray 32 (make 32)))
          (setAlgo PubKeyAlgoKyber768X25519 (setKeyId 1 (setVersion 3 emptyEncryptedKey))))).

(** The bit budget of generateRSAKeyWithPrimes: [todo] before the first
    prime (lines 407-421), and after the primes of a list were taken (line
    434). *)
Definition todoStart (nprimes bits : Z) : Z :=
  if nprimes >=? 7 then wrapInt (bits + Z.quot (nprimes - 2) 5) else bits.

Fixpoint todoAfter (todo : Z) (primes : list Z) : Z :=
  match primes with
  | [] => todo
  | p :: rest => todoAfter (wrapInt (todo - BitLen p)) rest
  end.

Definition totientOf (primes : list Z) : Z :=
  fold_right (fun p t => (p - 1) * t) 1 primes.

Definition productOf (primes : list Z) : Z := fold_right Z.mul 1 primes.

Definition isDilithiumECDSA (a : PublicKeyAlgorithm) : bool :=
  match a with
  | PubKeyAlgoDilithium3p256 | PubKeyAlgoDilithium5p384 | PubKeyAlgoDilithium3Brainpool256
  | PubKeyAlgoDilithium5Brainpool384 => true
  | _ => false
  end.

Definition isDilithiumEdDSA (a : PublicKeyAlgorithm) : bool :=
  match a with
  | PubKeyAlgoDilithium3Ed25519 | PubKeyAlgoDilithium5Ed448 => true
  | _ => false
  end.

Definition isSphincsPlus (a : PublicKeyAlgorithm) : bool :=
  match a with
  | PubKeyAlgoSphincsPlusSha2 | PubKeyAlgoSphincsPlusShake => true
  | _ => false
  end.

(** ** A concrete instance of what key generation calls

    The options of a configuration are the values its methods return; the
    world is the list of numbers the random source has in store for
    [rand.Prime], which hands out the next one when it is a prime of the
    length asked for (and fails otherwise); every other generator returns a
    fixed key. *)

Record testOptions : Type := {
  optAlgorithm : PublicKeyAlgorithm;
  optRSABits : Z;
  optCurve : string;
  optHash : crypto_Hash;
  optCipher : CipherFunction;
  optCompression : byte;
  optAEAD : option byte
}.

Definition testGenTypes : GenTypes :=
  {| Options := testOptions;
     AEADConfig := byte;
     Time := Z;
     UserId := string;
     SignatureData := bytes;
     eddsa_Curve := string;
     ecdsa_Curve := string;
     ecdh_Curve := string;
     Dilithium := Z;
     Kyber := Z;
     sphincs_Mode := Z;
     sphincs_Parameter := Z;
     eddsa_PrivateKey := bytes;
     ecdsa_PrivateKey := bytes;
     dilithium_ecdsa_PrivateKey := bytes;
     dilithium_eddsa_PrivateKey := bytes;
     sphincs_plus_PrivateKey := bytes |}.

(** Trial division. *)
Fixpoint noDivisorFrom (fuel : nat) (d p : Z) : bool :=
  match fuel with
  | O => true
  | S fuel' =>
      if p <? d * d then true
      else if p mod d =? 0 then false
      else noDivisorFrom fuel' (d + 1) p
  end.

Definition isPrimeTrial (p : Z) : bool :=
  (2 <=? p) && noDivisorFrom (Z.to_nat (Z.sqrt p)) 2 p.

Definition testRandPrime (bits : Z) (env : list Z) : (error + Z) * list Z :=
  match env with
  | [] => (inl (goerror "EOF"), [])
  | p :: rest =>
      if (2 <=? bits) && (BitLen p =? bits) && isPrimeTrial p then (inr p, rest)
      else (inl (goerror "crypto/rand: prime size must be at least 2-bit"), rest)
  end.

Definition optionOf {A} (dflt : A) (get_ : testOptions -> A)
    (config : option (@Config.t testGenTypes)) : A :=
  match config with
  | Some c => get_ (@Config.options testGenTypes c)
  | None => dflt
  end.

Definition testHashToHashId (h : crypto_Hash) : outcome byte :=
  if h =? 5 then Returns x08
  else if h =? 6 then Returns x09
  else if h =? 7 then Returns x0a
  else Panics "tried to convert unknown hash".

Definition testMatchingKyberKem (a : PublicKeyAlgorithm) : PublicKeyAlgorithm * option error :=
  match a with
  | PubKeyAlgoDilithium3Ed25519 | PubKeyAlgoSphincsPlusSha2 => (PubKeyAlgoKyber768X25519, None)
  | PubKeyAlgoDilithium5Ed448 | PubKeyAlgoSphincsPlusShake => (PubKeyAlgoKyber1024X448, None)
  | PubKeyAlgoDilithium3p256 => (PubKeyAlgoKyber768P256, None)
  | PubKeyAlgoDilithium5p384 => (PubKeyAlgoKyber1024P384, None)
  | PubKeyAlgoDilithium3Brainpool256 => (PubKeyAlgoKyber768Brainpool256, None)
  | PubKeyAlgoDilithium5Brainpool384 => (PubKeyAlgoKyber1024Brainpool384, None)
  | _ => (a, Some (goerror "packet: unsupported pq public key algorithm"))
  end.

Definition testGenerators : @Generators testKeyTypes testGenTypes :=
  {| Env := list Z;
     algId := testByteOfAlgo;
     Config_PublicKeyAlgorithm := optionOf PubKeyAlgoRSA optAlgorithm;
     Config_RSAModulusBits := optionOf 2048 optRSABits;
     Config_CurveName := optionOf "Curve25519"%string optCurve;
     Config_SphincsPlusParam := fun _ => 1;
     Config_Hash := optionOf 5 optHash;
     Config_Cipher := optionOf CipherAES128 optCipher;
     Config_Compression := optionOf CompressionNone optCompression;
     Config_AEAD := optionOf None optAEAD;
     AEADConfig_Mode :=
       fun conf =>
         match conf with
         | None | Some x00 => Returns x02
         | Some x01 => Returns x01
         | Some x02 => Returns x02
         | Some x03 => Returns x03
         | Some _ => Panics "AEAD mode unsupported"
         end;
     hashToHashId := testHashToHashId;
     rand_Prime := testRandPrime;
     rsa_GenerateKey := fun _ env => (inl (goerror "EOF"), env);
     FindEdDSAByGenName := fun name => Some name;
     FindECDSAByGenName := fun name => Some name;
     FindECDHByGenName := fun name => Some name;
     GetECDSACurveFromAlgID := fun _ => inr "P256"%string;
     GetEdDSACurveFromAlgID := fun _ => inr "Ed25519"%string;
     GetECDHCurveFromAlgID := fun _ => inr "Curve25519"%string;
     GetDilithiumFromAlgID := fun _ => inr 3;
     GetKyberFromAlgID := fun _ => inr 768;
     GetSphincsPlusModeFromAlgID := fun _ => inr 1;
     GetMatchingKyberKem := testMatchingKyberKem;
     eddsa_GenerateKey := fun _ env => (inr [x01], env);
     ecdsa_GenerateKey := fun _ env => (inr [x02], env);
     ecdh_GenerateKey := fun _ _ env => (inr ([x03] : @ecdh_PrivateKey testKeyTypes), env);
     dilithium_ecdsa_GenerateKey := fun _ _ _ env => (inr [x04], env);
     dilithium_eddsa_GenerateKey := fun _ _ _ env => (inr [x05], env);
     sphincs_plus_GenerateKey := fun _ _ env => (inr [x06], env);
     kyber_ecdh_GenerateKey :=
       fun _ _ _ env => (inr ([x07] : @kyber_ecdh_PrivateKey testKeyTypes), env);
     NewUserId :=
       fun name comment email =>
         Some (name +:+ " (" +:+ comment +:+ ") <" +:+ email +:+ ">")%string;
     UserId_Id := fun uid => uid;
     SignUserId := fun _ _ _ _ _ env => (inr [x2a], env) |}.

Definition testConfig (algo : PublicKeyAlgorithm) (v5 : bool) (hash : crypto_Hash)
    (cipher : CipherFunction) (compression : byte) (aead : option byte)
    : @Config.t testGenTypes :=
  @Config.Build_t testGenTypes v5 []
    {| optAlgorithm := algo; optRSABits := 2048; optCurve := "Curve25519";
       optHash := hash; optCipher := cipher; optCompression := compression;
       optAEAD := aead |}.

Definition testEntity : @Entity.t testKeyTypes testGenTypes :=
  {| Entity.PrimaryKey := Some testRSAPublic;
     Entity.PrivateKey := Some testRSAPrivate;
     Entity.Identities := ∅ |}.

(** Sixty-four primes, of 16 and 17 bits, whose product has 1024 bits: what
    the random source of the instance has in store. *)
Definition testPrimeStore : list Z :=
  [57241; 57251; 57259; 57269; 57271; 57283; 57287; 57301; 57329; 57331; 57347; 57349;
   57367; 57373; 57383; 57389; 57397; 57413; 57427; 57457; 57467; 57487; 57493; 57503;
   57527; 57529; 57557; 57559; 57571; 57587; 57593; 57601; 57637; 57641; 57649; 57653;
   57667; 57679; 57689; 57697; 57709; 57713; 57719; 57727; 57731; 57737; 57751; 57773;
   57781; 57787; 57791; 57793; 114479; 114487; 114493; 114547; 114553; 114571; 114577;
   114593; 114599; 114601; 114613; 114617].

(** ** The round trip through a packet

    Serialize a session key to a public key, take the packet header off
    (with [readHeader], which gives the declared body length and what
    follows the header), parse the body the packet reader hands over, and
    decrypt with a private key: the error, if any, and the key that
    Decrypt leaves. *)
Definition roundTrip `{Externals} (readHeader : bytes -> option (Z * bytes))
    (pub : PublicKey.t) (priv : PrivateKey.t) (cipherFunc : CipherFunction)
    (aeadSupported : bool) (key : bytes) (w : World) : outcome (option error * bytes) :=
  match run (SerializeEncryptedKeyAEAD (Some pub) cipherFunc aeadSupported key) (w, []) with
  | Returns (None, (w1, packet)) =>
      match readHeader packet with
      | Some (declared, written) =>
          match run parse (packetBody declared written, emptyEncryptedKey) with
          | Returns (None, (_, e)) =>
              match run (Decrypt priv) (w1, e) with
              | Returns (err, (_, e')) => Returns (err, Key e')
              | Panics why => Panics why
              end
          | Returns (Some err, _) => Returns (Some err, [])
          | Panics why => Panics why
          end
      | None => Panics "no packet header"
      end
  | Returns (Some err, _) => Returns (Some err, [])
  | Panics why => Panics why
  end.

(** Reads the header that [testSerializeHeader] writes. *)
Definition testReadHeader (packet : bytes) : option (Z * bytes) :=
  match packet with
  | _ :: l1 :: rest =>
      if byteToZ l1 <? 192 then Some (byteToZ l1, rest)
      else if byteToZ l1 <? 224 then
        match rest with
        | l2 :: rest => Some ((byteToZ l1 - 192) * 256 + byteToZ l2 + 192, rest)
        | [] => None
        end
      else if byteToZ l1 =? 255 then Some (SetBytes (firstn 4 rest), skipn 4 rest)
      else None
  | _ => None
  end.

(** A key pair of the instance for an algorithm, a key version and a
    fingerprint. *)
Definition testPublic (algo : PublicKeyAlgorithm) (version : Z) (fingerprint : bytes)
    (material : @PublicKeyMaterial testKeyTypes) : @PublicKey.t testKeyTypes :=
  {| PublicKey.Version := version;
     PublicKey.PubKeyAlgo := algo;
     PublicKey.Fingerprint := fingerprint;
     PublicKey.KeyId := 4660;
     PublicKey.PublicKey := material;
     PublicKey.oid := Some (OID [x2b; x81; x04; x00; x22]) |}.

Definition testPrivate (pub : @PublicKey.t testKeyTypes)
    (material : @PrivateKeyMaterial testKeyTypes) : @PrivateKey.t testKeyTypes :=
  {| PrivateKey.PublicKey := pub;
     PrivateKey.PrivateKey := material;
     PrivateKey.Dummy := false |}.

Definition testRoundTrip (algo : PublicKeyAlgorithm) (version : Z) (fingerprint : bytes)
    (pub : @PublicKeyMaterial testKeyTypes) (priv : @PrivateKeyMaterial testKeyTypes)
    (aeadSupported : bool) : outcome (option error * bytes) :=
  @roundTrip _ testExternals testReadHeader
    (testPublic algo version fingerprint pub)
    (testPrivate (testPublic algo version fingerprint pub) priv)
    CipherAES256 aeadSupported testSessionKey 0%nat.

Definition testRSAKey : rsa.PrivateKey :=
  {| rsa.Public := {| rsa.N := 0; rsa.E := 65537 |}; rsa.D := 0; rsa.Primes := [] |}.

(** * The other functions of the two files *)

(** ** Serialize (encrypted_key.go, lines 277-376)

    The method that writes a packet [e] back as it is, without encrypting
    anything.  The state is the world and the octets written to [w] so
    far, as for SerializeEncryptedKeyAEAD. *)

Definition Serialize `{Externals} (e : EncryptedKey) : M WriteState unit :=
  let* encodedLength :=
    match Algo e with
    | PubKeyAlgoRSA | PubKeyAlgoRSAEncryptOnly =>
        ofField EncodedLength (encryptedMPI1 e)
    | PubKeyAlgoElGamal =>
        let* l1 := ofField EncodedLength (encryptedMPI1 e) in
        let* l2 := ofField EncodedLength (encryptedMPI2 e) in
        ret (l1 + l2)
    | PubKeyAlgoECDH =>
        let* l1 := ofField EncodedLength (encryptedMPI1 e) in
        let* l2 := ofField EncodedLength (encryptedMPI2 e) in
        ret (l1 + l2)
    | PubKeyAlgoX25519 =>
        ret (EncodedFieldsLength x25519_KeySize (encryptedSession e) (Version e =? 6))
    | PubKeyAlgoX448 =>
        ret (EncodedFieldsLength x448_KeySize (encryptedSession e) (Version e =? 6))
    | PubKeyAlgoKyber768X25519 | PubKeyAlgoKyber1024X448 | PubKeyAlgoKyber768P256
    | PubKeyAlgoKyber1024P384 | PubKeyAlgoKyber768Brainpool256
    | PubKeyAlgoKyber1024Brainpool384 =>
        let* l1 := ofField EncodedLength (encryptedMPI1 e) in
        let* l2 := ofField EncodedLength (encryptedMPI2 e) in
        let* l3 := ofField EncodedLength (encryptedMPI3 e) in
        ret (l1 + l2 + l3)
    | _ =>
        fail (InvalidArgumentError
                ("don't know how to serialize encrypted key type "
                 +:+ Itoa (byteToZ (byteOfAlgo (Algo e)))))
    end in
  let packetLen := 1 + 8 + 1 + encodedLength in
  let packetLen :=
    if Version e =? 6 then
      let packetLen := 1 + 1 + encodedLength + 1 in
      if KeyVersion e =? 6 then packetLen + 32
      else if KeyVersion e =? 4 then packetLen + 20
      else packetLen
    else packetLen in
  let* _ := Write (serializeHeader packetTypeEncryptedKey packetLen) in
  let* _ := Write [byteOfZ (Version e)] in
  let* _ :=
    (if Version e =? 6 then
       let* _ := Write [byteOfZ (KeyVersion e)] in
       if negb (KeyVersion e =? 0) then Write (KeyFingerprint e) else ret tt
     else Write (PutUint64 (KeyId e))) in
  let* _ := Write [byteOfAlgo (Algo e)] in
  match Algo e with
  | PubKeyAlgoRSA | PubKeyAlgoRSAEncryptOnly =>
      let* b := ofField EncodedBytes (encryptedMPI1 e) in
      Write b
  | PubKeyAlgoElGamal =>
      let* b1 := ofField EncodedBytes (encryptedMPI1 e) in
      let* _ := Write b1 in
      let* b2 := ofField EncodedBytes (encryptedMPI2 e) in
      Write b2
  | PubKeyAlgoECDH =>
      let* b1 := ofField EncodedBytes (encryptedMPI1 e) in
      let* _ := Write b1 in
      let* b2 := ofField EncodedBytes (encryptedMPI2 e) in
      Write b2
  | PubKeyAlgoX25519 =>
      match ephemeralPublicX25519 e with
      | Some point =>
          Write (EncodeFields point (encryptedSession e) (CipherFunc e) (Version e =? 6))
      | None => panic "nil pointer dereference"
      end
  | PubKeyAlgoX448 =>
      match ephemeralPublicX448 e with
      | Some point =>
          Write (EncodeFields point (encryptedSession e) (CipherFunc e) (Version e =? 6))
      | None => panic "nil pointer dereference"
      end
  | PubKeyAlgoKyber768X25519 | PubKeyAlgoKyber1024X448 | PubKeyAlgoKyber768P256
  | PubKeyAlgoKyber1024P384 | PubKeyAlgoKyber768Brainpool256
  | PubKeyAlgoKyber1024Brainpool384 =>
      let* b1 := ofField EncodedBytes (encryptedMPI1 e) in
      let* _ := Write b1 in
      let* b2 := ofField EncodedBytes (encryptedMPI2 e) in
      let* _ := Write b2 in
      let* b3 := ofField EncodedBytes (encryptedMPI3 e) in
      Write b3
  | _ => panic "internal error"
  end.

(** ** SerializeEncryptedKey (encrypted_key.go, lines 467-469) *)

Definition SerializeEncryptedKey {K : KeyTypes} {X : @Externals K} {T : GenTypes}
    {G : @Generators K T}
    (pub : option PublicKey.t) (cipherFunc : CipherFunction) (key : bytes)
    (config : option Config.t) : M WriteState unit :=
  SerializeEncryptedKeyAEAD pub cipherFunc (bool_decide (is_Some (Config_AEAD config))) key.

(** ** Further definitions used to state properties *)

(** The decryption primitive of the private key's algorithm, applied to
    the fields of the packet as Decrypt applies it (lines 209-238), fails
    with [err] and leaves the world [w']; for a Kyber key also when
    [SerializeForHash] of the public key fails (line 233). *)
Inductive primitiveFails `{Externals} (priv : PrivateKey.t) (e : EncryptedKey)
    (w : World) (err : error) (w' : World) : Prop :=
| failsRSA (k : rsa.PrivateKey) (c : Field) :
    PrivateKey.PubKeyAlgo priv = PubKeyAlgoRSA
    \/ PrivateKey.PubKeyAlgo priv = PubKeyAlgoRSAEncryptOnly ->
    PrivateKey.PrivateKey priv = privRSA k ->
    encryptedMPI1 e = Some c ->
    rsa_Decrypt k (padToKeySize (rsa.Public k) (Bytes c)) w = (inl err, w') ->
    primitiveFails priv e w err w'
| failsElGamal (k : elgamal_PrivateKey) (c1 c2 : Field) :
    PrivateKey.PubKeyAlgo priv = PubKeyAlgoElGamal ->
    PrivateKey.PrivateKey priv = privElGamal k ->
    encryptedMPI1 e = Some c1 ->
    encryptedMPI2 e = Some c2 ->
    elgamal_Decrypt k (SetBytes (Bytes c1)) (SetBytes (Bytes c2)) w = (inl err, w') ->
    primitiveFails priv e w err w'
| failsECDH (k : ecdh_PrivateKey) (vsG m oid : Field) :
    PrivateKey.PubKeyAlgo priv = PubKeyAlgoECDH ->
    PrivateKey.PrivateKey priv = privECDH k ->
    encryptedMPI1 e = Some vsG ->
    encryptedMPI2 e = Some m ->
    PublicKey.oid (PrivateKey.PublicKey priv) = Some oid ->
    ecdh_Decrypt k (Bytes vsG) (Bytes m) (EncodedBytes oid) (PrivateKey.Fingerprint priv) w
    = (inl err, w') ->
    primitiveFails priv e w err w'
| failsX25519 (k : x25519_PrivateKey) :
    PrivateKey.PubKeyAlgo priv = PubKeyAlgoX25519 ->
    PrivateKey.PrivateKey priv = privX25519 k ->
    x25519_Decrypt k (ephemeralPublicX25519 e) (encryptedSession e) w = (inl err, w') ->
    primitiveFails priv e w err w'
| failsX448 (k : x448_PrivateKey) :
    PrivateKey.PubKeyAlgo priv = PubKeyAlgoX448 ->
    PrivateKey.PrivateKey priv = privX448 k ->
    x448_Decrypt k (ephemeralPublicX448 e) (encryptedSession e) w = (inl err, w') ->
    primitiveFails priv e w err w'
| failsKyberHash (ecE kE m : Field) (h : bytes) :
    isKyber (PrivateKey.PubKeyAlgo priv) = true ->
    encryptedMPI1 e = Some ecE ->
    encryptedMPI2 e = Some kE ->
    encryptedMPI3 e = Some m ->
    SerializeForHash (PrivateKey.PublicKey priv) = (h, Some err) ->
    w' = w ->
    primitiveFails priv e w err w'
| failsKyber (k : kyber_ecdh_PrivateKey) (ecE kE m : Field) (h : bytes) :
    isKyber (PrivateKey.PubKeyAlgo priv) = true ->
    PrivateKey.PrivateKey priv = privKyberECDH k ->
    encryptedMPI1 e = Some ecE ->
    encryptedMPI2 e = Some kE ->
    encryptedMPI3 e = Some m ->
    SerializeForHash (PrivateKey.PublicKey priv) = (h, None) ->
    kyber_ecdh_Decrypt k (Bytes kE) (Bytes ecE) (Bytes m) (Sum256 h) w = (inl err, w') ->
    primitiveFails priv e w err w'.

(** An algorithm for which Decrypt and SerializeEncryptedKeyAEAD have a
    case. *)
Definition canEncrypt (a : PublicKeyAlgorithm) : bool :=
  isClassic a || isCFRG a || isKyber a.

(** A reader that, when it succeeds, leaves [f e] as it was, for a
    projection [f] of the packet. *)
Definition Keeps {A X} (f : EncryptedKey -> X) (m : M ParseState A) : Prop :=
  forall r e a r' e', m (r, e) = Returns (inr a, (r', e')) -> f e' = f e.

(** What identifies the recipient in a packet. *)
Definition issuerFields (e : EncryptedKey) : Z * Z * bytes * Z :=
  (Version e, KeyVersion e, KeyFingerprint e, KeyId e).

(** Lines 246-273 of Decrypt: what it does with the plaintext [b] that
    the primitive returned, for a private key of algorithm [algo]. *)
Definition keyFromPlaintext `{Externals} (algo : PublicKeyAlgorithm) (b : bytes)
    : M DecryptState unit :=
  let* (_, e) := get in
  let* key :=
    match algo with
    | PubKeyAlgoRSA | PubKeyAlgoRSAEncryptOnly | PubKeyAlgoElGamal | PubKeyAlgoECDH =>
        let* keyOffset :=
          (if Version e <? 6 then
             let* b0 := liftO (index b 0) in
             let* _ := updateE (setCipherFunc b0) in
             if negb (IsSupported b0) then
               fail (UnsupportedError "unsupported encryption function")
             else ret 1%nat
           else ret 0%nat) in
        let* (key, err) := liftO (decodeChecksumKey (skipn keyOffset b)) in
        match err with
        | Some err => fail err
        | None => ret key
        end
    | PubKeyAlgoX25519 | PubKeyAlgoX448 =>
        if (Version e <? 6) && negb (isAES (CipherFunc e)) then
          fail (StructuralError "v3 PKESK mandates AES as cipher function for x25519 and x448")
        else ret b
    | _ => ret []
    end in
  updateE (setKey key).

(** The two octets that [encodeChecksumKey] puts after a key. *)
Definition checksumOctets (key : bytes) : bytes :=
  [byteOfZ (Z.shiftr (sum16 key) 8); byteOfZ (sum16 key)].

(** The octets of a packet body before the fields of the algorithm, which
    lines 404-421 of SerializeEncryptedKeyAEAD collect in [buf]. *)
Definition headerOctets `{Externals} (aeadSupported : bool) (pub : PublicKey.t) : bytes :=
  if aeadSupported then
    x06 :: byteOfZ (PublicKey.Version pub)
      :: PublicKey.Fingerprint pub ++ [byteOfAlgo (PublicKey.PubKeyAlgo pub)]
  else x03 :: PutUint64 (PublicKey.KeyId pub) ++ [byteOfAlgo (PublicKey.PubKeyAlgo pub)].

(** The block that lines 423-440 hand to the encryption primitive. *)
Definition keyBlockOf (algo : PublicKeyAlgorithm) (aeadSupported : bool)
    (cipherFunc : CipherFunction) (key : bytes) : bytes :=
  if isClassic algo then
    (if aeadSupported then [] else [cipherFunc]) ++ key ++ checksumOctets key
  else if isCFRG algo then key
  else [].

(** Lines 442-460 of SerializeEncryptedKeyAEAD: the call of the serializer
    of the algorithm, for a header and a key block. *)
Definition serializeWith `{Externals} (pub : PublicKey.t) (cipherFunc : CipherFunction)
    (version : Z) (header keyBlock : bytes) : M WriteState unit :=
  let algo := PublicKey.PubKeyAlgo pub in
  match algo with
  | PubKeyAlgoRSA | PubKeyAlgoRSAEncryptOnly =>
      match PublicKey.PublicKey pub with
      | pubRSA k => serializeEncryptedKeyRSA header k keyBlock
      | _ => panic "interface conversion"
      end
  | PubKeyAlgoElGamal =>
      match PublicKey.PublicKey pub with
      | pubElGamal k => serializeEncryptedKeyElGamal header k keyBlock
      | _ => panic "interface conversion"
      end
  | PubKeyAlgoECDH =>
      match PublicKey.PublicKey pub with
      | pubECDH k =>
          serializeEncryptedKeyECDH header k keyBlock (PublicKey.oid pub)
            (PublicKey.Fingerprint pub)
      | _ => panic "interface conversion"
      end
  | PubKeyAlgoX25519 =>
      match PublicKey.PublicKey pub with
      | pubX25519 k => serializeEncryptedKeyX25519 header k keyBlock cipherFunc version
      | _ => panic "interface conversion"
      end
  | PubKeyAlgoX448 =>
      match PublicKey.PublicKey pub with
      | pubX448 k => serializeEncryptedKeyX448 header k keyBlock cipherFunc version
      | _ => panic "interface conversion"
      end
  | PubKeyAlgoKyber768X25519 | PubKeyAlgoKyber1024X448 | PubKeyAlgoKyber768P256
  | PubKeyAlgoKyber1024P384 | PubKeyAlgoKyber768Brainpool256
  | PubKeyAlgoKyber1024Brainpool384 =>
      match PublicKey.PublicKey pub with
      | pubKyberECDH k => serializeEncryptedKeyKyber header k keyBlock pub
      | _ => panic "interface conversion"
      end
  | PubKeyAlgoDSA | PubKeyAlgoRSASignOnly =>
      fail (InvalidArgumentError
              ("cannot encrypt to public key of type " +:+ Itoa (byteToZ (byteOfAlgo algo))))
  | _ =>
      fail (UnsupportedError
              ("encrypting a key to public key of type " +:+ Itoa (byteToZ (byteOfAlgo algo))))
  end.

(** The arguments of SerializeEncryptedKeyAEAD pass its two checks (lines
    391-402), and in a v6 packet the fingerprint fits the 35 octets of
    [buf]. *)
Definition passesChecks `{KeyTypes} (pub : PublicKey.t) (cipherFunc : CipherFunction)
    (aeadSupported : bool) : Prop :=
  (aeadSupported = true ->
   PublicKey.PubKeyAlgo pub <> PubKeyAlgoElGamal
   /\ (length (PublicKey.Fingerprint pub) <= 32)%nat)
  /\ (aeadSupported = false -> isCFRG (PublicKey.PubKeyAlgo pub) = true ->
      isAES cipherFunc = true).

(** The encryption primitive of the public key's algorithm, applied to a
    block as the serializers of lines 471-646 apply it, fails with [err]
    and leaves the world [w']; [name] is what the serializer calls the
    primitive in its own error. *)
Inductive encryptionFails `{Externals} (pub : PublicKey.t) (block : bytes)
    (w : World) (name : string) (err : error) (w' : World) : Prop :=
| encFailsRSA (k : rsa.PublicKey) :
    PublicKey.PubKeyAlgo pub = PubKeyAlgoRSA
    \/ PublicKey.PubKeyAlgo pub = PubKeyAlgoRSAEncryptOnly ->
    PublicKey.PublicKey pub = pubRSA k ->
    rsa_EncryptPKCS1v15 k block w = (inl err, w') ->
    name = "RSA"%string ->
    encryptionFails pub block w name err w'
| encFailsElGamal (k : elgamal_PublicKey) :
    PublicKey.PubKeyAlgo pub = PubKeyAlgoElGamal ->
    PublicKey.PublicKey pub = pubElGamal k ->
    elgamal_Encrypt k block w = (inl err, w') ->
    name = "ElGamal"%string ->
    encryptionFails pub block w name err w'
| encFailsECDH (k : ecdh_PublicKey) (oid : Field) :
    PublicKey.PubKeyAlgo pub = PubKeyAlgoECDH ->
    PublicKey.PublicKey pub = pubECDH k ->
    PublicKey.oid pub = Some oid ->
    ecdh_Encrypt k block (EncodedBytes oid) (PublicKey.Fingerprint pub) w = (inl err, w') ->
    name = "ECDH"%string ->
    encryptionFails pub block w name err w'
| encFailsX25519 (k : bytes) :
    PublicKey.PubKeyAlgo pub = PubKeyAlgoX25519 ->
    PublicKey.PublicKey pub = pubX25519 k ->
    x25519_Encrypt k block w = (inl err, w') ->
    name = "X25519"%string ->
    encryptionFails pub block w name err w'
| encFailsX448 (k : bytes) :
    PublicKey.PubKeyAlgo pub = PubKeyAlgoX448 ->
    PublicKey.PublicKey pub = pubX448 k ->
    x448_Encrypt k block w = (inl err, w') ->
    name = "x448"%string ->
    encryptionFails pub block w name err w'
| encFailsKyber (k : kyber_ecdh_PublicKey) :
    isKyber (PublicKey.PubKeyAlgo pub) = true ->
    PublicKey.PublicKey pub = pubKyberECDH k ->
    kyber_ecdh_Encrypt k block (Sum256 (fst (SerializeForHash pub))) w = (inl err, w') ->
    name = "kyber_ecdh"%string ->
    encryptionFails pub block w name err w'.

(** The sizes of what the encryption primitive of the public key's
    algorithm returns for a block, when it succeeds: an RSA ciphertext and
    an ECDH point fit an MPI (at most 8191 octets); an ECDH and a Kyber
    ciphertext fit a field with one length octet (at most 255 octets); an
    X25519 or X448 ephemeral key has the size of the curve (32 or 56
    octets) and the ciphertext fits one length octet; the two Kyber
    ciphertext parts fit a 16-bit length. *)
Definition ciphertextFits `{Externals} (pub : PublicKey.t) (block : bytes) (w : World) : Prop :=
  (forall k ct w', PublicKey.PublicKey pub = pubRSA k ->
                   rsa_EncryptPKCS1v15 k block w = (inr ct, w') ->
                   Z.of_nat (length ct) <= 8191)
  /\ (forall k oid vsG c w',
         PublicKey.PublicKey pub = pubECDH k -> PublicKey.oid pub = Some oid ->
         ecdh_Encrypt k block (EncodedBytes oid) (PublicKey.Fingerprint pub) w
         = (inr (vsG, c), w') ->
         Z.of_nat (length vsG) <= 8191 /\ Z.of_nat (length c) <= 255)
  /\ (forall k eph ct w', PublicKey.PublicKey pub = pubX25519 k ->
                          x25519_Encrypt k block w = (inr (eph, ct), w') ->
                          length eph = x25519_KeySize /\ Z.of_nat (length ct) <= 255)
  /\ (forall k eph ct w', PublicKey.PublicKey pub = pubX448 k ->
                          x448_Encrypt k block w = (inr (eph, ct), w') ->
                          length eph = x448_KeySize /\ Z.of_nat (length ct) <= 255)
  /\ (forall k kE ecE c w',
         PublicKey.PublicKey pub = pubKyberECDH k ->
         kyber_ecdh_Encrypt k block (Sum256 (fst (SerializeForHash pub))) w
         = (inr (kE, ecE, c), w') ->
         Z.of_nat (length kE) <= 65535 /\ Z.of_nat (length ecE) <= 65535
         /\ Z.of_nat (length c) <= 255).

(** ** A second instance, with an RSA primitive that has a key size

    As [testExternals], but RSA encryption is that of a key of a size: it
    fails for a message longer than the modulus less eleven octets, and its
    ciphertext has the octet length of the modulus, with leading zero
    octets (which an MPI does not carry, and Decrypt puts back). *)
Definition testRSAEncrypt (pub : rsa.PublicKey) (msg : bytes) : error + bytes :=
  let k := Z.to_nat ((BitLen (rsa.N pub) + 7) / 8) in
  if (length msg + 11 <=? k)%nat then inr (make (k - 1 - length msg) ++ x02 :: msg)
  else inl (goerror "crypto/rsa: message too long for RSA key size").

Definition testExternalsRSA : @Externals testKeyTypes :=
  {| World := nat;
     Error := testError;
     byteOfAlgo := testByteOfAlgo;
     algoOfByte := testAlgoOfByte;
     IsSupported := fun c => isAES c || bool_decide (c = x02) || bool_decide (c = x03);
     serializeHeader := testSerializeHeader;
     SerializeForHash := fun pub => (PublicKey.Fingerprint pub, None);
     Sum256 := fun b => firstn 32 (b ++ make 32);
     rsa_EncryptPKCS1v15 := fun pub msg w => (testRSAEncrypt pub msg, S w);
     rsa_Decrypt := fun _ c w => (testDecrypt x02 (stripLeadingZeros c), S w);
     elgamal_Encrypt := fun _ msg w => (inr (1, SetBytes (testEncrypt x02 msg)), S w);
     elgamal_Decrypt := fun _ c1 c2 w => (testDecrypt x02 (bigBytes c2), S w);
     ecdh_Encrypt := fun _ msg _ _ w => (inr ([x04; x01], testEncrypt x02 msg), S w);
     ecdh_Decrypt := fun _ _ m _ _ w => (testDecrypt x02 m, S w);
     x25519_Encrypt := fun _ msg w => (inr (make 32, testEncrypt x02 msg), S w);
     x25519_Decrypt := fun _ _ c w => (testDecrypt x02 c, S w);
     x448_Encrypt := fun _ msg w => (inr (make 56, testEncrypt x02 msg), S w);
     x448_Decrypt := fun _ _ c w => (testDecrypt x02 c, S w);
     kyber_ecdh_Encrypt :=
       fun _ msg _ w => (inr (make 1088, make 32, testEncrypt x02 msg), S w);
     kyber_ecdh_Decrypt := fun _ _ _ m _ w => (testDecrypt x02 m, S w) |}.

(** An RSA key pair with a modulus of 256 bits, for the second instance. *)
Definition testRSAKey256 : rsa.PrivateKey :=
  {| rsa.Public := {| rsa.N := 2 ^ 255 + 95; rsa.E := 65537 |}; rsa.D := 0; rsa.Primes := [] |}.

Definition testRSAPublic256 (version : Z) (fingerprint : bytes) : @PublicKey.t testKeyTypes :=
  testPublic PubKeyAlgoRSA version fingerprint (@pubRSA testKeyTypes (rsa.Public testRSAKey256)).

Definition testRSAPrivate256 (version : Z) (fingerprint : bytes) : @PrivateKey.t testKeyTypes :=
  testPrivate (testRSAPublic256 version fingerprint) (@privRSA testKeyTypes testRSAKey256).

(** Lines 94-165 of [parse]: the fields of the algorithm, for a packet
    version and the algorithm that were read. *)
Definition parseFields (version : Z) (algo : PublicKeyAlgorithm) : M ParseState unit :=
  let* cipherFunction :=
    match algo with
    | PubKeyAlgoRSA | PubKeyAlgoRSAEncryptOnly =>
        let* _ := readInto setEncryptedMPI1 (MPI [] 0) MPI_ReadFrom in
        ret x00
    | PubKeyAlgoElGamal =>
        let* _ := readInto setEncryptedMPI1 (MPI [] 0) MPI_ReadFrom in
        let* _ := readInto setEncryptedMPI2 (MPI [] 0) MPI_ReadFrom in
        ret x00
    | PubKeyAlgoECDH =>
        let* _ := readInto setEncryptedMPI1 (MPI [] 0) MPI_ReadFrom in
        let* _ := readInto setEncryptedMPI2 (OID []) OID_ReadFrom in
        ret x00
    | PubKeyAlgoX25519 =>
        let* (point, session, cipherFunction) :=
          onError (fun '(r, e) => (r, setX25519 None [] e))
            (DecodeFields x25519_KeySize (version =? 6)) in
        let* _ := updateE (setX25519 (Some point) session) in
        ret cipherFunction
    | PubKeyAlgoX448 =>
        let* (point, session, cipherFunction) :=
          onError (fun '(r, e) => (r, setX448 None [] e))
            (DecodeFields x448_KeySize (version =? 6)) in
        let* _ := updateE (setX448 (Some point) session) in
        ret cipherFunction
    | PubKeyAlgoKyber768X25519 => let* _ := readKyberECDHKey 32 1088 in ret x00
    | PubKeyAlgoKyber1024X448 => let* _ := readKyberECDHKey 56 1568 in ret x00
    | PubKeyAlgoKyber768P256 => let* _ := readKyberECDHKey 65 1088 in ret x00
    | PubKeyAlgoKyber1024P384 => let* _ := readKyberECDHKey 97 1568 in ret x00
    | PubKeyAlgoKyber768Brainpool256 => let* _ := readKyberECDHKey 65 1088 in ret x00
    | PubKeyAlgoKyber1024Brainpool384 => let* _ := readKyberECDHKey 97 1568 in ret x00
    | _ => ret x00
    end in
  let* _ :=
    (if version <? 6 then
       match algo with
       | PubKeyAlgoX25519 | PubKeyAlgoX448 => updateE (setCipherFunc cipherFunction)
       | _ => ret tt
       end
     else ret tt) in
  let* _ := consumeAll in
  ret tt.

(** The packet of [parse] once it has read the header of a body written
    for a public key: the version, what identifies the key, and the
    algorithm. *)
Definition headerParsed `{Externals} (aeadSupported : bool) (pub : PublicKey.t)
    (e0 : EncryptedKey) : EncryptedKey :=
  let algo := algoOfByte (byteOfAlgo (PublicKey.PubKeyAlgo pub)) in
  if aeadSupported then
    let fingerprint := PublicKey.Fingerprint pub in
    let e := setKeyFingerprint fingerprint
               (setKeyVersion (PublicKey.Version pub) (setVersion 6 e0)) in
    setAlgo algo
      (if PublicKey.Version pub =? 6 then setKeyId (Uint64 (firstn 8 fingerprint)) e
       else setKeyId (Uint64 (skipn 12 (firstn 20 fingerprint))) e)
  else setAlgo algo (setKeyId (PublicKey.KeyId pub) (setVersion 3 e0)).

(** A public key whose identifying fields can be written in a packet and
    read back: the key id is a [uint64]; for a v6 packet the key version is
    4, with a fingerprint of 20 octets, or 6, with one of 32. *)
Definition issuerWritable `{KeyTypes} (aeadSupported : bool) (pub : PublicKey.t) : Prop :=
  if aeadSupported then
    (PublicKey.Version pub = 4 /\ length (PublicKey.Fingerprint pub) = 20%nat)
    \/ (PublicKey.Version pub = 6 /\ length (PublicKey.Fingerprint pub) = 32%nat)
  else 0 <= PublicKey.KeyId pub < 2 ^ 64.




(** ** Package dilithium_ecdsa (encrypted_key.go, lines 647-778)

    The hybrid of Dilithium and ECDSA: key generation, signing and
    verification.  A [*big.Int], which may be nil, is an [option Z]; the
    pointers to keys that the functions are given are taken to be non-nil. *)

Module dilithium_ecdsa.

(** What the package calls outside: the methods of the curve (an
    [ecc.ECDSACurve]) and of the Dilithium instance (a
    [*dilithium.Dilithium]), and [rand.Read].  [State] is the state of the
    random reader [rand] and of everything else these may read or change;
    [Read n] gives the contents of a buffer of [n] octets after the call,
    and the error. *)
Class Primitives : Type := {
  State : Type;
  ECDSACurve : Type;
  dilithium_Dilithium : Type;
  SEEDBYTES : nat;
  Curve_GenerateECDSA :
    ECDSACurve -> State -> (error + option Z * option Z * option Z) * State;
  Curve_Sign :
    ECDSACurve -> option Z -> option Z -> option Z -> bytes -> State ->
    (error + option Z * option Z) * State;
  Curve_Verify :
    ECDSACurve -> option Z -> option Z -> bytes -> option Z -> option Z -> bool;
  Curve_MarshalFieldInteger : ECDSACurve -> option Z -> bytes;
  Curve_UnmarshalFieldInteger : ECDSACurve -> bytes -> option Z;
  Read : nat -> State -> bytes * option error * State;
  Dilithium_KeyGen : dilithium_Dilithium -> bytes -> bytes * bytes;
  Dilithium_Sign : dilithium_Dilithium -> bytes -> bytes -> State -> option bytes * State;
  Dilithium_Verify : dilithium_Dilithium -> bytes -> bytes -> bytes -> bool
}.

Record PublicKey `{Primitives} : Type := {
  AlgId : byte;
  Curve : ECDSACurve;
  Dilithium : dilithium_Dilithium;
  X : option Z;
  Y : option Z;
  PublicDilithium : bytes
}.

Record PrivateKey `{Primitives} : Type := {
  Public : PublicKey;
  SecretEC : option Z;
  SecretDilithium : bytes
}.

(** Lines 715-735. *)
Definition GenerateKey `{Primitives} (algId : byte) (c : ECDSACurve)
    (d : dilithium_Dilithium) (rand : State) : (error + PrivateKey) * State :=
  match Curve_GenerateECDSA c rand with
  | (inl err, rand) => (inl err, rand)
  | (inr (x, y, secretEC), rand) =>
      let '(dilithiumSeed, err, rand) := Read SEEDBYTES rand in
      match err with
      | Some err => (inl err, rand)
      | None =>
          let (publicDilithium, secretDilithium) := Dilithium_KeyGen d dilithiumSeed in
          (inr {| Public := {| AlgId := algId; Curve := c; Dilithium := d; X := x; Y := y;
                               PublicDilithium := publicDilithium |};
                  SecretEC := secretEC;
                  SecretDilithium := secretDilithium |},
           rand)
      end
  end.

(** Lines 737-752; the results are [dSig], [ecR] and [ecS]. *)
Definition Sign `{Primitives} (priv : PrivateKey) (message : bytes) (rand : State)
    : (error + bytes * bytes * bytes) * State :=
  let pub := Public priv in
  match Curve_Sign (Curve pub) (X pub) (Y pub) (SecretEC priv) message rand with
  | (inl err, rand) => (inl err, rand)
  | (inr (r, s), rand) =>
      let ecR := Curve_MarshalFieldInteger (Curve pub) r in
      let ecS := Curve_MarshalFieldInteger (Curve pub) s in
      match Dilithium_Sign (Dilithium pub) (SecretDilithium priv) message rand with
      | (None, rand) => (inl (goerror "dilithium_eddsa: unable to sign with dilithium"), rand)
      | (Some dSig, rand) => (inr (dSig, ecR, ecS), rand)
      end
  end.

(** Lines 754-759. *)
Definition Verify `{Primitives} (pub : PublicKey) (message dSig ecR ecS : bytes) : bool :=
  let r := Curve_UnmarshalFieldInteger (Curve pub) ecR in
  let s := Curve_UnmarshalFieldInteger (Curve pub) ecS in
  Curve_Verify (Curve pub) (X pub) (Y pub) message r s
  && Dilithium_Verify (Dilithium pub) (PublicDilithium pub) message dSig.

(** An instance to run the three functions on.  The ECDSA secret is the
    number of octets read so far and the public point repeats it; a
    signature is the secret and the length of the message, both modulo 256,
    and a field integer is marshalled as one octet.  A Dilithium key pair is
    the seed twice, and a signature the secret key followed by the message.
    The state counts the octets read. *)
Definition testPrimitives : Primitives :=
  {| State := nat;
     ECDSACurve := unit;
     dilithium_Dilithium := unit;
     SEEDBYTES := 32;
     Curve_GenerateECDSA :=
       fun _ w => (inr (Some (Z.of_nat w), Some 0, Some (Z.of_nat w)), S w);
     Curve_Sign :=
       fun _ _ _ secret message w =>
         match secret with
         | Some k => (inr (Some (k mod 256), Some (Z.of_nat (length message) mod 256)), S w)
         | None => (inl (goerror "ecdsa: no secret"), w)
         end;
     Curve_Verify :=
       fun _ x _ message r s =>
         match x, r, s with
         | Some x, Some r, Some s =>
             (r =? x mod 256) && (s =? Z.of_nat (length message) mod 256)
         | _, _, _ => false
         end;
     Curve_MarshalFieldInteger :=
       fun _ z => match z with Some z => [byteOfZ z] | None => [] end;
     Curve_UnmarshalFieldInteger :=
       fun _ b => match b with [v] => Some (byteToZ v) | _ => None end;
     Read := fun n w => (repeat xff n, None, (w + n)%nat);
     Dilithium_KeyGen := fun _ seed => (seed, seed);
     Dilithium_Sign := fun _ sk message w => (Some (sk ++ message), w);
     Dilithium_Verify :=
       fun _ pk message sig => bool_decide (sig = pk ++ message) |}.

End dilithium_ecdsa.

(** * Properties *)

(** ** Octets *)

Lemma byteToZ_range (b : byte) : 0 <= byteToZ b < 256.
Proof.
  unfold byteToZ. pose proof (Byte.to_N_bounded b). lia.
Qed.

Lemma byteToZ_byteOfZ (z : Z) : byteToZ (byteOfZ z) = z mod 256.
Proof.
  unfold byteToZ, byteOfZ.
  assert (Hr : 0 <= z mod 256 < 256) by (apply Z.mod_pos_bound; lia).
  destruct (Byte.of_N (Z.to_N (z mod 256))) as [b|] eqn:Hb.
  - apply Byte.to_of_N in Hb. rewrite Hb. lia.
  - apply Byte.of_N_None_iff in Hb. lia.
Qed.

Lemma byteOfZ_byteToZ (b : byte) : byteOfZ (byteToZ b) = b.
Proof.
  unfold byteOfZ, byteToZ.
  pose proof (Byte.to_N_bounded b).
  rewrite Z.mod_small by lia.
  rewrite N2Z.id, Byte.of_to_N. reflexivity.
Qed.

Lemma lor_shift8 (hi lo : Z) :
  0 <= hi -> 0 <= lo < 256 -> Z.lor (Z.shiftl hi 8) lo = 256 * hi + lo.
Proof.
  intros Hhi Hlo.
  rewrite Z.shiftl_mul_pow2 by lia.
  change (2 ^ 8) with 256.
  rewrite <- Z.lxor_lor, <- Z.add_nocarry_lxor; try lia.
  all: apply Z.bits_inj'; intros n Hn; rewrite Z.land_spec, Z.bits_0.
  all: destruct (Z.lt_ge_cases n 8) as [Hlt|Hge].
  all: try (replace (hi * 256) with (hi * 2 ^ 8) by reflexivity;
            rewrite Z.mul_pow2_bits_low by lia; reflexivity).
  all: rewrite (Z.bits_above_log2 lo n), andb_false_r; try reflexivity; try lia.
  all: destruct (Z.eq_dec lo 0) as [->|Hne]; [simpl; lia|].
  all: assert (Z.log2 lo < 8) by (apply Z.log2_lt_pow2; lia); lia.
Qed.

(** ** The checksum codec *)

Lemma checksumKeyMaterial_from (key : bytes) (c : Z) :
  0 <= c < 65536 ->
  fold_left (fun checksum v => uint16 (checksum + uint16 (byteToZ v))) key c
  = (c + fold_right Z.add 0 (map byteToZ key)) mod 65536.
Proof.
  revert c. induction key as [|v key IH]; intros c Hc; simpl.
  - rewrite Z.add_0_r, Z.mod_small; lia.
  - rewrite IH by (unfold uint16; apply Z.mod_pos_bound; lia).
    unfold uint16. pose proof (byteToZ_range v).
    rewrite (Z.mod_small (byteToZ v)) by lia.
    rewrite Zplus_mod_idemp_l. f_equal. lia.
Qed.

Lemma checksumKeyMaterial_sum16 (key : bytes) : checksumKeyMaterial key = sum16 key.
Proof.
  unfold checksumKeyMaterial, sum16. rewrite checksumKeyMaterial_from by lia. reflexivity.
Qed.

Lemma sum16_range (key : bytes) : 0 <= sum16 key < 65536.
Proof. unfold sum16. apply Z.mod_pos_bound. lia. Qed.

Lemma encodeChecksumKey_make (key : bytes) :
  encodeChecksumKey (make (length key + 2)) key
  = Returns (key ++ [byteOfZ (Z.shiftr (sum16 key) 8); byteOfZ (sum16 key)]).
Proof.
  unfold encodeChecksumKey, copy, make, setIndex.
  rewrite checksumKeyMaterial_sum16.
  rewrite repeat_length.
  rewrite firstn_all2 by lia.
  replace (length key + 2)%nat with (length key + 2)%nat by reflexivity.
  rewrite repeat_app, skipn_app, repeat_length, Nat.sub_diag.
  rewrite skipn_all2 by (rewrite repeat_length; lia).
  simpl app at 2. simpl skipn. simpl obind.
  assert (Hlt : (length key <? length (key ++ [x00; x00]))%nat = true).
  { apply Nat.ltb_lt. rewrite length_app. simpl. lia. }
  rewrite Hlt. simpl obind.
  rewrite insert_app_r_alt by lia. rewrite Nat.sub_diag. simpl.
  assert (Hlt2 : (length key + 1 <? length (key ++ [byteOfZ (Z.shiftr (sum16 key) 8); x00]))%nat
                 = true).
  { apply Nat.ltb_lt. rewrite length_app. simpl. lia. }
  rewrite Hlt2.
  rewrite insert_app_r_alt by lia.
  replace (length key + 1 - length key)%nat with 1%nat by lia. reflexivity.
Qed.

Lemma decodeChecksumKey_app (key : bytes) (hi lo : byte) :
  decodeChecksumKey (key ++ [hi; lo])
  = Returns (key,
             if bool_decide (256 * byteToZ hi + byteToZ lo = sum16 key) then None
             else Some (StructuralError "session key checksum is incorrect")).
Proof.
  unfold decodeChecksumKey, index.
  rewrite length_app. simpl length.
  replace (length key + 2 <? 2)%nat with false by (symmetry; apply Nat.ltb_ge; lia).
  replace (length key + 2 - 2)%nat with (length key) by lia.
  replace (length key + 2 - 1)%nat with (length key + 1)%nat by lia.
  rewrite firstn_app, Nat.sub_diag, firstn_all. simpl firstn. rewrite app_nil_r.
  rewrite lookup_app_r by lia. rewrite Nat.sub_diag. simpl lookup. simpl obind.
  rewrite lookup_app_r by lia.
  replace (length key + 1 - length key)%nat with 1%nat by lia. simpl lookup. simpl obind.
  rewrite checksumKeyMaterial_sum16.
  pose proof (byteToZ_range hi). pose proof (byteToZ_range lo).
  unfold uint16.
  rewrite (Z.mod_small (byteToZ hi)) by lia.
  rewrite (Z.mod_small (byteToZ lo)) by lia.
  rewrite (Z.mod_small (Z.shiftl (byteToZ hi) 8))
    by (rewrite Z.shiftl_mul_pow2 by lia; change (2 ^ 8) with 256; lia).
  rewrite lor_shift8 by lia.
  destruct (Z.eqb_spec (sum16 key) (256 * byteToZ hi + byteToZ lo)) as [Heq|Hne].
  - rewrite bool_decide_eq_true_2 by lia. reflexivity.
  - rewrite bool_decide_eq_false_2 by lia. reflexivity.
Qed.

(** C5.  The checksum codec is an exact round trip: encoding a key [k]
    into a buffer of two octets more than [k] (as SerializeEncryptedKeyAEAD
    allocates it) and decoding the result gives [k] back with no error.  This
    holds for a key of any length, so in particular up to 64.  And
    [decodeChecksumKey], on a message of a key followed by two octets,
    returns the structural error "session key checksum is incorrect" exactly
    when those two octets, read as a big-endian 16-bit number, differ from
    the sum of the octets of the key modulo 2^16; the Go sum in [uint16] is
    that sum. *)
Theorem checksum_codec_round_trip :
  (forall k : bytes,
      exists buffer,
        encodeChecksumKey (make (length k + 2)) k = Returns buffer
        /\ decodeChecksumKey buffer = Returns (k, None))
  /\ (forall (key : bytes) (hi lo : byte),
         decodeChecksumKey (key ++ [hi; lo])
         = Returns (key,
                    if bool_decide (256 * byteToZ hi + byteToZ lo = sum16 key) then None
                    else Some (StructuralError "session key checksum is incorrect")))
  /\ (forall key : bytes, checksumKeyMaterial key = sum16 key).
Proof.
  split; [|split].
  - intros k. eexists. split; [apply encodeChecksumKey_make|].
    rewrite decodeChecksumKey_app.
    pose proof (sum16_range k) as Hr.
    rewrite !byteToZ_byteOfZ.
    rewrite Z.shiftr_div_pow2 by lia. change (2 ^ 8) with 256.
    rewrite (Z.mod_small (sum16 k / 256)) by (split; [apply Z.div_pos; lia | apply Z.div_lt_upper_bound; lia]).
    rewrite bool_decide_eq_true_2; [reflexivity|].
    pose proof (Z.div_mod (sum16 k) 256). lia.
  - apply decodeChecksumKey_app.
  - apply checksumKeyMaterial_sum16.
Qed.

(** ** Decrypt: the checks before any primitive *)

Section DecryptGates.
Context `{X : Externals}.

Lemma Decrypt_gate_keyId (priv : PrivateKey.t) (e : EncryptedKey) (w : World) :
  Version e < 6 -> KeyId e <> 0 -> KeyId e <> PrivateKey.KeyId priv ->
  exists msg,
    run (Decrypt priv) (w, e) = Returns (Some (InvalidArgumentError msg), (w, e)).
Proof.
  intros Hv H0 Hne. unfold Decrypt. unfoldM.
  destruct (Z.ltb_spec (Version e) 6); [|lia].
  destruct (Z.eqb_spec (KeyId e) 0); [lia|].
  destruct (Z.eqb_spec (KeyId e) (PrivateKey.KeyId priv)); [lia|].
  simpl. eauto.
Qed.

Lemma Decrypt_gate_fingerprint (priv : PrivateKey.t) (e : EncryptedKey) (w : World) :
  Version e = 6 -> KeyVersion e <> 0 -> KeyFingerprint e <> PrivateKey.Fingerprint priv ->
  exists msg,
    run (Decrypt priv) (w, e) = Returns (Some (InvalidArgumentError msg), (w, e)).
Proof.
  intros Hv H0 Hne. unfold Decrypt. unfoldM.
  rewrite Hv. simpl.
  destruct (Z.eqb_spec (KeyVersion e) 0); [lia|].
  rewrite bool_decide_eq_false_2 by assumption.
  simpl. eauto.
Qed.

Lemma Decrypt_gate_algo (priv : PrivateKey.t) (e : EncryptedKey) (w : World) :
  Algo e <> PrivateKey.PubKeyAlgo priv ->
  exists msg,
    run (Decrypt priv) (w, e) = Returns (Some (InvalidArgumentError msg), (w, e)).
Proof.
  intros Hne. unfold Decrypt. unfoldM.
  destruct (_ && _ && _); [simpl; eauto|].
  destruct (_ && _ && _); [simpl; eauto|].
  rewrite bool_decide_eq_false_2 by assumption.
  simpl. eauto.
Qed.

(** When the issuer checks pass, the first two tests of Decrypt are false. *)
Lemma issuerAccepted_gates (priv : PrivateKey.t) (e : EncryptedKey) :
  issuerAccepted e priv ->
  (Version e <? 6) && negb (KeyId e =? 0) && negb (KeyId e =? PrivateKey.KeyId priv) = false
  /\ (Version e =? 6) && negb (KeyVersion e =? 0)
     && negb (bool_decide (KeyFingerprint e = PrivateKey.Fingerprint priv)) = false.
Proof.
  intros [H3 H6]. split.
  - destruct (Z.ltb_spec (Version e) 6); [|reflexivity].
    destruct (H3 ltac:(assumption)) as [->| ->]; simpl.
    + reflexivity.
    + rewrite Z.eqb_refl. simpl. apply andb_false_r.
  - destruct (Z.eqb_spec (Version e) 6); [|reflexivity].
    destruct (H6 ltac:(assumption)) as [->|Hf]; simpl.
    + reflexivity.
    + rewrite bool_decide_eq_true_2 by assumption. simpl. apply andb_false_r.
Qed.

Lemma Decrypt_gate_dummy (priv : PrivateKey.t) (e : EncryptedKey) (w : World) :
  issuerAccepted e priv -> Algo e = PrivateKey.PubKeyAlgo priv ->
  PrivateKey.Dummy priv = true ->
  run (Decrypt priv) (w, e) = Returns (Some (ErrDummyPrivateKey "dummy key found"), (w, e)).
Proof.
  intros Hi Ha Hd. destruct (issuerAccepted_gates _ _ Hi) as [G1 G2].
  unfold Decrypt. unfoldM. rewrite G1, G2.
  rewrite bool_decide_eq_true_2 by assumption. simpl. rewrite Hd. reflexivity.
Qed.

(** Decrypt after its four checks: what is left when they all pass. *)
Lemma Decrypt_past_gates (priv : PrivateKey.t) (e : EncryptedKey) (w : World) :
  issuerAccepted e priv -> Algo e = PrivateKey.PubKeyAlgo priv ->
  PrivateKey.Dummy priv = false ->
  (Version e <? 6) && negb (KeyId e =? 0) && negb (KeyId e =? PrivateKey.KeyId priv) = false
  /\ (Version e =? 6) && negb (KeyVersion e =? 0)
     && negb (bool_decide (KeyFingerprint e = PrivateKey.Fingerprint priv)) = false
  /\ negb (bool_decide (Algo e = PrivateKey.PubKeyAlgo priv)) = false.
Proof.
  intros Hi Ha Hd. destruct (issuerAccepted_gates _ _ Hi) as [G1 G2].
  repeat split; try assumption.
  rewrite bool_decide_eq_true_2 by assumption. reflexivity.
Qed.

Lemma Decrypt_anonymous (priv : PrivateKey.t) (e : EncryptedKey) (w : World) :
  Version e < 6 ->
  run (Decrypt priv) (w, setKeyId 0 e)
  = mapPacket (setKeyId 0) (run (Decrypt priv) (w, setKeyId (PrivateKey.KeyId priv) e)).
Proof.
  intros Hv. unfold Decrypt. unfoldM. simpl.
  destruct (Z.ltb_spec (Version e) 6) as [_|]; [|lia].
  rewrite Z.eqb_refl. simpl. rewrite andb_false_r.
  replace (Version e =? 6) with false by (symmetry; apply Z.eqb_neq; lia). simpl.
  destruct (bool_decide (Algo e = PrivateKey.PubKeyAlgo priv)); simpl; [|reflexivity].
  destruct (PrivateKey.Dummy priv); simpl; [reflexivity|].
  destruct (PrivateKey.PubKeyAlgo priv), (PrivateKey.PrivateKey priv); simpl; try reflexivity.
  all: repeat match goal with
         | |- context [match ?x with _ => _ end] =>
             lazymatch x with
             | context [match _ with _ => _ end] => fail
             | _ => destruct x eqn:?; simpl; try reflexivity
             end
         end.
Qed.

(** C7.  Decrypt rejects before it invokes any primitive.  For every
    instance of the external functions, every packet, private key and world:
    a v3 packet whose key id is neither 0 nor the key's gives an
    invalid-argument error, while with key id 0 (anonymous) it is treated
    exactly as with the key's own id; a v6 packet with a key version other
    than 0 and a fingerprint other than the key's gives an invalid-argument
    error; a packet of another algorithm than the key's gives an
    invalid-argument error; and when issuer and algorithm match, a dummy
    private key gives the dummy-key error.  In each of these cases the world
    and the packet, its field Key included, are returned as they were: no
    primitive, whatever it does to the world, has run. *)
Theorem Decrypt_rejects_before_any_primitive
    (priv : PrivateKey.t) (e : EncryptedKey) (w : World) :
  (Version e = 3 -> KeyId e <> 0 -> KeyId e <> PrivateKey.KeyId priv ->
   exists msg,
     run (Decrypt priv) (w, e) = Returns (Some (InvalidArgumentError msg), (w, e)))
  /\ (Version e = 3 ->
      run (Decrypt priv) (w, setKeyId 0 e)
      = mapPacket (setKeyId 0) (run (Decrypt priv) (w, setKeyId (PrivateKey.KeyId priv) e)))
  /\ (Version e = 6 -> KeyVersion e <> 0 ->
      KeyFingerprint e <> PrivateKey.Fingerprint priv ->
      exists msg,
        run (Decrypt priv) (w, e) = Returns (Some (InvalidArgumentError msg), (w, e)))
  /\ (Algo e <> PrivateKey.PubKeyAlgo priv ->
      exists msg,
        run (Decrypt priv) (w, e) = Returns (Some (InvalidArgumentError msg), (w, e)))
  /\ (issuerAccepted e priv -> Algo e = PrivateKey.PubKeyAlgo priv ->
      PrivateKey.Dummy priv = true ->
      run (Decrypt priv) (w, e)
      = Returns (Some (ErrDummyPrivateKey "dummy key found"), (w, e))).
Proof.
  repeat split.
  - intros Hv. apply Decrypt_gate_keyId. lia.
  - intros Hv. apply Decrypt_anonymous. lia.
  - apply Decrypt_gate_fingerprint.
  - apply Decrypt_gate_algo.
  - apply Decrypt_gate_dummy.
Qed.

(** ** Decrypt: the cipher function of a v3 X25519 or X448 packet *)

Lemma isCFRG_cases (a : PublicKeyAlgorithm) :
  isCFRG a = true -> a = PubKeyAlgoX25519 \/ a = PubKeyAlgoX448.
Proof.
  unfold isCFRG. intros Ha. apply orb_true_iff in Ha.
  destruct Ha as [Ha|Ha]; apply bool_decide_eq_true_1 in Ha; auto.
Qed.

Lemma Decrypt_CFRG_never_succeeds (priv : PrivateKey.t) (e : EncryptedKey) (w : World) :
  Version e = 3 -> isCFRG (Algo e) = true -> isAES (CipherFunc e) = false ->
  exists r, run (Decrypt priv) (w, e) = r
            /\ match r with Returns (None, _) => False | _ => True end.
Proof.
  intros Hv Ha Hc. eexists. split; [reflexivity|].
  unfold Decrypt. unfoldM. rewrite Hv, Hc. simpl.
  destruct (_ && _); simpl; [exact I|].
  destruct (bool_decide_reflect (Algo e = PrivateKey.PubKeyAlgo priv)) as [Heq|]; simpl;
    [|exact I].
  destruct (PrivateKey.Dummy priv); simpl; [exact I|].
  rewrite <- Heq.
  destruct (isCFRG_cases _ Ha) as [-> | ->].
  - destruct (PrivateKey.PrivateKey priv); simpl; try exact I.
    destruct (x25519_Decrypt _ _ _ _) as [[err|b] w']; simpl; exact I.
  - destruct (PrivateKey.PrivateKey priv); simpl; try exact I.
    destruct (x448_Decrypt _ _ _ _) as [[err|b] w']; simpl; exact I.
Qed.

Lemma Decrypt_CFRG_structural (priv : PrivateKey.t) (e : EncryptedKey) (w w' : World)
    (b : bytes) :
  Version e = 3 -> isCFRG (Algo e) = true -> isAES (CipherFunc e) = false ->
  issuerAccepted e priv -> Algo e = PrivateKey.PubKeyAlgo priv ->
  PrivateKey.Dummy priv = false ->
  primitiveGives priv e w b w' ->
  run (Decrypt priv) (w, e)
  = Returns (Some (StructuralError
                     "v3 PKESK mandates AES as cipher function for x25519 and x448"),
             (w', e)).
Proof.
  intros Hv Ha Hc Hi Halgo Hd Hp.
  destruct (Decrypt_past_gates priv e w Hi Halgo Hd) as (G1 & G2 & G3).
  unfold Decrypt. unfoldM. rewrite G1, G2, G3, Hd.
  rewrite Halgo in Ha.
  destruct Hp as [k c [Hk|Hk] _ _ _ | k c1 c2 Hk _ _ _ _ | k vsG m oid Hk _ _ _ _ _
                 | k Hk Hm Hr | k Hk Hm Hr];
    rewrite Hk in Ha; try discriminate Ha.
  - rewrite Hk, Hm, Hr, Hv, Hc. reflexivity.
  - rewrite Hk, Hm, Hr, Hv, Hc. reflexivity.
Qed.

Lemma Serialize_CFRG_v3_needs_AES (pub : PublicKey.t) (cipherFunc : CipherFunction)
    (key : bytes) (w : World) (out : bytes) :
  isCFRG (PublicKey.PubKeyAlgo pub) = true -> isAES cipherFunc = false ->
  run (SerializeEncryptedKeyAEAD (Some pub) cipherFunc false key) (w, out)
  = Returns (Some (InvalidArgumentError "v3 PKESK mandates AES for x25519 and x448"),
             (w, out)).
Proof.
  intros Ha Hc. unfold SerializeEncryptedKeyAEAD. unfoldM.
  destruct (isCFRG_cases _ Ha) as [Hx | Hx]; rewrite Hx, Hc; reflexivity.
Qed.

(** C4 (as the code has it).  For X25519 and X448 in a v3 packet the
    cipher function must be AES-128, AES-192 or AES-256.  Serializing with
    any other cipher function fails with the invalid-argument error and
    writes nothing.  Decrypting a v3 packet whose cipher function is another
    one never succeeds, whatever the key and the primitives.  The check of
    the cipher function comes last in Decrypt, after the checks of the
    issuer, the algorithm and the dummy key and after the primitive: so the
    error is the structural one when the packet is for the key (issuer and
    algorithm match, the key is not a dummy) and the primitive returns a
    plaintext; the packet is then left as it was, with no key set. *)
Theorem v3_CFRG_mandates_AES
    (pub : PublicKey.t) (priv : PrivateKey.t) (e : EncryptedKey)
    (cipherFunc : CipherFunction) (key : bytes) (w : World) (out : bytes) :
  (isCFRG (PublicKey.PubKeyAlgo pub) = true -> isAES cipherFunc = false ->
   run (SerializeEncryptedKeyAEAD (Some pub) cipherFunc false key) (w, out)
   = Returns (Some (InvalidArgumentError "v3 PKESK mandates AES for x25519 and x448"),
              (w, out)))
  /\ (Version e = 3 -> isCFRG (Algo e) = true -> isAES (CipherFunc e) = false ->
      (exists r, run (Decrypt priv) (w, e) = r
                 /\ match r with Returns (None, _) => False | _ => True end)
      /\ (forall (b : bytes) (w' : World),
             issuerAccepted e priv -> Algo e = PrivateKey.PubKeyAlgo priv ->
             PrivateKey.Dummy priv = false ->
             primitiveGives priv e w b w' ->
             run (Decrypt priv) (w, e)
             = Returns (Some (StructuralError
                                "v3 PKESK mandates AES as cipher function for x25519 and x448"),
                        (w', e)))).
Proof.
  split.
  - apply Serialize_CFRG_v3_needs_AES.
  - intros Hv Ha Hc. split.
    + apply Decrypt_CFRG_never_succeeds; assumption.
    + intros b w' Hi Halgo Hd Hp. eapply Decrypt_CFRG_structural; eassumption.
Qed.

(** ** SerializeEncryptedKeyAEAD: ElGamal and version 6 *)

(** C8.  For a public key of algorithm ElGamal, SerializeEncryptedKeyAEAD
    with [aeadSupported] set (a v6 packet) returns the invalid-argument
    error "ElGamal v6 PKESK are not allowed"; nothing is written to the
    output and the world is untouched. *)
Theorem SerializeEncryptedKeyAEAD_rejects_ElGamal_v6
    (pub : PublicKey.t) (cipherFunc : CipherFunction) (key : bytes)
    (w : World) (out : bytes) :
  PublicKey.PubKeyAlgo pub = PubKeyAlgoElGamal ->
  run (SerializeEncryptedKeyAEAD (Some pub) cipherFunc true key) (w, out)
  = Returns (Some (InvalidArgumentError "ElGamal v6 PKESK are not allowed"), (w, out)).
Proof.
  intros Ha. unfold SerializeEncryptedKeyAEAD. unfoldM. rewrite Ha. reflexivity.
Qed.

(** ** Decrypt: a plaintext shorter than the envelope *)

Lemma decodeChecksumKey_short (msg : bytes) :
  (length msg < 2)%nat -> decodeChecksumKey msg = Panics "slice bounds out of range".
Proof.
  intros Hl. unfold decodeChecksumKey.
  replace (length msg <? 2)%nat with true by (symmetry; apply Nat.ltb_lt; lia).
  reflexivity.
Qed.

(** C10 (the code does otherwise).  For an RSA, ElGamal or ECDH packet
    that is for the key, when the primitive returns a plaintext shorter than
    the envelope needs, Decrypt does not return an error: it panics, on the
    index [b[0]] or in the slice of decodeChecksumKey. *)
Theorem Decrypt_panics_on_short_plaintext
    (priv : PrivateKey.t) (e : EncryptedKey) (w w' : World) (b : bytes) :
  issuerAccepted e priv -> Algo e = PrivateKey.PubKeyAlgo priv ->
  PrivateKey.Dummy priv = false ->
  isClassic (PrivateKey.PubKeyAlgo priv) = true ->
  primitiveGives priv e w b w' ->
  plaintextTooShort (Version e) b ->
  exists why, run (Decrypt priv) (w, e) = Panics why.
Proof.
  intros Hi Halgo Hd Hc Hp Hs.
  destruct (Decrypt_past_gates priv e w Hi Halgo Hd) as (G1 & G2 & G3).
  unfold Decrypt. unfoldM. rewrite G1, G2, G3, Hd.
  assert (Hstrip :
    forall e0,
      exists why,
        match
          (if Version e <? 6
           then
             match index b 0 with
             | Returns b0 =>
                 if negb (IsSupported b0)
                 then Returns (inl (UnsupportedError "unsupported encryption function"),
                               (w', setCipherFunc b0 e0))
                 else Returns (inr 1%nat, (w', setCipherFunc b0 e0))
             | Panics why => Panics why
             end
           else Returns (inr 0%nat, (w', e0)))
        with
        | Returns (inr keyOffset, s) =>
            match decodeChecksumKey (skipn keyOffset b) with
            | Returns _ => Returns (@None error, s)
            | Panics why => Panics why
            end
        | Returns (inl err, s) => Returns (Some err, s)
        | Panics why => Panics why
        end = Panics why).
  { intros e0. destruct Hs as [[Hv ->] | [[Hv (c & rest & -> & Hsup & Hl)] | [Hv Hl]]].
    - destruct (Z.ltb_spec (Version e) 6); [|lia]. simpl. eauto.
    - destruct (Z.ltb_spec (Version e) 6); [|lia]. simpl. rewrite Hsup. simpl.
      rewrite decodeChecksumKey_short by assumption. eauto.
    - destruct (Z.ltb_spec (Version e) 6); [lia|]. simpl.
      rewrite decodeChecksumKey_short by assumption. eauto. }
  destruct Hp as [k c [Hk|Hk] Hm H1 Hr | k c1 c2 Hk Hm H1 H2 Hr
                 | k vsG m oid Hk Hm H1 H2 Ho Hr | k Hk Hm Hr | k Hk Hm Hr];
    rewrite Hk in *; try discriminate Hc.
  - rewrite Hm, H1. simpl. rewrite Hr.
    destruct (Hstrip e) as [why Hw]. exists why.
    revert Hw. destruct (Version e <? 6); simpl.
    + destruct (index b 0); simpl; [|congruence].
      destruct (negb (IsSupported a)); simpl; [congruence|].
      destruct (decodeChecksumKey _) as [[? [?|]]|]; simpl; congruence.
    + destruct (decodeChecksumKey _) as [[? [?|]]|]; simpl; congruence.
  - rewrite Hm, H1. simpl. rewrite Hr.
    destruct (Hstrip e) as [why Hw]. exists why.
    revert Hw. destruct (Version e <? 6); simpl.
    + destruct (index b 0); simpl; [|congruence].
      destruct (negb (IsSupported a)); simpl; [congruence|].
      destruct (decodeChecksumKey _) as [[? [?|]]|]; simpl; congruence.
    + destruct (decodeChecksumKey _) as [[? [?|]]|]; simpl; congruence.
  - rewrite Hm, H1, H2. simpl. rewrite Hr.
    destruct (Hstrip e) as [why Hw]. exists why.
    revert Hw. destruct (Version e <? 6); simpl.
    + destruct (index b 0); simpl; [|congruence].
      destruct (negb (IsSupported a)); simpl; [congruence|].
      destruct (decodeChecksumKey _) as [[? [?|]]|]; simpl; congruence.
    + destruct (decodeChecksumKey _) as [[? [?|]]|]; simpl; congruence.
  - rewrite Hm, H1, H2. unfold PrivateKey.Fingerprint in Hr. simpl. rewrite Ho. simpl.
    unfold PrivateKey.Fingerprint. rewrite Hr.
    destruct (Hstrip e) as [why Hw]. exists why.
    revert Hw. destruct (Version e <? 6); simpl.
    + destruct (index b 0); simpl; [|congruence].
      destruct (negb (IsSupported a)); simpl; [congruence|].
      destruct (decodeChecksumKey _) as [[? [?|]]|]; simpl; congruence.
    + destruct (decodeChecksumKey _) as [[? [?|]]|]; simpl; congruence.
Qed.

End DecryptGates.

Lemma Decrypt_rejects_before_any_primitive_witness :
  (exists msg,
      run (@Decrypt _ testExternals testRSAPrivate) (0%nat, testPacket 3 5 PubKeyAlgoRSA x09)
      = Returns (Some (InvalidArgumentError msg), (0%nat, testPacket 3 5 PubKeyAlgoRSA x09)))
  /\ run (@Decrypt _ testExternals testX25519Private)
       (0%nat, setKeyId 0 (testPacket 3 5 PubKeyAlgoX25519 x09))
     = Returns (None, (1%nat, setKey [x2a] (testPacket 3 0 PubKeyAlgoX25519 x09)))
  /\ (exists msg,
         run (@Decrypt _ testExternals testRSAPrivate)
           (0%nat, testPacketV6 4 (bigEndian 20 8) PubKeyAlgoRSA)
         = Returns (Some (InvalidArgumentError msg),
                    (0%nat, testPacketV6 4 (bigEndian 20 8) PubKeyAlgoRSA)))
  /\ (exists msg,
         run (@Decrypt _ testExternals testRSAPrivate)
           (0%nat, testPacket 3 7 PubKeyAlgoX25519 x09)
         = Returns (Some (InvalidArgumentError msg),
                    (0%nat, testPacket 3 7 PubKeyAlgoX25519 x09)))
  /\ run (@Decrypt _ testExternals testDummyPrivate) (0%nat, testPacket 3 7 PubKeyAlgoRSA x09)
     = Returns (Some (ErrDummyPrivateKey "dummy key found"),
                (0%nat, testPacket 3 7 PubKeyAlgoRSA x09)).
Proof.
  split; [|split; [|split; [|split]]].
  - destruct (@Decrypt_rejects_before_any_primitive _ testExternals testRSAPrivate
                (testPacket 3 5 PubKeyAlgoRSA x09) 0%nat) as (Hid & _).
    apply Hid.
    + reflexivity.
    + vm_compute. discriminate.
    + vm_compute. discriminate.
  - destruct (@Decrypt_rejects_before_any_primitive _ testExternals testX25519Private
                (testPacket 3 5 PubKeyAlgoX25519 x09) 0%nat) as (_ & Hanon & _).
    refine (eq_trans (Hanon eq_refl) _). vm_compute. reflexivity.
  - destruct (@Decrypt_rejects_before_any_primitive _ testExternals testRSAPrivate
                (testPacketV6 4 (bigEndian 20 8) PubKeyAlgoRSA) 0%nat) as (_ & _ & Hfp & _).
    apply Hfp.
    + reflexivity.
    + vm_compute. discriminate.
    + vm_compute. discriminate.
  - destruct (@Decrypt_rejects_before_any_primitive _ testExternals testRSAPrivate
                (testPacket 3 7 PubKeyAlgoX25519 x09) 0%nat) as (_ & _ & _ & Halgo & _).
    apply Halgo. vm_compute. discriminate.
  - destruct (@Decrypt_rejects_before_any_primitive _ testExternals testDummyPrivate
                (testPacket 3 7 PubKeyAlgoRSA x09) 0%nat) as (_ & _ & _ & _ & Hdummy).
    apply Hdummy.
    + split; intros Hv; vm_compute in Hv |- *; [right; reflexivity | discriminate Hv].
    + reflexivity.
    + reflexivity.
Defined.

Lemma v3_CFRG_mandates_AES_witness :
  run (@SerializeEncryptedKeyAEAD _ testExternals (Some testX25519Public) x01 false
         testSessionKey) (0%nat, [])
  = Returns (Some (InvalidArgumentError "v3 PKESK mandates AES for x25519 and x448"),
             (0%nat, []))
  /\ run (@Decrypt _ testExternals testX25519Private)
       (0%nat, testPacket 3 9 PubKeyAlgoX25519 x01)
     = Returns (Some (StructuralError
                        "v3 PKESK mandates AES as cipher function for x25519 and x448"),
                (1%nat, testPacket 3 9 PubKeyAlgoX25519 x01)).
Proof.
  destruct (@v3_CFRG_mandates_AES _ testExternals testX25519Public testX25519Private
              (testPacket 3 9 PubKeyAlgoX25519 x01) x01 testSessionKey 0%nat [])
    as [Hser Hdec].
  split.
  - apply Hser; reflexivity.
  - destruct Hdec as [_ Hstructural]; [reflexivity | reflexivity | reflexivity |].
    apply (Hstructural [x2a] 1%nat).
    + split; intros Hv; vm_compute in Hv |- *; [right; reflexivity | discriminate Hv].
    + reflexivity.
    + reflexivity.
    + apply (@givesX25519 _ testExternals _ _ _ _ _ [x01]); reflexivity.
Defined.

Lemma SerializeEncryptedKeyAEAD_rejects_ElGamal_v6_witness :
  run (@SerializeEncryptedKeyAEAD _ testExternals (Some testElGamalPublic) CipherAES256 true
         testSessionKey) (0%nat, [])
  = Returns (Some (InvalidArgumentError "ElGamal v6 PKESK are not allowed"), (0%nat, [])).
Proof.
  apply (@SerializeEncryptedKeyAEAD_rejects_ElGamal_v6 _ testExternals testElGamalPublic).
  reflexivity.
Defined.

Lemma Decrypt_panics_on_short_plaintext_witness :
  exists why,
    run (@Decrypt _ testExternals testRSAPrivate) (0%nat, testEmptyPlaintextPacket)
    = Panics why.
Proof.
  apply (@Decrypt_panics_on_short_plaintext _ testExternals testRSAPrivate
           testEmptyPlaintextPacket 0%nat 1%nat []).
  - split; intros Hv; vm_compute in Hv |- *; [right; reflexivity | discriminate Hv].
  - reflexivity.
  - reflexivity.
  - reflexivity.
  - apply (@givesRSA _ testExternals _ _ _ _ _
             {| rsa.Public := {| rsa.N := 0; rsa.E := 65537 |}; rsa.D := 0; rsa.Primes := [] |}
             (MPI [x02] 2)).
    + left. reflexivity.
    + reflexivity.
    + reflexivity.
    + reflexivity.
  - left. split; [vm_compute; reflexivity | reflexivity].
Defined.

(** C4, the claim as stated fails: not every v3 X25519 packet with
    another cipher function is refused with a structural error.  The body
    below parses to a v3 X25519 packet for the key of the instance, with
    cipher function 1; its ciphertext is one that the primitive rejects, and
    Decrypt returns the error of the primitive, which is not a structural
    error. *)
Lemma v3_CFRG_primitive_error_comes_first :
  exists (e : EncryptedKey) (err : error) (s : nat * EncryptedKey),
    run (@parse _ testExternals)
      (x03 :: bigEndian 8 9 ++ [x19] ++ make 32 ++ [x01; x00; x01], emptyEncryptedKey)
    = Returns (None, ([], e))
    /\ Version e = 3 /\ Algo e = PubKeyAlgoX25519 /\ CipherFunc e = x01
    /\ isAES (CipherFunc e) = false
    /\ run (@Decrypt _ testExternals testX25519Private) (0%nat, e) = Returns (Some err, s)
    /\ err = goerror "decryption error"
    /\ isStructural err = false.
Proof.
  eexists. eexists. eexists.
  split; [vm_compute; reflexivity|].
  repeat split; try reflexivity.
Qed.

(** ** parse: what follows the fields of the algorithm *)

Section Readers.

Lemma Stable_ret {A} (a : A) : Stable (ret a).
Proof. intros r e extra a' r' e' H. unfoldM. congruence. Qed.

Lemma Stable_fail {A} (err : error) : Stable (@fail _ A err).
Proof. intros r e extra a' r' e' H. unfoldM. congruence. Qed.

Lemma Stable_updateE (f : EncryptedKey -> EncryptedKey) : Stable (updateE f).
Proof.
  intros r e extra a' r' e' H. unfoldM. simpl in *.
  injection H as <- <- <-. reflexivity.
Qed.

Lemma Stable_readFull (n : nat) : Stable (readFull n).
Proof.
  intros r e extra a r' e' H. unfold readFull in *.
  destruct (Nat.leb_spec n (length r)) as [Hle|Hlt]; [|discriminate H].
  injection H as <- <- <-.
  replace (n <=? length (r ++ extra))%nat with true
    by (symmetry; apply Nat.leb_le; rewrite length_app; lia).
  rewrite firstn_app, skipn_app.
  replace (n - length r)%nat with 0%nat by lia.
  simpl. rewrite app_nil_r. reflexivity.
Qed.

Lemma Stable_bind {A B} (m : M ParseState A) (k : A -> M ParseState B) :
  Stable m -> (forall a, Stable (k a)) -> Stable (bind m k).
Proof.
  intros Hm Hk r e extra b r' e' H. unfold bind in *.
  destruct (m (r, e)) as [[[err|a] [r1 e1]]|why] eqn:Hrun; try discriminate H.
  rewrite (Hm _ _ extra _ _ _ Hrun). apply Hk. exact H.
Qed.

Lemma Stable_onError {A} (f : ParseState -> ParseState) (m : M ParseState A) :
  Stable m -> Stable (onError f m).
Proof.
  intros Hm r e extra a r' e' H. unfold onError in *.
  destruct (m (r, e)) as [[[err|a0] [r1 e1]]|why] eqn:Hrun; try discriminate H.
  injection H as <- <- <-.
  rewrite (Hm _ _ extra _ _ _ Hrun). reflexivity.
Qed.

Lemma Exact_fail {A} (err : error) : Exact (@fail _ A err).
Proof. intros r e extra a' r' e' H. unfoldM. congruence. Qed.

Lemma Exact_bind {A B} (m : M ParseState A) (k : A -> M ParseState B) :
  Stable m -> (forall a, Exact (k a)) -> Exact (bind m k).
Proof.
  intros Hm Hk r e extra b r' e' H. unfold bind in *.
  destruct (m (r, e)) as [[[err|a] [r1 e1]]|why] eqn:Hrun; try discriminate H.
  rewrite (Hm _ _ extra _ _ _ Hrun). exact (Hk a _ _ extra _ _ _ H).
Qed.

Lemma Exact_consumeAll : Exact (bind consumeAll (fun _ => ret tt)).
Proof.
  intros r e extra a r' e' H. unfold bind, consumeAll, ret in *.
  destruct r as [|x r]; [|discriminate H].
  injection H as <- <- <-. split; [reflexivity|].
  intros Hextra. destruct extra as [|y extra]; [contradiction|].
  cbn [app]. eexists. eexists. split; reflexivity.
Qed.

End Readers.

Create HintDb readers.
#[export] Hint Resolve Stable_ret Stable_fail Stable_updateE Stable_readFull Stable_onError
  Exact_fail Exact_consumeAll : readers.

(** Goes through a reader written with [let*], [if] and [match]. *)
Ltac reader :=
  repeat first
    [ solve [auto with readers]
    | apply Stable_bind; [| intros ?]
    | apply Exact_bind; [| intros ?]
    | match goal with
      | |- _ (if ?c then _ else _) => destruct c
      | |- _ (match ?x with _ => _ end) => destruct x
      | |- _ (let (_, _) := ?x in _) => destruct x
      end ].

Lemma Stable_MPI_ReadFrom : Stable MPI_ReadFrom.
Proof. unfold MPI_ReadFrom. reader. Qed.

Lemma Stable_OID_ReadFrom : Stable OID_ReadFrom.
Proof. unfold OID_ReadFrom. reader. Qed.

Lemma Stable_OctetArray_ReadFrom (n : nat) : Stable (OctetArray_ReadFrom n).
Proof. unfold OctetArray_ReadFrom. reader. Qed.

Lemma Stable_DecodeFields (pointSize : nat) (v6 : bool) : Stable (DecodeFields pointSize v6).
Proof. unfold DecodeFields. reader. Qed.

Lemma Stable_readInto set_ fresh read : Stable read -> Stable (readInto set_ fresh read).
Proof. intros Hr. unfold readInto. reader. Qed.

#[export] Hint Resolve Stable_MPI_ReadFrom Stable_OID_ReadFrom Stable_OctetArray_ReadFrom
  Stable_DecodeFields Stable_readInto : readers.

Lemma Stable_readKyberECDHKey (lenEcc lenKyber : nat) :
  Stable (readKyberECDHKey lenEcc lenKyber).
Proof. unfold readKyberECDHKey. reader. Qed.

#[export] Hint Resolve Stable_readKyberECDHKey : readers.

Lemma parse_Exact `{Externals} : Exact parse.
Proof. unfold parse. reader. Qed.

(** C3.  After the header and the algorithm octet [parse] reads the
    fields of the algorithm, and nothing may follow them.  A body that
    [parse] accepts has been read to its end; and that body followed by any
    further octet is rejected, with a structural error.  So the bodies that
    [parse] accepts hold exactly the fields of the algorithm. *)
Theorem parse_rejects_trailing_data `{Externals}
    (body extra : bytes) (e0 e : EncryptedKey) (rest : bytes) :
  run parse (body, e0) = Returns (None, (rest, e)) ->
  rest = []
  /\ (extra <> [] ->
      exists err s,
        run parse (body ++ extra, e0) = Returns (Some err, s)
        /\ isStructural err = true).
Proof.
  unfold run. intros Hrun.
  destruct (parse (body, e0)) as [[[err|[]] [r1 e1]]|why] eqn:Hp; try discriminate Hrun.
  injection Hrun as <- <-.
  destruct (parse_Exact _ _ extra _ _ _ Hp) as [-> Hextra].
  split; [reflexivity|].
  intros Hne. destruct (Hextra Hne) as (err & s & Hp' & Hs).
  exists err, s. rewrite Hp'. split; [reflexivity | exact Hs].
Qed.

Lemma parse_rejects_trailing_data_witness :
  exists err s,
    run (@parse _ testExternals) (testRSABody ++ [xde; xad], emptyEncryptedKey)
    = Returns (Some err, s)
    /\ isStructural err = true.
Proof.
  destruct (@parse_rejects_trailing_data _ testExternals testRSABody [xde; xad]
              emptyEncryptedKey testRSAParsed []) as [_ Hextra].
  - vm_compute. reflexivity.
  - apply Hextra. discriminate.
Defined.

(** ** The round trip through a packet, for a Kyber key *)

(** Decrypt with a Kyber key never sets a key: its second switch (lines
    247-268) has no case for the Kyber algorithms. *)
Lemma Decrypt_Kyber_sets_no_key `{Externals}
    (priv : PrivateKey.t) (e e' : EncryptedKey) (w w' : World) :
  isKyber (PrivateKey.PubKeyAlgo priv) = true ->
  run (Decrypt priv) (w, e) = Returns (None, (w', e')) ->
  Key e' = [].
Proof.
  intros Hk. unfold Decrypt. unfoldM.
  destruct (_ && _ && _); [discriminate|].
  destruct (_ && _ && _); [discriminate|].
  destruct (negb _); [discriminate|].
  destruct (PrivateKey.Dummy priv); [discriminate|].
  destruct (PrivateKey.PubKeyAlgo priv); try discriminate Hk.
  all: destruct (encryptedMPI1 e); simpl; try discriminate.
  all: destruct (encryptedMPI2 e); simpl; try discriminate.
  all: destruct (encryptedMPI3 e); simpl; try discriminate.
  all: destruct (SerializeForHash _) as [h [err|]]; simpl; try discriminate.
  all: destruct (PrivateKey.PrivateKey priv); simpl; try discriminate.
  all: destruct (kyber_ecdh_Decrypt _ _ _ _ _ _) as [[err|b] w1]; simpl; try discriminate.
  all: intros Hrun; injection Hrun as <- <-; reflexivity.
Qed.

(** SerializeEncryptedKeyAEAD for a Kyber key does not depend on the
    session key: the key block it encrypts is never assigned (lines
    423-440). *)
Lemma Serialize_Kyber_ignores_key `{Externals}
    (pub : PublicKey.t) (cipherFunc : CipherFunction) (aeadSupported : bool)
    (key : bytes) (s : WriteState) :
  isKyber (PublicKey.PubKeyAlgo pub) = true ->
  SerializeEncryptedKeyAEAD (Some pub) cipherFunc aeadSupported key s
  = SerializeEncryptedKeyAEAD (Some pub) cipherFunc aeadSupported [] s.
Proof.
  intros Hk. unfold SerializeEncryptedKeyAEAD.
  destruct (PublicKey.PubKeyAlgo pub); try discriminate Hk; reflexivity.
Qed.

(** The round trip step by step at a Kyber768+X25519 key pair, with
    primitives that are mutually inverse, and a 16-octet session key.  In a
    v3 packet: serializing succeeds and writes a header
    for 1132 octets and those octets; parsing them back succeeds; Decrypt
    with the matching private key succeeds; and the key it leaves is empty,
    not the session key.  In a v6 packet: serializing declares 1132 octets
    (ten for the header fields, which are 35) and writes 1157, so that the
    body the packet reader hands over is cut short and parsing fails. *)
Example Kyber_round_trip_step_by_step :
  run (@SerializeEncryptedKeyAEAD _ testExternals (Some testKyberPublic) CipherAES256 false
         testSessionKey) (0%nat, [])
  = Returns (None, (1%nat, testSerializeHeader packetTypeEncryptedKey 1132
                             ++ testKyberWrittenV3))
  /\ run (@parse _ testExternals) (packetBody 1132 testKyberWrittenV3, emptyEncryptedKey)
     = Returns (None, ([], testKyberParsed))
  /\ run (@Decrypt _ testExternals testKyberPrivate) (1%nat, testKyberParsed)
     = Returns (None, (2%nat, testKyberParsed))
  /\ Key testKyberParsed = []
  /\ length testSessionKey = 16%nat
  /\ run (@SerializeEncryptedKeyAEAD _ testExternals (Some testKyberPublic) CipherAES256 true
            testSessionKey) (0%nat, [])
     = Returns (None, (1%nat, testSerializeHeader packetTypeEncryptedKey 1132
                                ++ testKyberWrittenV6))
  /\ length testKyberWrittenV6 = 1157%nat
  /\ (exists s,
         run (@parse _ testExternals) (packetBody 1132 testKyberWrittenV6, emptyEncryptedKey)
         = Returns (Some ErrUnexpectedEOF, s)).
Proof.
  repeat split; try (vm_compute; reflexivity).
  eexists. vm_compute. reflexivity.
Qed.

(** C1 (the code does otherwise).  For every instance of the primitives,
    every way of reading the packet header, every key pair whose private
    key has one of the six Kyber algorithms, every cipher function, packet
    version and session key: when serializing, parsing back and Decrypt all
    succeed, the key that Decrypt leaves is empty.  So the round trip never
    recovers a session key of 16, 24 or 32 octets. *)
Theorem Kyber_round_trip_loses_the_session_key `{Externals}
    (readHeader : bytes -> option (Z * bytes)) (pub : PublicKey.t) (priv : PrivateKey.t)
    (cipherFunc : CipherFunction) (aeadSupported : bool) (key recovered : bytes)
    (w : World) :
  isKyber (PrivateKey.PubKeyAlgo priv) = true ->
  roundTrip readHeader pub priv cipherFunc aeadSupported key w = Returns (None, recovered) ->
  recovered = [].
Proof.
  intros Hk. unfold roundTrip.
  destruct (run (SerializeEncryptedKeyAEAD _ _ _ _) _) as [[[err|] [w1 packet]]|why];
    try discriminate.
  destruct (readHeader packet) as [[declared written]|]; try discriminate.
  destruct (run parse _) as [[[err|] [r e]]|why]; try discriminate.
  destruct (run (Decrypt priv) (w1, e)) as [[err [w2 e']]|why] eqn:Hd; try discriminate.
  intros Heq. injection Heq as -> <-.
  exact (Decrypt_Kyber_sets_no_key priv e e' w1 w2 Hk Hd).
Qed.

Lemma Kyber_round_trip_loses_the_session_key_witness :
  exists recovered : bytes,
    @roundTrip _ testExternals testReadHeader testKyberPublic testKyberPrivate CipherAES256
      false testSessionKey 0%nat
    = Returns (None, recovered)
    /\ recovered = []
    /\ length testSessionKey = 16%nat.
Proof.
  destruct (@roundTrip _ testExternals testReadHeader testKyberPublic testKyberPrivate
              CipherAES256 false testSessionKey 0%nat) as [[[err|] recovered]|why] eqn:Hrun;
    try (vm_compute in Hrun; discriminate Hrun).
  exists recovered. split; [reflexivity|]. split; [|reflexivity].
  apply (@Kyber_round_trip_loses_the_session_key _ testExternals testReadHeader
           testKyberPublic testKyberPrivate CipherAES256 false testSessionKey recovered 0%nat).
  - reflexivity.
  - exact Hrun.
Defined.

(** ** Key generation: post-quantum algorithms and the key format *)

Section KeyFormat.
Context `{G : Generators}.

Lemma newSigner_Dilithium_ECDSA_needs_v5 (fuel : nat) (c : Config.t) (w : Env) :
  Config.V5Keys c = false ->
  isDilithiumECDSA (Config_PublicKeyAlgorithm (Some c)) = true ->
  newSigner fuel (w, Some c)
  = Returns (inl (goerror "openpgp: cannot create a non-v5 dilithium_ecdsa key"), (w, Some c)).
Proof.
  intros Hv Ha. unfold newSigner, Config_V5Keys. unfoldM.
  destruct (Config_PublicKeyAlgorithm (Some c)); try discriminate Ha; rewrite Hv; reflexivity.
Qed.

Lemma newSigner_Dilithium_EdDSA_needs_v5 (fuel : nat) (c : Config.t) (w : Env) :
  Config.V5Keys c = false ->
  isDilithiumEdDSA (Config_PublicKeyAlgorithm (Some c)) = true ->
  newSigner fuel (w, Some c)
  = Returns (inl (goerror "openpgp: cannot create a non-v5 dilithium_eddsa key"), (w, Some c)).
Proof.
  intros Hv Ha. unfold newSigner, Config_V5Keys. unfoldM.
  destruct (Config_PublicKeyAlgorithm (Some c)); try discriminate Ha; rewrite Hv; reflexivity.
Qed.

Lemma newSigner_SphincsPlus_needs_v5 (fuel : nat) (c : Config.t) (w : Env) :
  Config.V5Keys c = false ->
  isSphincsPlus (Config_PublicKeyAlgorithm (Some c)) = true ->
  newSigner fuel (w, Some c)
  = Returns (inl (goerror "openpgp: cannot create a non-v5 sphincs+ key"), (w, Some c)).
Proof.
  intros Hv Ha. unfold newSigner, Config_V5Keys. unfoldM.
  destruct (Config_PublicKeyAlgorithm (Some c)); try discriminate Ha; rewrite Hv; reflexivity.
Qed.

(** newSigner has no case for a Kyber algorithm, whatever the key format. *)
Lemma newSigner_Kyber_unsupported (fuel : nat) (config : option Config.t) (w : Env) :
  isKyber (Config_PublicKeyAlgorithm config) = true ->
  newSigner fuel (w, config)
  = Returns (inl (InvalidArgumentError "unsupported public key algorithm"), (w, config)).
Proof.
  intros Ha. unfold newSigner. unfoldM.
  destruct (Config_PublicKeyAlgorithm config); try discriminate Ha; reflexivity.
Qed.

Lemma newDecrypter_Kyber_needs_v5 (fuel : nat) (c : Config.t) (w : Env) :
  Config.V5Keys c = false ->
  isKyber (Config_PublicKeyAlgorithm (Some c)) = true ->
  newDecrypter fuel (w, Some c)
  = Returns (inl (goerror "openpgp: cannot create a non-v5 kyber_ecdh key"), (w, Some c)).
Proof.
  intros Hv Ha. unfold newDecrypter, Config_V5Keys. unfoldM.
  destruct (Config_PublicKeyAlgorithm (Some c)); try discriminate Ha; rewrite Hv; reflexivity.
Qed.

Lemma newDecrypter_signing_needs_v5 (fuel : nat) (c : Config.t) (w : Env) :
  Config.V5Keys c = false ->
  isDilithiumECDSA (Config_PublicKeyAlgorithm (Some c))
  || isDilithiumEdDSA (Config_PublicKeyAlgorithm (Some c))
  || isSphincsPlus (Config_PublicKeyAlgorithm (Some c)) = true ->
  newDecrypter fuel (w, Some c)
  = Returns (inl (match snd (GetMatchingKyberKem (Config_PublicKeyAlgorithm (Some c))) with
                  | Some err => err
                  | None => goerror "openpgp: cannot create a non-v5 kyber_ecdh key"
                  end), (w, Some c)).
Proof.
  intros Hv Ha. unfold newDecrypter, Config_V5Keys. unfoldM.
  destruct (Config_PublicKeyAlgorithm (Some c)) eqn:Halgo; try discriminate Ha.
  all: destruct (GetMatchingKyberKem _) as [kem [err|]]; simpl; try reflexivity.
  all: rewrite Hv; reflexivity.
Qed.

(** C2 (as the code has it).  With [v5_keys] false, key generation for a
    post-quantum algorithm fails and leaves the world and the configuration
    as they were.  The error is invalid-argument only where newSigner is
    given a Kyber algorithm (which it does not know, whatever the key
    format).  Otherwise it is the plain error "openpgp: cannot create a
    non-v5 ... key" made by [errors.New]: from newSigner for the Dilithium
    and SPHINCS+ algorithms, from newDecrypter for the Kyber algorithms, and
    from newDecrypter for the Dilithium and SPHINCS+ algorithms unless the
    lookup of the matching Kyber algorithm fails, whose error is then
    returned. *)
Theorem postquantum_generation_needs_v5 (fuel : nat) (c : Config.t) (w : Env) :
  Config.V5Keys c = false ->
  let algo := Config_PublicKeyAlgorithm (Some c) in
  (isDilithiumECDSA algo = true ->
   newSigner fuel (w, Some c)
   = Returns (inl (goerror "openpgp: cannot create a non-v5 dilithium_ecdsa key"),
              (w, Some c)))
  /\ (isDilithiumEdDSA algo = true ->
      newSigner fuel (w, Some c)
      = Returns (inl (goerror "openpgp: cannot create a non-v5 dilithium_eddsa key"),
                 (w, Some c)))
  /\ (isSphincsPlus algo = true ->
      newSigner fuel (w, Some c)
      = Returns (inl (goerror "openpgp: cannot create a non-v5 sphincs+ key"), (w, Some c)))
  /\ (isKyber algo = true ->
      newSigner fuel (w, Some c)
      = Returns (inl (InvalidArgumentError "unsupported public key algorithm"), (w, Some c)))
  /\ (isKyber algo = true ->
      newDecrypter fuel (w, Some c)
      = Returns (inl (goerror "openpgp: cannot create a non-v5 kyber_ecdh key"), (w, Some c)))
  /\ (isDilithiumECDSA algo || isDilithiumEdDSA algo || isSphincsPlus algo = true ->
      newDecrypter fuel (w, Some c)
      = Returns (inl (match snd (GetMatchingKyberKem algo) with
                      | Some err => err
                      | None => goerror "openpgp: cannot create a non-v5 kyber_ecdh key"
                      end), (w, Some c))).
Proof.
  intros Hv algo. repeat split.
  - apply newSigner_Dilithium_ECDSA_needs_v5; assumption.
  - apply newSigner_Dilithium_EdDSA_needs_v5; assumption.
  - apply newSigner_SphincsPlus_needs_v5; assumption.
  - apply newSigner_Kyber_unsupported.
  - apply newDecrypter_Kyber_needs_v5; assumption.
  - apply newDecrypter_signing_needs_v5; assumption.
Qed.

End KeyFormat.

Lemma postquantum_generation_needs_v5_witness :
  @newSigner _ _ testGenerators 0
    ([], Some (testConfig PubKeyAlgoDilithium3p256 false 5 CipherAES128 x00 None))
  = Returns (inl (goerror "openpgp: cannot create a non-v5 dilithium_ecdsa key"),
             ([], Some (testConfig PubKeyAlgoDilithium3p256 false 5 CipherAES128 x00 None)))
  /\ @newDecrypter _ _ testGenerators 0
       ([], Some (testConfig PubKeyAlgoKyber768X25519 false 5 CipherAES128 x00 None))
     = Returns (inl (goerror "openpgp: cannot create a non-v5 kyber_ecdh key"),
                ([], Some (testConfig PubKeyAlgoKyber768X25519 false 5 CipherAES128 x00 None))).
Proof.
  split.
  - destruct (@postquantum_generation_needs_v5 _ _ testGenerators 0%nat
                (testConfig PubKeyAlgoDilithium3p256 false 5 CipherAES128 x00 None) []
                eq_refl) as (Hecdsa & _).
    apply Hecdsa. reflexivity.
  - destruct (@postquantum_generation_needs_v5 _ _ testGenerators 0%nat
                (testConfig PubKeyAlgoKyber768X25519 false 5 CipherAES128 x00 None) []
                eq_refl) as (_ & _ & _ & _ & Hkyber & _).
    apply Hkyber. reflexivity.
Defined.

(** C2, the claim as stated fails: for Dilithium3+Ed25519 with [v5_keys]
    false, newSigner returns an error that is not an invalid-argument
    error, and so does newDecrypter for Kyber768+X25519. *)
Lemma postquantum_error_is_not_invalid_argument :
  exists err1 err2,
    @newSigner _ _ testGenerators 0
      ([], Some (testConfig PubKeyAlgoDilithium3Ed25519 false 5 CipherAES128 x00 None))
    = Returns (inl err1,
               ([], Some (testConfig PubKeyAlgoDilithium3Ed25519 false 5 CipherAES128 x00 None)))
    /\ isInvalidArgument err1 = false
    /\ @newDecrypter _ _ testGenerators 0
         ([], Some (testConfig PubKeyAlgoKyber768X25519 false 5 CipherAES128 x00 None))
       = Returns (inl err2,
                  ([], Some (testConfig PubKeyAlgoKyber768X25519 false 5 CipherAES128 x00 None)))
    /\ isInvalidArgument err2 = false.
Proof.
  do 2 eexists. repeat split; vm_compute; reflexivity.
Qed.

(** ** addUserId: the preference lists of the self-signature *)

(** C9.  After every successful addUserId the entity holds, under the id
    of the new user id, an identity whose self-signature carries these
    preference lists: preferred-hash is the id of [config.Hash()], followed
    by the id of SHA-256 when the configured hash is not SHA-256;
    preferred-symmetric is [config.Cipher()], followed by AES-128 when the
    configured cipher is not AES-128; preferred-compression is None,
    followed by [config.Compression()] when that is not None;
    preferred-AEAD is the mode of [config.AEAD()], followed by EAX when the
    mode is not EAX. *)
Theorem addUserId_preference_lists `{Generators}
    (name comment email : string) (config : option Config.t)
    (creationTime : Time) (keyLifetimeSecs : Z)
    (w w' : Env) (t t' : Entity.t) :
  run (addUserId name comment email config creationTime keyLifetimeSecs) (w, t)
  = Returns (None, (w', t')) ->
  exists uid identity h mode,
    NewUserId name comment email = Some uid
    /\ Entity.Identities t' !! UserId_Id uid = Some identity
    /\ hashToHashId (Config_Hash config) = Returns h
    /\ AEADConfig_Mode (Config_AEAD config) = Returns mode
    /\ (if Config_Hash config =? crypto_SHA256
        then Signature.PreferredHash (Identity.SelfSignature identity) = [h]
        else exists h256,
            hashToHashId crypto_SHA256 = Returns h256
            /\ Signature.PreferredHash (Identity.SelfSignature identity) = [h; h256])
    /\ Signature.PreferredSymmetric (Identity.SelfSignature identity)
       = Config_Cipher config
           :: (if bool_decide (Config_Cipher config = CipherAES128) then []
               else [CipherAES128])
    /\ Signature.PreferredCompression (Identity.SelfSignature identity)
       = CompressionNone
           :: (if bool_decide (Config_Compression config = CompressionNone) then []
               else [Config_Compression config])
    /\ Signature.PreferredAEAD (Identity.SelfSignature identity)
       = mode :: (if bool_decide (mode = AEADModeEAX) then [] else [AEADModeEAX]).
Proof.
  unfold addUserId. unfoldM.
  destruct (NewUserId name comment email) as [uid|]; [|discriminate].
  destruct (bool_decide _); [discriminate|].
  destruct (Entity.PrivateKey t) as [primary|]; [|discriminate].
  destruct (hashToHashId (Config_Hash config)) as [h|] eqn:Hh; [|discriminate].
  destruct (AEADConfig_Mode (Config_AEAD config)) as [mode|] eqn:Hmode;
    [|destruct (negb _); [destruct (hashToHashId crypto_SHA256)|]; discriminate].
  intros Hrun. exists uid.
  destruct (Config_Hash config =? crypto_SHA256) eqn:Hsha; simpl in Hrun.
  - destruct (SignUserId _ _ _ _ _ _) as [[err|data] w1]; [discriminate|].
    injection Hrun as <- <-. simpl.
    eexists. exists h, mode.
    split; [reflexivity|]. split; [apply lookup_insert_eq|].
    split; [reflexivity|]. split; [reflexivity|].
    simpl.
    repeat case_bool_decide; simpl; try congruence; repeat split; reflexivity.
  - destruct (hashToHashId crypto_SHA256) as [h256|] eqn:H256; [|discriminate].
    destruct (SignUserId _ _ _ _ _ _) as [[err|data] w1]; [discriminate|].
    injection Hrun as <- <-. simpl.
    eexists. exists h, mode.
    split; [reflexivity|]. split; [apply lookup_insert_eq|].
    split; [reflexivity|]. split; [reflexivity|].
    simpl.
    repeat case_bool_decide; simpl; try congruence; repeat split;
      try reflexivity; exists h256; split; reflexivity.
Qed.

Lemma addUserId_preference_lists_witness :
  exists (t' : @Entity.t testKeyTypes testGenTypes) (identity : @Identity.t testGenTypes),
    run (@addUserId _ _ testGenerators "Alice" "" "alice@example.org"
           (Some (testConfig PubKeyAlgoRSA false 7 CipherAES256 x02 (Some x02))) 0 0)
      ([], testEntity)
    = Returns (None, ([], t'))
    /\ Entity.Identities t' !! ("Alice () <alice@example.org>")%string = Some identity
    /\ Signature.PreferredHash (Identity.SelfSignature identity) = [x0a; x08]
    /\ Signature.PreferredSymmetric (Identity.SelfSignature identity) = [x09; x07]
    /\ Signature.PreferredCompression (Identity.SelfSignature identity) = [x00; x02]
    /\ Signature.PreferredAEAD (Identity.SelfSignature identity) = [x02; x01].
Proof.
  destruct (run (@addUserId _ _ testGenerators "Alice" "" "alice@example.org"
                   (Some (testConfig PubKeyAlgoRSA false 7 CipherAES256 x02 (Some x02))) 0 0)
              ([], testEntity)) as [[[err|] [w' t']]|why] eqn:Hrun.
  - vm_compute in Hrun. discriminate Hrun.
  - assert (Hw : w' = []) by (vm_compute in Hrun; congruence). subst w'.
    destruct (@addUserId_preference_lists _ _ testGenerators _ _ _ _ _ _ _ _ _ _ Hrun)
      as (uid & identity & h & mode & Huid & Hid & Hh & Hmode & Hhash & Hsym & Hcomp & Haead).
    injection Huid as <-. injection Hh as <-. injection Hmode as <-.
    destruct Hhash as (h256 & H256 & Hhash). injection H256 as <-.
    exists t', identity. repeat split; assumption.
  - vm_compute in Hrun. discriminate Hrun.
Defined.

(** ** generateRSAKeyWithPrimes *)

Lemma egcd_bezout (fuel : nat) (a b : Z) :
  let '(d, x, y) := egcd fuel a b in a * x + b * y = d.
Proof.
  revert a b. induction fuel as [|fuel IH]; intros a b; simpl.
  - lia.
  - destruct (Z.eqb_spec b 0) as [->|Hb]; [lia|].
    specialize (IH b (a mod b)).
    destruct (egcd fuel b (a mod b)) as [[d x] y].
    pose proof (Z.div_mod a b Hb). nia.
Qed.

Lemma ModInverse_inverse (g n d : Z) :
  ModInverse g n = Some d -> (d * g) mod n = 1 mod n /\ Z.gcd g n = 1.
Proof.
  unfold ModInverse. intros H.
  pose proof (egcd_bezout (S (Z.to_nat (2 * Z.log2 (Z.abs n) + 2))) g (Z.abs n)) as Hb.
  destruct (egcd _ g (Z.abs n)) as [[d0 x] y].
  destruct (Z.eqb_spec d0 1) as [->|]; [|discriminate H].
  injection H as <-.
  assert (Hx : (x * g) mod n = 1 mod n).
  { destruct (Z.abs_eq_or_opp n) as [Hn|Hn]; rewrite Hn in Hb.
    - replace (x * g) with (1 + (- y) * n) by lia. apply Z_mod_plus_full.
    - replace (x * g) with (1 + y * n) by lia. apply Z_mod_plus_full. }
  split.
  - destruct (x <? 0); [|exact Hx].
    destruct (Z.abs_eq_or_opp n) as [Hn|Hn]; rewrite Hn.
    + replace ((x + n) * g) with (x * g + g * n) by lia.
      rewrite Z_mod_plus_full. exact Hx.
    + replace ((x + - n) * g) with (x * g + (- g) * n) by lia.
      rewrite Z_mod_plus_full. exact Hx.
  - apply Z.bezout_1_gcd.
    destruct (Z.abs_eq_or_opp n) as [Hn|Hn]; rewrite Hn in Hb.
    + exists x, y. lia.
    + exists x, (- y). lia.
Qed.

Lemma hasEqualPair_NoDup (earlier primes : list Z) :
  hasEqualPair earlier primes = false ->
  NoDup primes /\ (forall p, p ∈ primes -> p ∉ earlier).
Proof.
  revert earlier. induction primes as [|p primes IH]; intros earlier H; simpl in *.
  - split; [constructor | intros p Hp; inversion Hp].
  - apply orb_false_iff in H. destruct H as [Hp Hrest].
    destruct (IH _ Hrest) as [Hnd Hnot].
    assert (Hpe : p ∉ earlier).
    { intros Hin. apply list_elem_of_In in Hin.
      assert (Ht : existsb (fun q => p =? q) earlier = true)
        by (apply existsb_exists; exists p; split; [assumption | apply Z.eqb_refl]).
      congruence. }
    split.
    + apply NoDup_cons. split; [|assumption].
      intros Hin. apply (Hnot p Hin). apply elem_of_app. right. constructor.
    + intros q Hq. apply elem_of_cons in Hq as [->|Hq]; [assumption|].
      intros Hin. apply (Hnot q Hq). apply elem_of_app. left. assumption.
Qed.

Lemma fold_left_product (primes : list Z) (a : Z) :
  fold_left Z.mul primes a = a * productOf primes.
Proof.
  revert a. induction primes as [|p primes IH]; intros a; simpl.
  - lia.
  - rewrite IH. lia.
Qed.

Lemma fold_left_totient (primes : list Z) (a : Z) :
  fold_left (fun t prime => t * (prime - 1)) primes a = a * totientOf primes.
Proof.
  revert a. induction primes as [|p primes IH]; intros a; simpl.
  - lia.
  - rewrite IH. lia.
Qed.

(** Go's [int] arithmetic is plain arithmetic as long as nothing leaves
    the range of the type. *)
Lemma wrapInt_in_range (z : Z) : - 2 ^ 63 <= z < 2 ^ 63 -> wrapInt z = z.
Proof.
  intros Hz. unfold wrapInt. rewrite Z.mod_small by lia. lia.
Qed.

Lemma todoStart_in_range (nprimes bits : Z) :
  - 2 ^ 63 <= bits + Z.quot (nprimes - 2) 5 < 2 ^ 63 ->
  todoStart nprimes bits = bits + (if nprimes >=? 7 then Z.quot (nprimes - 2) 5 else 0).
Proof.
  intros Hr. unfold todoStart. destruct (nprimes >=? 7).
  - apply wrapInt_in_range. assumption.
  - lia.
Qed.

Section RSAKeyGen.
Context `{G : Generators}.

(** What the documentation of [rand.Prime] promises: a prime of exactly
    the bit length asked for. *)
Hypothesis rand_Prime_contract :
  forall (bits : Z) (w w' : Env) (p : Z),
    rand_Prime bits w = (inr p, w') -> prime p /\ BitLen p = bits.

Lemma fillPrimes_spec (count : nat) :
  forall (i nprimes todo : Z) (w w' : Env) (pre pre' primes : list Z),
    Forall prime pre ->
    fillPrimes count i nprimes todo (w, pre) = Returns (inr primes, (w', pre')) ->
    length primes = count
    /\ Forall prime primes
    /\ pre' = skipn count pre
    /\ firstn (min count (length pre)) primes = firstn count pre
    /\ (forall j : nat,
           (length pre <= j < count)%nat ->
           BitLen (nth j primes 0)
           = Z.quot (todoAfter todo (firstn j primes)) (nprimes - (i + Z.of_nat j))).
Proof.
  induction count as [|count IH]; intros i nprimes todo w w' pre pre' primes Hpre Hrun.
  - simpl in Hrun. unfoldM. injection Hrun as <- <- <-.
    repeat split; try reflexivity; [constructor | intros j Hj; lia].
  - simpl in Hrun. unfoldM.
    destruct pre as [|q rest].
    + destruct (rand_Prime (Z.quot todo (nprimes - i)) w) as [[err|p] w1] eqn:Hdraw;
        [discriminate Hrun|].
      destruct (rand_Prime_contract _ _ _ _ Hdraw) as [Hprime Hlen].
      destruct (fillPrimes count (i + 1) nprimes (wrapInt (todo - BitLen p)) (w1, []))
        as [[[err|primes'] [w2 pre2]]|why] eqn:Hrest; try discriminate Hrun.
      injection Hrun as <- <- <-.
      destruct (IH _ _ _ _ _ _ _ _ Hpre Hrest) as (Hl & Hp & Hs & Hf & Hb).
      repeat split.
      * simpl. lia.
      * constructor; assumption.
      * rewrite Hs. destruct count; reflexivity.
      * intros [|j] Hj; simpl.
        -- rewrite Hlen. f_equal. lia.
        -- rewrite Hb by (simpl in *; lia). f_equal. lia.
    + destruct (fillPrimes count (i + 1) nprimes (wrapInt (todo - BitLen q)) (w, rest))
        as [[[err|primes'] [w2 pre2]]|why] eqn:Hrest; try discriminate Hrun.
      injection Hrun as <- <- <-.
      inversion Hpre as [|? ? Hq Hrestp]; subst.
      destruct (IH _ _ _ _ _ _ _ _ Hrestp Hrest) as (Hl & Hp & Hs & Hf & Hb).
      repeat split.
      * simpl. lia.
      * constructor; assumption.
      * assumption.
      * simpl. f_equal. assumption.
      * intros [|j] Hj; simpl in Hj |- *; [lia|].
        rewrite Hb by lia. f_equal. lia.
Qed.

Lemma Forall_skipn_prime (k : nat) (l : list Z) : Forall prime l -> Forall prime (skipn k l).
Proof.
  revert l. induction k as [|k IH]; intros l Hl; simpl; [assumption|].
  destruct l as [|x l]; [constructor|]. inversion Hl; subst. apply IH. assumption.
Qed.

Lemma nextSetOfPrimes_spec (fuel : nat) :
  forall (nprimes bits : Z) (w w' : Env) (pre pre' : list Z) (priv : rsa.PrivateKey),
    Forall prime pre ->
    nextSetOfPrimes fuel nprimes bits (w, pre) = Returns (inr (Some priv), (w', pre')) ->
    exists (k : nat),
      let primes := rsa.Primes priv in
      length primes = Z.to_nat nprimes
      /\ NoDup primes
      /\ Forall prime primes
      /\ rsa.N (rsa.Public priv) = productOf primes
      /\ BitLen (rsa.N (rsa.Public priv)) = bits
      /\ rsa.E (rsa.Public priv) = 65537
      /\ (rsa.D priv * rsa.E (rsa.Public priv)) mod totientOf primes = 1 mod totientOf primes
      /\ Z.gcd (rsa.E (rsa.Public priv)) (totientOf primes) = 1
      /\ firstn (min (length primes) (length (skipn k pre))) primes
         = firstn (length primes) (skipn k pre)
      /\ (forall j : nat,
             (length (skipn k pre) <= j < length primes)%nat ->
             BitLen (nth j primes 0)
             = Z.quot (todoAfter (todoStart nprimes bits) (firstn j primes))
                 (nprimes - Z.of_nat j)).
Proof.
  induction fuel as [|fuel IH]; intros nprimes bits w w' pre pre' priv Hpre Hrun.
  - simpl in Hrun. unfoldM. discriminate Hrun.
  - simpl in Hrun. unfold bind at 1 in Hrun.
    fold (todoStart nprimes bits) in Hrun.
    destruct (fillPrimes (Z.to_nat nprimes) 0 nprimes (todoStart nprimes bits) (w, pre))
      as [[[err|primes] [w1 pre1]]|why] eqn:Hfill; try discriminate Hrun.
    destruct (fillPrimes_spec _ _ _ _ _ _ _ _ _ Hpre Hfill) as (Hl & Hp & Hs & Hf & Hb).
    assert (Hretry :
      nextSetOfPrimes fuel nprimes bits (w1, pre1) = Returns (inr (Some priv), (w', pre')) ->
      exists k : nat,
        let primes := rsa.Primes priv in
        length primes = Z.to_nat nprimes
        /\ NoDup primes
        /\ Forall prime primes
        /\ rsa.N (rsa.Public priv) = productOf primes
        /\ BitLen (rsa.N (rsa.Public priv)) = bits
        /\ rsa.E (rsa.Public priv) = 65537
        /\ (rsa.D priv * rsa.E (rsa.Public priv)) mod totientOf primes
           = 1 mod totientOf primes
        /\ Z.gcd (rsa.E (rsa.Public priv)) (totientOf primes) = 1
        /\ firstn (min (length primes) (length (skipn k pre))) primes
           = firstn (length primes) (skipn k pre)
        /\ (forall j : nat,
               (length (skipn k pre) <= j < length primes)%nat ->
               BitLen (nth j primes 0)
               = Z.quot (todoAfter (todoStart nprimes bits) (firstn j primes))
                   (nprimes - Z.of_nat j))).
    { intros Hnext. subst pre1.
      destruct (IH _ _ _ _ _ _ _ (Forall_skipn_prime _ _ Hpre) Hnext) as [k Hk].
      exists (k + Z.to_nat nprimes)%nat. rewrite <- skipn_skipn. exact Hk. }
    destruct (hasEqualPair [] primes) eqn:Hpair; [exact (Hretry Hrun)|].
    destruct (negb (BitLen (fold_left Z.mul primes 1) =? bits)) eqn:Hbits;
      [exact (Hretry Hrun)|].
    destruct (ModInverse 65537 (fold_left (fun t prime => t * (prime - 1)) primes 1))
      as [d|] eqn:Hinv; [|exact (Hretry Hrun)].
    unfoldM. injection Hrun as <- <- <-. simpl.
    exists 0%nat. simpl skipn.
    rewrite fold_left_totient, Z.mul_1_l in Hinv.
    rewrite fold_left_product, Z.mul_1_l in Hbits |- *.
    apply negb_false_iff, Z.eqb_eq in Hbits.
    destruct (ModInverse_inverse _ _ _ Hinv) as [Hd Hg].
    destruct (hasEqualPair_NoDup _ _ Hpair) as [Hnd _].
    rewrite Hl.
    repeat split; try assumption; reflexivity.
Qed.

(** C6 (as the code has it).  Whenever generateRSAKeyWithPrimes returns a
    key, for prepopulated numbers that are primes: [nprimes >= 2] and
    [bits >= 1024]; the key holds [nprimes] primes that are pairwise
    distinct; [n] is their product and has exactly [bits] bits; [e] is
    65537 and is prime to the totient (the product of the [p - 1]); and
    [d * e] is 1 modulo the totient.  The primes of the key are those of one
    round of the loop: its first primes are prepopulated ones still unused
    at that round (the prepopulated list from some position [k] on), and
    each prime after them was drawn with bit length [todo / (nprimes - i)],
    where [todo] starts at [bits], plus [(nprimes - 2) / 5] when
    [nprimes >= 7], and goes down by the bit length of each prime taken (in
    Go's [int]).  This assumes of [rand.Prime] what its documentation says.
    That the prepopulated numbers are primes is a hypothesis, since the
    function takes them as they are. *)
Theorem generateRSAKeyWithPrimes_key (fuel : nat) (nprimes bits : Z)
    (prepopulatedPrimes : list Z) (random random' : Env) (priv : rsa.PrivateKey) :
  Forall prime prepopulatedPrimes ->
  generateRSAKeyWithPrimes fuel nprimes bits prepopulatedPrimes random
  = Returns (inr (Some priv), random') ->
  2 <= nprimes /\ 1024 <= bits
  /\ exists (k : nat),
      let primes := rsa.Primes priv in
      let unused := skipn k prepopulatedPrimes in
      Z.of_nat (length primes) = nprimes
      /\ NoDup primes
      /\ Forall prime primes
      /\ rsa.N (rsa.Public priv) = productOf primes
      /\ BitLen (rsa.N (rsa.Public priv)) = bits
      /\ rsa.E (rsa.Public priv) = 65537
      /\ Z.gcd (rsa.E (rsa.Public priv)) (totientOf primes) = 1
      /\ (rsa.D priv * rsa.E (rsa.Public priv)) mod totientOf primes = 1 mod totientOf primes
      /\ firstn (min (length primes) (length unused)) primes
         = firstn (length primes) unused
      /\ (forall i : nat,
             (length unused <= i < length primes)%nat ->
             BitLen (nth i primes 0)
             = Z.quot (todoAfter (todoStart nprimes bits) (firstn i primes))
                 (nprimes - Z.of_nat i)).
Proof.
  intros Hpre. unfold generateRSAKeyWithPrimes.
  destruct (Z.ltb_spec nprimes 2); [discriminate|].
  destruct (Z.ltb_spec bits 1024); [discriminate|].
  destruct (nextSetOfPrimes fuel nprimes bits (random, prepopulatedPrimes))
    as [[r [w1 pre1]]|why] eqn:Hrun; [|discriminate].
  intros Heq. injection Heq as -> <-.
  destruct (nextSetOfPrimes_spec _ _ _ _ _ _ _ _ Hpre Hrun)
    as (k & Hl & Hnd & Hp & Hn & Hb & He & Hd & Hg & Hf & Hbud).
  split; [lia|]. split; [lia|].
  exists k. cbv zeta. repeat split; try assumption.
  rewrite Hl. lia.
Qed.

End RSAKeyGen.

(** Trial division is sound. *)
Lemma noDivisorFrom_sound (fuel : nat) :
  forall d p : Z,
    2 <= d -> p < (d + Z.of_nat fuel) * (d + Z.of_nat fuel) ->
    noDivisorFrom fuel d p = true ->
    forall k : Z, d <= k -> k * k <= p -> p mod k <> 0.
Proof.
  induction fuel as [|fuel IH]; intros d p Hd Hfuel Hno k Hk Hkk.
  - simpl in Hfuel. nia.
  - simpl in Hno.
    destruct (Z.ltb_spec p (d * d)) as [Hlt|Hge]; [nia|].
    destruct (Z.eqb_spec (p mod d) 0) as [|Hmod]; [discriminate Hno|].
    destruct (Z.eq_dec k d) as [->|Hne]; [assumption|].
    apply (IH (d + 1) p); try assumption; lia.
Qed.

Lemma isPrimeTrial_sound (p : Z) : isPrimeTrial p = true -> prime p.
Proof.
  unfold isPrimeTrial. intros H. apply andb_true_iff in H. destruct H as [H2 Hno].
  apply Z.leb_le in H2.
  assert (Hsmall : forall k : Z, 2 <= k -> k * k <= p -> p mod k <> 0).
  { apply (noDivisorFrom_sound (Z.to_nat (Z.sqrt p)) 2 p); try assumption; [lia|].
    pose proof (Z.sqrt_spec p ltac:(lia)) as Hs.
    pose proof (Z.sqrt_nonneg p).
    rewrite Z2Nat.id by assumption. unfold Z.succ in Hs. nia. }
  apply prime_alt. split; [lia|].
  intros n Hn [m Hm].
  assert (Hmpos : 1 < m < p) by nia.
  destruct (Z_le_gt_dec (n * n) p) as [Hle|Hgt].
  - apply (Hsmall n); [lia | assumption |].
    rewrite Hm. apply Z_mod_mult.
  - apply (Hsmall m); [lia | nia |].
    rewrite Hm, Z.mul_comm. apply Z_mod_mult.
Qed.

Lemma testRandPrime_contract (bits : Z) (w w' : list Z) (p : Z) :
  testRandPrime bits w = (inr p, w') -> prime p /\ BitLen p = bits.
Proof.
  unfold testRandPrime. destruct w as [|q rest]; [discriminate|].
  destruct ((2 <=? bits) && (BitLen q =? bits) && isPrimeTrial q) eqn:Hok; [|discriminate].
  intros Heq. injection Heq as <- <-.
  apply andb_true_iff in Hok. destruct Hok as [Hok Hprime].
  apply andb_true_iff in Hok. destruct Hok as [_ Hlen].
  split; [apply isPrimeTrial_sound; assumption | apply Z.eqb_eq; assumption].
Qed.

Lemma generateRSAKeyWithPrimes_key_witness :
  exists priv : rsa.PrivateKey,
    @generateRSAKeyWithPrimes _ _ testGenerators 1 64 1024 (firstn 3 testPrimeStore)
      (skipn 3 testPrimeStore)
    = Returns (inr (Some priv), [])
    /\ Z.of_nat (length (rsa.Primes priv)) = 64
    /\ NoDup (rsa.Primes priv)
    /\ Forall prime (rsa.Primes priv)
    /\ rsa.N (rsa.Public priv) = productOf (rsa.Primes priv)
    /\ BitLen (rsa.N (rsa.Public priv)) = 1024
    /\ rsa.E (rsa.Public priv) = 65537
    /\ (rsa.D priv * rsa.E (rsa.Public priv)) mod totientOf (rsa.Primes priv)
       = 1 mod totientOf (rsa.Primes priv).
Proof.
  assert (Hpre : Forall prime (firstn 3 testPrimeStore)).
  { cbn [firstn testPrimeStore].
    repeat (apply List.Forall_cons; [apply isPrimeTrial_sound; vm_compute; reflexivity|]).
    apply List.Forall_nil. }
  destruct (@generateRSAKeyWithPrimes _ _ testGenerators 1 64 1024 (firstn 3 testPrimeStore)
              (skipn 3 testPrimeStore))
    as [[[err|[priv|]] w']|why] eqn:Hrun;
    try (vm_compute in Hrun; discriminate Hrun).
  assert (Hw : w' = []) by (vm_compute in Hrun; congruence). subst w'.
  destruct (@generateRSAKeyWithPrimes_key _ _ testGenerators testRandPrime_contract
              1%nat 64 1024 (firstn 3 testPrimeStore) (skipn 3 testPrimeStore) [] priv
              Hpre Hrun)
    as (_ & _ & k & Hlen & Hnd & Hp & Hn & Hb & He & Hg & Hd & _).
  exists priv. repeat split; assumption.
Defined.

(** C6, the claim as stated fails: the prepopulated numbers are taken
    without any test.  With the two prepopulated numbers [2 ^ 511], which is
    even, and [2 ^ 512 + 1], the function returns a key for two primes and
    1024 bits whose "primes" are these two numbers: its modulus has 1024
    bits, but it is not a product of primes taken from the key. *)
Lemma generateRSAKeyWithPrimes_takes_composite_numbers :
  exists priv : rsa.PrivateKey,
    @generateRSAKeyWithPrimes _ _ testGenerators 1 2 1024 [2 ^ 511; 2 ^ 512 + 1] []
    = Returns (inr (Some priv), [])
    /\ rsa.Primes priv = [2 ^ 511; 2 ^ 512 + 1]
    /\ rsa.N (rsa.Public priv) = 2 ^ 511 * (2 ^ 512 + 1)
    /\ BitLen (rsa.N (rsa.Public priv)) = 1024
    /\ ~ prime (2 ^ 511).
Proof.
  destruct (@generateRSAKeyWithPrimes _ _ testGenerators 1 2 1024 [2 ^ 511; 2 ^ 512 + 1] [])
    as [[[err|[priv|]] w']|why] eqn:Hrun;
    try (vm_compute in Hrun; discriminate Hrun).
  vm_compute in Hrun. injection Hrun as <- <-.
  eexists. split; [reflexivity|].
  split; [vm_compute; reflexivity|]. split; [vm_compute; reflexivity|].
  split; [vm_compute; reflexivity|].
  intros [_ Hrel].
  assert (Hlt : 1 <= 2 < 2 ^ 511) by (split; [lia | reflexivity]).
  destruct (Hrel 2 Hlt) as [_ _ Hg].
  destruct (Hg 2) as [k Hk].
  - exists 1. reflexivity.
  - exists (2 ^ 510). reflexivity.
  - lia.
Qed.

(** ** The round trip, run for each algorithm

    With the mutually inverse primitives of the instance, a 16-octet
    session key, and a v4 key (20-octet fingerprint) or a v6 key (32-octet
    fingerprint): the round trip gives the session key back for RSA,
    ElGamal (v3 only), ECDH, X25519 and X448, in v3 and v6 packets. *)

Example round_trip_RSA_v3 :
  testRoundTrip PubKeyAlgoRSA 4 (bigEndian 20 4660) (@pubRSA testKeyTypes (rsa.Public testRSAKey))
    (@privRSA testKeyTypes testRSAKey) false
  = Returns (None, testSessionKey).
Proof. vm_compute. reflexivity. Qed.

Example round_trip_RSA_v6 :
  testRoundTrip PubKeyAlgoRSA 6 (bigEndian 32 4660) (@pubRSA testKeyTypes (rsa.Public testRSAKey))
    (@privRSA testKeyTypes testRSAKey) true
  = Returns (None, testSessionKey).
Proof. vm_compute. reflexivity. Qed.

Example round_trip_ElGamal_v3 :
  testRoundTrip PubKeyAlgoElGamal 4 (bigEndian 20 4660) (@pubElGamal testKeyTypes [x01])
    (@privElGamal testKeyTypes [x01]) false
  = Returns (None, testSessionKey).
Proof. vm_compute. reflexivity. Qed.

Example round_trip_ECDH_v3 :
  testRoundTrip PubKeyAlgoECDH 4 (bigEndian 20 4660) (@pubECDH testKeyTypes [x01])
    (@privECDH testKeyTypes [x01]) false
  = Returns (None, testSessionKey).
Proof. vm_compute. reflexivity. Qed.

Example round_trip_ECDH_v6 :
  testRoundTrip PubKeyAlgoECDH 6 (bigEndian 32 4660) (@pubECDH testKeyTypes [x01])
    (@privECDH testKeyTypes [x01]) true
  = Returns (None, testSessionKey).
Proof. vm_compute. reflexivity. Qed.

Example round_trip_X25519_v3 :
  testRoundTrip PubKeyAlgoX25519 4 (bigEndian 20 4660) (@pubX25519 testKeyTypes (make 32))
    (@privX25519 testKeyTypes [x01]) false
  = Returns (None, testSessionKey).
Proof. vm_compute. reflexivity. Qed.

Example round_trip_X25519_v6 :
  testRoundTrip PubKeyAlgoX25519 6 (bigEndian 32 4660) (@pubX25519 testKeyTypes (make 32))
    (@privX25519 testKeyTypes [x01]) true
  = Returns (None, testSessionKey).
Proof. vm_compute. reflexivity. Qed.

Example round_trip_X448_v3 :
  testRoundTrip PubKeyAlgoX448 4 (bigEndian 20 4660) (@pubX448 testKeyTypes (make 56))
    (@privX448 testKeyTypes [x01]) false
  = Returns (None, testSessionKey).
Proof. vm_compute. reflexivity. Qed.

Example round_trip_X448_v6 :
  testRoundTrip PubKeyAlgoX448 6 (bigEndian 32 4660) (@pubX448 testKeyTypes (make 56))
    (@privX448 testKeyTypes [x01]) true
  = Returns (None, testSessionKey).
Proof. vm_compute. reflexivity. Qed.

(** For a Kyber key the v3 round trip succeeds and gives the empty key,
    and the v6 round trip fails in [parse]. *)
Example round_trip_Kyber_v3 :
  testRoundTrip PubKeyAlgoKyber768X25519 4 (bigEndian 20 4660)
    (@pubKyberECDH testKeyTypes [x01]) (@privKyberECDH testKeyTypes [x01]) false
  = Returns (None, []).
Proof. vm_compute. reflexivity. Qed.

Example round_trip_Kyber_v6 :
  testRoundTrip PubKeyAlgoKyber768X25519 6 (bigEndian 32 4660)
    (@pubKyberECDH testKeyTypes [x01]) (@privKyberECDH testKeyTypes [x01]) true
  = Returns (Some ErrUnexpectedEOF, []).
Proof. vm_compute. reflexivity. Qed.

(** * Further properties *)

(** ** Running a function of the monad *)

Lemma bind_inr {S A B} (m : M S A) (k : A -> M S B) (s s' : S) (b : B) :
  bind m k s = Returns (inr b, s') ->
  exists a s1, m s = Returns (inr a, s1) /\ k a s1 = Returns (inr b, s').
Proof.
  unfold bind. destruct (m s) as [[[err|a] s1]|why]; try discriminate.
  intros Hk. exists a, s1. split; [reflexivity | assumption].
Qed.

Lemma run_None {S} (m : M S unit) (s s' : S) :
  run m s = Returns (None, s') <-> m s = Returns (inr tt, s').
Proof.
  unfold run. destruct (m s) as [[[err|[]] s1]|why]; split; intros Hr;
    try discriminate Hr; injection Hr as <-; reflexivity.
Qed.

Lemma run_Some {S} (m : M S unit) (s s' : S) (err : error) :
  run m s = Returns (Some err, s') <-> m s = Returns (inl err, s').
Proof.
  unfold run. destruct (m s) as [[[err'|[]] s1]|why]; split; intros Hr;
    try discriminate Hr; injection Hr as <- <-; reflexivity.
Qed.

Lemma readFull_inr (n : nat) (r r' : bytes) (e e' : EncryptedKey) (b : bytes) :
  readFull n (r, e) = Returns (inr b, (r', e')) ->
  r = b ++ r' /\ length b = n /\ e' = e.
Proof.
  unfold readFull. destruct (Nat.leb_spec n (length r)); [|discriminate].
  intros Hr. injection Hr as <- <- <-.
  split; [symmetry; apply firstn_skipn|]. split; [rewrite length_firstn; lia | reflexivity].
Qed.

Lemma readFull_app (b r : bytes) (e : EncryptedKey) :
  readFull (length b) (b ++ r, e) = Returns (inr b, (r, e)).
Proof.
  unfold readFull. rewrite length_app.
  replace (length b <=? length b + length r)%nat with true by (symmetry; apply Nat.leb_le; lia).
  rewrite firstn_app, Nat.sub_diag, firstn_all. simpl. rewrite app_nil_r.
  rewrite skipn_app, Nat.sub_diag, skipn_all. reflexivity.
Qed.

(** ** parse: the two version octets *)

(** X1.  [parse] accepts the packet versions 3 and 6 only, and in a v6
    packet the key versions 0, 4 and 6 only.  For any other first octet it
    returns the unsupported error "unknown EncryptedKey version N"; for a v6
    packet with any other second octet, "unknown public key version N".  It
    has then read nothing more of the body, and has stored the octets it
    rejects in the fields Version and KeyVersion of the packet. *)
Theorem parse_rejects_unknown_versions `{Externals}
    (v kv : byte) (rest : bytes) (e : EncryptedKey) :
  (byteToZ v <> 3 -> byteToZ v <> 6 ->
   run parse (v :: rest, e)
   = Returns (Some (UnsupportedError ("unknown EncryptedKey version " +:+ Itoa (byteToZ v))),
              (rest, setVersion (byteToZ v) e)))
  /\ (byteToZ kv <> 0 -> byteToZ kv <> 4 -> byteToZ kv <> 6 ->
      run parse (x06 :: kv :: rest, e)
      = Returns (Some (UnsupportedError
                         ("unknown public key version " +:+ Itoa (byteToZ kv))),
                 (rest, setKeyVersion (byteToZ kv) (setVersion 6 e)))).
Proof.
  split.
  - intros Hv3 Hv6. unfold parse. unfoldM. unfold readFull. simpl.
    destruct (Z.eqb_spec (byteToZ v) 3); [contradiction|].
    destruct (Z.eqb_spec (byteToZ v) 6); [contradiction|].
    reflexivity.
  - intros Hk0 Hk4 Hk6. unfold parse. unfoldM. unfold readFull. simpl.
    destruct (Z.eqb_spec (byteToZ kv) 0); [contradiction|].
    destruct (Z.eqb_spec (byteToZ kv) 4); [contradiction|].
    destruct (Z.eqb_spec (byteToZ kv) 6); [contradiction|].
    reflexivity.
Qed.

Lemma parse_rejects_unknown_versions_witness :
  run (@parse _ testExternals) ([x04; x00; x01], emptyEncryptedKey)
  = Returns (Some (UnsupportedError ("unknown EncryptedKey version " +:+ Itoa (byteToZ x04))),
             ([x00; x01], setVersion (byteToZ x04) emptyEncryptedKey))
  /\ run (@parse _ testExternals) ([x06; x05; x01], emptyEncryptedKey)
     = Returns (Some (UnsupportedError ("unknown public key version " +:+ Itoa (byteToZ x05))),
                ([x01], setKeyVersion (byteToZ x05) (setVersion 6 emptyEncryptedKey))).
Proof.
  destruct (@parse_rejects_unknown_versions _ testExternals x04 x05 [x00; x01]
              emptyEncryptedKey) as [Hv _].
  destruct (@parse_rejects_unknown_versions _ testExternals x04 x05 [x01]
              emptyEncryptedKey) as [_ Hkv].
  split.
  - apply Hv; intros Hx; vm_compute in Hx; discriminate Hx.
  - apply Hkv; intros Hx; vm_compute in Hx; discriminate Hx.
Defined.

(** ** parse: what identifies the recipient *)

Section KeepsReaders.
Context {X : Type} (f : EncryptedKey -> X).

Lemma Keeps_ret {A} (a : A) : Keeps f (ret a).
Proof. intros r e a' r' e' Hr. unfoldM. inversion Hr. reflexivity. Qed.

Lemma Keeps_fail {A} (err : error) : Keeps f (@fail _ A err).
Proof. intros r e a' r' e' Hr. discriminate Hr. Qed.

Lemma Keeps_readFull (n : nat) : Keeps f (readFull n).
Proof.
  intros r e a r' e' Hr. apply readFull_inr in Hr. destruct Hr as (_ & _ & ->). reflexivity.
Qed.

Lemma Keeps_consumeAll : Keeps f consumeAll.
Proof.
  intros r e a r' e' Hr. unfold consumeAll in Hr.
  destruct r; inversion Hr. reflexivity.
Qed.

Lemma Keeps_updateE (g : EncryptedKey -> EncryptedKey) :
  (forall e, f (g e) = f e) -> Keeps f (updateE g).
Proof.
  intros Hg r e a r' e' Hr. unfoldM. simpl in Hr. inversion Hr. apply Hg.
Qed.

Lemma Keeps_bind {A B} (m : M ParseState A) (k : A -> M ParseState B) :
  Keeps f m -> (forall a, Keeps f (k a)) -> Keeps f (bind m k).
Proof.
  intros Hm Hk r e b r' e' Hr. apply bind_inr in Hr.
  destruct Hr as (a & [r1 e1] & H1 & H2).
  rewrite (Hk a _ _ _ _ _ H2). exact (Hm _ _ _ _ _ H1).
Qed.

Lemma Keeps_onError {A} (g : ParseState -> ParseState) (m : M ParseState A) :
  Keeps f m -> Keeps f (onError g m).
Proof.
  intros Hm r e a r' e' Hr. unfold onError in Hr.
  destruct (m (r, e)) as [[[err|a'] [r1 e1]]|why] eqn:Hrun; try discriminate Hr.
  inversion Hr; subst. exact (Hm _ _ _ _ _ Hrun).
Qed.

End KeepsReaders.

(** Goes through a reader for [Keeps], for a projection that the setters
    met do not touch. *)
Ltac keeps :=
  repeat first
    [ apply Keeps_ret
    | apply Keeps_fail
    | apply Keeps_readFull
    | apply Keeps_consumeAll
    | apply Keeps_updateE; intros ?; reflexivity
    | apply Keeps_onError
    | apply Keeps_bind; [| intros ?]
    | match goal with
      | |- Keeps _ (if ?c then _ else _) => destruct c
      | |- Keeps _ (match ?x with _ => _ end) => destruct x
      | |- Keeps _ (let (_, _) := ?x in _) => destruct x
      end ].


Lemma updateE_inr {R} (f : EncryptedKey -> EncryptedKey) (r r' : R) (e e' : EncryptedKey) a :
  updateE f (r, e) = Returns (inr a, (r', e')) -> r' = r /\ e' = f e.
Proof. unfold updateE, modify. intros Hr. inversion Hr. split; reflexivity. Qed.

(** One step of a successful run of [let* x := m in k]. *)
Ltac step H :=
  let a := fresh "a" in let r := fresh "r" in let e := fresh "e" in
  let H1 := fresh "Hstep" in
  apply bind_inr in H; destruct H as (a & [r e] & H1 & H);
  first [ apply readFull_inr in H1; destruct H1 as (-> & ? & ->)
        | apply updateE_inr in H1; destruct H1 as (-> & ->)
        | idtac ].

(** X2.  What identifies the recipient in a packet that [parse] accepts.
    The packet version is 3 or 6.  In a v3 packet the key id is the eight
    octets after the version octet, read big-endian.  In a v6 packet the key
    version is 0, 4 or 6: with key version 6 the fingerprint is the next 32
    octets and the key id its first eight octets; with key version 4 the
    fingerprint is the next 20 octets and the key id its last eight; with
    key version 0 (an anonymous recipient) no fingerprint is read and the
    key id is left as it was. *)
Theorem parse_issuer `{Externals} (body r : bytes) (e0 e : EncryptedKey) :
  run parse (body, e0) = Returns (None, (r, e)) ->
  (Version e = 3
   /\ KeyId e = Uint64 (firstn 8 (skipn 1 body))
   /\ KeyVersion e = KeyVersion e0 /\ KeyFingerprint e = KeyFingerprint e0)
  \/ (Version e = 6
      /\ ((KeyVersion e = 0 /\ KeyFingerprint e = [] /\ KeyId e = KeyId e0)
          \/ (KeyVersion e = 4 /\ KeyFingerprint e = firstn 20 (skipn 2 body)
              /\ length (KeyFingerprint e) = 20%nat
              /\ KeyId e = Uint64 (skipn 12 (KeyFingerprint e)))
          \/ (KeyVersion e = 6 /\ KeyFingerprint e = firstn 32 (skipn 2 body)
              /\ length (KeyFingerprint e) = 32%nat
              /\ KeyId e = Uint64 (firstn 8 (KeyFingerprint e))))).
Proof.
  intros Hrun. apply run_None in Hrun. unfold parse in Hrun.
  step Hrun. destruct a as [|v [|? ?]]; try discriminate. simpl nth in Hrun.
  step Hrun.
  destruct (negb (byteToZ v =? 3) && negb (byteToZ v =? 6)) eqn:Hv; [discriminate Hrun|].
  step Hrun.
  match type of Hrun with ?m _ = _ => assert (Hk : Keeps issuerFields m) by (unfold readInto, readKyberECDHKey, DecodeFields, MPI_ReadFrom, OID_ReadFrom, OctetArray_ReadFrom; keeps) end.
  apply Hk in Hrun. clear Hk.
  unfold issuerFields in Hrun. injection Hrun as Hver Hkv Hfp Hid.
  rewrite Hver, Hkv, Hfp, Hid. clear Hver Hkv Hfp Hid e.
  destruct (Z.eqb_spec (byteToZ v) 6) as [Hv6|Hv6].
  - right.
    step Hstep. destruct a1 as [|kv [|? ?]]; try discriminate. simpl nth in Hstep.
    step Hstep.
    destruct (negb (byteToZ kv =? 0) && negb (byteToZ kv =? 4) && negb (byteToZ kv =? 6))
      eqn:Hkv; [discriminate Hstep|].
    step Hstep. step Hstep.
    destruct (Z.eqb_spec (byteToZ kv) 6) as [Hk6|Hk6];
      [|destruct (Z.eqb_spec (byteToZ kv) 4) as [Hk4|Hk4]].
    + apply updateE_inr in Hstep. destruct Hstep as (-> & ->). simpl.
      split; [assumption|]. right. right.
      rewrite drop_0, take_app_length' by (symmetry; assumption).
      repeat split; assumption.
    + apply updateE_inr in Hstep. destruct Hstep as (-> & ->). simpl.
      split; [assumption|]. right. left.
      rewrite drop_0, take_app_length' by (symmetry; assumption).
      rewrite firstn_all2 by lia.
      repeat split; assumption.
    + unfold ret in Hstep. inversion Hstep; subst. simpl.
      split; [assumption|]. left.
      destruct a2; [|discriminate].
      repeat split.
      simpl in Hkv. destruct (Z.eqb_spec (byteToZ kv) 0); [assumption|].
      simpl in Hkv. destruct (Z.eqb_spec (byteToZ kv) 4); [contradiction|].
      simpl in Hkv. destruct (Z.eqb_spec (byteToZ kv) 6); [contradiction|discriminate].
  - left. destruct (Z.eqb_spec (byteToZ v) 3) as [Hv3|Hv3]; [|discriminate Hv].
    step Hstep. apply updateE_inr in Hstep. destruct Hstep as (-> & ->). simpl.
    rewrite drop_0, take_app_length' by (symmetry; assumption).
    repeat split; assumption.
Qed.

Lemma parse_issuer_witness :
  exists (r : bytes) (e : EncryptedKey),
    run (@parse _ testExternals)
      (x06 :: x04 :: bigEndian 20 4660 ++ [x19] ++ make 32 ++ [x02; x02; x2a],
       emptyEncryptedKey)
    = Returns (None, (r, e))
    /\ Version e = 6 /\ KeyVersion e = 4 /\ KeyId e = 4660.
Proof.
  destruct (run (@parse _ testExternals)
              (x06 :: x04 :: bigEndian 20 4660 ++ [x19] ++ make 32 ++ [x02; x02; x2a],
               emptyEncryptedKey)) as [[[err|] [r e]]|why] eqn:Hrun;
    try (vm_compute in Hrun; discriminate Hrun).
  exists r, e. split; [reflexivity|].
  destruct (@parse_issuer _ testExternals _ _ _ _ Hrun)
    as [(Hv & _) | (Hv & [(Hkv & _) | [(Hkv & Hfp & _ & Hid) | (Hkv & _)]])];
    vm_compute in Hrun; injection Hrun as <- <-;
    try (vm_compute in Hv; discriminate Hv); try (vm_compute in Hkv; discriminate Hkv).
  split; [exact Hv|]. split; [exact Hkv|]. vm_compute. reflexivity.
Defined.

(** ** Decrypt: after the primitive *)

Section DecryptEnvelope.
Context `{X : Externals}.

#[local] Arguments decodeChecksumKey : simpl never.

(** Past its four checks, and once the primitive has returned a
    plaintext, Decrypt is its lines 246-273 on that plaintext. *)
Lemma Decrypt_after_primitive (priv : PrivateKey.t) (e : EncryptedKey) (w w' : World)
    (b : bytes) :
  issuerAccepted e priv -> Algo e = PrivateKey.PubKeyAlgo priv ->
  PrivateKey.Dummy priv = false ->
  primitiveGives priv e w b w' ->
  Decrypt priv (w, e) = keyFromPlaintext (PrivateKey.PubKeyAlgo priv) b (w', e).
Proof.
  intros Hi Halgo Hd Hp.
  destruct (Decrypt_past_gates priv e w Hi Halgo Hd) as (G1 & G2 & G3).
  unfold Decrypt, keyFromPlaintext. unfoldM. rewrite G1, G2, G3, Hd.
  destruct Hp as [k c [Hk|Hk] Hm H1 Hr | k c1 c2 Hk Hm H1 H2 Hr
                 | k vsG m oid Hk Hm H1 H2 Ho Hr | k Hk Hm Hr | k Hk Hm Hr];
    rewrite Hk.
  - rewrite Hm, H1. simpl. rewrite Hr. reflexivity.
  - rewrite Hm, H1. simpl. rewrite Hr. reflexivity.
  - rewrite Hm, H1, H2. simpl. rewrite Hr. reflexivity.
  - rewrite Hm, H1, H2. unfold PrivateKey.Fingerprint in Hr. simpl. rewrite Ho. simpl.
    unfold PrivateKey.Fingerprint. rewrite Hr. reflexivity.
  - rewrite Hm, Hr. reflexivity.
  - rewrite Hm, Hr. reflexivity.
Qed.

Lemma isClassic_cases (a : PublicKeyAlgorithm) :
  isClassic a = true ->
  a = PubKeyAlgoRSA \/ a = PubKeyAlgoRSAEncryptOnly \/ a = PubKeyAlgoElGamal
  \/ a = PubKeyAlgoECDH.
Proof.
  unfold isClassic. intros Ha. repeat (apply orb_true_iff in Ha; destruct Ha as [Ha|Ha]);
    apply bool_decide_eq_true_1 in Ha; auto.
Qed.

Lemma keyFromPlaintext_v3 (a : PublicKeyAlgorithm) (e : EncryptedKey) (w : World)
    (cf : CipherFunction) (key : bytes) (hi lo : byte) :
  isClassic a = true -> Version e < 6 -> IsSupported cf = true ->
  run (keyFromPlaintext a (cf :: key ++ [hi; lo])) (w, e)
  = Returns (if bool_decide (256 * byteToZ hi + byteToZ lo = sum16 key)
             then (None, (w, setKey key (setCipherFunc cf e)))
             else (Some (StructuralError "session key checksum is incorrect"),
                   (w, setCipherFunc cf e))).
Proof.
  intros Ha Hv Hs. unfold keyFromPlaintext. unfoldM.
  destruct (Z.ltb_spec (Version e) 6); [|lia].
  destruct (isClassic_cases a Ha) as [-> | [-> | [-> | ->]]]; simpl; rewrite Hs; simpl;
    rewrite ?drop_0, decodeChecksumKey_app; destruct (bool_decide _); reflexivity.
Qed.

Lemma keyFromPlaintext_v6 (a : PublicKeyAlgorithm) (e : EncryptedKey) (w : World)
    (key : bytes) (hi lo : byte) :
  isClassic a = true -> 6 <= Version e ->
  run (keyFromPlaintext a (key ++ [hi; lo])) (w, e)
  = Returns (if bool_decide (256 * byteToZ hi + byteToZ lo = sum16 key)
             then (None, (w, setKey key e))
             else (Some (StructuralError "session key checksum is incorrect"), (w, e))).
Proof.
  intros Ha Hv. unfold keyFromPlaintext. unfoldM.
  destruct (Z.ltb_spec (Version e) 6); [lia|].
  destruct (isClassic_cases a Ha) as [-> | [-> | [-> | ->]]]; simpl;
    rewrite ?drop_0, decodeChecksumKey_app; destruct (bool_decide _); reflexivity.
Qed.

(** X3.  Decrypt with an RSA, ElGamal or ECDH key, on a packet that is
    for the key, when the primitive returns a plaintext that is a well-formed
    envelope.  In a packet of a version below 6 the envelope is one octet
    for the cipher function, the key, and the two octets of the checksum of
    the key, big-endian: when the cipher function is a supported one, Decrypt
    succeeds and sets the fields CipherFunc and Key of the packet to the two.
    In a v6 packet the envelope is the key and its checksum: Decrypt
    succeeds, sets Key and leaves CipherFunc as it was.  Nothing else of the
    packet changes, and the world is as the primitive left it. *)
Theorem Decrypt_recovers_enveloped_key
    (priv : PrivateKey.t) (e : EncryptedKey) (w w' : World)
    (cf : CipherFunction) (key : bytes) (hi lo : byte) :
  issuerAccepted e priv -> Algo e = PrivateKey.PubKeyAlgo priv ->
  PrivateKey.Dummy priv = false ->
  isClassic (PrivateKey.PubKeyAlgo priv) = true ->
  256 * byteToZ hi + byteToZ lo = sum16 key ->
  (Version e < 6 -> IsSupported cf = true ->
   primitiveGives priv e w (cf :: key ++ [hi; lo]) w' ->
   run (Decrypt priv) (w, e) = Returns (None, (w', setKey key (setCipherFunc cf e))))
  /\ (6 <= Version e ->
      primitiveGives priv e w (key ++ [hi; lo]) w' ->
      run (Decrypt priv) (w, e) = Returns (None, (w', setKey key e))).
Proof.
  intros Hi Halgo Hd Hc Hsum. split.
  - intros Hv Hs Hp. unfold run.
    rewrite (Decrypt_after_primitive priv e w w' _ Hi Halgo Hd Hp).
    fold (run (keyFromPlaintext (PrivateKey.PubKeyAlgo priv) (cf :: key ++ [hi; lo])) (w', e)).
    rewrite keyFromPlaintext_v3 by assumption.
    rewrite bool_decide_eq_true_2 by assumption. reflexivity.
  - intros Hv Hp. unfold run.
    rewrite (Decrypt_after_primitive priv e w w' _ Hi Halgo Hd Hp).
    fold (run (keyFromPlaintext (PrivateKey.PubKeyAlgo priv) (key ++ [hi; lo])) (w', e)).
    rewrite keyFromPlaintext_v6 by assumption.
    rewrite bool_decide_eq_true_2 by assumption. reflexivity.
Qed.

(** X4.  What Decrypt with an RSA, ElGamal or ECDH key rejects in the
    plaintext of the primitive.  In a packet of a version below 6, a first
    octet that is not a supported cipher function gives the unsupported
    error, whatever follows it.  A checksum that is not the sum of the
    octets of the key modulo 2^16 gives the structural error "session key
    checksum is incorrect".  In both cases no key is set; but in a packet of
    a version below 6 the field CipherFunc has already been overwritten with
    the first octet of the plaintext. *)
Theorem Decrypt_rejects_bad_envelope
    (priv : PrivateKey.t) (e : EncryptedKey) (w w' : World)
    (cf : CipherFunction) (rest key : bytes) (hi lo : byte) :
  issuerAccepted e priv -> Algo e = PrivateKey.PubKeyAlgo priv ->
  PrivateKey.Dummy priv = false ->
  isClassic (PrivateKey.PubKeyAlgo priv) = true ->
  (Version e < 6 -> IsSupported cf = false ->
   primitiveGives priv e w (cf :: rest) w' ->
   run (Decrypt priv) (w, e)
   = Returns (Some (UnsupportedError "unsupported encryption function"),
              (w', setCipherFunc cf e)))
  /\ (Version e < 6 -> IsSupported cf = true ->
      256 * byteToZ hi + byteToZ lo <> sum16 key ->
      primitiveGives priv e w (cf :: key ++ [hi; lo]) w' ->
      run (Decrypt priv) (w, e)
      = Returns (Some (StructuralError "session key checksum is incorrect"),
                 (w', setCipherFunc cf e)))
  /\ (6 <= Version e ->
      256 * byteToZ hi + byteToZ lo <> sum16 key ->
      primitiveGives priv e w (key ++ [hi; lo]) w' ->
      run (Decrypt priv) (w, e)
      = Returns (Some (StructuralError "session key checksum is incorrect"), (w', e))).
Proof.
  intros Hi Halgo Hd Hc. split; [|split].
  - intros Hv Hs Hp. unfold run.
    rewrite (Decrypt_after_primitive priv e w w' _ Hi Halgo Hd Hp).
    unfold keyFromPlaintext. unfoldM.
    destruct (Z.ltb_spec (Version e) 6); [|lia].
    destruct (isClassic_cases _ Hc) as [-> | [-> | [-> | ->]]]; simpl; rewrite Hs;
      reflexivity.
  - intros Hv Hs Hsum Hp. unfold run.
    rewrite (Decrypt_after_primitive priv e w w' _ Hi Halgo Hd Hp).
    fold (run (keyFromPlaintext (PrivateKey.PubKeyAlgo priv) (cf :: key ++ [hi; lo])) (w', e)).
    rewrite keyFromPlaintext_v3 by assumption.
    rewrite bool_decide_eq_false_2 by assumption. reflexivity.
  - intros Hv Hsum Hp. unfold run.
    rewrite (Decrypt_after_primitive priv e w w' _ Hi Halgo Hd Hp).
    fold (run (keyFromPlaintext (PrivateKey.PubKeyAlgo priv) (key ++ [hi; lo])) (w', e)).
    rewrite keyFromPlaintext_v6 by assumption.
    rewrite bool_decide_eq_false_2 by assumption. reflexivity.
Qed.

(** X5.  Decrypt with an X25519 or X448 key, on a packet that is for the
    key: when the packet is a v6 packet, or its cipher function is AES-128,
    AES-192 or AES-256, the key that Decrypt sets is the whole plaintext of
    the primitive, with no cipher octet and no checksum taken off, whatever
    its length.  Nothing else of the packet changes. *)
Theorem Decrypt_CFRG_key_is_plaintext
    (priv : PrivateKey.t) (e : EncryptedKey) (w w' : World) (b : bytes) :
  issuerAccepted e priv -> Algo e = PrivateKey.PubKeyAlgo priv ->
  PrivateKey.Dummy priv = false ->
  isCFRG (PrivateKey.PubKeyAlgo priv) = true ->
  (Version e < 6 -> isAES (CipherFunc e) = true) ->
  primitiveGives priv e w b w' ->
  run (Decrypt priv) (w, e) = Returns (None, (w', setKey b e)).
Proof.
  intros Hi Halgo Hd Hc Haes Hp. unfold run.
  rewrite (Decrypt_after_primitive priv e w w' _ Hi Halgo Hd Hp).
  unfold keyFromPlaintext. unfoldM.
  assert (Hgate : (Version e <? 6) && negb (isAES (CipherFunc e)) = false).
  { destruct (Z.ltb_spec (Version e) 6); [|reflexivity]. rewrite Haes by assumption.
    reflexivity. }
  destruct (isCFRG_cases _ Hc) as [-> | ->]; simpl; rewrite Hgate; reflexivity.
Qed.

(** X6.  An error of the decryption primitive is the error of Decrypt,
    passed on as it is and not wrapped; the packet is returned as it was.
    And for a private key of an algorithm that Decrypt has no case for,
    on a packet of that algorithm, Decrypt returns an invalid-argument error
    without having changed the world or the packet. *)
Theorem Decrypt_passes_primitive_error_on
    (priv : PrivateKey.t) (e : EncryptedKey) (w w' : World) (err : error) :
  issuerAccepted e priv -> Algo e = PrivateKey.PubKeyAlgo priv ->
  PrivateKey.Dummy priv = false ->
  (primitiveFails priv e w err w' ->
   run (Decrypt priv) (w, e) = Returns (Some err, (w', e)))
  /\ (canEncrypt (PrivateKey.PubKeyAlgo priv) = false ->
      run (Decrypt priv) (w, e)
      = Returns (Some (InvalidArgumentError
                         ("cannot decrypt encrypted session key with private key of type "
                          +:+ Itoa (byteToZ (byteOfAlgo (PrivateKey.PubKeyAlgo priv))))),
                 (w, e))).
Proof.
  intros Hi Halgo Hd.
  destruct (Decrypt_past_gates priv e w Hi Halgo Hd) as (G1 & G2 & G3).
  split.
  - intros Hp. unfold Decrypt. unfoldM. rewrite G1, G2, G3, Hd.
    destruct Hp as [k c [Hk|Hk] Hm H1 Hr | k c1 c2 Hk Hm H1 H2 Hr
                   | k vsG m oid Hk Hm H1 H2 Ho Hr | k Hk Hm Hr | k Hk Hm Hr
                   | ecE kE m h Hk H1 H2 H3 Hh -> | k ecE kE m h Hk Hm H1 H2 H3 Hh Hr].
    + rewrite Hk, Hm, H1. simpl. rewrite Hr. reflexivity.
    + rewrite Hk, Hm, H1. simpl. rewrite Hr. reflexivity.
    + rewrite Hk, Hm, H1, H2. simpl. rewrite Hr. reflexivity.
    + rewrite Hk, Hm, H1, H2. unfold PrivateKey.Fingerprint in Hr. simpl. rewrite Ho. simpl.
      unfold PrivateKey.Fingerprint. rewrite Hr. reflexivity.
    + rewrite Hk, Hm, Hr. reflexivity.
    + rewrite Hk, Hm, Hr. reflexivity.
    + destruct (PrivateKey.PubKeyAlgo priv); try discriminate Hk;
        rewrite H1, H2, H3; simpl; rewrite Hh; reflexivity.
    + destruct (PrivateKey.PubKeyAlgo priv); try discriminate Hk;
        rewrite Hm, H1, H2, H3; simpl; rewrite Hh, Hr; reflexivity.
  - intros Hc. unfold Decrypt. unfoldM. rewrite G1, G2, G3, Hd.
    destruct (PrivateKey.PubKeyAlgo priv); try discriminate Hc; reflexivity.
Qed.

End DecryptEnvelope.

Lemma Decrypt_recovers_enveloped_key_witness :
  run (@Decrypt _ testExternals testRSAPrivate)
    (0%nat,
     setEncryptedMPI1 (Some (MPI (x02 :: x09 :: testSessionKey ++ [x00; x88]) 154))
       (testPacket 3 7 PubKeyAlgoRSA x00))
  = Returns (None,
             (1%nat,
              setKey testSessionKey
                (setCipherFunc x09
                   (setEncryptedMPI1
                      (Some (MPI (x02 :: x09 :: testSessionKey ++ [x00; x88]) 154))
                      (testPacket 3 7 PubKeyAlgoRSA x00))))).
Proof.
  destruct (@Decrypt_recovers_enveloped_key _ testExternals testRSAPrivate
              (setEncryptedMPI1 (Some (MPI (x02 :: x09 :: testSessionKey ++ [x00; x88]) 154))
                 (testPacket 3 7 PubKeyAlgoRSA x00))
              0%nat 1%nat x09 testSessionKey x00 x88) as [Hv3 _].
  - split; intros Hv; [right; reflexivity | vm_compute in Hv; discriminate Hv].
  - reflexivity.
  - reflexivity.
  - reflexivity.
  - vm_compute. reflexivity.
  - apply Hv3.
    + vm_compute. reflexivity.
    + reflexivity.
    + eapply (@givesRSA _ testExternals); [left; reflexivity | reflexivity | reflexivity |].
      vm_compute. reflexivity.
Defined.

Lemma Decrypt_rejects_bad_envelope_witness :
  run (@Decrypt _ testExternals testRSAPrivate)
    (0%nat,
     setEncryptedMPI1 (Some (MPI (x02 :: x09 :: testSessionKey ++ [x00; x89]) 154))
       (testPacket 3 7 PubKeyAlgoRSA x00))
  = Returns (Some (StructuralError "session key checksum is incorrect"),
             (1%nat,
              setCipherFunc x09
                (setEncryptedMPI1
                   (Some (MPI (x02 :: x09 :: testSessionKey ++ [x00; x89]) 154))
                   (testPacket 3 7 PubKeyAlgoRSA x00))))
  /\ run (@Decrypt _ testExternals testRSAPrivate)
       (0%nat,
        setEncryptedMPI1 (Some (MPI [x02; x63] 10)) (testPacket 3 7 PubKeyAlgoRSA x00))
     = Returns (Some (UnsupportedError "unsupported encryption function"),
                (1%nat,
                 setCipherFunc x63
                   (setEncryptedMPI1 (Some (MPI [x02; x63] 10))
                      (testPacket 3 7 PubKeyAlgoRSA x00)))).
Proof.
  split.
  - destruct (@Decrypt_rejects_bad_envelope _ testExternals testRSAPrivate
                (setEncryptedMPI1 (Some (MPI (x02 :: x09 :: testSessionKey ++ [x00; x89]) 154))
                   (testPacket 3 7 PubKeyAlgoRSA x00))
                0%nat 1%nat x09 [] testSessionKey x00 x89) as (_ & Hsum & _).
    + split; intros Hv; [right; reflexivity | vm_compute in Hv; discriminate Hv].
    + reflexivity.
    + reflexivity.
    + reflexivity.
    + apply Hsum.
      * vm_compute. reflexivity.
      * reflexivity.
      * intros Hx. vm_compute in Hx. discriminate Hx.
      * eapply (@givesRSA _ testExternals); [left; reflexivity | reflexivity | reflexivity |].
        vm_compute. reflexivity.
  - destruct (@Decrypt_rejects_bad_envelope _ testExternals testRSAPrivate
                (setEncryptedMPI1 (Some (MPI [x02; x63] 10))
                   (testPacket 3 7 PubKeyAlgoRSA x00))
                0%nat 1%nat x63 [] [] x00 x00) as (Hcf & _).
    + split; intros Hv; [right; reflexivity | vm_compute in Hv; discriminate Hv].
    + reflexivity.
    + reflexivity.
    + reflexivity.
    + apply Hcf.
      * vm_compute. reflexivity.
      * reflexivity.
      * eapply (@givesRSA _ testExternals); [left; reflexivity | reflexivity | reflexivity |].
        vm_compute. reflexivity.
Defined.

Lemma Decrypt_CFRG_key_is_plaintext_witness :
  run (@Decrypt _ testExternals testX25519Private)
    (0%nat, testPacket 3 9 PubKeyAlgoX25519 CipherAES128)
  = Returns (None, (1%nat, setKey [x2a] (testPacket 3 9 PubKeyAlgoX25519 CipherAES128))).
Proof.
  apply (@Decrypt_CFRG_key_is_plaintext _ testExternals testX25519Private
           (testPacket 3 9 PubKeyAlgoX25519 CipherAES128) 0%nat 1%nat [x2a]).
  - split; intros Hv; [right; reflexivity | vm_compute in Hv; discriminate Hv].
  - reflexivity.
  - reflexivity.
  - reflexivity.
  - intros _. reflexivity.
  - eapply (@givesX25519 _ testExternals); [reflexivity | reflexivity |].
    vm_compute. reflexivity.
Defined.

Lemma Decrypt_passes_primitive_error_on_witness :
  run (@Decrypt _ testExternals testRSAPrivate)
    (0%nat, setEncryptedMPI1 (Some (MPI [x05] 3)) (testPacket 3 7 PubKeyAlgoRSA x00))
  = Returns (Some (goerror "decryption error"),
             (1%nat,
              setEncryptedMPI1 (Some (MPI [x05] 3)) (testPacket 3 7 PubKeyAlgoRSA x00))).
Proof.
  destruct (@Decrypt_passes_primitive_error_on _ testExternals testRSAPrivate
              (setEncryptedMPI1 (Some (MPI [x05] 3)) (testPacket 3 7 PubKeyAlgoRSA x00))
              0%nat 1%nat (goerror "decryption error")) as [Hfail _].
  - split; intros Hv; [right; reflexivity | vm_compute in Hv; discriminate Hv].
  - reflexivity.
  - reflexivity.
  - apply Hfail.
    eapply (@failsRSA _ testExternals); [left; reflexivity | reflexivity | reflexivity |].
    vm_compute. reflexivity.
Defined.

(** ** SerializeEncryptedKeyAEAD: the header and the key block *)

Section SerializeHeader.
Context `{X : Externals}.

Lemma length_bigEndian (n : nat) (z : Z) : length (bigEndian n z) = n.
Proof. unfold bigEndian. rewrite length_map, length_rev, length_seq. reflexivity. Qed.

Lemma make_S (n : nat) : make (S n) = x00 :: make n.
Proof. reflexivity. Qed.

Lemma length_make (n : nat) : length (make n) = n.
Proof. apply repeat_length. Qed.

Lemma make_add (n m : nat) : make (n + m) = make n ++ make m.
Proof. apply repeat_app. Qed.

(** The key block of an RSA, ElGamal or ECDH packet, as lines 426-436
    build it. *)
Lemma keyBlock_v3 {St B} (cipherFunc : CipherFunction) (key : bytes)
    (k : bytes -> M St B) (s : St) :
  bind
    (bind
       (bind (liftO (setIndex (make (length key + 2 + 1)) 0 cipherFunc))
          (fun keyBlock => ret (keyBlock, 1%nat)))
       (fun '(keyBlock, keyOffset) =>
          bind (liftO (encodeChecksumKey (skipn keyOffset keyBlock) key))
            (fun tail => ret (firstn keyOffset keyBlock ++ tail))))
    k s
  = k (cipherFunc :: key ++ checksumOctets key) s.
Proof.
  replace (length key + 2 + 1)%nat with (S (length key + 2)) by lia.
  rewrite make_S. unfold setIndex. simpl length. simpl Nat.ltb.
  unfold bind, liftO, ret.
  change (0 <? S (length (make (length key + 2))))%nat with true.
  cbn -[encodeChecksumKey make checksumOctets].
  rewrite drop_0, take_0, encodeChecksumKey_make. reflexivity.
Qed.

Lemma keyBlock_v6 {St B} (key : bytes) (k : bytes -> M St B) (s : St) :
  bind
    (bind (ret (make (length key + 2), 0%nat))
       (fun '(keyBlock, keyOffset) =>
          bind (liftO (encodeChecksumKey (skipn keyOffset keyBlock) key))
            (fun tail => ret (firstn keyOffset keyBlock ++ tail))))
    k s
  = k (key ++ checksumOctets key) s.
Proof.
  unfold bind, liftO, ret.
  cbn -[encodeChecksumKey make checksumOctets].
  rewrite ?drop_0, ?take_0, encodeChecksumKey_make. reflexivity.
Qed.

Lemma sliceCopy_v3 (v : byte) (l : bytes) :
  length l = 8%nat ->
  sliceCopy (v :: make 34) 1 9 l = Returns (v :: l ++ make 26).
Proof.
  intros Hl. do 9 (destruct l as [|? l]; try discriminate Hl). reflexivity.
Qed.

Lemma setIndex_v3 (v a : byte) (l : bytes) :
  length l = 8%nat ->
  setIndex (v :: l ++ make 26) 9 a = Returns (v :: l ++ a :: make 25).
Proof.
  intros Hl. do 9 (destruct l as [|? l]; try discriminate Hl). reflexivity.
Qed.

Lemma take_v3 (v a : byte) (l : bytes) :
  length l = 8%nat ->
  firstn 10 (v :: l ++ a :: make 25) = v :: l ++ [a].
Proof.
  intros Hl. do 9 (destruct l as [|? l]; try discriminate Hl). reflexivity.
Qed.

Lemma skipn_make (n m : nat) : skipn n (make m) = make (m - n).
Proof.
  unfold make. revert n. induction m as [|m IH]; intros [|n]; simpl; try reflexivity.
  apply IH.
Qed.

Lemma sliceCopy_v6 (v kv : byte) (fp : bytes) :
  (length fp <= 33)%nat ->
  sliceCopy (v :: kv :: make 33) 2 (length fp + 2) fp
  = Returns (v :: kv :: fp ++ make (33 - length fp)).
Proof.
  intros Hl. rewrite <- skipn_make.
  pose proof (length_make 33) as Hz. revert Hz. generalize (make 33). intros z Hz.
  unfold sliceCopy. cbn [length].
  replace (length fp + 2 <=? S (S (length z)))%nat with true
    by (symmetry; apply Nat.leb_le; lia).
  replace (2 <=? length fp + 2)%nat with true by (symmetry; apply Nat.leb_le; lia).
  simpl andb. cbv iota.
  replace (length fp + 2 - 2)%nat with (length fp) by lia.
  replace (length fp + 2)%nat with (S (S (length fp))) by lia.
  simpl firstn. simpl skipn. unfold copy.
  rewrite take_0, !drop_0, length_firstn, Hz.
  replace (Nat.min (length fp) 33) with (length fp) by lia.
  rewrite firstn_all.
  rewrite (skipn_all2 (n := length fp) (firstn (length fp) z))
    by (rewrite length_firstn; lia).
  rewrite app_nil_r. reflexivity.
Qed.

Lemma setIndex_v6 (v kv a : byte) (fp : bytes) :
  (length fp <= 32)%nat ->
  setIndex (v :: kv :: fp ++ make (33 - length fp)) (1 + (length fp + 1)) a
  = Returns (v :: kv :: fp ++ a :: make (32 - length fp)).
Proof.
  intros Hl. unfold setIndex. simpl length. rewrite length_app, length_make.
  replace (1 + (length fp + 1) <? S (S (length fp + (33 - length fp))))%nat with true
    by (symmetry; apply Nat.ltb_lt; lia).
  replace (1 + (length fp + 1))%nat with (S (S (length fp))) by lia.
  simpl. rewrite insert_app_r_alt by lia. rewrite Nat.sub_diag.
  replace (33 - length fp)%nat with (S (32 - length fp)) by lia.
  reflexivity.
Qed.

Lemma take_v6 (v kv a : byte) (fp rest : bytes) :
  firstn (1 + (length fp + 1) + 1) (v :: kv :: fp ++ a :: rest) = v :: kv :: fp ++ [a].
Proof.
  replace (1 + (length fp + 1) + 1)%nat with (S (S (length fp + 1))) by lia.
  simpl. f_equal. f_equal.
  change (a :: rest) with ([a] ++ rest). rewrite app_assoc.
  rewrite take_app_length'; [reflexivity|]. rewrite length_app. simpl. lia.
Qed.


Lemma bind_ret_s {St A B} (a : A) (k : A -> M St B) (s : St) : bind (ret a) k s = k a s.
Proof. reflexivity. Qed.

Lemma bind_liftO_s {St A B} (a : A) (k : A -> M St B) (s : St) :
  bind (liftO (Returns a)) k s = k a s.
Proof. reflexivity. Qed.

Lemma bind_bind_s {St A B C} (m : M St A) (f : A -> M St B) (g : B -> M St C) (s : St) :
  bind (bind m f) g s = bind m (fun x => bind (f x) g) s.
Proof. unfold bind. destruct (m s) as [[[err|a] s1]|why]; reflexivity. Qed.

Lemma SerializeEncryptedKeyAEAD_serializeWith (pub : PublicKey.t)
    (cipherFunc : CipherFunction) (aeadSupported : bool) (key : bytes) (s : WriteState) :
  passesChecks pub cipherFunc aeadSupported ->
  SerializeEncryptedKeyAEAD (Some pub) cipherFunc aeadSupported key s
  = serializeWith pub cipherFunc (if aeadSupported then 6 else 3)
      (headerOctets aeadSupported pub)
      (keyBlockOf (PublicKey.PubKeyAlgo pub) aeadSupported cipherFunc key) s.
Proof.
  intros [H6 H3]. unfold SerializeEncryptedKeyAEAD. cbv zeta.
  destruct aeadSupported.
  - destruct (H6 eq_refl) as [Hne Hfp]. clear H3 H6.
    change (6 =? 6) with true. change (6 =? 3) with false. change (6 <? 6) with false.
    rewrite bool_decide_eq_false_2 by assumption. cbn [andb].
    change (setIndex (make 35) 0 (byteOfZ 6)) with (Returns (x06 :: make 34)).
    rewrite bind_liftO_s.
    rewrite bind_bind_s.
    change (setIndex (x06 :: make 34) 1 (byteOfZ (PublicKey.Version pub)))
      with (Returns (x06 :: byteOfZ (PublicKey.Version pub) :: make 33)).
    rewrite bind_liftO_s, bind_bind_s.
    rewrite sliceCopy_v6 by lia.
    rewrite bind_liftO_s, bind_ret_s.
    rewrite setIndex_v6 by lia.
    rewrite bind_liftO_s, take_v6.
    unfold serializeWith, headerOctets, keyBlockOf.
    destruct (PublicKey.PubKeyAlgo pub) eqn:Ha;
      try rewrite keyBlock_v6; try rewrite bind_ret_s; reflexivity.
  - clear H6. change (3 =? 6) with false. change (3 =? 3) with true.
    change (3 <? 6) with true. cbn [andb].
    assert (Hg : (bool_decide (PublicKey.PubKeyAlgo pub = PubKeyAlgoX25519)
                  || bool_decide (PublicKey.PubKeyAlgo pub = PubKeyAlgoX448))
                 && negb (isAES cipherFunc) = false).
    { destruct (_ || _) eqn:Hc; [|reflexivity]. rewrite (H3 eq_refl Hc). reflexivity. }
    rewrite Hg.
    change (setIndex (make 35) 0 (byteOfZ 3)) with (Returns (x03 :: make 34)).
    rewrite bind_liftO_s, bind_bind_s.
    rewrite sliceCopy_v3 by apply length_bigEndian.
    rewrite bind_liftO_s, bind_ret_s.
    change (1 + 8)%nat with 9%nat.
    rewrite setIndex_v3 by apply length_bigEndian.
    rewrite bind_liftO_s.
    change (9 + 1)%nat with 10%nat.
    rewrite take_v3 by apply length_bigEndian.
    unfold serializeWith, headerOctets, keyBlockOf.
    destruct (PublicKey.PubKeyAlgo pub) eqn:Ha;
      try rewrite keyBlock_v3; try rewrite bind_ret_s; reflexivity.
Qed.


End SerializeHeader.

(** ** SerializeEncryptedKeyAEAD: the serializers of the algorithms *)

Section Serializers.
Context `{X : Externals}.

Lemma Write_run {W} (b out : bytes) (w : W) :
  @Write W b (w, out) = Returns (inr tt, (w, out ++ b)).
Proof. reflexivity. Qed.

Lemma serializeEncryptedKeyRSA_run (header : bytes) (k : rsa.PublicKey) (block : bytes)
    (w : World) (out : bytes) :
  serializeEncryptedKeyRSA header k block (w, out)
  = match rsa_EncryptPKCS1v15 k block w with
    | (inl err, w') =>
        Returns (inl (InvalidArgumentError ("RSA encryption failed: " +:+ Error err)),
                 (w', out))
    | (inr ct, w') =>
        Returns (inr tt,
                 (w', out
                      ++ serializeHeader packetTypeEncryptedKey
                           (Z.of_nat (length header) + EncodedLength (NewMPI ct))
                      ++ header ++ EncodedBytes (NewMPI ct)))
    end.
Proof.
  unfold serializeEncryptedKeyRSA. unfoldM.
  destruct (rsa_EncryptPKCS1v15 k block w) as [[err|ct] w']; unfold modify; simpl; [reflexivity|].
  rewrite <- !app_assoc. reflexivity.
Qed.

Lemma serializeEncryptedKeyElGamal_run (header : bytes) (k : elgamal_PublicKey)
    (block : bytes) (w : World) (out : bytes) :
  serializeEncryptedKeyElGamal header k block (w, out)
  = match elgamal_Encrypt k block w with
    | (inl err, w') =>
        Returns (inl (InvalidArgumentError ("ElGamal encryption failed: " +:+ Error err)),
                 (w', out))
    | (inr (c1, c2), w') =>
        Returns (inr tt,
                 (w', out
                      ++ serializeHeader packetTypeEncryptedKey
                           (Z.of_nat (length header) + (2 + Z.quot (BitLen c1 + 7) 8)
                            + (2 + Z.quot (BitLen c2 + 7) 8))
                      ++ header ++ EncodedBytes (SetBig c1) ++ EncodedBytes (SetBig c2)))
    end.
Proof.
  unfold serializeEncryptedKeyElGamal. unfoldM.
  destruct (elgamal_Encrypt k block w) as [[err|[c1 c2]] w']; unfold modify; simpl; [reflexivity|].
  rewrite <- !app_assoc. reflexivity.
Qed.

Lemma serializeEncryptedKeyECDH_run (header : bytes) (k : ecdh_PublicKey) (block : bytes)
    (oid : Field) (fingerprint : bytes) (w : World) (out : bytes) :
  serializeEncryptedKeyECDH header k block (Some oid) fingerprint (w, out)
  = match ecdh_Encrypt k block (EncodedBytes oid) fingerprint w with
    | (inl err, w') =>
        Returns (inl (InvalidArgumentError ("ECDH encryption failed: " +:+ Error err)),
                 (w', out))
    | (inr (vsG, c), w') =>
        Returns (inr tt,
                 (w', out
                      ++ serializeHeader packetTypeEncryptedKey
                           (Z.of_nat (length header)
                            + (EncodedLength (NewMPI vsG) + EncodedLength (NewOID c)))
                      ++ header ++ EncodedBytes (NewMPI vsG) ++ EncodedBytes (NewOID c)))
    end.
Proof.
  unfold serializeEncryptedKeyECDH. unfoldM. unfold modify. simpl.
  destruct (ecdh_Encrypt _ _ _ _ _) as [[err|[vsG c]] w']; simpl; [reflexivity|].
  rewrite <- !app_assoc. reflexivity.
Qed.

Lemma serializeEncryptedKeyX25519_run (header k block : bytes) (cipherFunc : byte)
    (version : Z) (w : World) (out : bytes) :
  serializeEncryptedKeyX25519 header k block cipherFunc version (w, out)
  = match x25519_Encrypt k block w with
    | (inl err, w') =>
        Returns (inl (InvalidArgumentError ("X25519 encryption failed: " +:+ Error err)),
                 (w', out))
    | (inr (eph, ct), w') =>
        Returns (inr tt,
                 (w', out
                      ++ serializeHeader packetTypeEncryptedKey
                           (Z.of_nat (length header)
                            + EncodedFieldsLength x25519_KeySize ct (version =? 6))
                      ++ header ++ EncodeFields eph ct cipherFunc (version =? 6)))
    end.
Proof.
  unfold serializeEncryptedKeyX25519. unfoldM.
  destruct (x25519_Encrypt k block w) as [[err|[eph ct]] w']; unfold modify; simpl; [reflexivity|].
  rewrite <- !app_assoc. reflexivity.
Qed.

Lemma serializeEncryptedKeyX448_run (header k block : bytes) (cipherFunc : byte)
    (version : Z) (w : World) (out : bytes) :
  serializeEncryptedKeyX448 header k block cipherFunc version (w, out)
  = match x448_Encrypt k block w with
    | (inl err, w') =>
        Returns (inl (InvalidArgumentError ("x448 encryption failed: " +:+ Error err)),
                 (w', out))
    | (inr (eph, ct), w') =>
        Returns (inr tt,
                 (w', out
                      ++ serializeHeader packetTypeEncryptedKey
                           (Z.of_nat (length header)
                            + EncodedFieldsLength x448_KeySize ct (version =? 6))
                      ++ header ++ EncodeFields eph ct cipherFunc (version =? 6)))
    end.
Proof.
  unfold serializeEncryptedKeyX448. unfoldM.
  destruct (x448_Encrypt k block w) as [[err|[eph ct]] w']; unfold modify; simpl; [reflexivity|].
  rewrite <- !app_assoc. reflexivity.
Qed.

Lemma serializeEncryptedKeyKyber_run (header : bytes) (k : kyber_ecdh_PublicKey)
    (block : bytes) (pub : PublicKey.t) (w : World) (out : bytes) :
  serializeEncryptedKeyKyber header k block pub (w, out)
  = match kyber_ecdh_Encrypt k block (Sum256 (fst (SerializeForHash pub))) w with
    | (inl err, w') =>
        Returns (inl (InvalidArgumentError ("kyber_ecdh encryption failed: " +:+ Error err)),
                 (w', out))
    | (inr (kE, ecE, c), w') =>
        Returns (inr tt,
                 (w', out
                      ++ serializeHeader packetTypeEncryptedKey
                           (10 + (EncodedLength (NewOctetArray ecE)
                                  + EncodedLength (NewOctetArray kE)
                                  + EncodedLength (NewOID c)))
                      ++ header ++ EncodedBytes (NewOctetArray ecE)
                      ++ EncodedBytes (NewOctetArray kE) ++ EncodedBytes (NewOID c)))
    end.
Proof.
  unfold serializeEncryptedKeyKyber. unfoldM.
  destruct (kyber_ecdh_Encrypt k block (Sum256 (fst (SerializeForHash pub))) w)
    as [[err|[[kE ecE] c]] w']; unfold modify; simpl; [reflexivity|].
  rewrite <- !app_assoc. reflexivity.
Qed.

(** X7.  SerializeEncryptedKeyAEAD for a key it cannot encrypt to: for
    DSA and RSA-sign-only keys it returns the invalid-argument error "cannot
    encrypt to public key of type N"; for a key of any other algorithm that
    is not RSA, ElGamal, ECDH, X25519, X448 or a Kyber one, the unsupported
    error "encrypting a key to public key of type N".  Nothing is written
    and no primitive has run. *)
Theorem SerializeEncryptedKeyAEAD_refuses_other_algorithms
    (pub : PublicKey.t) (cipherFunc : CipherFunction) (aeadSupported : bool) (key : bytes)
    (w : World) (out : bytes) :
  passesChecks pub cipherFunc aeadSupported ->
  canEncrypt (PublicKey.PubKeyAlgo pub) = false ->
  run (SerializeEncryptedKeyAEAD (Some pub) cipherFunc aeadSupported key) (w, out)
  = Returns
      (Some
         (if bool_decide (PublicKey.PubKeyAlgo pub = PubKeyAlgoDSA)
             || bool_decide (PublicKey.PubKeyAlgo pub = PubKeyAlgoRSASignOnly)
          then InvalidArgumentError
                 ("cannot encrypt to public key of type "
                  +:+ Itoa (byteToZ (byteOfAlgo (PublicKey.PubKeyAlgo pub))))
          else UnsupportedError
                 ("encrypting a key to public key of type "
                  +:+ Itoa (byteToZ (byteOfAlgo (PublicKey.PubKeyAlgo pub))))),
       (w, out)).
Proof.
  intros Hp Hc. unfold run. rewrite SerializeEncryptedKeyAEAD_serializeWith by assumption.
  unfold serializeWith.
  destruct (PublicKey.PubKeyAlgo pub); try discriminate Hc; reflexivity.
Qed.

(** X8.  When the encryption primitive fails, SerializeEncryptedKeyAEAD
    returns an invalid-argument error whose message is the name of the
    primitive, " encryption failed: " and the message of the primitive's
    error; nothing is written. *)
Theorem SerializeEncryptedKeyAEAD_wraps_encryption_error
    (pub : PublicKey.t) (cipherFunc : CipherFunction) (aeadSupported : bool) (key : bytes)
    (w w' : World) (out : bytes) (name : string) (err : error) :
  passesChecks pub cipherFunc aeadSupported ->
  encryptionFails pub (keyBlockOf (PublicKey.PubKeyAlgo pub) aeadSupported cipherFunc key)
    w name err w' ->
  run (SerializeEncryptedKeyAEAD (Some pub) cipherFunc aeadSupported key) (w, out)
  = Returns (Some (InvalidArgumentError (name +:+ " encryption failed: " +:+ Error err)),
             (w', out)).
Proof.
  intros Hp Hf. unfold run. rewrite SerializeEncryptedKeyAEAD_serializeWith by assumption.
  unfold serializeWith.
  destruct Hf as [k [Ha|Ha] Hk Hr -> | k Ha Hk Hr -> | k oid Ha Hk Ho Hr -> | k Ha Hk Hr ->
                 | k Ha Hk Hr -> | k Ha Hk Hr ->].
  - rewrite Ha in *. rewrite Hk, serializeEncryptedKeyRSA_run, Hr. reflexivity.
  - rewrite Ha in *. rewrite Hk, serializeEncryptedKeyRSA_run, Hr. reflexivity.
  - rewrite Ha in *. rewrite Hk, serializeEncryptedKeyElGamal_run, Hr. reflexivity.
  - rewrite Ha in *. rewrite Hk, Ho, serializeEncryptedKeyECDH_run, Hr. reflexivity.
  - rewrite Ha in *. rewrite Hk, serializeEncryptedKeyX25519_run, Hr. reflexivity.
  - rewrite Ha in *. rewrite Hk, serializeEncryptedKeyX448_run, Hr. reflexivity.
  - destruct (PublicKey.PubKeyAlgo pub) eqn:Halgo; try discriminate Ha;
      rewrite Hk, serializeEncryptedKeyKyber_run; simpl in Hr; rewrite Hr; reflexivity.
Qed.

(** X9.  The header buffer of SerializeEncryptedKeyAEAD has 35 octets: a
    v6 packet for a key whose fingerprint has more than 32 octets makes it
    panic, on the slice [buf[2:len+2]] or on the index of the algorithm
    octet, before anything is encrypted or written. *)
Theorem SerializeEncryptedKeyAEAD_panics_on_long_fingerprint
    (pub : PublicKey.t) (cipherFunc : CipherFunction) (key : bytes) (s : WriteState) :
  PublicKey.PubKeyAlgo pub <> PubKeyAlgoElGamal ->
  (32 < length (PublicKey.Fingerprint pub))%nat ->
  exists why, SerializeEncryptedKeyAEAD (Some pub) cipherFunc true key s = Panics why.
Proof.
  intros Hne Hfp. unfold SerializeEncryptedKeyAEAD. cbv zeta.
  change (6 =? 6) with true. change (6 =? 3) with false.
  rewrite bool_decide_eq_false_2 by assumption. cbn [andb].
  change (setIndex (make 35) 0 (byteOfZ 6)) with (Returns (x06 :: make 34)).
  rewrite bind_liftO_s, bind_bind_s.
  change (setIndex (x06 :: make 34) 1 (byteOfZ (PublicKey.Version pub)))
    with (Returns (x06 :: byteOfZ (PublicKey.Version pub) :: make 33)).
  rewrite bind_liftO_s, bind_bind_s.
  destruct (Nat.eq_dec (length (PublicKey.Fingerprint pub)) 33%nat) as [H33|H33].
  - rewrite sliceCopy_v6 by lia. rewrite bind_liftO_s, bind_ret_s.
    unfold setIndex. cbn [length]. rewrite length_app, length_make.
    replace (1 + (length (PublicKey.Fingerprint pub) + 1)
             <? S (S (length (PublicKey.Fingerprint pub)
                      + (33 - length (PublicKey.Fingerprint pub)))))%nat
      with false by (symmetry; apply Nat.ltb_ge; lia).
    eexists. reflexivity.
  - unfold sliceCopy. cbn [length]. rewrite length_make.
    replace (length (PublicKey.Fingerprint pub) + 2 <=? 35)%nat with false
      by (symmetry; apply Nat.leb_gt; lia).
    eexists. reflexivity.
Qed.

End Serializers.

(** ** SerializeEncryptedKeyAEAD: the packet it writes *)

Section Framing.
Context `{X : Externals}.

Lemma length_stripLeadingZeros (b : bytes) :
  (length (stripLeadingZeros b) <= length b)%nat.
Proof.
  induction b as [|x b IH]; simpl; [lia|].
  destruct x; simpl; lia.
Qed.

Lemma uint16_small (z : Z) : 0 <= z < 65536 -> uint16 z = z.
Proof. intros Hz. unfold uint16. apply Z.mod_small. assumption. Qed.

Lemma EncodedLength_NewMPI (b : bytes) :
  Z.of_nat (length b) <= 65533 ->
  EncodedLength (NewMPI b) = Z.of_nat (length (EncodedBytes (NewMPI b))).
Proof.
  intros Hb. pose proof (length_stripLeadingZeros b) as Hs. unfold NewMPI.
  destruct (stripLeadingZeros b) as [|first rest]; [reflexivity|].
  unfold EncodedLength, EncodedBytes. rewrite uint16_small; cbn [length] in *; lia.
Qed.

Lemma EncodedLength_NewOID (b : bytes) :
  Z.of_nat (length b) <= 65534 ->
  EncodedLength (NewOID b) = Z.of_nat (length (EncodedBytes (NewOID b))).
Proof.
  intros Hb. unfold NewOID, EncodedLength, EncodedBytes.
  rewrite uint16_small; cbn [length]; lia.
Qed.

Lemma EncodedLength_NewOctetArray (b : bytes) :
  Z.of_nat (length b) <= 65535 ->
  EncodedLength (NewOctetArray b) = Z.of_nat (length (EncodedBytes (NewOctetArray b))).
Proof.
  intros Hb. unfold NewOctetArray, EncodedLength, EncodedBytes.
  rewrite uint16_small; lia.
Qed.

Lemma BitLen_nonneg (z : Z) : 0 <= BitLen z.
Proof.
  unfold BitLen. destruct (z =? 0); [lia|]. pose proof (Z.log2_nonneg (Z.abs z)). lia.
Qed.

Lemma length_bigBytes (z : Z) : Z.of_nat (length (bigBytes z)) = (BitLen z + 7) / 8.
Proof.
  unfold bigBytes. rewrite length_bigEndian. rewrite Z2Nat.id; [reflexivity|].
  pose proof (BitLen_nonneg z). apply Z.div_pos; lia.
Qed.

Lemma EncodedLength_SetBig (z : Z) :
  2 + Z.quot (BitLen z + 7) 8 = Z.of_nat (length (EncodedBytes (SetBig z))).
Proof.
  unfold SetBig, EncodedBytes. cbn [length]. pose proof (BitLen_nonneg z).
  rewrite Z.quot_div_nonneg by lia. pose proof (length_bigBytes z). lia.
Qed.

Lemma EncodedFieldsLength_length (point session : bytes) (cipherFunction : byte) (v6 : bool) :
  EncodedFieldsLength (length point) session v6
  = Z.of_nat (length (EncodeFields point session cipherFunction v6)).
Proof.
  unfold EncodedFieldsLength, EncodeFields. rewrite length_app. cbn [length].
  rewrite length_app. destruct v6; cbn [length]; lia.
Qed.

Lemma length_headerOctets_v3 (pub : PublicKey.t) : length (headerOctets false pub) = 10%nat.
Proof.
  unfold headerOctets, PutUint64. cbn [length]. rewrite length_app, length_bigEndian.
  reflexivity.
Qed.

(** The case of a Kyber key in the proof below. *)
Ltac kyber Hrun Hk Fkyber header :=
  rewrite serializeEncryptedKeyKyber_run in Hrun;
  match type of Hrun with
  | match ?call with _ => _ end = _ =>
      let He := fresh "He" in
      destruct call as [[?err|[[?kE ?ecE] ?ct]] ?w1] eqn:He; [discriminate Hrun|];
      injection Hrun as <- <-;
      match type of He with
      | _ = (inr (?kE, ?ecE, ?ct), _) =>
          exists (EncodedBytes (NewOctetArray ecE) ++ EncodedBytes (NewOctetArray kE)
                  ++ EncodedBytes (NewOID ct))
      end;
      destruct (Fkyber _ _ _ _ _ eq_refl He) as (? & ? & ?);
      subst header; rewrite (Hk eq_refl);
      rewrite !length_app, !Nat2Z.inj_add, length_headerOctets_v3;
      unfold NewOctetArray, NewOID, EncodedBytes, EncodedLength; cbn [length];
      rewrite !uint16_small by lia;
      do 3 f_equal; lia
  end.

(** X10.  The packet that SerializeEncryptedKeyAEAD writes is well framed,
    for a key of algorithm RSA, ElGamal, ECDH, X25519 or X448, and in a v3
    packet also for a Kyber key: when it succeeds, it has appended to the
    output a packet header for tag 1 that declares exactly the number of
    octets that follow it, and these begin with the version octet, then the
    key id (v3) or the key version and the fingerprint (v6), then the
    algorithm octet.  The ciphertext is assumed to have a size that its
    fields can carry. *)
Theorem SerializeEncryptedKeyAEAD_framing
    (pub : PublicKey.t) (cipherFunc : CipherFunction) (aeadSupported : bool) (key : bytes)
    (w w' : World) (out out' : bytes) :
  passesChecks pub cipherFunc aeadSupported ->
  ciphertextFits pub (keyBlockOf (PublicKey.PubKeyAlgo pub) aeadSupported cipherFunc key) w ->
  (isKyber (PublicKey.PubKeyAlgo pub) = true -> aeadSupported = false) ->
  run (SerializeEncryptedKeyAEAD (Some pub) cipherFunc aeadSupported key) (w, out)
  = Returns (None, (w', out')) ->
  exists fields,
    out' = out
           ++ serializeHeader packetTypeEncryptedKey
                (Z.of_nat (length (headerOctets aeadSupported pub ++ fields)))
           ++ headerOctets aeadSupported pub ++ fields.
Proof.
  intros Hp (Frsa & Fecdh & Fx25519 & Fx448 & Fkyber) Hk Hrun.
  apply run_None in Hrun.
  rewrite SerializeEncryptedKeyAEAD_serializeWith in Hrun by assumption.
  unfold serializeWith in Hrun.
  set (block := keyBlockOf (PublicKey.PubKeyAlgo pub) aeadSupported cipherFunc key) in *.
  set (header := headerOctets aeadSupported pub) in *.
  destruct (PublicKey.PubKeyAlgo pub) eqn:Ha; try discriminate Hrun;
    destruct (PublicKey.PublicKey pub) as [k|k|k|k|k|k|] eqn:Hm; try discriminate Hrun.
  - (* RSA *)
    rewrite serializeEncryptedKeyRSA_run in Hrun.
    destruct (rsa_EncryptPKCS1v15 k block w) as [[err|ct] w1] eqn:He; [discriminate Hrun|].
    injection Hrun as <- <-. exists (EncodedBytes (NewMPI ct)).
    pose proof (Frsa k ct w1 eq_refl He).
    rewrite length_app, Nat2Z.inj_add, <- EncodedLength_NewMPI by lia. reflexivity.
  - (* RSA, encrypt only *)
    rewrite serializeEncryptedKeyRSA_run in Hrun.
    destruct (rsa_EncryptPKCS1v15 k block w) as [[err|ct] w1] eqn:He; [discriminate Hrun|].
    injection Hrun as <- <-. exists (EncodedBytes (NewMPI ct)).
    pose proof (Frsa k ct w1 eq_refl He).
    rewrite length_app, Nat2Z.inj_add, <- EncodedLength_NewMPI by lia. reflexivity.
  - (* ElGamal *)
    rewrite serializeEncryptedKeyElGamal_run in Hrun.
    destruct (elgamal_Encrypt k block w) as [[err|[c1 c2]] w1] eqn:He; [discriminate Hrun|].
    injection Hrun as <- <-. exists (EncodedBytes (SetBig c1) ++ EncodedBytes (SetBig c2)).
    rewrite !length_app, !Nat2Z.inj_add, <- !EncodedLength_SetBig.
    do 3 f_equal. lia.
  - (* ECDH *)
    destruct (PublicKey.oid pub) as [oid|] eqn:Ho; [|discriminate Hrun].
    rewrite serializeEncryptedKeyECDH_run in Hrun.
    destruct (ecdh_Encrypt k block (EncodedBytes oid) (PublicKey.Fingerprint pub) w)
      as [[err|[vsG c]] w1] eqn:He; [discriminate Hrun|].
    injection Hrun as <- <-. exists (EncodedBytes (NewMPI vsG) ++ EncodedBytes (NewOID c)).
    destruct (Fecdh k oid vsG c w1 eq_refl eq_refl He) as [Hg Hc].
    rewrite !length_app, !Nat2Z.inj_add, <- EncodedLength_NewMPI, <- EncodedLength_NewOID
      by lia.
    reflexivity.
  - (* X25519 *)
    rewrite serializeEncryptedKeyX25519_run in Hrun.
    destruct (x25519_Encrypt k block w) as [[err|[eph ct]] w1] eqn:He; [discriminate Hrun|].
    injection Hrun as <- <-.
    exists (EncodeFields eph ct cipherFunc ((if aeadSupported then 6 else 3) =? 6)).
    destruct (Fx25519 k eph ct w1 eq_refl He) as [Hl _].
    rewrite length_app, Nat2Z.inj_add, <- EncodedFieldsLength_length, Hl. reflexivity.
  - (* X448 *)
    rewrite serializeEncryptedKeyX448_run in Hrun.
    destruct (x448_Encrypt k block w) as [[err|[eph ct]] w1] eqn:He; [discriminate Hrun|].
    injection Hrun as <- <-.
    exists (EncodeFields eph ct cipherFunc ((if aeadSupported then 6 else 3) =? 6)).
    destruct (Fx448 k eph ct w1 eq_refl He) as [Hl _].
    rewrite length_app, Nat2Z.inj_add, <- EncodedFieldsLength_length, Hl. reflexivity.
  - kyber Hrun Hk Fkyber header.
  - kyber Hrun Hk Fkyber header.
  - kyber Hrun Hk Fkyber header.
  - kyber Hrun Hk Fkyber header.
  - kyber Hrun Hk Fkyber header.
  - kyber Hrun Hk Fkyber header.
Qed.
End Framing.

Lemma SerializeEncryptedKeyAEAD_refuses_other_algorithms_witness :
  run (@SerializeEncryptedKeyAEAD _ testExternals
         (Some (testPublic PubKeyAlgoDSA 4 (bigEndian 20 4660) (@pubOtherType testKeyTypes)))
         CipherAES256 false testSessionKey) (0%nat, [])
  = Returns (Some (InvalidArgumentError "cannot encrypt to public key of type 17"),
             (0%nat, []))
  /\ run (@SerializeEncryptedKeyAEAD _ testExternals
            (Some (testPublic PubKeyAlgoEdDSA 6 (bigEndian 32 4660)
                     (@pubOtherType testKeyTypes)))
            CipherAES256 true testSessionKey) (0%nat, [])
     = Returns (Some (UnsupportedError "encrypting a key to public key of type 22"),
                (0%nat, [])).
Proof.
  split.
  - rewrite (@SerializeEncryptedKeyAEAD_refuses_other_algorithms _ testExternals).
    + reflexivity.
    + split; [discriminate | intros _ Hc; discriminate Hc].
    + reflexivity.
  - rewrite (@SerializeEncryptedKeyAEAD_refuses_other_algorithms _ testExternals).
    + reflexivity.
    + split; [intros _; split; [discriminate | vm_compute; lia] | discriminate].
    + reflexivity.
Defined.

Lemma SerializeEncryptedKeyAEAD_wraps_encryption_error_witness :
  run (@SerializeEncryptedKeyAEAD _ testExternalsRSA
         (Some (testRSAPublic256 4 (bigEndian 20 4660)))
         CipherAES256 false (testSessionKey ++ testSessionKey)) (0%nat, [])
  = Returns
      (Some (InvalidArgumentError
               ("RSA" +:+ " encryption failed: "
                +:+ @Error _ testExternalsRSA
                      (goerror "crypto/rsa: message too long for RSA key size"))),
       (1%nat, [])).
Proof.
  apply (@SerializeEncryptedKeyAEAD_wraps_encryption_error _ testExternalsRSA).
  - split; [discriminate | intros _ Hc; discriminate Hc].
  - eapply (@encFailsRSA _ testExternalsRSA); [left; reflexivity | reflexivity | | reflexivity].
    vm_compute. reflexivity.
Defined.

Lemma SerializeEncryptedKeyAEAD_panics_on_long_fingerprint_witness :
  exists why,
    @SerializeEncryptedKeyAEAD _ testExternals
      (Some (testPublic PubKeyAlgoX25519 6 (make 33) (@pubX25519 testKeyTypes (make 32))))
      CipherAES256 true testSessionKey (0%nat, [])
    = Panics why.
Proof.
  apply (@SerializeEncryptedKeyAEAD_panics_on_long_fingerprint _ testExternals).
  - discriminate.
  - vm_compute. lia.
Defined.

Lemma SerializeEncryptedKeyAEAD_framing_witness :
  exists fields,
    testSerializeHeader 1 32 ++ x03 :: bigEndian 8 7 ++ x01 :: x00 :: x9a :: x02 :: x09
      :: testSessionKey ++ [x00; x88]
    = [] ++ @serializeHeader _ testExternals packetTypeEncryptedKey
              (Z.of_nat (length (@headerOctets _ testExternals false testRSAPublic ++ fields)))
         ++ @headerOctets _ testExternals false testRSAPublic ++ fields.
Proof.
  apply (@SerializeEncryptedKeyAEAD_framing _ testExternals testRSAPublic CipherAES256 false
           testSessionKey 0%nat 1%nat).
  - split; [discriminate | intros _ Hc; discriminate Hc].
  - repeat split; intros; try discriminate.
    match goal with
    | Hr : rsa_EncryptPKCS1v15 _ _ _ = _ |- _ =>
        vm_compute in Hr; injection Hr as <- _; vm_compute; discriminate
    end.
  - discriminate.
  - vm_compute. reflexivity.
Defined.
(** ** Numbers and fields on the wire *)

Lemma SetBytes_from (b : bytes) (a : Z) :
  fold_left (fun acc x => acc * 256 + byteToZ x) b a
  = a * 256 ^ Z.of_nat (length b) + SetBytes b.
Proof.
  unfold SetBytes. revert a. induction b as [|x b IH]; intros a.
  - simpl. lia.
  - cbn [fold_left length]. rewrite IH, (IH (0 * 256 + byteToZ x)).
    rewrite Nat2Z.inj_succ, Z.pow_succ_r by lia. lia.
Qed.

Lemma bigEndian_S (n : nat) (z : Z) :
  bigEndian (S n) z = byteOfZ (Z.shiftr z (8 * Z.of_nat n)) :: bigEndian n z.
Proof.
  unfold bigEndian. rewrite seq_S, rev_app_distr. reflexivity.
Qed.

Lemma SetBytes_bigEndian_mod (n : nat) (z : Z) :
  SetBytes (bigEndian n z) = z mod 256 ^ Z.of_nat n.
Proof.
  induction n as [|n IH].
  - simpl. rewrite Z.mod_1_r. reflexivity.
  - rewrite bigEndian_S. unfold SetBytes. cbn [fold_left].
    rewrite SetBytes_from, length_bigEndian, IH, byteToZ_byteOfZ.
    rewrite Z.shiftr_div_pow2 by lia.
    rewrite Nat2Z.inj_succ, Z.pow_succ_r by lia.
    replace (2 ^ (8 * Z.of_nat n)) with (256 ^ Z.of_nat n)
      by (change 256 with (2 ^ 8); rewrite <- Z.pow_mul_r by lia; reflexivity).
    assert (Hp : 0 < 256 ^ Z.of_nat n) by (apply Z.pow_pos_nonneg; lia).
    rewrite (Z.mul_comm 256), Z.rem_mul_r by lia. lia.
Qed.

Lemma SetBytes_bigEndian (n : nat) (z : Z) :
  0 <= z < 256 ^ Z.of_nat n -> SetBytes (bigEndian n z) = z.
Proof. intros Hz. rewrite SetBytes_bigEndian_mod. apply Z.mod_small. assumption. Qed.

Lemma Uint64_PutUint64 (v : Z) : 0 <= v < 2 ^ 64 -> Uint64 (PutUint64 v) = v.
Proof.
  intros Hv. unfold Uint64, PutUint64.
  rewrite firstn_all2 by (rewrite length_bigEndian; lia).
  apply SetBytes_bigEndian. exact Hv.
Qed.

(** The bit length that [ReadFrom] of an MPI reads back from the two
    octets that [EncodedBytes] writes. *)
Lemma bitLength_octets (bits : Z) :
  0 <= bits < 65536 ->
  Z.lor (uint16 (Z.shiftl (byteToZ (byteOfZ (Z.shiftr bits 8))) 8)) (byteToZ (byteOfZ bits))
  = bits.
Proof.
  intros Hb. rewrite !byteToZ_byteOfZ. rewrite Z.shiftr_div_pow2 by lia.
  change (2 ^ 8) with 256.
  assert (0 <= bits / 256 < 256)
    by (split; [apply Z.div_pos; lia | apply Z.div_lt_upper_bound; lia]).
  rewrite (Z.mod_small (bits / 256)) by lia.
  pose proof (Z.mod_pos_bound bits 256 ltac:(lia)).
  rewrite Z.shiftl_mul_pow2 by lia. change (2 ^ 8) with 256.
  rewrite uint16_small by lia.
  replace (bits / 256 * 256) with (Z.shiftl (bits / 256) 8)
    by (rewrite Z.shiftl_mul_pow2 by lia; reflexivity).
  rewrite lor_shift8 by lia.
  pose proof (Z.div_mod bits 256 ltac:(lia)). lia.
Qed.

Lemma MPI_ReadFrom_EncodedBytes (b rest : bytes) (bits : Z) (e : EncryptedKey) :
  0 <= bits < 65536 -> Z.to_nat ((bits + 7) / 8) = length b ->
  MPI_ReadFrom (EncodedBytes (MPI b bits) ++ rest, e) = Returns (inr (MPI b bits), (rest, e)).
Proof.
  intros Hb Hl. unfold MPI_ReadFrom. cbn [EncodedBytes].
  change ((byteOfZ (Z.shiftr bits 8) :: byteOfZ bits :: b) ++ rest)
    with ([byteOfZ (Z.shiftr bits 8); byteOfZ bits] ++ b ++ rest).
  unfold bind at 1.
  rewrite (readFull_app [byteOfZ (Z.shiftr bits 8); byteOfZ bits]).
  cbn [nth]. rewrite bitLength_octets by assumption. rewrite Hl.
  unfold bind. rewrite readFull_app. reflexivity.
Qed.

Lemma OID_ReadFrom_EncodedBytes (b rest : bytes) (e : EncryptedKey) :
  Z.of_nat (length b) <= 255 ->
  OID_ReadFrom (EncodedBytes (OID b) ++ rest, e) = Returns (inr (OID b), (rest, e)).
Proof.
  intros Hl. unfold OID_ReadFrom. cbn [EncodedBytes].
  change ((byteOfZ (Z.of_nat (length b)) :: b) ++ rest)
    with ([byteOfZ (Z.of_nat (length b))] ++ b ++ rest).
  unfold bind at 1. rewrite (readFull_app [byteOfZ (Z.of_nat (length b))]).
  cbn [nth]. rewrite byteToZ_byteOfZ, Z.mod_small by lia. rewrite Nat2Z.id.
  unfold bind. rewrite readFull_app. reflexivity.
Qed.

Lemma OctetArray_ReadFrom_EncodedBytes (b rest : bytes) (e : EncryptedKey) :
  OctetArray_ReadFrom (length b) (EncodedBytes (NewOctetArray b) ++ rest, e)
  = Returns (inr (NewOctetArray b), (rest, e)).
Proof.
  unfold OctetArray_ReadFrom, NewOctetArray. cbn [EncodedBytes].
  unfold bind. rewrite readFull_app. reflexivity.
Qed.

Lemma DecodeFields_EncodeFields (point session rest : bytes) (cipherFunction : byte)
    (v6 : bool) (e : EncryptedKey) :
  Z.of_nat (length session) <= 255 ->
  DecodeFields (length point) v6 (EncodeFields point session cipherFunction v6 ++ rest, e)
  = Returns (inr (point, session, if v6 then x00 else cipherFunction), (rest, e)).
Proof.
  intros Hl. unfold DecodeFields, EncodeFields.
  rewrite <- !app_assoc. unfold bind at 1. rewrite readFull_app.
  change ((byteOfZ (Z.of_nat (length session))
             :: session ++ (if v6 then [] else [cipherFunction])) ++ rest)
    with ([byteOfZ (Z.of_nat (length session))]
            ++ (session ++ (if v6 then [] else [cipherFunction])) ++ rest).
  unfold bind at 1. rewrite (readFull_app [byteOfZ (Z.of_nat (length session))]).
  cbn [nth]. rewrite byteToZ_byteOfZ, Z.mod_small by lia. rewrite Nat2Z.id.
  rewrite <- app_assoc. unfold bind at 1. rewrite readFull_app.
  destruct v6.
  - reflexivity.
  - change ([cipherFunction] ++ rest) with ([cipherFunction] ++ rest).
    unfold bind. rewrite (readFull_app [cipherFunction]). reflexivity.
Qed.
Section ParseWritten.
Context `{X : Externals}.

Lemma updateE_run {R} (f : EncryptedKey -> EncryptedKey) (r : R) (e : EncryptedKey) :
  updateE f (r, e) = Returns (inr tt, (r, f e)).
Proof. reflexivity. Qed.

Lemma bind_updateE_s {R B} (f : EncryptedKey -> EncryptedKey) (k : unit -> M (R * EncryptedKey) B)
    (r : R) (e : EncryptedKey) :
  bind (updateE f) k (r, e) = k tt (r, f e).
Proof. reflexivity. Qed.

Lemma bind_readFull_app {B} (b r : bytes) (e : EncryptedKey) (k : bytes -> M ParseState B) :
  bind (readFull (length b)) k (b ++ r, e) = k b (r, e).
Proof. unfold bind. rewrite readFull_app. reflexivity. Qed.

(** [parse] on a body that begins with the header written for a public
    key. *)
Lemma parse_headerOctets (aeadSupported : bool) (pub : PublicKey.t) (fields : bytes)
    (e0 : EncryptedKey) :
  issuerWritable aeadSupported pub ->
  parse (headerOctets aeadSupported pub ++ fields, e0)
  = parseFields (if aeadSupported then 6 else 3)
      (algoOfByte (byteOfAlgo (PublicKey.PubKeyAlgo pub)))
      (fields, headerParsed aeadSupported pub e0).
Proof.
  intros Hi. unfold parse, headerOctets, headerParsed, issuerWritable in *.
  destruct aeadSupported.
  - change ((x06 :: byteOfZ (PublicKey.Version pub)
               :: PublicKey.Fingerprint pub ++ [byteOfAlgo (PublicKey.PubKeyAlgo pub)])
            ++ fields)
      with ([x06] ++ [byteOfZ (PublicKey.Version pub)]
            ++ (PublicKey.Fingerprint pub ++ [byteOfAlgo (PublicKey.PubKeyAlgo pub)])
            ++ fields).
    rewrite (bind_readFull_app [x06]). cbn [nth].
    change (byteToZ x06) with 6. rewrite bind_updateE_s.
    change (negb (6 =? 3) && negb (6 =? 6)) with false. cbv iota.
    change (6 =? 6) with true. cbv iota.
    rewrite bind_bind_s.
    rewrite (bind_readFull_app [byteOfZ (PublicKey.Version pub)]). cbn [nth].
    rewrite bind_bind_s, bind_updateE_s.
    rewrite <- app_assoc.
    destruct Hi as [[Hv Hl] | [Hv Hl]]; rewrite Hv.
    + change (byteToZ (byteOfZ 4)) with 4.
      change (negb (4 =? 0) && negb (4 =? 4) && negb (4 =? 6)) with false. cbv iota.
      change (4 =? 6) with false. change (4 =? 4) with true. cbv iota.
      rewrite bind_bind_s. rewrite <- Hl at 1.
      rewrite bind_readFull_app. rewrite bind_bind_s, bind_updateE_s, bind_updateE_s.
      rewrite (bind_readFull_app [byteOfAlgo (PublicKey.PubKeyAlgo pub)]). cbn [nth].
      rewrite bind_updateE_s. reflexivity.
    + change (byteToZ (byteOfZ 6)) with 6.
      change (negb (6 =? 0) && negb (6 =? 4) && negb (6 =? 6)) with false. cbv iota.
      change (6 =? 6) with true. cbv iota.
      rewrite bind_bind_s. rewrite <- Hl at 1.
      rewrite bind_readFull_app. rewrite bind_bind_s, bind_updateE_s, bind_updateE_s.
      rewrite (bind_readFull_app [byteOfAlgo (PublicKey.PubKeyAlgo pub)]). cbn [nth].
      rewrite bind_updateE_s. reflexivity.
  - change ((x03 :: PutUint64 (PublicKey.KeyId pub)
               ++ [byteOfAlgo (PublicKey.PubKeyAlgo pub)]) ++ fields)
      with ([x03] ++ (PutUint64 (PublicKey.KeyId pub)
                        ++ [byteOfAlgo (PublicKey.PubKeyAlgo pub)]) ++ fields).
    rewrite (bind_readFull_app [x03]). cbn [nth].
    change (byteToZ x03) with 3. rewrite bind_updateE_s.
    change (negb (3 =? 3) && negb (3 =? 6)) with false. cbv iota.
    change (3 =? 6) with false. cbv iota.
    rewrite bind_bind_s. rewrite <- app_assoc.
    replace 8%nat with (length (PutUint64 (PublicKey.KeyId pub)))
      by apply length_bigEndian.
    rewrite bind_readFull_app, bind_updateE_s.
    rewrite (bind_readFull_app [byteOfAlgo (PublicKey.PubKeyAlgo pub)]). cbn [nth].
    rewrite bind_updateE_s. rewrite Uint64_PutUint64 by assumption. reflexivity.
Qed.

End ParseWritten.
(** ** Big numbers and MPIs *)

Lemma stripLeadingZeros_cons (x : byte) (b : bytes) :
  stripLeadingZeros (x :: b) = if bool_decide (x = x00) then stripLeadingZeros b else x :: b.
Proof. destruct x; reflexivity. Qed.

Lemma stripLeadingZeros_head (b rest : bytes) (first : byte) :
  stripLeadingZeros b = first :: rest -> first <> x00.
Proof.
  induction b as [|x b IH]; [discriminate|].
  rewrite stripLeadingZeros_cons. case_bool_decide as Hx.
  - exact IH.
  - intros Heq. injection Heq as <- _. exact Hx.
Qed.

Lemma stripLeadingZeros_make (b : bytes) :
  b = make (length b - length (stripLeadingZeros b)) ++ stripLeadingZeros b.
Proof.
  induction b as [|x b IH]; [reflexivity|].
  rewrite stripLeadingZeros_cons. case_bool_decide as Hx.
  - subst x. pose proof (length_stripLeadingZeros b).
    cbn [length].
    replace (S (length b) - length (stripLeadingZeros b))%nat
      with (S (length b - length (stripLeadingZeros b))) by lia.
    rewrite make_S. cbn [app]. f_equal. exact IH.
  - rewrite Nat.sub_diag. reflexivity.
Qed.

Lemma stripLeadingZeros_idem (b : bytes) :
  stripLeadingZeros (stripLeadingZeros b) = stripLeadingZeros b.
Proof.
  induction b as [|x b IH]; [reflexivity|].
  rewrite stripLeadingZeros_cons. case_bool_decide as Hx; [exact IH|].
  rewrite stripLeadingZeros_cons. rewrite bool_decide_eq_false_2 by assumption. reflexivity.
Qed.

Lemma Len8_range (b : byte) : b <> x00 -> 1 <= Len8 b <= 8.
Proof.
  intros Hb. unfold Len8. pose proof (byteToZ_range b).
  destruct (Z.eqb_spec (byteToZ b) 0) as [H0|H0].
  - exfalso. apply Hb. rewrite <- (byteOfZ_byteToZ b), H0. reflexivity.
  - pose proof (Z.log2_nonneg (byteToZ b)).
    assert (Z.log2 (byteToZ b) < 8) by (apply Z.log2_lt_pow2; lia). lia.
Qed.

(** An MPI made of at most 8191 octets holds them without their leading
    zero octets, under a bit length that [ReadFrom] reads back. *)
Lemma NewMPI_spec (b : bytes) :
  Z.of_nat (length b) <= 8191 ->
  exists bits,
    NewMPI b = MPI (stripLeadingZeros b) bits
    /\ 0 <= bits < 65536
    /\ Z.to_nat ((bits + 7) / 8) = length (stripLeadingZeros b).
Proof.
  intros Hb. pose proof (length_stripLeadingZeros b) as Hs. unfold NewMPI.
  destruct (stripLeadingZeros b) as [|first rest] eqn:Hstrip.
  - exists 0. split; [reflexivity|]. split; [lia|reflexivity].
  - pose proof (Len8_range first (stripLeadingZeros_head _ _ _ Hstrip)) as Hl.
    cbn [length] in Hs.
    eexists. split; [reflexivity|].
    rewrite (uint16_small (Z.of_nat (length rest))) by lia.
    rewrite (uint16_small (Len8 first)) by lia.
    rewrite uint16_small by lia.
    split; [lia|].
    replace (8 * Z.of_nat (length rest) + Len8 first + 7)
      with ((Len8 first + 7) + Z.of_nat (length rest) * 8) by lia.
    rewrite Z.div_add by lia.
    replace ((Len8 first + 7) / 8) with 1
      by (apply Z.div_unique with (r := Len8 first - 1); lia).
    cbn [length]. lia.
Qed.

Lemma padToKeySize_stripLeadingZeros (pub : rsa.PublicKey) (ct : bytes) :
  length ct = Z.to_nat ((BitLen (rsa.N pub) + 7) / 8) ->
  padToKeySize pub (stripLeadingZeros ct) = ct.
Proof.
  intros Hl. unfold padToKeySize. rewrite <- Hl.
  pose proof (length_stripLeadingZeros ct) as Hs.
  destruct (Nat.leb_spec (length ct) (length (stripLeadingZeros ct))) as [Hle|Hlt].
  - pose proof (stripLeadingZeros_make ct) as Hm.
    replace (length ct - length (stripLeadingZeros ct))%nat with 0%nat in Hm by lia.
    symmetry. exact Hm.
  - symmetry. apply stripLeadingZeros_make.
Qed.

Lemma BitLen_bound (z : Z) : 0 <= z -> z < 2 ^ BitLen z.
Proof.
  intros Hz. unfold BitLen. destruct (Z.eqb_spec z 0) as [->|Hne]; [reflexivity|].
  rewrite Z.abs_eq by lia. pose proof (Z.log2_spec z ltac:(lia)).
  replace (Z.log2 z + 1) with (Z.succ (Z.log2 z)) by lia. lia.
Qed.

Lemma SetBytes_bigBytes (z : Z) : 0 <= z -> SetBytes (bigBytes z) = z.
Proof.
  intros Hz. unfold bigBytes. rewrite Z.abs_eq by assumption.
  apply SetBytes_bigEndian. split; [assumption|].
  pose proof (BitLen_nonneg z). pose proof (BitLen_bound z Hz).
  assert (Hdiv : 0 <= (BitLen z + 7) / 8) by (apply Z.div_pos; lia).
  rewrite Z2Nat.id by assumption.
  change 256 with (2 ^ 8). rewrite <- Z.pow_mul_r by lia.
  eapply Z.lt_le_trans; [eassumption|].
  apply Z.pow_le_mono_r; [lia|].
  pose proof (Z.div_mod (BitLen z + 7) 8 ltac:(lia)).
  pose proof (Z.mod_pos_bound (BitLen z + 7) 8 ltac:(lia)). lia.
Qed.

(** The MPI of a big number of less than 65536 bits. *)
Lemma SetBig_spec (z : Z) :
  BitLen z < 65536 ->
  SetBig z = MPI (bigBytes z) (BitLen z)
  /\ Z.to_nat ((BitLen z + 7) / 8) = length (bigBytes z).
Proof.
  intros Hb. pose proof (BitLen_nonneg z). unfold SetBig.
  rewrite uint16_small by lia. split; [reflexivity|].
  unfold bigBytes. rewrite length_bigEndian. reflexivity.
Qed.

(** The two checksum octets are the checksum. *)
Lemma checksumOctets_sum16 (key : bytes) :
  256 * byteToZ (byteOfZ (Z.shiftr (sum16 key) 8)) + byteToZ (byteOfZ (sum16 key))
  = sum16 key.
Proof.
  pose proof (sum16_range key) as Hr.
  rewrite !byteToZ_byteOfZ.
  rewrite Z.shiftr_div_pow2 by lia. change (2 ^ 8) with 256.
  rewrite (Z.mod_small (sum16 key / 256))
    by (split; [apply Z.div_pos; lia | apply Z.div_lt_upper_bound; lia]).
  pose proof (Z.div_mod (sum16 key) 256). lia.
Qed.
(** ** The round trip through a packet *)

Section RoundTrip.
Context `{X : Externals}.

(** What reads a packet header is the inverse of [serializeHeader]. *)
Variable readHeader : bytes -> option (Z * bytes).
Hypothesis readHeader_serializeHeader :
  forall (n : Z) (body : bytes),
    0 <= n < 2 ^ 32 ->
    readHeader (serializeHeader packetTypeEncryptedKey n ++ body) = Some (n, body).

Lemma roundTrip_steps (pub : PublicKey.t) (priv : PrivateKey.t) (cipherFunc : CipherFunction)
    (aeadSupported : bool) (key : bytes) (w w1 w2 : World) (body r : bytes)
    (e e' : EncryptedKey) :
  run (SerializeEncryptedKeyAEAD (Some pub) cipherFunc aeadSupported key) (w, [])
  = Returns (None,
             (w1, serializeHeader packetTypeEncryptedKey (Z.of_nat (length body)) ++ body)) ->
  Z.of_nat (length body) < 2 ^ 32 ->
  run parse (body, emptyEncryptedKey) = Returns (None, (r, e)) ->
  run (Decrypt priv) (w1, e) = Returns (None, (w2, e')) ->
  roundTrip readHeader pub priv cipherFunc aeadSupported key w = Returns (None, Key e').
Proof.
  intros Hs Hl Hp Hd. unfold roundTrip. rewrite Hs.
  rewrite readHeader_serializeHeader by lia.
  unfold packetBody. rewrite Nat2Z.id, firstn_all. rewrite Hp, Hd. reflexivity.
Qed.

(** The issuer checks of Decrypt pass on a packet parsed from what was
    written for the public key of the private key. *)
Lemma headerParsed_accepted (aeadSupported : bool) (pub : PublicKey.t) (priv : PrivateKey.t)
    (e : EncryptedKey) :
  PrivateKey.PublicKey priv = pub ->
  issuerWritable aeadSupported pub ->
  issuerFields e = issuerFields (headerParsed aeadSupported pub emptyEncryptedKey) ->
  issuerAccepted e priv.
Proof.
  intros Hpub Hi He. unfold issuerFields in He. injection He as Hv Hkv Hfp Hid.
  unfold issuerAccepted, PrivateKey.KeyId, PrivateKey.Fingerprint. rewrite Hpub.
  unfold headerParsed, issuerWritable in *. destruct aeadSupported.
  - assert (Hv6 : Version e = 6).
    { rewrite Hv. destruct (PublicKey.Version pub =? 6); reflexivity. }
    assert (Hf : KeyFingerprint e = PublicKey.Fingerprint pub).
    { rewrite Hfp. destruct (PublicKey.Version pub =? 6); reflexivity. }
    split; [lia|]. intros _. right. exact Hf.
  - split; [|simpl in Hv; lia]. intros _. right. rewrite Hid. reflexivity.
Qed.

Lemma passesChecks_CFRG (pub : PublicKey.t) (cipherFunc : CipherFunction)
    (aeadSupported : bool) :
  isCFRG (PublicKey.PubKeyAlgo pub) = true ->
  issuerWritable aeadSupported pub ->
  (aeadSupported = false -> isAES cipherFunc = true) ->
  passesChecks pub cipherFunc aeadSupported.
Proof.
  intros Hc Hi Haes. split.
  - intros ->. split.
    + intros Hx. rewrite Hx in Hc. discriminate Hc.
    + destruct Hi as [[_ Hl] | [_ Hl]]; rewrite Hl; lia.
  - intros Ha _. exact (Haes Ha).
Qed.

Lemma length_headerOctets_le (aeadSupported : bool) (pub : PublicKey.t) :
  issuerWritable aeadSupported pub ->
  Z.of_nat (length (headerOctets aeadSupported pub)) <= 35.
Proof.
  intros Hi. destruct aeadSupported.
  - unfold headerOctets. cbn [length]. rewrite length_app. cbn [length].
    destruct Hi as [[_ Hl] | [_ Hl]]; rewrite Hl; lia.
  - rewrite length_headerOctets_v3. lia.
Qed.

Lemma round_trip_X25519_run (pub : PublicKey.t) (priv : PrivateKey.t) (pk : bytes)
    (sk : x25519_PrivateKey) (cipherFunc : CipherFunction) (aeadSupported : bool)
    (key eph ct : bytes) (w w1 w2 : World) :
  PublicKey.PubKeyAlgo pub = PubKeyAlgoX25519 ->
  algoOfByte (byteOfAlgo PubKeyAlgoX25519) = PubKeyAlgoX25519 ->
  PublicKey.PublicKey pub = pubX25519 pk ->
  PrivateKey.PublicKey priv = pub ->
  PrivateKey.PrivateKey priv = privX25519 sk ->
  PrivateKey.Dummy priv = false ->
  issuerWritable aeadSupported pub ->
  (aeadSupported = false -> isAES cipherFunc = true) ->
  x25519_Encrypt pk key w = (inr (eph, ct), w1) ->
  length eph = x25519_KeySize ->
  Z.of_nat (length ct) <= 255 ->
  x25519_Decrypt sk (Some eph) ct w1 = (inr key, w2) ->
  roundTrip readHeader pub priv cipherFunc aeadSupported key w = Returns (None, key).
Proof.
  intros Ha Hoct Hm Hpub Hsk Hd Hi Haes Henc Hleph Hlct Hdec.
  assert (Hp : passesChecks pub cipherFunc aeadSupported).
  { apply passesChecks_CFRG; try assumption. rewrite Ha. reflexivity. }
  set (e := (if aeadSupported then fun e => e else setCipherFunc cipherFunc)
              (setX25519 (Some eph) ct (headerParsed aeadSupported pub emptyEncryptedKey))).
  change key with (Key (setKey key e)).
  apply (roundTrip_steps pub priv cipherFunc aeadSupported key w w1 w2
           (headerOctets aeadSupported pub
            ++ EncodeFields eph ct cipherFunc aeadSupported) [] e).
  - unfold run. rewrite SerializeEncryptedKeyAEAD_serializeWith by assumption.
    unfold serializeWith. rewrite Ha, Hm, serializeEncryptedKeyX25519_run.
    change (keyBlockOf PubKeyAlgoX25519 aeadSupported cipherFunc key) with key.
    rewrite Henc. cbn [app].
    replace ((if aeadSupported then 6 else 3) =? 6) with aeadSupported
      by (destruct aeadSupported; reflexivity).
    rewrite length_app, Nat2Z.inj_add, <- EncodedFieldsLength_length, Hleph. reflexivity.
  - rewrite length_app, Nat2Z.inj_add.
    pose proof (length_headerOctets_le aeadSupported pub Hi).
    unfold EncodeFields. rewrite length_app. cbn [length]. rewrite length_app.
    unfold x25519_KeySize in Hleph. rewrite Hleph.
    destruct aeadSupported; cbn [length]; lia.
  - apply run_None. rewrite parse_headerOctets by assumption.
    rewrite Ha, Hoct. unfold parseFields.
    replace ((if aeadSupported then 6 else 3) =? 6) with aeadSupported
      by (destruct aeadSupported; reflexivity).
    rewrite <- (app_nil_r (EncodeFields eph ct cipherFunc aeadSupported)).
    rewrite !bind_bind_s. unfold bind at 1. unfold onError. rewrite <- Hleph.
    rewrite DecodeFields_EncodeFields by assumption.
    subst e. destruct aeadSupported; reflexivity.
  - apply run_None.
    assert (Hacc : issuerAccepted e priv).
    { apply (headerParsed_accepted aeadSupported pub); try assumption.
      subst e. destruct aeadSupported; reflexivity. }
    assert (Halgo : Algo e = PrivateKey.PubKeyAlgo priv).
    { unfold PrivateKey.PubKeyAlgo. rewrite Hpub, Ha. subst e. unfold headerParsed.
      rewrite Ha, Hoct. destruct aeadSupported; [destruct (_ =? 6)|]; reflexivity. }
    rewrite (Decrypt_after_primitive priv e w1 w2 key Hacc Halgo Hd).
    + unfold PrivateKey.PubKeyAlgo. rewrite Hpub, Ha.
      unfold keyFromPlaintext. unfoldM.
      assert (Hgate : (Version e <? 6) && negb (isAES (CipherFunc e)) = false).
      { subst e. unfold headerParsed. destruct aeadSupported.
        - destruct (_ =? 6); reflexivity.
        - simpl. rewrite (Haes eq_refl). reflexivity. }
      rewrite Hgate. reflexivity.
    + apply (givesX25519 priv e w1 key w2 sk).
      * unfold PrivateKey.PubKeyAlgo. rewrite Hpub. exact Ha.
      * exact Hsk.
      * replace (ephemeralPublicX25519 e) with (Some eph)
          by (subst e; destruct aeadSupported; reflexivity).
        replace (encryptedSession e) with ct
          by (subst e; destruct aeadSupported; reflexivity).
        exact Hdec.
Qed.

Lemma round_trip_X448_run (pub : PublicKey.t) (priv : PrivateKey.t) (pk : bytes)
    (sk : x448_PrivateKey) (cipherFunc : CipherFunction) (aeadSupported : bool)
    (key eph ct : bytes) (w w1 w2 : World) :
  PublicKey.PubKeyAlgo pub = PubKeyAlgoX448 ->
  algoOfByte (byteOfAlgo PubKeyAlgoX448) = PubKeyAlgoX448 ->
  PublicKey.PublicKey pub = pubX448 pk ->
  PrivateKey.PublicKey priv = pub ->
  PrivateKey.PrivateKey priv = privX448 sk ->
  PrivateKey.Dummy priv = false ->
  issuerWritable aeadSupported pub ->
  (aeadSupported = false -> isAES cipherFunc = true) ->
  x448_Encrypt pk key w = (inr (eph, ct), w1) ->
  length eph = x448_KeySize ->
  Z.of_nat (length ct) <= 255 ->
  x448_Decrypt sk (Some eph) ct w1 = (inr key, w2) ->
  roundTrip readHeader pub priv cipherFunc aeadSupported key w = Returns (None, key).
Proof.
  intros Ha Hoct Hm Hpub Hsk Hd Hi Haes Henc Hleph Hlct Hdec.
  assert (Hp : passesChecks pub cipherFunc aeadSupported).
  { apply passesChecks_CFRG; try assumption. rewrite Ha. reflexivity. }
  set (e := (if aeadSupported then fun e => e else setCipherFunc cipherFunc)
              (setX448 (Some eph) ct (headerParsed aeadSupported pub emptyEncryptedKey))).
  change key with (Key (setKey key e)).
  apply (roundTrip_steps pub priv cipherFunc aeadSupported key w w1 w2
           (headerOctets aeadSupported pub
            ++ EncodeFields eph ct cipherFunc aeadSupported) [] e).
  - unfold run. rewrite SerializeEncryptedKeyAEAD_serializeWith by assumption.
    unfold serializeWith. rewrite Ha, Hm, serializeEncryptedKeyX448_run.
    change (keyBlockOf PubKeyAlgoX448 aeadSupported cipherFunc key) with key.
    rewrite Henc. cbn [app].
    replace ((if aeadSupported then 6 else 3) =? 6) with aeadSupported
      by (destruct aeadSupported; reflexivity).
    rewrite length_app, Nat2Z.inj_add, <- EncodedFieldsLength_length, Hleph. reflexivity.
  - rewrite length_app, Nat2Z.inj_add.
    pose proof (length_headerOctets_le aeadSupported pub Hi).
    unfold EncodeFields. rewrite length_app. cbn [length]. rewrite length_app.
    unfold x448_KeySize in Hleph. rewrite Hleph.
    destruct aeadSupported; cbn [length]; lia.
  - apply run_None. rewrite parse_headerOctets by assumption.
    rewrite Ha, Hoct. unfold parseFields.
    replace ((if aeadSupported then 6 else 3) =? 6) with aeadSupported
      by (destruct aeadSupported; reflexivity).
    rewrite <- (app_nil_r (EncodeFields eph ct cipherFunc aeadSupported)).
    rewrite !bind_bind_s. unfold bind at 1. unfold onError. rewrite <- Hleph.
    rewrite DecodeFields_EncodeFields by assumption.
    subst e. destruct aeadSupported; reflexivity.
  - apply run_None.
    assert (Hacc : issuerAccepted e priv).
    { apply (headerParsed_accepted aeadSupported pub); try assumption.
      subst e. destruct aeadSupported; reflexivity. }
    assert (Halgo : Algo e = PrivateKey.PubKeyAlgo priv).
    { unfold PrivateKey.PubKeyAlgo. rewrite Hpub, Ha. subst e. unfold headerParsed.
      rewrite Ha, Hoct. destruct aeadSupported; [destruct (_ =? 6)|]; reflexivity. }
    rewrite (Decrypt_after_primitive priv e w1 w2 key Hacc Halgo Hd).
    + unfold PrivateKey.PubKeyAlgo. rewrite Hpub, Ha.
      unfold keyFromPlaintext. unfoldM.
      assert (Hgate : (Version e <? 6) && negb (isAES (CipherFunc e)) = false).
      { subst e. unfold headerParsed. destruct aeadSupported.
        - destruct (_ =? 6); reflexivity.
        - simpl. rewrite (Haes eq_refl). reflexivity. }
      rewrite Hgate. reflexivity.
    + apply (givesX448 priv e w1 key w2 sk).
      * unfold PrivateKey.PubKeyAlgo. rewrite Hpub. exact Ha.
      * exact Hsk.
      * replace (ephemeralPublicX448 e) with (Some eph)
          by (subst e; destruct aeadSupported; reflexivity).
        replace (encryptedSession e) with ct
          by (subst e; destruct aeadSupported; reflexivity).
        exact Hdec.
Qed.


Lemma passesChecks_classic (pub : PublicKey.t) (cipherFunc : CipherFunction)
    (aeadSupported : bool) :
  isClassic (PublicKey.PubKeyAlgo pub) = true ->
  PublicKey.PubKeyAlgo pub <> PubKeyAlgoElGamal \/ aeadSupported = false ->
  issuerWritable aeadSupported pub ->
  passesChecks pub cipherFunc aeadSupported.
Proof.
  intros Hc Hne Hi. split.
  - intros ->. split.
    + destruct Hne as [Hne|Hne]; [exact Hne | discriminate Hne].
    + destruct Hi as [[_ Hl] | [_ Hl]]; rewrite Hl; lia.
  - intros _ Hx. destruct (isClassic_cases _ Hc) as [Hy | [Hy | [Hy | Hy]]];
      rewrite Hy in Hx; discriminate Hx.
Qed.

(** Decrypt on the envelope that SerializeEncryptedKeyAEAD makes for an
    RSA, ElGamal or ECDH key. *)
Lemma keyFromPlaintext_keyBlockOf (a : PublicKeyAlgorithm) (e : EncryptedKey) (w : World)
    (cipherFunc : CipherFunction) (aeadSupported : bool) (key : bytes) :
  isClassic a = true ->
  Version e = (if aeadSupported then 6 else 3) ->
  (aeadSupported = false -> IsSupported cipherFunc = true) ->
  run (keyFromPlaintext a (keyBlockOf a aeadSupported cipherFunc key)) (w, e)
  = Returns (None,
             (w, setKey key (if aeadSupported then e else setCipherFunc cipherFunc e))).
Proof.
  intros Ha Hv Hs. unfold keyBlockOf. rewrite Ha. unfold checksumOctets.
  destruct aeadSupported.
  - cbn [app]. rewrite keyFromPlaintext_v6 by (assumption || lia).
    rewrite bool_decide_eq_true_2 by apply checksumOctets_sum16. reflexivity.
  - cbn [app]. rewrite keyFromPlaintext_v3 by (auto; lia).
    rewrite bool_decide_eq_true_2 by apply checksumOctets_sum16. reflexivity.
Qed.

(** X11.  The round trip for an RSA key (algorithm RSA or RSA-encrypt-
    only), in a v3 and in a v6 packet: serialize a session key to the
    public key with SerializeEncryptedKeyAEAD, read the packet header, parse
    the body, and Decrypt with the private key.  When the RSA primitive
    encrypts the block it is given to a ciphertext of the octet length of
    the modulus (at most 8191 octets, what an MPI holds) and decrypts that
    ciphertext to the block again, Decrypt succeeds and the key it leaves is
    the session key, of any length.  On the way the MPI drops the leading
    zero octets of the ciphertext and Decrypt puts them back.  In a v3 packet
    the cipher function must be one that [IsSupported] accepts. *)
Theorem RSA_round_trip_recovers_key (pub : PublicKey.t) (priv : PrivateKey.t) (k : rsa.PublicKey)
    (sk : rsa.PrivateKey) (cipherFunc : CipherFunction) (aeadSupported : bool)
    (key ct : bytes) (w w1 w2 : World) :
  PublicKey.PubKeyAlgo pub = PubKeyAlgoRSA
  \/ PublicKey.PubKeyAlgo pub = PubKeyAlgoRSAEncryptOnly ->
  algoOfByte (byteOfAlgo (PublicKey.PubKeyAlgo pub)) = PublicKey.PubKeyAlgo pub ->
  PublicKey.PublicKey pub = pubRSA k ->
  PrivateKey.PublicKey priv = pub ->
  PrivateKey.PrivateKey priv = privRSA sk ->
  PrivateKey.Dummy priv = false ->
  issuerWritable aeadSupported pub ->
  (aeadSupported = false -> IsSupported cipherFunc = true) ->
  rsa_EncryptPKCS1v15 k (keyBlockOf (PublicKey.PubKeyAlgo pub) aeadSupported cipherFunc key) w
  = (inr ct, w1) ->
  length ct = Z.to_nat ((BitLen (rsa.N (rsa.Public sk)) + 7) / 8) ->
  Z.of_nat (length ct) <= 8191 ->
  rsa_Decrypt sk ct w1
  = (inr (keyBlockOf (PublicKey.PubKeyAlgo pub) aeadSupported cipherFunc key), w2) ->
  roundTrip readHeader pub priv cipherFunc aeadSupported key w = Returns (None, key).
Proof.
  intros Ha Hoct Hm Hpub Hsk Hd Hi Hsup Henc Hlen Hle Hdec.
  assert (Hcl : isClassic (PublicKey.PubKeyAlgo pub) = true)
    by (destruct Ha as [Ha|Ha]; rewrite Ha; reflexivity).
  assert (Hp : passesChecks pub cipherFunc aeadSupported).
  { apply passesChecks_classic; try assumption.
    left. destruct Ha as [Ha|Ha]; rewrite Ha; discriminate. }
  set (e := setEncryptedMPI1 (Some (NewMPI ct))
              (headerParsed aeadSupported pub emptyEncryptedKey)).
  change key
    with (Key (setKey key (if aeadSupported then e else setCipherFunc cipherFunc e))).
  apply (roundTrip_steps pub priv cipherFunc aeadSupported key w w1 w2
           (headerOctets aeadSupported pub ++ EncodedBytes (NewMPI ct)) [] e).
  - unfold run. rewrite SerializeEncryptedKeyAEAD_serializeWith by assumption.
    unfold serializeWith.
    destruct Ha as [Ha|Ha]; rewrite Ha in *; rewrite Hm, serializeEncryptedKeyRSA_run, Henc;
      cbn [app];
      rewrite length_app, Nat2Z.inj_add, <- EncodedLength_NewMPI by lia; reflexivity.
  - rewrite length_app, Nat2Z.inj_add.
    pose proof (length_headerOctets_le aeadSupported pub Hi).
    rewrite <- EncodedLength_NewMPI by lia.
    destruct (NewMPI_spec ct Hle) as (bits & -> & Hb & Hl).
    pose proof (length_stripLeadingZeros ct).
    unfold EncodedLength. rewrite uint16_small by lia. lia.
  - apply run_None. rewrite parse_headerOctets by assumption.
    rewrite Hoct. subst e.
    destruct (NewMPI_spec ct Hle) as (bits & -> & Hb & Hl).
    rewrite <- (app_nil_r (EncodedBytes (MPI (stripLeadingZeros ct) bits))).
    unfold parseFields, readInto.
    destruct Ha as [Ha|Ha]; rewrite Ha;
      rewrite !bind_bind_s, bind_updateE_s, bind_bind_s; unfold bind at 1;
      rewrite MPI_ReadFrom_EncodedBytes by assumption;
      destruct aeadSupported; reflexivity.
  - apply run_None.
    assert (Hacc : issuerAccepted e priv).
    { apply (headerParsed_accepted aeadSupported pub); try assumption. reflexivity. }
    assert (Halgo : Algo e = PrivateKey.PubKeyAlgo priv).
    { unfold PrivateKey.PubKeyAlgo. rewrite Hpub. subst e. unfold headerParsed.
      rewrite Hoct. destruct aeadSupported; [destruct (_ =? 6)|]; reflexivity. }
    rewrite (Decrypt_after_primitive priv e w1 w2
               (keyBlockOf (PublicKey.PubKeyAlgo pub) aeadSupported cipherFunc key)
               Hacc Halgo Hd).
    + unfold PrivateKey.PubKeyAlgo. rewrite Hpub. apply run_None.
      apply keyFromPlaintext_keyBlockOf; try assumption.
      subst e. unfold headerParsed. destruct aeadSupported; [destruct (_ =? 6)|]; reflexivity.
    + apply (givesRSA priv e w1 _ w2 sk (NewMPI ct)).
      * unfold PrivateKey.PubKeyAlgo. rewrite Hpub. exact Ha.
      * exact Hsk.
      * reflexivity.
      * destruct (NewMPI_spec ct Hle) as (bits & -> & _). cbn [Bytes].
        rewrite padToKeySize_stripLeadingZeros by assumption. exact Hdec.
Qed.


(** X12.  The round trip for an ElGamal key, in a v3 packet (a v6 packet
    is refused): when the ElGamal primitive encrypts the block it is given
    to two non-negative numbers of less than 65536 bits and decrypts them to
    the block again, Decrypt after SerializeEncryptedKeyAEAD and [parse]
    succeeds and leaves the session key. *)
Theorem ElGamal_round_trip_recovers_key (pub : PublicKey.t) (priv : PrivateKey.t)
    (k : elgamal_PublicKey) (sk : elgamal_PrivateKey) (cipherFunc : CipherFunction)
    (key : bytes) (c1 c2 : Z) (w w1 w2 : World) :
  PublicKey.PubKeyAlgo pub = PubKeyAlgoElGamal ->
  algoOfByte (byteOfAlgo PubKeyAlgoElGamal) = PubKeyAlgoElGamal ->
  PublicKey.PublicKey pub = pubElGamal k ->
  PrivateKey.PublicKey priv = pub ->
  PrivateKey.PrivateKey priv = privElGamal sk ->
  PrivateKey.Dummy priv = false ->
  issuerWritable false pub ->
  IsSupported cipherFunc = true ->
  elgamal_Encrypt k (keyBlockOf PubKeyAlgoElGamal false cipherFunc key) w
  = (inr (c1, c2), w1) ->
  0 <= c1 -> BitLen c1 < 65536 -> 0 <= c2 -> BitLen c2 < 65536 ->
  elgamal_Decrypt sk c1 c2 w1
  = (inr (keyBlockOf PubKeyAlgoElGamal false cipherFunc key), w2) ->
  roundTrip readHeader pub priv cipherFunc false key w = Returns (None, key).
Proof.
  intros Ha Hoct Hm Hpub Hsk Hd Hi Hsup Henc H1 Hb1 H2 Hb2 Hdec.
  assert (Hp : passesChecks pub cipherFunc false).
  { apply passesChecks_classic; [rewrite Ha; reflexivity | right; reflexivity | assumption]. }
  set (e := setEncryptedMPI2 (Some (SetBig c2))
              (setEncryptedMPI1 (Some (SetBig c1))
                 (headerParsed false pub emptyEncryptedKey))).
  change key with (Key (setKey key (setCipherFunc cipherFunc e))).
  destruct (SetBig_spec c1 Hb1) as [Hs1 Hl1]. destruct (SetBig_spec c2 Hb2) as [Hs2 Hl2].
  pose proof (BitLen_nonneg c1). pose proof (BitLen_nonneg c2).
  apply (roundTrip_steps pub priv cipherFunc false key w w1 w2
           (headerOctets false pub ++ EncodedBytes (SetBig c1) ++ EncodedBytes (SetBig c2))
           [] e).
  - unfold run. rewrite SerializeEncryptedKeyAEAD_serializeWith by assumption.
    unfold serializeWith. rewrite Ha, Hm, serializeEncryptedKeyElGamal_run, Henc.
    cbn [app]. rewrite !length_app, !Nat2Z.inj_add, <- !EncodedLength_SetBig.
    rewrite <- Z.add_assoc. reflexivity.
  - rewrite !length_app, !Nat2Z.inj_add, <- !EncodedLength_SetBig.
    rewrite length_headerOctets_v3.
    rewrite !Z.quot_div_nonneg by lia.
    assert ((BitLen c1 + 7) / 8 < 8193) by (apply Z.div_lt_upper_bound; lia).
    assert ((BitLen c2 + 7) / 8 < 8193) by (apply Z.div_lt_upper_bound; lia).
    lia.
  - apply run_None. rewrite parse_headerOctets by assumption.
    rewrite Ha, Hoct. subst e. rewrite Hs1, Hs2.
    rewrite <- (app_nil_r (EncodedBytes (MPI (bigBytes c2) (BitLen c2)))).
    unfold parseFields, readInto.
    rewrite !bind_bind_s, bind_updateE_s, bind_bind_s. unfold bind at 1.
    rewrite MPI_ReadFrom_EncodedBytes by (assumption || lia).
    rewrite bind_updateE_s, !bind_bind_s, bind_updateE_s, bind_bind_s. unfold bind at 1.
    rewrite MPI_ReadFrom_EncodedBytes by (assumption || lia).
    reflexivity.
  - apply run_None.
    assert (Hacc : issuerAccepted e priv).
    { apply (headerParsed_accepted false pub); try assumption. reflexivity. }
    assert (Halgo : Algo e = PrivateKey.PubKeyAlgo priv).
    { unfold PrivateKey.PubKeyAlgo. rewrite Hpub, Ha. subst e. unfold headerParsed.
      rewrite Ha, Hoct. reflexivity. }
    rewrite (Decrypt_after_primitive priv e w1 w2
               (keyBlockOf PubKeyAlgoElGamal false cipherFunc key) Hacc Halgo Hd).
    + unfold PrivateKey.PubKeyAlgo. rewrite Hpub, Ha. apply run_None.
      apply (keyFromPlaintext_keyBlockOf PubKeyAlgoElGamal e w2 cipherFunc false key);
        [reflexivity | reflexivity | intros _; assumption].
    + apply (givesElGamal priv e w1 _ w2 sk (SetBig c1) (SetBig c2)).
      * unfold PrivateKey.PubKeyAlgo. rewrite Hpub. exact Ha.
      * exact Hsk.
      * reflexivity.
      * reflexivity.
      * rewrite Hs1, Hs2. cbn [Bytes]. rewrite !SetBytes_bigBytes by assumption.
        exact Hdec.
Qed.

(** X13.  The round trip for an ECDH key, in a v3 and in a v6 packet:
    when the ECDH primitive, given the encoded curve OID and the fingerprint
    of the key, encrypts the block to a point without leading zero octet (at
    most 8191 octets) and a ciphertext of at most 255 octets, and decrypts
    them to the block again, Decrypt after SerializeEncryptedKeyAEAD and
    [parse] succeeds and leaves the session key. *)
Theorem ECDH_round_trip_recovers_key (pub : PublicKey.t) (priv : PrivateKey.t)
    (k : ecdh_PublicKey) (sk : ecdh_PrivateKey) (oid : Field)
    (cipherFunc : CipherFunction) (aeadSupported : bool)
    (key vsG c : bytes) (w w1 w2 : World) :
  PublicKey.PubKeyAlgo pub = PubKeyAlgoECDH ->
  algoOfByte (byteOfAlgo PubKeyAlgoECDH) = PubKeyAlgoECDH ->
  PublicKey.PublicKey pub = pubECDH k ->
  PublicKey.oid pub = Some oid ->
  PrivateKey.PublicKey priv = pub ->
  PrivateKey.PrivateKey priv = privECDH sk ->
  PrivateKey.Dummy priv = false ->
  issuerWritable aeadSupported pub ->
  (aeadSupported = false -> IsSupported cipherFunc = true) ->
  ecdh_Encrypt k (keyBlockOf PubKeyAlgoECDH aeadSupported cipherFunc key)
    (EncodedBytes oid) (PublicKey.Fingerprint pub) w
  = (inr (vsG, c), w1) ->
  stripLeadingZeros vsG = vsG ->
  Z.of_nat (length vsG) <= 8191 ->
  Z.of_nat (length c) <= 255 ->
  ecdh_Decrypt sk vsG c (EncodedBytes oid) (PublicKey.Fingerprint pub) w1
  = (inr (keyBlockOf PubKeyAlgoECDH aeadSupported cipherFunc key), w2) ->
  roundTrip readHeader pub priv cipherFunc aeadSupported key w = Returns (None, key).
Proof.
  intros Ha Hoct Hm Ho Hpub Hsk Hd Hi Hsup Henc Hstrip Hlg Hlc Hdec.
  assert (Hp : passesChecks pub cipherFunc aeadSupported).
  { apply passesChecks_classic; [rewrite Ha; reflexivity | left; rewrite Ha; discriminate
                                | assumption]. }
  set (e := setEncryptedMPI2 (Some (NewOID c))
              (setEncryptedMPI1 (Some (NewMPI vsG))
                 (headerParsed aeadSupported pub emptyEncryptedKey))).
  change key
    with (Key (setKey key (if aeadSupported then e else setCipherFunc cipherFunc e))).
  apply (roundTrip_steps pub priv cipherFunc aeadSupported key w w1 w2
           (headerOctets aeadSupported pub ++ EncodedBytes (NewMPI vsG)
            ++ EncodedBytes (NewOID c)) [] e).
  - unfold run. rewrite SerializeEncryptedKeyAEAD_serializeWith by assumption.
    unfold serializeWith. rewrite Ha, Hm, Ho, serializeEncryptedKeyECDH_run, Henc.
    cbn [app].
    rewrite !length_app, !Nat2Z.inj_add, <- EncodedLength_NewMPI, <- EncodedLength_NewOID
      by lia.
    reflexivity.
  - rewrite !length_app, !Nat2Z.inj_add.
    pose proof (length_headerOctets_le aeadSupported pub Hi).
    rewrite <- EncodedLength_NewMPI, <- EncodedLength_NewOID by lia.
    destruct (NewMPI_spec vsG Hlg) as (bits & -> & Hb & Hl).
    pose proof (length_stripLeadingZeros vsG).
    unfold NewOID, EncodedLength. rewrite !uint16_small by lia. lia.
  - apply run_None. rewrite parse_headerOctets by assumption.
    rewrite Ha, Hoct. subst e.
    destruct (NewMPI_spec vsG Hlg) as (bits & -> & Hb & Hl).
    rewrite <- (app_nil_r (EncodedBytes (NewOID c))).
    unfold parseFields, readInto, NewOID.
    rewrite !bind_bind_s, bind_updateE_s, bind_bind_s. unfold bind at 1.
    rewrite MPI_ReadFrom_EncodedBytes by assumption.
    rewrite bind_updateE_s, !bind_bind_s, bind_updateE_s, bind_bind_s. unfold bind at 1.
    rewrite OID_ReadFrom_EncodedBytes by assumption.
    destruct aeadSupported; reflexivity.
  - apply run_None.
    assert (Hacc : issuerAccepted e priv).
    { apply (headerParsed_accepted aeadSupported pub); try assumption. reflexivity. }
    assert (Halgo : Algo e = PrivateKey.PubKeyAlgo priv).
    { unfold PrivateKey.PubKeyAlgo. rewrite Hpub, Ha. subst e. unfold headerParsed.
      rewrite Ha, Hoct. destruct aeadSupported; [destruct (_ =? 6)|]; reflexivity. }
    rewrite (Decrypt_after_primitive priv e w1 w2
               (keyBlockOf PubKeyAlgoECDH aeadSupported cipherFunc key) Hacc Halgo Hd).
    + unfold PrivateKey.PubKeyAlgo. rewrite Hpub, Ha. apply run_None.
      apply keyFromPlaintext_keyBlockOf; try assumption; [reflexivity|].
      subst e. unfold headerParsed. destruct aeadSupported; [destruct (_ =? 6)|]; reflexivity.
    + apply (givesECDH priv e w1 _ w2 sk (NewMPI vsG) (NewOID c) oid).
      * unfold PrivateKey.PubKeyAlgo. rewrite Hpub. exact Ha.
      * exact Hsk.
      * reflexivity.
      * reflexivity.
      * rewrite Hpub. exact Ho.
      * destruct (NewMPI_spec vsG Hlg) as (bits & -> & _). cbn [Bytes NewOID].
        rewrite Hstrip. unfold PrivateKey.Fingerprint. rewrite Hpub. exact Hdec.
Qed.


(** X14.  The round trip for an X25519 and for an X448 key, in a v3 packet
    (with AES-128, AES-192 or AES-256 as cipher function) and in a v6
    packet: when the primitive encrypts the session key to an ephemeral key
    of the size of the curve (32 or 56 octets) and a ciphertext of at most
    255 octets, and decrypts them to the session key again, Decrypt after
    SerializeEncryptedKeyAEAD and [parse] succeeds and leaves the session
    key.  Here the session key is encrypted as it is, without cipher octet
    and checksum. *)
Theorem CFRG_round_trip_recovers_key (pub : PublicKey.t) (priv : PrivateKey.t)
    (pk : bytes) (cipherFunc : CipherFunction) (aeadSupported : bool)
    (key eph ct : bytes) (w w1 w2 : World) :
  PrivateKey.PublicKey priv = pub ->
  PrivateKey.Dummy priv = false ->
  issuerWritable aeadSupported pub ->
  (aeadSupported = false -> isAES cipherFunc = true) ->
  Z.of_nat (length ct) <= 255 ->
  (forall sk : x25519_PrivateKey,
      PublicKey.PubKeyAlgo pub = PubKeyAlgoX25519 ->
      algoOfByte (byteOfAlgo PubKeyAlgoX25519) = PubKeyAlgoX25519 ->
      PublicKey.PublicKey pub = pubX25519 pk ->
      PrivateKey.PrivateKey priv = privX25519 sk ->
      x25519_Encrypt pk key w = (inr (eph, ct), w1) ->
      length eph = x25519_KeySize ->
      x25519_Decrypt sk (Some eph) ct w1 = (inr key, w2) ->
      roundTrip readHeader pub priv cipherFunc aeadSupported key w = Returns (None, key))
  /\ (forall sk : x448_PrivateKey,
         PublicKey.PubKeyAlgo pub = PubKeyAlgoX448 ->
         algoOfByte (byteOfAlgo PubKeyAlgoX448) = PubKeyAlgoX448 ->
         PublicKey.PublicKey pub = pubX448 pk ->
         PrivateKey.PrivateKey priv = privX448 sk ->
         x448_Encrypt pk key w = (inr (eph, ct), w1) ->
         length eph = x448_KeySize ->
         x448_Decrypt sk (Some eph) ct w1 = (inr key, w2) ->
         roundTrip readHeader pub priv cipherFunc aeadSupported key w
         = Returns (None, key)).
Proof.
  intros Hpub Hd Hi Haes Hlct. split.
  - intros sk Ha Hoct Hm Hsk Henc Hleph Hdec.
    exact (round_trip_X25519_run pub priv pk sk cipherFunc aeadSupported key eph ct w w1 w2
             Ha Hoct Hm Hpub Hsk Hd Hi Haes Henc Hleph Hlct Hdec).
  - intros sk Ha Hoct Hm Hsk Henc Hleph Hdec.
    exact (round_trip_X448_run pub priv pk sk cipherFunc aeadSupported key eph ct w w1 w2
             Ha Hoct Hm Hpub Hsk Hd Hi Haes Henc Hleph Hlct Hdec).
Qed.

End RoundTrip.
(** The header reader of the instance is the inverse of its header
    writer. *)
Lemma testReadHeader_serializeHeader (n : Z) (body : bytes) :
  0 <= n < 2 ^ 32 ->
  testReadHeader (testSerializeHeader packetTypeEncryptedKey n ++ body) = Some (n, body).
Proof.
  intros Hn. unfold testSerializeHeader, testReadHeader.
  destruct (Z.ltb_spec n 192) as [H192|H192]; [|destruct (Z.ltb_spec n 8384) as [H8384|H8384]].
  - cbn [app]. rewrite byteToZ_byteOfZ, Z.mod_small by lia.
    destruct (Z.ltb_spec n 192); [reflexivity | lia].
  - cbn [app].
    assert (Hq : 0 <= (n - 192) / 256 < 32)
      by (split; [apply Z.div_pos; lia | apply Z.div_lt_upper_bound; lia]).
    rewrite !byteToZ_byteOfZ. rewrite (Z.mod_small ((n - 192) / 256 + 192)) by lia.
    destruct (Z.ltb_spec ((n - 192) / 256 + 192) 192); [lia|].
    destruct (Z.ltb_spec ((n - 192) / 256 + 192) 224); [|lia].
    f_equal. f_equal. pose proof (Z.div_mod (n - 192) 256 ltac:(lia)). lia.
  - cbn [app]. change (byteToZ xff) with 255. cbn [Z.ltb Z.compare Pos.compare Pos.compare_cont Z.eqb Pos.eqb].
    rewrite (take_app_length' (bigEndian 4 n)) by (rewrite length_bigEndian; reflexivity).
    rewrite (drop_app_length' (bigEndian 4 n)) by (rewrite length_bigEndian; reflexivity).
    rewrite SetBytes_bigEndian by (change (256 ^ Z.of_nat 4) with (2 ^ 32); lia).
    reflexivity.
Qed.

Lemma RSA_round_trip_recovers_key_witness :
  @roundTrip _ testExternalsRSA testReadHeader
    (testRSAPublic256 4 (bigEndian 20 4660)) (testRSAPrivate256 4 (bigEndian 20 4660))
    CipherAES256 true testSessionKey 0%nat
  = Returns (None, testSessionKey)
  /\ @roundTrip _ testExternalsRSA testReadHeader
       (testRSAPublic256 4 (bigEndian 20 4660)) (testRSAPrivate256 4 (bigEndian 20 4660))
       CipherAES256 false testSessionKey 0%nat
     = Returns (None, testSessionKey).
Proof.
  split.
  - eapply (@RSA_round_trip_recovers_key _ testExternalsRSA testReadHeader
              testReadHeader_serializeHeader
              (testRSAPublic256 4 (bigEndian 20 4660)) (testRSAPrivate256 4 (bigEndian 20 4660))
              (rsa.Public testRSAKey256) testRSAKey256 CipherAES256 true testSessionKey
              (make 13 ++ x02 :: testSessionKey ++ [x00; x88]) 0%nat 1%nat 2%nat).
    + left. reflexivity.
    + reflexivity.
    + reflexivity.
    + reflexivity.
    + reflexivity.
    + reflexivity.
    + left. split; reflexivity.
    + discriminate.
    + vm_compute. reflexivity.
    + vm_compute. reflexivity.
    + vm_compute. discriminate.
    + vm_compute. reflexivity.
  - eapply (@RSA_round_trip_recovers_key _ testExternalsRSA testReadHeader
              testReadHeader_serializeHeader
              (testRSAPublic256 4 (bigEndian 20 4660)) (testRSAPrivate256 4 (bigEndian 20 4660))
              (rsa.Public testRSAKey256) testRSAKey256 CipherAES256 false testSessionKey
              (make 12 ++ x02 :: x09 :: testSessionKey ++ [x00; x88]) 0%nat 1%nat 2%nat).
    + left. reflexivity.
    + reflexivity.
    + reflexivity.
    + reflexivity.
    + reflexivity.
    + reflexivity.
    + vm_compute. split; [discriminate | reflexivity].
    + reflexivity.
    + vm_compute. reflexivity.
    + vm_compute. reflexivity.
    + vm_compute. discriminate.
    + vm_compute. reflexivity.
Defined.

Lemma ElGamal_round_trip_recovers_key_witness :
  @roundTrip _ testExternals testReadHeader
    (testPublic PubKeyAlgoElGamal 4 (bigEndian 20 4660) (@pubElGamal testKeyTypes [x01]))
    (testPrivate
       (testPublic PubKeyAlgoElGamal 4 (bigEndian 20 4660) (@pubElGamal testKeyTypes [x01]))
       (@privElGamal testKeyTypes [x01]))
    CipherAES256 false testSessionKey 0%nat
  = Returns (None, testSessionKey).
Proof.
  eapply (@ElGamal_round_trip_recovers_key _ testExternals testReadHeader
            testReadHeader_serializeHeader _ _ ([x01] : @elgamal_PublicKey testKeyTypes)
            ([x01] : @elgamal_PrivateKey testKeyTypes) CipherAES256 testSessionKey
            1 (SetBytes (x02 :: x09 :: testSessionKey ++ [x00; x88])) 0%nat 1%nat 2%nat).
  - reflexivity.
  - reflexivity.
  - reflexivity.
  - reflexivity.
  - reflexivity.
  - reflexivity.
  - vm_compute. split; [discriminate | reflexivity].
  - reflexivity.
  - vm_compute. reflexivity.
  - lia.
  - vm_compute. reflexivity.
  - vm_compute. discriminate.
  - vm_compute. reflexivity.
  - vm_compute. reflexivity.
Defined.

Lemma ECDH_round_trip_recovers_key_witness :
  @roundTrip _ testExternals testReadHeader
    (testPublic PubKeyAlgoECDH 6 (bigEndian 32 4660) (@pubECDH testKeyTypes [x01]))
    (testPrivate
       (testPublic PubKeyAlgoECDH 6 (bigEndian 32 4660) (@pubECDH testKeyTypes [x01]))
       (@privECDH testKeyTypes [x01]))
    CipherAES256 true testSessionKey 0%nat
  = Returns (None, testSessionKey).
Proof.
  eapply (@ECDH_round_trip_recovers_key _ testExternals testReadHeader
            testReadHeader_serializeHeader _ _ ([x01] : @ecdh_PublicKey testKeyTypes)
            ([x01] : @ecdh_PrivateKey testKeyTypes) (OID [x2b; x81; x04; x00; x22])
            CipherAES256 true testSessionKey
            [x04; x01] (x02 :: testSessionKey ++ [x00; x88]) 0%nat 1%nat 2%nat).
  - reflexivity.
  - reflexivity.
  - reflexivity.
  - reflexivity.
  - reflexivity.
  - reflexivity.
  - reflexivity.
  - right. split; reflexivity.
  - discriminate.
  - vm_compute. reflexivity.
  - reflexivity.
  - vm_compute. discriminate.
  - vm_compute. discriminate.
  - vm_compute. reflexivity.
Defined.

Lemma CFRG_round_trip_recovers_key_witness :
  @roundTrip _ testExternals testReadHeader
    (testPublic PubKeyAlgoX25519 4 (bigEndian 20 4660) (@pubX25519 testKeyTypes (make 32)))
    (testPrivate
       (testPublic PubKeyAlgoX25519 4 (bigEndian 20 4660) (@pubX25519 testKeyTypes (make 32)))
       (@privX25519 testKeyTypes [x01]))
    CipherAES256 false testSessionKey 0%nat
  = Returns (None, testSessionKey)
  /\ @roundTrip _ testExternals testReadHeader
       (testPublic PubKeyAlgoX448 6 (bigEndian 32 4660) (@pubX448 testKeyTypes (make 56)))
       (testPrivate
          (testPublic PubKeyAlgoX448 6 (bigEndian 32 4660) (@pubX448 testKeyTypes (make 56)))
          (@privX448 testKeyTypes [x01]))
       CipherAES256 true testSessionKey 0%nat
     = Returns (None, testSessionKey).
Proof.
  split.
  - destruct (@CFRG_round_trip_recovers_key _ testExternals testReadHeader
                testReadHeader_serializeHeader
                (testPublic PubKeyAlgoX25519 4 (bigEndian 20 4660)
                   (@pubX25519 testKeyTypes (make 32)))
                (testPrivate
                   (testPublic PubKeyAlgoX25519 4 (bigEndian 20 4660)
                      (@pubX25519 testKeyTypes (make 32)))
                   (@privX25519 testKeyTypes [x01]))
                (make 32) CipherAES256 false testSessionKey (make 32)
                (x02 :: testSessionKey) 0%nat 1%nat 2%nat) as [H25519 _].
    + reflexivity.
    + reflexivity.
    + vm_compute. split; [discriminate | reflexivity].
    + reflexivity.
    + vm_compute. discriminate.
    + apply (H25519 ([x01] : @x25519_PrivateKey testKeyTypes)); reflexivity.
  - destruct (@CFRG_round_trip_recovers_key _ testExternals testReadHeader
                testReadHeader_serializeHeader
                (testPublic PubKeyAlgoX448 6 (bigEndian 32 4660)
                   (@pubX448 testKeyTypes (make 56)))
                (testPrivate
                   (testPublic PubKeyAlgoX448 6 (bigEndian 32 4660)
                      (@pubX448 testKeyTypes (make 56)))
                   (@privX448 testKeyTypes [x01]))
                (make 56) CipherAES256 true testSessionKey (make 56)
                (x02 :: testSessionKey) 0%nat 1%nat 2%nat) as [_ H448].
    + reflexivity.
    + reflexivity.
    + right. split; reflexivity.
    + discriminate.
    + vm_compute. discriminate.
    + apply (H448 ([x01] : @x448_PrivateKey testKeyTypes)); reflexivity.
Defined.
(** ** SerializeEncryptedKeyAEAD and parse: the key version of a v6 packet *)

Section KeyVersionWritten.
Context `{X : Externals}.

Lemma serializeWith_written (pub : PublicKey.t) (cipherFunc : CipherFunction) (version : Z)
    (header block : bytes) (w w' : World) (out out' : bytes) :
  serializeWith pub cipherFunc version header block (w, out) = Returns (inr tt, (w', out')) ->
  exists n fields,
    out' = out ++ serializeHeader packetTypeEncryptedKey n ++ header ++ fields.
Proof.
  unfold serializeWith.
  destruct (PublicKey.PubKeyAlgo pub); try discriminate;
    destruct (PublicKey.PublicKey pub) as [k|k|k|k|k|k|]; try discriminate;
    try (destruct (PublicKey.oid pub) as [oid|]; [|discriminate]);
    first [ rewrite serializeEncryptedKeyRSA_run
          | rewrite serializeEncryptedKeyElGamal_run
          | rewrite serializeEncryptedKeyECDH_run
          | rewrite serializeEncryptedKeyX25519_run
          | rewrite serializeEncryptedKeyX448_run
          | rewrite serializeEncryptedKeyKyber_run ];
    match goal with
    | |- context [match ?call with _ => _ end] =>
        destruct call as [[err|ct] w1]; [discriminate|]
    end;
    repeat match goal with ct : (_ * _)%type |- _ => destruct ct end;
    intros Hr; inversion Hr; subst; eexists; eexists; reflexivity.
Qed.

(** X15.  SerializeEncryptedKeyAEAD writes the version of the public key
    as the key version of a v6 packet, and [parse] accepts the key versions
    0, 4 and 6 only.  So for a key of any other version, a version 5 key
    for one, every v6 packet that SerializeEncryptedKeyAEAD writes without
    an error is one that [parse] rejects, with the unsupported error
    "unknown public key version N". *)
Theorem SerializeEncryptedKeyAEAD_v6_packet_of_v5_key_is_rejected
    (pub : PublicKey.t) (cipherFunc : CipherFunction) (key : bytes)
    (w w' : World) (out out' : bytes) :
  0 < PublicKey.Version pub < 256 ->
  PublicKey.Version pub <> 4 ->
  PublicKey.Version pub <> 6 ->
  passesChecks pub cipherFunc true ->
  run (SerializeEncryptedKeyAEAD (Some pub) cipherFunc true key) (w, out)
  = Returns (None, (w', out')) ->
  exists n body,
    out' = out ++ serializeHeader packetTypeEncryptedKey n ++ body
    /\ forall e0 : EncryptedKey,
         exists s,
           run parse (body, e0)
           = Returns (Some (UnsupportedError
                              ("unknown public key version "
                               +:+ Itoa (PublicKey.Version pub))), s).
Proof.
  intros Hv Hv4 Hv6 Hc Hrun.
  apply run_None in Hrun.
  rewrite SerializeEncryptedKeyAEAD_serializeWith in Hrun by assumption.
  apply serializeWith_written in Hrun as (n & fields & ->).
  exists n, (headerOctets true pub ++ fields). split; [reflexivity|].
  intros e0. eexists. apply run_Some.
  unfold headerOctets, parse.
  change ((x06 :: byteOfZ (PublicKey.Version pub)
             :: PublicKey.Fingerprint pub ++ [byteOfAlgo (PublicKey.PubKeyAlgo pub)])
          ++ fields)
    with ([x06] ++ [byteOfZ (PublicKey.Version pub)]
          ++ (PublicKey.Fingerprint pub ++ [byteOfAlgo (PublicKey.PubKeyAlgo pub)])
          ++ fields).
  rewrite (bind_readFull_app [x06]). cbn [nth].
  change (byteToZ x06) with 6. rewrite bind_updateE_s.
  change (negb (6 =? 3) && negb (6 =? 6)) with false. cbv iota.
  change (6 =? 6) with true. cbv iota.
  rewrite bind_bind_s.
  rewrite (bind_readFull_app [byteOfZ (PublicKey.Version pub)]). cbn [nth].
  rewrite bind_bind_s, bind_updateE_s.
  rewrite byteToZ_byteOfZ, Z.mod_small by lia.
  destruct (Z.eqb_spec (PublicKey.Version pub) 0); [lia|].
  destruct (Z.eqb_spec (PublicKey.Version pub) 4); [contradiction|].
  destruct (Z.eqb_spec (PublicKey.Version pub) 6); [contradiction|].
  reflexivity.
Qed.

End KeyVersionWritten.

Lemma SerializeEncryptedKeyAEAD_v6_packet_of_v5_key_is_rejected_witness :
  exists n body,
    testSerializeHeader 1 85 ++ x06 :: x05 :: bigEndian 32 4660 ++ x19 :: make 32
      ++ x11 :: x02 :: testSessionKey
    = [] ++ @serializeHeader _ testExternals packetTypeEncryptedKey n ++ body
    /\ forall e0 : EncryptedKey,
         exists s,
           run (@parse _ testExternals) (body, e0)
           = Returns (Some (UnsupportedError ("unknown public key version " +:+ Itoa 5)), s).
Proof.
  apply (@SerializeEncryptedKeyAEAD_v6_packet_of_v5_key_is_rejected _ testExternals
           (testPublic PubKeyAlgoX25519 5 (bigEndian 32 4660)
              (@pubX25519 testKeyTypes (make 32)))
           CipherAES256 testSessionKey 0%nat 1%nat []).
  - simpl. lia.
  - discriminate.
  - discriminate.
  - split; [intros _; split; [discriminate | vm_compute; lia] | discriminate].
  - vm_compute. reflexivity.
Defined.
(** ** Serialize and parse *)

Section SerializeMethod.
Context `{X : Externals}.























(** X17.  [parse] has no case for the other algorithms and does not
    reject them: a v3 body that is a version octet, eight octets of key id
    and the octet of such an algorithm, and nothing more, is accepted, and
    no field is set.  Serialize of the packet parsed that way returns the
    invalid-argument error "don't know how to serialize encrypted key type
    N" and writes nothing. *)
Theorem parse_accepts_algorithm_that_Serialize_refuses (keyId : bytes) (a : byte)
    (e0 : EncryptedKey) (w : World) (out : bytes) :
  length keyId = 8%nat ->
  canEncrypt (algoOfByte a) = false ->
  let e := setAlgo (algoOfByte a) (setKeyId (Uint64 keyId) (setVersion 3 e0)) in
  run parse (x03 :: keyId ++ [a], e0) = Returns (None, ([], e))
  /\ run (Serialize e) (w, out)
     = Returns (Some (InvalidArgumentError
                        ("don't know how to serialize encrypted key type "
                         +:+ Itoa (byteToZ (byteOfAlgo (algoOfByte a))))),
                (w, out)).
Proof.
  intros Hl Hc e. split.
  - apply run_None. unfold parse.
    change (x03 :: keyId ++ [a]) with ([x03] ++ keyId ++ [a] ++ []).
    rewrite (bind_readFull_app [x03]). cbn [nth].
    change (byteToZ x03) with 3. rewrite bind_updateE_s.
    change (negb (3 =? 3) && negb (3 =? 6)) with false. cbv iota.
    change (3 =? 6) with false. change (3 <? 6) with true. cbv iota.
    rewrite bind_bind_s. rewrite <- Hl.
    rewrite bind_readFull_app, bind_updateE_s.
    rewrite (bind_readFull_app [a]). cbn [nth].
    rewrite bind_updateE_s. fold e.
    destruct (algoOfByte a); try discriminate Hc; reflexivity.
  - apply run_Some. unfold Serialize. cbn [Algo e setAlgo].
    destruct (algoOfByte a); try discriminate Hc; reflexivity.
Qed.

End SerializeMethod.



Lemma parse_accepts_algorithm_that_Serialize_refuses_witness :
  run (@parse _ testExternals) (x03 :: bigEndian 8 7 ++ [x13], emptyEncryptedKey)
  = Returns (None,
             ([], setAlgo PubKeyAlgoECDSA (setKeyId (Uint64 (bigEndian 8 7))
                                             (setVersion 3 emptyEncryptedKey))))
  /\ run (@Serialize _ testExternals
            (setAlgo PubKeyAlgoECDSA (setKeyId (Uint64 (bigEndian 8 7))
                                        (setVersion 3 emptyEncryptedKey)))) (0%nat, [])
     = Returns (Some (InvalidArgumentError
                        ("don't know how to serialize encrypted key type "
                         +:+ Itoa (byteToZ x13))),
                (0%nat, [])).
Proof.
  apply (@parse_accepts_algorithm_that_Serialize_refuses _ testExternals (bigEndian 8 7)
           x13 emptyEncryptedKey 0%nat []).
  - reflexivity.
  - reflexivity.
Defined.
(** ** The checksum codec: what it detects *)

Lemma byteToZ_inj (a b : byte) : byteToZ a = byteToZ b -> a = b.
Proof. intros Hab. rewrite <- (byteOfZ_byteToZ a), <- (byteOfZ_byteToZ b), Hab. reflexivity. Qed.

Lemma sum_insert (key : bytes) (i : nat) (old b : byte) :
  key !! i = Some old ->
  fold_right Z.add 0 (map byteToZ (<[i := b]> key))
  = fold_right Z.add 0 (map byteToZ key) - byteToZ old + byteToZ b.
Proof.
  revert i. induction key as [|x key IH]; intros [|i] Hi; try discriminate Hi.
  - injection Hi as ->. simpl. lia.
  - simpl in Hi. simpl. rewrite (IH i Hi). lia.
Qed.

Lemma sum16_insert (key : bytes) (i : nat) (old b : byte) :
  key !! i = Some old -> b <> old -> sum16 (<[i := b]> key) <> sum16 key.
Proof.
  intros Hi Hb Heq. unfold sum16 in Heq. rewrite (sum_insert _ _ _ _ Hi) in Heq.
  assert (Hne : byteToZ b <> byteToZ old) by (intros Hx; apply Hb, byteToZ_inj, Hx).
  pose proof (byteToZ_range b). pose proof (byteToZ_range old).
  set (s := fold_right Z.add 0 (map byteToZ key)) in *.
  pose proof (Z.div_mod s 65536 ltac:(lia)) as H1.
  pose proof (Z.div_mod (s - byteToZ old + byteToZ b) 65536 ltac:(lia)) as H2.
  rewrite Heq in H2. lia.
Qed.

(** X18.  The checksum detects a change of any one octet.  Take what
    [encodeChecksumKey] makes of a key, in a buffer of two octets more than
    the key, and change one octet of it, an octet of the key or one of the
    two checksum octets: [decodeChecksumKey] returns the structural error
    "session key checksum is incorrect". *)
Theorem decodeChecksumKey_detects_one_changed_octet (key encoded : bytes) (i : nat)
    (old b : byte) :
  encodeChecksumKey (make (length key + 2)) key = Returns encoded ->
  encoded !! i = Some old ->
  b <> old ->
  decodeChecksumKey (<[i := b]> encoded)
  = Returns (firstn (length key) (<[i := b]> encoded),
             Some (StructuralError "session key checksum is incorrect")).
Proof.
  rewrite encodeChecksumKey_make. intros [= <-] Hi Hb.
  pose proof (checksumOctets_sum16 key) as Hsum.
  set (hi := byteOfZ (Z.shiftr (sum16 key) 8)) in *.
  set (lo := byteOfZ (sum16 key)) in *.
  destruct (Nat.lt_ge_cases i (length key)) as [Hlt|Hge].
  - rewrite lookup_app_l in Hi by assumption.
    rewrite insert_app_l by assumption.
    rewrite decodeChecksumKey_app.
    rewrite take_app_length' by (rewrite length_insert; reflexivity).
    rewrite bool_decide_eq_false_2; [reflexivity|].
    rewrite Hsum. intros Heq. symmetry in Heq. revert Heq.
    apply sum16_insert with old; assumption.
  - rewrite lookup_app_r in Hi by assumption.
    rewrite insert_app_r_alt by assumption.
    rewrite take_app_length' by reflexivity.
    destruct (i - length key)%nat as [|[|j]] eqn:Hj; try discriminate Hi.
    + injection Hi as <-. cbn [insert list_insert].
      rewrite decodeChecksumKey_app.
      rewrite bool_decide_eq_false_2; [reflexivity|].
      assert (Hne : byteToZ b <> byteToZ hi) by (intros Hx; apply Hb, byteToZ_inj, Hx).
      lia.
    + injection Hi as <-. cbn [insert list_insert].
      rewrite decodeChecksumKey_app.
      rewrite bool_decide_eq_false_2; [reflexivity|].
      assert (Hne : byteToZ b <> byteToZ lo) by (intros Hx; apply Hb, byteToZ_inj, Hx).
      lia.
Qed.

Lemma decodeChecksumKey_detects_one_changed_octet_witness :
  decodeChecksumKey (<[3%nat := xff]> (testSessionKey ++ [x00; x88]))
  = Returns (firstn (length testSessionKey) (<[3%nat := xff]> (testSessionKey ++ [x00; x88])),
             Some (StructuralError "session key checksum is incorrect")).
Proof.
  apply (decodeChecksumKey_detects_one_changed_octet testSessionKey
           (testSessionKey ++ [x00; x88]) 3 x04 xff).
  - vm_compute. reflexivity.
  - reflexivity.
  - discriminate.
Defined.

Lemma sum16_Permutation (key key' : bytes) : Permutation key key' -> sum16 key' = sum16 key.
Proof.
  intros Hp. unfold sum16. f_equal.
  induction Hp as [|x l l' _ IH|x y l|l l' l'' _ IH1 _ IH2]; simpl; lia.
Qed.

(** X19.  The checksum is a sum, so it does not see the order of the
    octets: [decodeChecksumKey] accepts any reordering of a key under the
    checksum octets of the key, and returns the reordered key with no
    error. *)
Theorem decodeChecksumKey_accepts_reordered_key (key key' : bytes) :
  Permutation key key' ->
  decodeChecksumKey (key' ++ checksumOctets key) = Returns (key', None).
Proof.
  intros Hp. unfold checksumOctets. rewrite decodeChecksumKey_app.
  rewrite bool_decide_eq_true_2; [reflexivity|].
  rewrite checksumOctets_sum16. symmetry. apply sum16_Permutation. exact Hp.
Qed.

Lemma decodeChecksumKey_accepts_reordered_key_witness :
  decodeChecksumKey (rev testSessionKey ++ checksumOctets testSessionKey)
  = Returns (rev testSessionKey, None).
Proof.
  apply (decodeChecksumKey_accepts_reordered_key testSessionKey (rev testSessionKey)).
  apply Permutation_rev.
Defined.
(** ** Key generation from prepopulated primes *)

Section PrepopulatedPrimes.
Context `{G : Generators}.

(** With enough prepopulated primes the loop of lines 422-435 takes them
    in order and draws nothing. *)
Lemma fillPrimes_prepopulated (primes : list Z) :
  forall (i nprimes todo : Z) (w : Env) (rest : list Z),
    fillPrimes (length primes) i nprimes todo (w, primes ++ rest)
    = Returns (inr primes, (w, rest)).
Proof.
  induction primes as [|p primes IH]; intros i nprimes todo w rest.
  - reflexivity.
  - cbn [length fillPrimes app]. unfold bind at 1. cbn [get].
    unfold bind at 1. unfold bind at 1. cbn [modify ret].
    unfold bind at 1. rewrite IH. reflexivity.
Qed.

(** One round of the loop [NextSetOfPrimes] that is given enough
    prepopulated numbers, which make a key. *)
Lemma nextSetOfPrimes_prepopulated (fuel : nat) (nprimes bits : Z)
    (primes rest : list Z) (random : Env) (d : Z) :
  Z.of_nat (length primes) = nprimes ->
  hasEqualPair [] primes = false ->
  BitLen (productOf primes) = bits ->
  ModInverse 65537 (totientOf primes) = Some d ->
  nextSetOfPrimes (S fuel) nprimes bits (random, primes ++ rest)
  = Returns (inr (Some {| rsa.Public := {| rsa.N := productOf primes; rsa.E := 65537 |};
                          rsa.D := d; rsa.Primes := primes |}),
             (random, rest)).
Proof.
  intros Hl Hne Hbits Hd.
  cbn [nextSetOfPrimes]. unfold bind.
  replace (Z.to_nat nprimes) with (length primes) by lia.
  rewrite fillPrimes_prepopulated. rewrite Hne.
  rewrite fold_left_product, fold_left_totient, !Z.mul_1_l.
  rewrite Hbits, Z.eqb_refl. cbn [negb]. rewrite Hd. reflexivity.
Qed.

(** X20.  generateRSAKeyWithPrimes with prepopulated primes.  When the
    first [nprimes] prepopulated numbers are pairwise distinct, their
    product has exactly [bits] bits and 65537 has an inverse [d] modulo the
    product of the [p - 1], the function returns in its first round the key
    of exactly these numbers, in their order, with that [d]; it draws
    nothing from the random source, and it does not test the numbers for
    primality. *)
Theorem generateRSAKeyWithPrimes_uses_prepopulated_primes (fuel : nat) (nprimes bits : Z)
    (primes rest : list Z) (random : Env) (d : Z) :
  2 <= nprimes ->
  1024 <= bits ->
  Z.of_nat (length primes) = nprimes ->
  hasEqualPair [] primes = false ->
  BitLen (productOf primes) = bits ->
  ModInverse 65537 (totientOf primes) = Some d ->
  generateRSAKeyWithPrimes (S fuel) nprimes bits (primes ++ rest) random
  = Returns (inr (Some {| rsa.Public := {| rsa.N := productOf primes; rsa.E := 65537 |};
                          rsa.D := d; rsa.Primes := primes |}),
             random).
Proof.
  intros Hn Hb Hl Hne Hbits Hd. unfold generateRSAKeyWithPrimes.
  destruct (Z.ltb_spec nprimes 2); [lia|].
  destruct (Z.ltb_spec bits 1024); [lia|].
  rewrite (nextSetOfPrimes_prepopulated fuel nprimes bits primes rest random d) by assumption.
  reflexivity.
Qed.

(** X21.  The RSA branch of newSigner and of newDecrypter with prepopulated
    primes in the configuration.  When [config.RSAPrimes] holds at least
    two numbers, each function takes the first two out of the
    configuration, which keeps the others, and, when these two are distinct
    numbers whose product has exactly [config.RSAModulusBits()] bits and
    65537 has an inverse [d] modulo [(p - 1) * (q - 1)], returns the RSA key
    of the two, without drawing anything from the random source. *)
Theorem newSigner_and_newDecrypter_take_two_RSAPrimes (fuel : nat) (c : Config.t) (w : Env)
    (p q : Z) (rest : list Z) (d : Z) :
  Config_PublicKeyAlgorithm (Some c) = PubKeyAlgoRSA ->
  1024 <= Config_RSAModulusBits (Some c) ->
  Config.RSAPrimes c = p :: q :: rest ->
  p <> q ->
  BitLen (p * q) = Config_RSAModulusBits (Some c) ->
  ModInverse 65537 ((p - 1) * (q - 1)) = Some d ->
  let key := keyRSA {| rsa.Public := {| rsa.N := p * q; rsa.E := 65537 |};
                       rsa.D := d; rsa.Primes := [p; q] |} in
  newSigner (S fuel) (w, Some c)
  = Returns (inr (Some key), (w, Some (Config.setRSAPrimes rest c)))
  /\ newDecrypter (S fuel) (w, Some c)
     = Returns (inr (Some key), (w, Some (Config.setRSAPrimes rest c))).
Proof.
  intros Ha Hb Hp Hne Hbits Hd key.
  assert (Hrun : newRSAKey (S fuel) (Some c) (w, Some c)
                 = Returns (inr (Some key), (w, Some (Config.setRSAPrimes rest c)))).
  { unfold newRSAKey. destruct (Z.ltb_spec (Config_RSAModulusBits (Some c)) 1024); [lia|].
    rewrite Hp. cbn [length Nat.leb firstn skipn].
    unfold bind at 1. cbn [modify]. unfold bind, liftEnv, generateRSAKeyWithPrimes.
    change (2 <? 2) with false. cbv iota.
    destruct (Z.ltb_spec (Config_RSAModulusBits (Some c)) 1024); [lia|].
    change [p; q] with ([p; q] ++ []).
    rewrite (nextSetOfPrimes_prepopulated fuel 2 _ [p; q] [] w d).
    - unfold key, productOf. cbn [fold_right option_map ret]. rewrite Z.mul_1_r. reflexivity.
    - reflexivity.
    - cbn [hasEqualPair existsb app orb]. destruct (Z.eqb_spec q p); [congruence|reflexivity].
    - unfold productOf. cbn [fold_right]. rewrite Z.mul_1_r. exact Hbits.
    - unfold totientOf. cbn [fold_right]. rewrite Z.mul_1_r. exact Hd. }
  split.
  - unfold newSigner. unfold bind at 1. cbn [get]. rewrite Ha. exact Hrun.
  - unfold newDecrypter. unfold bind at 1. cbn [get]. cbv zeta. rewrite Ha. exact Hrun.
Qed.

End PrepopulatedPrimes.

Lemma generateRSAKeyWithPrimes_uses_prepopulated_primes_witness :
  exists d : Z,
    @generateRSAKeyWithPrimes _ _ testGenerators 1 64 1024 (testPrimeStore ++ [5; 7]) []
    = Returns (inr (Some {| rsa.Public := {| rsa.N := productOf testPrimeStore;
                                             rsa.E := 65537 |};
                            rsa.D := d; rsa.Primes := testPrimeStore |}),
               []).
Proof.
  destruct (ModInverse 65537 (totientOf testPrimeStore)) as [d|] eqn:Hd;
    [|vm_compute in Hd; discriminate Hd].
  exists d.
  apply (@generateRSAKeyWithPrimes_uses_prepopulated_primes _ _ testGenerators 0 64 1024
           testPrimeStore [5; 7] [] d).
  - lia.
  - lia.
  - reflexivity.
  - vm_compute. reflexivity.
  - vm_compute. reflexivity.
  - exact Hd.
Defined.

Lemma newSigner_and_newDecrypter_take_two_RSAPrimes_witness :
  exists d : Z,
    let c := @Config.Build_t testGenTypes false
               [2 ^ 511 + 111; 2 ^ 512 + 75; 11]
               {| optAlgorithm := PubKeyAlgoRSA; optRSABits := 1024;
                  optCurve := "Curve25519"; optHash := 5; optCipher := CipherAES128;
                  optCompression := x00; optAEAD := None |} in
    let key := @keyRSA testKeyTypes testGenTypes
                 {| rsa.Public := {| rsa.N := (2 ^ 511 + 111) * (2 ^ 512 + 75);
                                     rsa.E := 65537 |};
                    rsa.D := d; rsa.Primes := [2 ^ 511 + 111; 2 ^ 512 + 75] |} in
    @newSigner _ _ testGenerators 1 ([], Some c)
    = Returns (inr (Some key), ([], Some (Config.setRSAPrimes [11] c)))
    /\ @newDecrypter _ _ testGenerators 1 ([], Some c)
       = Returns (inr (Some key), ([], Some (Config.setRSAPrimes [11] c))).
Proof.
  destruct (ModInverse 65537 ((2 ^ 511 + 111 - 1) * (2 ^ 512 + 75 - 1))) as [d|] eqn:Hd;
    [|vm_compute in Hd; discriminate Hd].
  exists d. cbv zeta.
  apply (@newSigner_and_newDecrypter_take_two_RSAPrimes _ _ testGenerators 0).
  - reflexivity.
  - vm_compute. discriminate.
  - reflexivity.
  - vm_compute. discriminate.
  - vm_compute. reflexivity.
  - exact Hd.
Defined.
(** ** addUserId: the identities of the entity *)

Section Identities.
Context `{G : Generators}.

(** X22.  What a successful addUserId does to the entity: the id of the
    new user id was not among the identities, and is now, with an identity
    that carries the id as its name, the user id, and the self-signature as
    its one signature; every other identity is kept, as are the keys of the
    entity.  The self-signature is marked as that of the primary user id
    exactly when the entity had no identity before, and names the primary
    key as its issuer. *)
Theorem addUserId_adds_one_identity
    (name comment email : string) (config : option Config.t)
    (creationTime : Time) (keyLifetimeSecs : Z)
    (w w' : Env) (t t' : Entity.t) :
  run (addUserId name comment email config creationTime keyLifetimeSecs) (w, t)
  = Returns (None, (w', t')) ->
  exists uid identity primary,
    NewUserId name comment email = Some uid
    /\ Entity.Identities t !! UserId_Id uid = None
    /\ Entity.Identities t' = <[UserId_Id uid := identity]> (Entity.Identities t)
    /\ Entity.PrimaryKey t' = Entity.PrimaryKey t
    /\ Entity.PrivateKey t' = Entity.PrivateKey t
    /\ Entity.PrivateKey t = Some primary
    /\ Identity.Name identity = UserId_Id uid
    /\ Identity.UserId identity = uid
    /\ Identity.Signatures identity = [Identity.SelfSignature identity]
    /\ Signature.IsPrimaryId (Identity.SelfSignature identity)
       = Some (bool_decide (Entity.Identities t = ∅))
    /\ Signature.IssuerKeyId (Identity.SelfSignature identity)
       = Some (PrivateKey.KeyId primary)
    /\ Signature.IssuerFingerprint (Identity.SelfSignature identity)
       = PrivateKey.Fingerprint primary.
Proof.
  unfold addUserId. unfoldM.
  destruct (NewUserId name comment email) as [uid|]; [|discriminate].
  case_bool_decide as Hdup; [discriminate|].
  destruct (Entity.PrivateKey t) as [primary|] eqn:Hpriv; [|discriminate].
  destruct (hashToHashId (Config_Hash config)) as [h|] eqn:Hh; [|discriminate].
  destruct (AEADConfig_Mode (Config_AEAD config)) as [mode|] eqn:Hmode;
    [|destruct (negb _); [destruct (hashToHashId crypto_SHA256)|]; discriminate].
  intros Hrun. exists uid.
  assert (Hnone : Entity.Identities t !! UserId_Id uid = None).
  { destruct (Entity.Identities t !! UserId_Id uid) eqn:Hl; [|reflexivity].
    exfalso. apply Hdup. eexists. reflexivity. }
  assert (Hempty : bool_decide (size (Entity.Identities t) = 0%nat)
                   = bool_decide (Entity.Identities t = ∅)).
  { apply bool_decide_ext. apply map_size_empty_iff. }
  destruct (negb (Config_Hash config =? crypto_SHA256)); simpl in Hrun;
    [destruct (hashToHashId crypto_SHA256) as [h256|]; [|discriminate]|];
    (destruct (SignUserId _ _ _ _ _ _) as [[err|data] w1]; [discriminate|]);
    injection Hrun as <- <-; eexists; exists primary;
    (split; [reflexivity|]); (split; [exact Hnone|]); (split; [reflexivity|]);
    cbn; rewrite Hempty;
    destruct (negb (bool_decide (mode = AEADModeEAX)));
    destruct (negb (bool_decide (Config_Compression config = CompressionNone)));
    destruct (negb (bool_decide (Config_Cipher config = CipherAES128)));
    repeat split; try reflexivity; exact Hpriv.
Qed.


(** X23.  addUserId changes the entity only when it succeeds: whenever it
    returns an error (the user id has invalid characters, its id is among
    the identities already, or signing failed), the entity is as it was. *)
Theorem addUserId_error_leaves_entity
    (name comment email : string) (config : option Config.t)
    (creationTime : Time) (keyLifetimeSecs : Z)
    (w w' : Env) (t t' : Entity.t) (err : error) :
  run (addUserId name comment email config creationTime keyLifetimeSecs) (w, t)
  = Returns (Some err, (w', t')) ->
  t' = t.
Proof.
  unfold addUserId. unfoldM.
  destruct (NewUserId name comment email) as [uid|]; [|intros [= _ _ <-]; reflexivity].
  case_bool_decide as Hdup; [intros [= _ _ <-]; reflexivity|].
  destruct (Entity.PrivateKey t) as [primary|]; [|discriminate].
  destruct (hashToHashId (Config_Hash config)) as [h|]; [|discriminate].
  destruct (AEADConfig_Mode (Config_AEAD config)) as [mode|];
    [|destruct (negb _); [destruct (hashToHashId crypto_SHA256)|]; discriminate].
  destruct (negb (Config_Hash config =? crypto_SHA256)); simpl;
    [destruct (hashToHashId crypto_SHA256) as [h256|]; [|discriminate]|];
    (destruct (SignUserId _ _ _ _ _ _) as [[err'|data] w1]; [|discriminate]);
    intros [= _ _ <-]; reflexivity.
Qed.

Lemma addUserId_inserted
    (name comment email : string) (config : option Config.t)
    (creationTime : Time) (keyLifetimeSecs : Z)
    (w w' : Env) (t t' : Entity.t) :
  run (addUserId name comment email config creationTime keyLifetimeSecs) (w, t)
  = Returns (None, (w', t')) ->
  exists uid identity,
    NewUserId name comment email = Some uid
    /\ Entity.Identities t' = <[UserId_Id uid := identity]> (Entity.Identities t).
Proof.
  unfold addUserId. unfoldM.
  destruct (NewUserId name comment email) as [uid|]; [|discriminate].
  case_bool_decide as Hdup; [discriminate|].
  destruct (Entity.PrivateKey t) as [primary|]; [|discriminate].
  destruct (hashToHashId (Config_Hash config)) as [h|]; [|discriminate].
  destruct (AEADConfig_Mode (Config_AEAD config)) as [mode|];
    [|destruct (negb _); [destruct (hashToHashId crypto_SHA256)|]; discriminate].
  intros Hrun. exists uid.
  destruct (negb (Config_Hash config =? crypto_SHA256)); simpl in Hrun;
    [destruct (hashToHashId crypto_SHA256) as [h256|]; [|discriminate]|];
    (destruct (SignUserId _ _ _ _ _ _) as [[err|data] w1]; [discriminate|]);
    injection Hrun as <- <-; eexists; split; reflexivity.
Qed.

(** X24.  A user id is added once.  After a successful addUserId, another
    addUserId with the same name, comment and email, whatever the
    configuration, the times and the state of the world, returns the
    invalid-argument error "user id exist"; it signs nothing and leaves the
    world and the entity as they are. *)
Theorem addUserId_refuses_same_user_id_again
    (name comment email : string) (config config2 : option Config.t)
    (creationTime creationTime2 : Time) (keyLifetimeSecs keyLifetimeSecs2 : Z)
    (w w1 w2 : Env) (t t1 : Entity.t) :
  run (addUserId name comment email config creationTime keyLifetimeSecs) (w, t)
  = Returns (None, (w1, t1)) ->
  run (addUserId name comment email config2 creationTime2 keyLifetimeSecs2) (w2, t1)
  = Returns (Some (InvalidArgumentError "user id exist"), (w2, t1)).
Proof.
  intros Hrun. apply addUserId_inserted in Hrun.
  destruct Hrun as (uid & identity & Huid & Hids).
  unfold addUserId. rewrite Huid. unfoldM.
  rewrite Hids, lookup_insert_eq.
  rewrite bool_decide_eq_true_2 by (eexists; reflexivity).
  reflexivity.
Qed.

End Identities.

Lemma addUserId_adds_one_identity_witness :
  exists (t' : @Entity.t testKeyTypes testGenTypes) (identity : @Identity.t testGenTypes),
    run (@addUserId _ _ testGenerators "Alice" "" "alice@example.org"
           (Some (testConfig PubKeyAlgoRSA false 7 CipherAES256 x02 (Some x02))) 0 0)
      ([], testEntity)
    = Returns (None, ([], t'))
    /\ Entity.Identities t' = <[("Alice () <alice@example.org>")%string := identity]> ∅
    /\ Signature.IsPrimaryId (Identity.SelfSignature identity) = Some true
    /\ Signature.IssuerKeyId (Identity.SelfSignature identity) = Some 7.
Proof.
  destruct (run (@addUserId _ _ testGenerators "Alice" "" "alice@example.org"
                   (Some (testConfig PubKeyAlgoRSA false 7 CipherAES256 x02 (Some x02))) 0 0)
              ([], testEntity)) as [[[err|] [w' t']]|why] eqn:Hrun.
  - vm_compute in Hrun. discriminate Hrun.
  - assert (Hw : w' = []) by (vm_compute in Hrun; congruence). subst w'.
    destruct (@addUserId_adds_one_identity _ _ testGenerators _ _ _ _ _ _ _ _ _ _ Hrun)
      as (uid & identity & primary & Huid & _ & Hids & _ & _ & Hpriv & _ & _ & _ & Hprim
          & Hissuer & _).
    injection Huid as <-. injection Hpriv as <-.
    exists t', identity. repeat split; assumption.
  - vm_compute in Hrun. discriminate Hrun.
Defined.

Lemma addUserId_error_leaves_entity_witness :
  exists (t1 t2 : @Entity.t testKeyTypes testGenTypes) (err : error),
    run (@addUserId _ _ testGenerators "Alice" "" "alice@example.org" None 0 0)
      ([], testEntity)
    = Returns (None, ([], t1))
    /\ run (@addUserId _ _ testGenerators "Alice" "" "alice@example.org" None 1 0) ([], t1)
       = Returns (Some err, ([], t2))
    /\ t2 = t1.
Proof.
  destruct (run (@addUserId _ _ testGenerators "Alice" "" "alice@example.org" None 0 0)
              ([], testEntity)) as [[[err|] [w1 t1]]|why] eqn:Hrun1;
    try (vm_compute in Hrun1; discriminate Hrun1).
  assert (Hw : w1 = []) by (vm_compute in Hrun1; congruence). subst w1.
  destruct (run (@addUserId _ _ testGenerators "Alice" "" "alice@example.org" None 1 0)
              ([], t1)) as [[[err|] [w2 t2]]|why] eqn:Hrun2.
  - exists t1, t2, err.
    assert (Hw : w2 = []).
    { vm_compute in Hrun1. injection Hrun1 as <-. vm_compute in Hrun2. congruence. }
    subst w2. split; [reflexivity|]. split; [exact Hrun2|].
    exact (@addUserId_error_leaves_entity _ _ testGenerators _ _ _ _ _ _ _ _ _ _ _ Hrun2).
  - exfalso. vm_compute in Hrun1. injection Hrun1 as <-. vm_compute in Hrun2.
    discriminate Hrun2.
  - exfalso. vm_compute in Hrun1. injection Hrun1 as <-. vm_compute in Hrun2.
    discriminate Hrun2.
Defined.

Lemma addUserId_refuses_same_user_id_again_witness :
  exists t1 : @Entity.t testKeyTypes testGenTypes,
    run (@addUserId _ _ testGenerators "Alice" "" "alice@example.org" None 0 0)
      ([], testEntity)
    = Returns (None, ([], t1))
    /\ run (@addUserId _ _ testGenerators "Alice" "" "alice@example.org"
              (Some (testConfig PubKeyAlgoRSA false 7 CipherAES256 x02 (Some x02))) 1 60)
         ([5], t1)
       = Returns (Some (InvalidArgumentError "user id exist"), ([5], t1)).
Proof.
  destruct (run (@addUserId _ _ testGenerators "Alice" "" "alice@example.org" None 0 0)
              ([], testEntity)) as [[[err|] [w1 t1]]|why] eqn:Hrun1;
    try (vm_compute in Hrun1; discriminate Hrun1).
  assert (Hw : w1 = []) by (vm_compute in Hrun1; congruence). subst w1.
  exists t1. split; [reflexivity|].
  exact (@addUserId_refuses_same_user_id_again _ _ testGenerators _ _ _ _ _ _ _ _ _ _ _ _ _ _
           Hrun1).
Defined.
(** ** Package dilithium_ecdsa: a signature of a generated key verifies *)

Section DilithiumECDSA.
Import dilithium_ecdsa.
Context `{P : Primitives}.

(** What is assumed of the two schemes: an ECDSA signature made with a
    generated key pair verifies under its public point; the two numbers of
    a signature survive [MarshalFieldInteger] and [UnmarshalFieldInteger];
    and a Dilithium signature made with the secret key of a generated pair
    verifies under its public key. *)
Hypothesis ecdsa_correct :
  forall c x y secret message rand rand1 rand2 rand3 r s,
    Curve_GenerateECDSA c rand = (inr (x, y, secret), rand1) ->
    Curve_Sign c x y secret message rand2 = (inr (r, s), rand3) ->
    Curve_Verify c x y message r s = true.

Hypothesis field_integer_round_trip :
  forall c x y secret message rand rand' r s,
    Curve_Sign c x y secret message rand = (inr (r, s), rand') ->
    Curve_UnmarshalFieldInteger c (Curve_MarshalFieldInteger c r) = r
    /\ Curve_UnmarshalFieldInteger c (Curve_MarshalFieldInteger c s) = s.

Hypothesis dilithium_correct :
  forall d seed pk sk message rand rand' sig,
    Dilithium_KeyGen d seed = (pk, sk) ->
    Dilithium_Sign d sk message rand = (Some sig, rand') ->
    Dilithium_Verify d pk message sig = true.

(** X25.  Verify accepts what Sign makes with a key of GenerateKey.  For a
    private key that GenerateKey returned, and a signature (the Dilithium
    signature and the two marshalled ECDSA numbers) that Sign returned for a
    message with that key, at any later state of the random source, Verify
    with the public part of the key, the message and the signature is true. *)
Theorem Verify_accepts_signature_of_generated_key
    (algId : byte) (c : ECDSACurve) (d : dilithium_Dilithium)
    (priv : PrivateKey) (message dSig ecR ecS : bytes) (rand rand1 rand2 rand3 : State) :
  GenerateKey algId c d rand = (inr priv, rand1) ->
  Sign priv message rand2 = (inr (dSig, ecR, ecS), rand3) ->
  Verify (Public priv) message dSig ecR ecS = true.
Proof.
  unfold GenerateKey, Sign, Verify.
  destruct (Curve_GenerateECDSA c rand) as [[err|[[x y] secret]] w1] eqn:Hgen;
    [discriminate|].
  destruct (Read SEEDBYTES w1) as [[seed [err|]] w2]; [discriminate|].
  destruct (Dilithium_KeyGen d seed) as [pk sk] eqn:Hkey.
  intros [= <- _]. cbn [Public Curve Dilithium X Y PublicDilithium SecretEC SecretDilithium].
  destruct (Curve_Sign c x y secret message rand2) as [[err|[r s]] w3] eqn:Hsign;
    [discriminate|].
  destruct (Dilithium_Sign d sk message w3) as [[sig|] w4] eqn:Hdsig; [|discriminate].
  intros [= <- <- <- _].
  destruct (field_integer_round_trip _ _ _ _ _ _ _ _ _ Hsign) as [-> ->].
  rewrite (ecdsa_correct _ _ _ _ _ _ _ _ _ _ _ Hgen Hsign).
  rewrite (dilithium_correct _ _ _ _ _ _ _ _ Hkey Hdsig).
  reflexivity.
Qed.

End DilithiumECDSA.

(** The instance has what is assumed. *)
Lemma testPrimitives_ecdsa_correct :
  forall c x y secret message rand rand1 rand2 rand3 r s,
    @dilithium_ecdsa.Curve_GenerateECDSA dilithium_ecdsa.testPrimitives c rand
    = (inr (x, y, secret), rand1) ->
    @dilithium_ecdsa.Curve_Sign dilithium_ecdsa.testPrimitives c x y secret message rand2
    = (inr (r, s), rand3) ->
    @dilithium_ecdsa.Curve_Verify dilithium_ecdsa.testPrimitives c x y message r s = true.
Proof.
  intros c x y secret message rand rand1 rand2 rand3 r s Hgen Hsign.
  cbn in Hgen. injection Hgen as <- <- <- _.
  cbn in Hsign. injection Hsign as <- <- _.
  cbn. rewrite !Z.eqb_refl. reflexivity.
Qed.

Lemma testPrimitives_field_integer_round_trip :
  forall c x y secret message rand rand' r s,
    @dilithium_ecdsa.Curve_Sign dilithium_ecdsa.testPrimitives c x y secret message rand
    = (inr (r, s), rand') ->
    @dilithium_ecdsa.Curve_UnmarshalFieldInteger dilithium_ecdsa.testPrimitives c
      (@dilithium_ecdsa.Curve_MarshalFieldInteger dilithium_ecdsa.testPrimitives c r) = r
    /\ @dilithium_ecdsa.Curve_UnmarshalFieldInteger dilithium_ecdsa.testPrimitives c
         (@dilithium_ecdsa.Curve_MarshalFieldInteger dilithium_ecdsa.testPrimitives c s) = s.
Proof.
  intros c x y [k|] message rand rand' r s Hsign; [|discriminate Hsign].
  cbn in Hsign. injection Hsign as <- <- _.
  cbn. rewrite !byteToZ_byteOfZ, !Z.mod_mod by lia. split; reflexivity.
Qed.

Lemma testPrimitives_dilithium_correct :
  forall d seed pk sk message rand rand' sig,
    @dilithium_ecdsa.Dilithium_KeyGen dilithium_ecdsa.testPrimitives d seed = (pk, sk) ->
    @dilithium_ecdsa.Dilithium_Sign dilithium_ecdsa.testPrimitives d sk message rand
    = (Some sig, rand') ->
    @dilithium_ecdsa.Dilithium_Verify dilithium_ecdsa.testPrimitives d pk message sig = true.
Proof.
  intros d seed pk sk message rand rand' sig Hkey Hsig.
  cbn in Hkey. injection Hkey as <- <-.
  cbn in Hsig. injection Hsig as <- _.
  cbn. apply bool_decide_eq_true_2. reflexivity.
Qed.

Lemma Verify_accepts_signature_of_generated_key_witness :
  exists priv : @dilithium_ecdsa.PrivateKey dilithium_ecdsa.testPrimitives,
    @dilithium_ecdsa.GenerateKey dilithium_ecdsa.testPrimitives x23 tt tt 7%nat
    = (inr priv, 40%nat)
    /\ @dilithium_ecdsa.Sign dilithium_ecdsa.testPrimitives priv [x01; x02; x03] 40%nat
       = (inr (repeat xff 32 ++ [x01; x02; x03], [x07], [x03]), 41%nat)
    /\ @dilithium_ecdsa.Verify dilithium_ecdsa.testPrimitives (dilithium_ecdsa.Public priv)
         [x01; x02; x03] (repeat xff 32 ++ [x01; x02; x03]) [x07] [x03]
       = true.
Proof.
  eexists. split; [reflexivity|]. split; [reflexivity|].
  apply (@Verify_accepts_signature_of_generated_key dilithium_ecdsa.testPrimitives
           testPrimitives_ecdsa_correct testPrimitives_field_integer_round_trip
           testPrimitives_dilithium_correct x23 tt tt _ [x01; x02; x03] _ _ _
           7%nat 40%nat 40%nat 41%nat).
  - reflexivity.
  - reflexivity.
Defined.
(** ** SerializeEncryptedKey: the packet version *)

Section PacketVersion.
Context {K : KeyTypes} {X : @Externals K} {T : GenTypes} {G : @Generators K T}.

(** X26.  SerializeEncryptedKey decides the packet version by the
    configuration: when it writes a packet, the packet body begins with the
    octet 6 if [config.AEAD()] is not nil, and with the octet 3 if it is
    nil; after that octet come what identifies the key and the octet of the
    algorithm, as SerializeEncryptedKeyAEAD writes them for that version. *)
Theorem SerializeEncryptedKey_packet_version (pub : PublicKey.t)
    (cipherFunc : CipherFunction) (key : bytes) (config : option Config.t)
    (w w' : World) (out out' : bytes) :
  passesChecks pub cipherFunc (bool_decide (is_Some (Config_AEAD config))) ->
  run (SerializeEncryptedKey (Some pub) cipherFunc key config) (w, out)
  = Returns (None, (w', out')) ->
  exists n fields,
    out' = out ++ serializeHeader packetTypeEncryptedKey n
               ++ match Config_AEAD config with
                  | Some _ =>
                      x06 :: byteOfZ (PublicKey.Version pub) :: PublicKey.Fingerprint pub
                  | None => x03 :: PutUint64 (PublicKey.KeyId pub)
                  end
               ++ byteOfAlgo (PublicKey.PubKeyAlgo pub) :: fields.
Proof.
  intros Hc Hrun. apply run_None in Hrun. unfold SerializeEncryptedKey in Hrun.
  rewrite SerializeEncryptedKeyAEAD_serializeWith in Hrun by assumption.
  apply serializeWith_written in Hrun as (n & fields & ->).
  exists n, fields. unfold headerOctets.
  destruct (Config_AEAD config) as [aead|].
  - rewrite bool_decide_eq_true_2 by (eexists; reflexivity).
    cbn [app]. rewrite <- !app_assoc. reflexivity.
  - rewrite bool_decide_eq_false_2 by (intros [? Hx]; discriminate Hx).
    cbn [app]. rewrite <- !app_assoc. reflexivity.
Qed.

End PacketVersion.

Lemma SerializeEncryptedKey_packet_version_witness :
  exists n fields,
    testSerializeHeader 1 32 ++ x03 :: bigEndian 8 7 ++ x01 :: x00 :: x9a :: x02 :: x09
      :: testSessionKey ++ [x00; x88]
    = [] ++ @serializeHeader _ testExternals packetTypeEncryptedKey n
         ++ match @Config_AEAD _ _ testGenerators None with
            | Some _ =>
                x06 :: byteOfZ (PublicKey.Version testRSAPublic)
                  :: PublicKey.Fingerprint testRSAPublic
            | None => x03 :: PutUint64 (PublicKey.KeyId testRSAPublic)
            end
         ++ @byteOfAlgo _ testExternals (PublicKey.PubKeyAlgo testRSAPublic) :: fields.
Proof.
  apply (@SerializeEncryptedKey_packet_version testKeyTypes testExternals testGenTypes
           testGenerators testRSAPublic CipherAES256 testSessionKey None 0%nat 1%nat []).
  - split; [discriminate | intros _ Hc; discriminate Hc].
  - vm_compute. reflexivity.
Defined.
